(** * PodcastPros performance dashboard: CSV ingestion, ranking and storage

    A shallow embedding of the server-side core of the dashboard
    ([server/routes.ts], [server/storage.ts], [server/database-storage.ts],
    [server/csv-utils.ts], the client CSV parser and the shared schema) and
    the properties its specification states about them.

    Conventions of the embedding.
    - A JavaScript string is a [string]; the model covers ASCII text, a
      non-ASCII code unit is an opaque character that is neither white
      space, nor a digit, nor a letter.
    - A JavaScript number is a [Js.number]: an exact rational, [NaN] or a
      signed infinity.  A literal whose magnitude is beyond the doubles
      reads as an infinity; the rounding of the finite doubles and the
      sign of zero are not modelled in [Js.number].
    - Where a result depends on the rounding, in the client parser and
      its validator, the code is written over the interface
      [Number.Arithmetic] of the operations it uses, which the doubles of
      IEEE 754 ([Double]) implement as well as [Js.number].
    - A [real] column of the database holds single precision: a number
      that is written is read back through a function [real], a parameter
      of the store, which refuses the numbers beyond the range of the
      column; [Pg.real] is the one of PostgreSQL.  An [integer] column
      holds 32 bits.
    - A call of a store that throws returns [None].
    - [new Date()] and [randomUUID()] read an external clock and an external
      generator; both are functions of the number of calls made so far, and
      the stores count the calls.
    - A JavaScript [Map] is an association list in insertion order. *)

From Stdlib Require Import List Bool Arith ZArith QArith Lia Lqa.
From Stdlib Require Import QArith.Qround.
From Stdlib Require Floats.SpecFloat.
From Stdlib Require Import Strings.String Strings.Ascii.
From Stdlib Require Import Sorting.Permutation Sorting.Sorted.
From Stdlib Require Import Numbers.DecimalString Numbers.DecimalPos Numbers.DecimalZ.
Import ListNotations.

Close Scope Q_scope.
Open Scope string_scope.
Open Scope list_scope.

Set Implicit Arguments.

(* ================================================================== *)
(** * The JavaScript runtime: strings and numbers *)
(* ================================================================== *)

Module Js.

(** ** Strings *)

(** White space as [String.prototype.trim] and the regular expression
    class [\s] see it, on ASCII: tab, line feed, vertical tab, form feed,
    carriage return and space. *)
Definition isWhiteSpace (c : ascii) : bool :=
  match c with
  | "009" | "010" | "011" | "012" | "013" | " " => true
  | _ => false
  end%char.

Fixpoint trimStart (s : string) : string :=
  match s with
  | String c r => if isWhiteSpace c then trimStart r else s
  | EmptyString => EmptyString
  end.

Fixpoint trimEnd (s : string) : string :=
  match s with
  | EmptyString => EmptyString
  | String c r =>
      match trimEnd r with
      | EmptyString => if isWhiteSpace c then EmptyString else String c EmptyString
      | r' => String c r'
      end
  end.

Definition trim (s : string) : string := trimEnd (trimStart s).

(** [s.includes(c)] for a one-character needle. *)
Fixpoint includes (c : ascii) (s : string) : bool :=
  match s with
  | EmptyString => false
  | String d r => Ascii.eqb d c || includes c r
  end.

(** [s.split(sep)] for a one-character separator; the result is never
    empty, and the empty string splits into one empty piece. *)
Fixpoint split (sep : ascii) (s : string) : list string :=
  match s with
  | EmptyString => [EmptyString]
  | String c r =>
      if Ascii.eqb c sep then EmptyString :: split sep r
      else match split sep r with
           | p :: ps => String c p :: ps
           | [] => [String c EmptyString]
           end
  end.

(** [parts.join(sep)]. *)
Fixpoint join (sep : string) (parts : list string) : string :=
  match parts with
  | [] => EmptyString
  | [p] => p
  | p :: ps => p ++ sep ++ join sep ps
  end.

(** [s.replace(/c/g, t)] for a one-character pattern. *)
Fixpoint replaceAll (c : ascii) (t : string) (s : string) : string :=
  match s with
  | EmptyString => EmptyString
  | String d r => if Ascii.eqb d c then t ++ replaceAll c t r
                  else String d (replaceAll c t r)
  end.

(** [s.replace(c, t)] with a string pattern: the first occurrence only. *)
Fixpoint replaceFirst (c : ascii) (t : string) (s : string) : string :=
  match s with
  | EmptyString => EmptyString
  | String d r => if Ascii.eqb d c then t ++ r
                  else String d (replaceFirst c t r)
  end.

Definition isUpper (c : ascii) : bool :=
  let n := nat_of_ascii c in (65 <=? n)%nat && (n <=? 90)%nat.
Definition isLower (c : ascii) : bool :=
  let n := nat_of_ascii c in (97 <=? n)%nat && (n <=? 122)%nat.
Definition isDigit (c : ascii) : bool :=
  let n := nat_of_ascii c in (48 <=? n)%nat && (n <=? 57)%nat.
Definition isLetter (c : ascii) : bool := isUpper c || isLower c.
(** The regular expression class [\w]. *)
Definition isWord (c : ascii) : bool :=
  isLetter c || isDigit c || Ascii.eqb c "_"%char.

Definition lowerChar (c : ascii) : ascii :=
  if isUpper c then ascii_of_nat (nat_of_ascii c + 32) else c.

Fixpoint toLowerCase (s : string) : string :=
  match s with
  | EmptyString => EmptyString
  | String c r => String (lowerChar c) (toLowerCase r)
  end.

(** [s.replace(/\s+/g, ' ')]: [inRun] tells that the previous character
    was white space and its run has already produced its space. *)
Fixpoint collapseFrom (inRun : bool) (s : string) : string :=
  match s with
  | EmptyString => EmptyString
  | String c r =>
      if isWhiteSpace c
      then (if inRun then collapseFrom true r
            else String " "%char (collapseFrom true r))
      else String c (collapseFrom false r)
  end.
Definition collapseWhiteSpace (s : string) : string := collapseFrom false s.

Arguments includes c%_char s%_string.
Arguments split sep%_char s%_string.
Arguments replaceAll c%_char t%_string s%_string.
Arguments replaceFirst c%_char t%_string s%_string.

(** The double quote character. *)
Definition quote : ascii := "034"%char.

(** Truthiness of a string: the empty string is falsy. *)
Definition nonEmpty (s : string) : bool :=
  match s with EmptyString => false | _ => true end.

(** A natural number in a template literal. *)
Definition natToString (n : nat) : string :=
  NilEmpty.string_of_uint (Nat.to_uint n).
Definition intToString (z : Z) : string :=
  NilEmpty.string_of_int (Z.to_int z).

(** ** Numbers *)

Inductive number : Type :=
| Num (q : Q)
| NaN
| Infinity (negative : bool).

Definition ofZ (z : Z) : number := Num (inject_Z z).

(** Equality of numbers as values (rationals up to [Qeq]). *)
Definition sameNumber (a b : number) : Prop :=
  match a, b with
  | Num x, Num y => (x == y)%Q
  | NaN, NaN => True
  | Infinity s, Infinity t => s = t
  | _, _ => False
  end.

Definition isNaN (a : number) : bool :=
  match a with NaN => true | _ => false end.

Definition isNegative (q : Q) : bool :=
  match (q ?= 0)%Q with Lt => true | _ => false end.
Definition isZero (q : Q) : bool := Qeq_bool q 0.

Definition add (a b : number) : number :=
  match a, b with
  | NaN, _ | _, NaN => NaN
  | Num x, Num y => Num (x + y)
  | Infinity s, Num _ => Infinity s
  | Num _, Infinity s => Infinity s
  | Infinity s, Infinity t => if Bool.eqb s t then Infinity s else NaN
  end.

Definition neg (a : number) : number :=
  match a with
  | Num x => Num (- x)
  | NaN => NaN
  | Infinity s => Infinity (negb s)
  end.

Definition sub (a b : number) : number := add a (neg b).

Definition mul (a b : number) : number :=
  match a, b with
  | NaN, _ | _, NaN => NaN
  | Num x, Num y => Num (x * y)
  | Infinity s, Num y | Num y, Infinity s =>
      if isZero y then NaN else Infinity (xorb s (isNegative y))
  | Infinity s, Infinity t => Infinity (xorb s t)
  end.

Definition div (a b : number) : number :=
  match a, b with
  | NaN, _ | _, NaN => NaN
  | Num x, Num y =>
      if isZero y
      then (if isZero x then NaN else Infinity (isNegative x))
      else Num (x / y)
  | Infinity s, Num y => Infinity (xorb s (isNegative y))
  | Num _, Infinity _ => Num 0
  | Infinity _, Infinity _ => NaN
  end.

(** [a < b]; every comparison with [NaN] is false. *)
Definition lt (a b : number) : bool :=
  match a, b with
  | NaN, _ | _, NaN => false
  | Num x, Num y => match (x ?= y)%Q with Lt => true | _ => false end
  | Infinity s, Num _ => s
  | Num _, Infinity t => negb t
  | Infinity s, Infinity t => s && negb t
  end.
Definition gt (a b : number) : bool := lt b a.
Definition le (a b : number) : bool :=
  match a, b with
  | NaN, _ | _, NaN => false
  | _, _ => negb (lt b a)
  end.
Definition ge (a b : number) : bool := le b a.

(** Truthiness of a number: [NaN] and zero are falsy. *)
Definition truthy (a : number) : bool :=
  match a with
  | NaN => false
  | Num q => negb (isZero q)
  | Infinity _ => true
  end.

(** [a || b] on numbers. *)
Definition orElse (a b : number) : number := if truthy a then a else b.

(** A value read off an array by destructuring: [undefined] past the end,
    and [undefined] converts to [NaN] in arithmetic. *)
Definition toNumber (v : option number) : number :=
  match v with Some n => n | None => NaN end.

(** The integer a number is, if it is one. *)
Definition toInteger (a : number) : option Z :=
  match a with
  | Num q => if Z.eqb (Z.rem (Qnum q) (Z.pos (Qden q))) 0
             then Some (Z.quot (Qnum q) (Z.pos (Qden q))) else None
  | _ => None
  end.

(** ** [parseInt] and [parseFloat] *)

Definition digitValue (c : ascii) : option Z :=
  let n := Z.of_nat (nat_of_ascii c) in
  if isDigit c then Some (n - 48)%Z
  else if isLower c then Some (n - 87)%Z
  else if isUpper c then Some (n - 55)%Z
  else None.

(** The longest prefix of digits of the radix, with the rest. *)
Fixpoint spanDigits (radix : Z) (s : string) : list Z * string :=
  match s with
  | String c r =>
      match digitValue c with
      | Some d =>
          if (d <? radix)%Z
          then let (ds, rest) := spanDigits radix r in (d :: ds, rest)
          else ([], s)
      | None => ([], s)
      end
  | EmptyString => ([], s)
  end.

Definition digitsToZ (radix : Z) (ds : list Z) : Z :=
  fold_left (fun acc d => acc * radix + d)%Z ds 0%Z.

Definition readSign (s : string) : bool * string :=
  match s with
  | String "-" r => (true, r)
  | String "+" r => (false, r)
  | _ => (false, s)
  end.

Definition signed (negative : bool) (q : Q) : Q :=
  if negative then (- q)%Q else q.

(** The least magnitude that is beyond the doubles: half way between the
    greatest double and [2 ^ 1024].  A literal of that magnitude or more
    reads as an infinity. *)
Definition overflowBound : Z := (2 ^ 1024 - 2 ^ 970)%Z.

(** The number a literal of magnitude [q] reads as, with its sign. *)
Definition ofLiteral (negative : bool) (q : Q) : number :=
  if Qle_bool (inject_Z overflowBound) q then Infinity negative
  else Num (signed negative q).

(** What [parseInt(str)] with no radix reads: leading white space is
    skipped, a sign is read, a [0x] prefix selects base 16, and the longest
    prefix of digits is the magnitude; no digit at all gives nothing. *)
Definition readInt (str : string) : option (bool * Z) :=
  let (negative, s1) := readSign (trimStart str) in
  let (radix, s2) :=
    match s1 with
    | String "0" (String "x" r) => (16%Z, r)
    | String "0" (String "X" r) => (16%Z, r)
    | _ => (10%Z, s1)
    end in
  match spanDigits radix s2 with
  | ([], _) => None
  | (ds, _) => Some (negative, digitsToZ radix ds)
  end.

(** [parseInt(str)]: [NaN] when there is no digit. *)
Definition parseInt (str : string) : number :=
  match readInt str with
  | None => NaN
  | Some (negative, magnitude) => ofLiteral negative (inject_Z magnitude)
  end.

Fixpoint startsWith (p s : string) : bool :=
  match p, s with
  | EmptyString, _ => true
  | String a p', String b s' => Ascii.eqb a b && startsWith p' s'
  | String _ _, EmptyString => false
  end.

(** The exponent part of a decimal literal, read only when it is complete
    (an [e], an optional sign and at least one digit). *)
Definition readExponent (s : string) : Z :=
  match s with
  | String c r =>
      if Ascii.eqb c "e" || Ascii.eqb c "E"
      then let (negative, r1) := readSign r in
           match spanDigits 10 r1 with
           | ([], _) => 0%Z
           | (ds, _) => if negative then (- digitsToZ 10 ds)%Z else digitsToZ 10 ds
           end
      else 0%Z
  | EmptyString => 0%Z
  end.

(** What [parseFloat(str)] reads, the longest prefix that is a decimal
    literal: nothing, an infinity, or the digits in front of and behind
    the point with the exponent. *)
Inductive Literal : Type :=
  | NoLiteral
  | InfinityLiteral (negative : bool)
  | DecimalLiteral (negative : bool) (integerPart fraction : list Z) (exponent : Z).

Definition readFloat (str : string) : Literal :=
  let (negative, s1) := readSign (trimStart str) in
  if startsWith "Infinity" s1 then InfinityLiteral negative
  else
    let (ip, s2) := spanDigits 10 s1 in
    let (fp, s3) :=
      match s2 with
      | String "." r => spanDigits 10 r
      | _ => ([], s2)
      end in
    match ip, fp with
    | [], [] => NoLiteral
    | _, _ => DecimalLiteral negative ip fp (readExponent s3)
    end.

(** [parseFloat(str)]. *)
Definition parseFloat (str : string) : number :=
  match readFloat str with
  | NoLiteral => NaN
  | InfinityLiteral negative => Infinity negative
  | DecimalLiteral negative ip fp exponent =>
      let mantissa :=
        (inject_Z (digitsToZ 10 ip)
         + inject_Z (digitsToZ 10 fp) / inject_Z (10 ^ Z.of_nat (List.length fp)))%Q in
      ofLiteral negative (mantissa * Qpower 10 exponent)%Q
  end.

(** [Math.round]: the nearest integer, a half going up. *)
Definition round (a : number) : number :=
  match a with
  | Num q => Num (inject_Z (Qfloor (q + (1 # 2))))
  | _ => a
  end.

(** The length of an array as a number. *)
Definition ofNat (n : nat) : number := ofZ (Z.of_nat n).

(** [a || d] on a string that may be missing: a missing and an empty
    string are falsy. *)
Definition orString (a : option string) (d : string) : string :=
  match a with
  | Some s => if nonEmpty s then s else d
  | None => d
  end.

End Js.

(** ** Arrays *)

Module JsArray.
Section Array.
Variable A : Type.

(** [arr.find(p)]. *)
Definition find (p : A -> bool) (arr : list A) : option A := List.find p arr.

(** [arr.slice(0, n)]. *)
Definition sliceTo (n : nat) (arr : list A) : list A := firstn n arr.

(** [arr.map((item, index) => f item index)], counting from [start]. *)
Fixpoint mapFrom (B : Type) (f : A -> nat -> B) (start : nat) (arr : list A) : list B :=
  match arr with
  | [] => []
  | x :: r => f x start :: mapFrom f (S start) r
  end.
Definition mapi (B : Type) (f : A -> nat -> B) (arr : list A) : list B :=
  mapFrom f 0 arr.

(** A stable sort: [before y x] tells that [y] must come strictly before
    [x].  An element is inserted in front of the first element that need
    not precede it, so elements that compare equal keep their order. *)
Fixpoint insert (before : A -> A -> bool) (x : A) (sorted : list A) : list A :=
  match sorted with
  | [] => [x]
  | y :: r => if before y x then y :: insert before x r else x :: y :: r
  end.
Fixpoint sortBy (before : A -> A -> bool) (arr : list A) : list A :=
  match arr with
  | [] => []
  | x :: r => insert before x (sortBy before r)
  end.

(** [arr.sort(compareFn)]: [compareFn(a, b) < 0] puts [a] first; the
    sort is stable. *)
Definition sort (compareFn : A -> A -> Js.number) (arr : list A) : list A :=
  sortBy (fun a b => Js.lt (compareFn a b) (Js.ofZ 0)) arr.

(** [arr.slice(0, end)] for any number: the end is truncated to an
    integer, [NaN] counts as 0, and a negative end is counted from the
    end of the array. *)
Definition sliceEnd (fin : Js.number) (arr : list A) : list A :=
  match fin with
  | Js.NaN => []
  | Js.Infinity negative => if negative then [] else arr
  | Js.Num q =>
      let relativeEnd := Z.quot (Qnum q) (Z.pos (Qden q)) in
      if (relativeEnd <? 0)%Z
      then firstn (Z.to_nat (Z.max (Z.of_nat (List.length arr) + relativeEnd) 0)) arr
      else firstn (Z.to_nat (Z.min relativeEnd (Z.of_nat (List.length arr)))) arr
  end.

(** [arr.filter(x => x !== null)] on an array of values or [null]. *)
Fixpoint nonNull (arr : list (option A)) : list A :=
  match arr with
  | [] => []
  | Some x :: r => x :: nonNull r
  | None :: r => nonNull r
  end.
End Array.
End JsArray.

(** ** Maps *)

(** A [Map]: entries in insertion order, one entry per key; [set] on a
    key that is present replaces the value where it stands. *)
Module JsMap.
Section Map.
Variables K V : Type.
Variable eqb : K -> K -> bool.

Definition t : Type := list (K * V).

Definition empty : t := [].

Fixpoint get (k : K) (m : t) : option V :=
  match m with
  | [] => None
  | (k', v) :: r => if eqb k' k then Some v else get k r
  end.

Fixpoint set (k : K) (v : V) (m : t) : t :=
  match m with
  | [] => [(k, v)]
  | (k', v') :: r => if eqb k' k then (k', v) :: r else (k', v') :: set k v r
  end.

Fixpoint delete (k : K) (m : t) : t :=
  match m with
  | [] => []
  | (k', v') :: r => if eqb k' k then r else (k', v') :: delete k r
  end.

Definition keys (m : t) : list K := List.map fst m.
Definition values (m : t) : list V := List.map snd m.
Definition entries (m : t) : list (K * V) := m.
End Map.
End JsMap.

(** ** Doubles *)

(** The numbers of JavaScript as they are, the binary64 numbers of
    IEEE 754, with the operations of the Standard Library's [SpecFloat]:
    every result is rounded to the nearest double, a tie going to the even
    one.  A finite double is a sign, a mantissa and an exponent. *)
Module Double.
Definition t : Type := SpecFloat.spec_float.
Definition prec : Z := 53.
Definition emax : Z := 1024.

Definition ofZ (z : Z) : t := SpecFloat.binary_normalize prec emax z 0 false.
Definition add (a b : t) : t := SpecFloat.SFadd prec emax a b.
Definition div (a b : t) : t := SpecFloat.SFdiv prec emax a b.

(** [a < b]; every comparison with [NaN] is false. *)
Definition lt (a b : t) : bool := SpecFloat.SFltb a b.

Definition isNaN (a : t) : bool :=
  match a with SpecFloat.S754_nan => true | _ => false end.

(** Truthiness: [NaN] and the two zeros are falsy. *)
Definition truthy (a : t) : bool :=
  match a with
  | SpecFloat.S754_nan | SpecFloat.S754_zero _ => false
  | _ => true
  end.

(** The double nearest to [digits * 10 ^ exponent], with its sign. *)
Definition ofDecimal (negative : bool) (digits exponent : Z) : t :=
  match digits with
  | Zpos _ =>
      match exponent with
      | Zneg k =>
          let '(m, e, l) :=
            SpecFloat.SFdiv_core_binary prec emax digits 0 (Z.pow_pos 10 k) 0 in
          SpecFloat.binary_round_aux prec emax negative m e l
      | _ =>
          let magnitude := (digits * 10 ^ exponent)%Z in
          SpecFloat.binary_normalize prec emax
            (if negative then (- magnitude)%Z else magnitude) 0 negative
      end
  | _ => SpecFloat.S754_zero negative
  end.

(** [parseInt(str)]: the double nearest to the integer that is read. *)
Definition parseInt (str : string) : t :=
  match Js.readInt str with
  | None => SpecFloat.S754_nan
  | Some (negative, magnitude) => ofDecimal negative magnitude 0
  end.

(** [parseFloat(str)]: the double nearest to the decimal that is read. *)
Definition parseFloat (str : string) : t :=
  match Js.readFloat str with
  | Js.NoLiteral => SpecFloat.S754_nan
  | Js.InfinityLiteral negative => SpecFloat.S754_infinity negative
  | Js.DecimalLiteral negative ip fp exponent =>
      ofDecimal negative (Js.digitsToZ 10 (ip ++ fp))
                (exponent - Z.of_nat (List.length fp))
  end.
End Double.

(** ** The arithmetic a function computes with *)

(** The client parser and its validator are written once, over the
    operations on numbers they call.  [Number.exact] gives them the numbers
    of [Js], where arithmetic is that of the rationals; [Number.binary64]
    gives them the doubles, where it is rounded as JavaScript rounds it. *)
Module Number.
Class Arithmetic (N : Type) : Type := {
  ofZ : Z -> N;
  add : N -> N -> N;
  div : N -> N -> N;
  lt : N -> N -> bool;
  isNaN : N -> bool;
  truthy : N -> bool;
  parseInt : string -> N;
  parseFloat : string -> N
}.

#[global] Instance exact : Arithmetic Js.number | 0 := {|
  ofZ := Js.ofZ;
  add := Js.add;
  div := Js.div;
  lt := Js.lt;
  isNaN := Js.isNaN;
  truthy := Js.truthy;
  parseInt := Js.parseInt;
  parseFloat := Js.parseFloat
|}.

#[global] Instance binary64 : Arithmetic Double.t | 10 := {|
  ofZ := Double.ofZ;
  add := Double.add;
  div := Double.div;
  lt := Double.lt;
  isNaN := Double.isNaN;
  truthy := Double.truthy;
  parseInt := Double.parseInt;
  parseFloat := Double.parseFloat
|}.

Section Derived.
Context {N : Type} {arithmetic : Arithmetic N}.

(** [a > b]. *)
Definition gt (a b : N) : bool := lt b a.

(** [a || b] on numbers. *)
Definition orElse (a b : N) : N := if truthy a then a else b.
End Derived.
End Number.

(* ================================================================== *)
(** * The shared schema *)
(* ================================================================== *)

Inductive Status : Type := active | archived.

(** A [Date], in milliseconds. *)
Definition Date : Type := Z.

Module Contractor.
Record t : Type := mk {
  id : Z;
  name : string;
  personalEmail : string;
  workEmail : string;
  workLocation : string;
  position : string;
  startDate : string;
  separationDate : string;
  birthday : string;
  status : Status;
  contractorType : string
}.

(** [{ ...c, status: s }]. *)
Definition withStatus (s : Status) (c : t) : t :=
  mk (id c) (name c) (personalEmail c) (workEmail c) (workLocation c)
     (position c) (startDate c) (separationDate c) (birthday c) s
     (contractorType c).
End Contractor.

(** An [InsertContractor]: [id], [name] and [status] are there, the other
    columns may be left out.  A text column holds a string: [null] is not
    modelled, so a column that is left out is all [None] stands for. *)
Module InsertContractor.
Record t : Type := mk {
  id : Z;
  name : string;
  personalEmail : option string;
  workEmail : option string;
  workLocation : option string;
  position : option string;
  startDate : option string;
  separationDate : option string;
  birthday : option string;
  contractorType : option string;
  status : Status
}.

(** [{ ...contractor, id: nextId }]. *)
Definition withId (nextId : Z) (c : t) : t :=
  mk nextId (name c) (personalEmail c) (workEmail c) (workLocation c)
     (position c) (startDate c) (separationDate c) (birthday c)
     (contractorType c) (status c).
End InsertContractor.

(** A [Partial<Contractor>]: the fields that are present. *)
Module ContractorPatch.
Record t : Type := mk {
  id : option Z;
  name : option string;
  personalEmail : option string;
  workEmail : option string;
  workLocation : option string;
  position : option string;
  startDate : option string;
  separationDate : option string;
  birthday : option string;
  status : option Status;
  contractorType : option string
}.

Definition pick (A : Type) (new : option A) (old : A) : A :=
  match new with Some x => x | None => old end.

(** [{ ...existing, ...patch }]. *)
Definition apply (patch : t) (existing : Contractor.t) : Contractor.t :=
  Contractor.mk
    (pick (id patch) (Contractor.id existing))
    (pick (name patch) (Contractor.name existing))
    (pick (personalEmail patch) (Contractor.personalEmail existing))
    (pick (workEmail patch) (Contractor.workEmail existing))
    (pick (workLocation patch) (Contractor.workLocation existing))
    (pick (position patch) (Contractor.position existing))
    (pick (startDate patch) (Contractor.startDate existing))
    (pick (separationDate patch) (Contractor.separationDate existing))
    (pick (birthday patch) (Contractor.birthday existing))
    (pick (status patch) (Contractor.status existing))
    (pick (contractorType patch) (Contractor.contractorType existing)).
End ContractorPatch.

Module InsertProductivityData.
Record t : Type := mk {
  contractorId : Z;
  month : string;
  productiveHours : Js.number;
  totalHours : Js.number;
  productivity : Js.number
}.
End InsertProductivityData.

Module ProductivityData.
Record t : Type := mk {
  id : string;
  contractorId : Z;
  month : string;
  productiveHours : Js.number;
  totalHours : Js.number;
  productivity : Js.number;
  createdAt : Date
}.

(** The fields an upsert overwrites on a record that is already there. *)
Definition refreshed (item : InsertProductivityData.t) (now : Date) (r : t) : t :=
  mk (id r) (contractorId r) (month r)
     (InsertProductivityData.productiveHours item)
     (InsertProductivityData.totalHours item)
     (InsertProductivityData.productivity item)
     now.

(** A new record from the inserted values. *)
Definition fresh (uuid : string) (item : InsertProductivityData.t) (now : Date) : t :=
  mk uuid
     (InsertProductivityData.contractorId item)
     (InsertProductivityData.month item)
     (InsertProductivityData.productiveHours item)
     (InsertProductivityData.totalHours item)
     (InsertProductivityData.productivity item)
     now.
End ProductivityData.

(** A [Partial<ProductivityData>]: the fields that are present. *)
Module ProductivityPatch.
Record t : Type := mk {
  id : option string;
  contractorId : option Z;
  month : option string;
  productiveHours : option Js.number;
  totalHours : option Js.number;
  productivity : option Js.number;
  createdAt : option Date
}.

(** [{ ...existing, ...patch }]. *)
Definition apply (patch : t) (existing : ProductivityData.t) : ProductivityData.t :=
  ProductivityData.mk
    (ContractorPatch.pick (id patch) (ProductivityData.id existing))
    (ContractorPatch.pick (contractorId patch) (ProductivityData.contractorId existing))
    (ContractorPatch.pick (month patch) (ProductivityData.month existing))
    (ContractorPatch.pick (productiveHours patch)
                          (ProductivityData.productiveHours existing))
    (ContractorPatch.pick (totalHours patch) (ProductivityData.totalHours existing))
    (ContractorPatch.pick (productivity patch) (ProductivityData.productivity existing))
    (ContractorPatch.pick (createdAt patch) (ProductivityData.createdAt existing)).

(** No field is present. *)
Definition isEmpty (patch : t) : bool :=
  match id patch, contractorId patch, month patch, productiveHours patch,
        totalHours patch, productivity patch, createdAt patch with
  | None, None, None, None, None, None, None => true
  | _, _, _, _, _, _, _ => false
  end.
End ProductivityPatch.

(** A [ContractorWithData]: [{ ...contractor, productivityData }]. *)
Module ContractorWithData.
Record t : Type := mk {
  contractor : Contractor.t;
  productivityData : list ProductivityData.t
}.
End ContractorWithData.

Module MonthlyRanking.
Record t : Type := mk {
  contractorId : Z;
  name : string;
  hours : Js.number;
  rank : nat;
  month : string
}.
End MonthlyRanking.

(* ================================================================== *)
(** * [server/storage.ts]: the in-memory store *)
(* ================================================================== *)

Module MemStorage.

Record t : Type := mk {
  contractors : JsMap.t Z Contractor.t;
  productivityData : JsMap.t string ProductivityData.t;
  dates : nat;   (* calls of [new Date()] so far *)
  uuids : nat    (* calls of [randomUUID()] so far *)
}.

(** The key [`${contractorId}-${month}`]. *)
Definition dataKey (contractorId : Z) (month : string) : string :=
  Js.intToString contractorId ++ "-" ++ month.

Definition getContractor (id : Z) (st : t) : option Contractor.t :=
  JsMap.get Z.eqb id (contractors st).

Definition getAllContractors (st : t) : list Contractor.t :=
  JsMap.values (contractors st).

Definition archiveContractor (id : Z) (st : t) : bool * t :=
  match JsMap.get Z.eqb id (contractors st) with
  | None => (false, st)
  | Some existing =>
      let archived := Contractor.withStatus archived existing in
      (true, mk (JsMap.set Z.eqb id archived (contractors st))
                (productivityData st) (dates st) (uuids st))
  end.

(** [deleteContractor] archives as well. *)
Definition deleteContractor (id : Z) (st : t) : bool * t :=
  match JsMap.get Z.eqb id (contractors st) with
  | None => (false, st)
  | Some existing =>
      let archived := Contractor.withStatus archived existing in
      (true, mk (JsMap.set Z.eqb id archived (contractors st))
                (productivityData st) (dates st) (uuids st))
  end.

Definition getProductivityData (contractorId : Z) (st : t)
  : list ProductivityData.t :=
  filter (fun data => Z.eqb (ProductivityData.contractorId data) contractorId)
         (JsMap.values (productivityData st)).

Definition getAllProductivityData (st : t) : list ProductivityData.t :=
  JsMap.values (productivityData st).

Definition getProductivityDataByMonth (month : string) (st : t)
  : list ProductivityData.t :=
  filter (fun data => String.eqb (ProductivityData.month data) month)
         (JsMap.values (productivityData st)).

Definition deleteProductivityByMonth (month : string) (st : t) : bool * t :=
  let keysToDelete :=
    List.map fst
      (filter (fun e => String.eqb (ProductivityData.month (snd e)) month)
              (JsMap.entries (productivityData st))) in
  (negb (Nat.eqb (List.length keysToDelete) 0),
   mk (contractors st)
      (fold_left (fun m key => JsMap.delete String.eqb key m)
                 keysToDelete (productivityData st))
      (dates st) (uuids st)).

(** [contractor?.name || 'Unknown']. *)
Definition nameOrUnknown (contractor : option Contractor.t) : string :=
  match contractor with
  | Some c => if Js.nonEmpty (Contractor.name c) then Contractor.name c else "Unknown"
  | None => "Unknown"
  end.

Definition findContractor (contractorId : Z) (cs : list Contractor.t)
  : option Contractor.t :=
  JsArray.find (fun c => Z.eqb (Contractor.id c) contractorId) cs.

Definition withRank (item : MonthlyRanking.t) (index : nat) : MonthlyRanking.t :=
  MonthlyRanking.mk (MonthlyRanking.contractorId item) (MonthlyRanking.name item)
                    (MonthlyRanking.hours item) (index + 1)
                    (MonthlyRanking.month item).

Definition unranked (cs : list Contractor.t) (month : string)
           (data : ProductivityData.t) : MonthlyRanking.t :=
  MonthlyRanking.mk (ProductivityData.contractorId data)
                    (nameOrUnknown (findContractor (ProductivityData.contractorId data) cs))
                    (ProductivityData.productiveHours data) 0 month.

Definition getMonthlyRankings (month : string) (st : t) : list MonthlyRanking.t :=
  let monthData := getProductivityDataByMonth month st in
  let cs := getAllContractors st in
  JsArray.mapi withRank
    (JsArray.sort
       (fun a b => Js.sub (MonthlyRanking.hours b) (MonthlyRanking.hours a))
       (List.map (unranked cs month) monthData)).

Definition getTopPerformers (month : string) (limit : nat) (st : t)
  : list MonthlyRanking.t :=
  JsArray.sliceTo limit (getMonthlyRankings month st).

Definition isUnderPerformer (cs : list Contractor.t) (data : ProductivityData.t)
  : bool :=
  match findContractor (ProductivityData.contractorId data) cs with
  | None => false
  | Some contractor =>
      if Js.le (ProductivityData.productiveHours data) (Js.ofZ 0) then false
      else
        let hourThreshold :=
          if String.eqb (Contractor.contractorType contractor) "Part Time"
          then Js.ofZ 50 else Js.ofZ 100 in
        Js.lt (ProductivityData.productiveHours data) hourThreshold
  end.

(** The [threshold] argument is not read. *)
Definition getUnderPerformers (month : string) (threshold : Js.number) (st : t)
  : list MonthlyRanking.t :=
  let monthData := getProductivityDataByMonth month st in
  let cs := getAllContractors st in
  JsArray.mapi withRank
    (JsArray.sort
       (fun a b => Js.sub (MonthlyRanking.hours a) (MonthlyRanking.hours b))
       (List.map (unranked cs month) (filter (isUnderPerformer cs) monthData))).

(** [updateProductivityData]: the record under the key of the contractor
    and month, with the fields of the patch over its own, is put back
    under that key. *)
Definition updateProductivityData (contractorId : Z) (month : string)
           (data : ProductivityPatch.t) (st : t) : option ProductivityData.t * t :=
  let key := dataKey contractorId month in
  match JsMap.get String.eqb key (productivityData st) with
  | None => (None, st)
  | Some existing =>
      let updated := ProductivityPatch.apply data existing in
      (Some updated,
       mk (contractors st)
          (JsMap.set String.eqb key updated (productivityData st))
          (dates st) (uuids st))
  end.

Section Clock.
Variable now : nat -> Date.
Variable randomUUID : nat -> string.

Definition createProductivityData (data : InsertProductivityData.t) (st : t)
  : ProductivityData.t * t :=
  let newData := ProductivityData.fresh (randomUUID (uuids st)) data (now (dates st)) in
  (newData,
   mk (contractors st)
      (JsMap.set String.eqb
         (dataKey (InsertProductivityData.contractorId data)
                  (InsertProductivityData.month data))
         newData (productivityData st))
      (S (dates st)) (S (uuids st))).

(** One turn of the loop of [bulkCreateProductivityData]. *)
Definition upsert (item : InsertProductivityData.t) (st : t)
  : ProductivityData.t * t :=
  let existingKey := dataKey (InsertProductivityData.contractorId item)
                             (InsertProductivityData.month item) in
  match JsMap.get String.eqb existingKey (productivityData st) with
  | Some existing =>
      let updated := ProductivityData.refreshed item (now (dates st)) existing in
      (updated,
       mk (contractors st)
          (JsMap.set String.eqb existingKey updated (productivityData st))
          (S (dates st)) (uuids st))
  | None => createProductivityData item st
  end.

Fixpoint bulkFrom (results : list ProductivityData.t)
         (data : list InsertProductivityData.t) (st : t)
  : list ProductivityData.t * t :=
  match data with
  | [] => (results, st)
  | item :: rest =>
      let (result, st') := upsert item st in
      bulkFrom (results ++ [result]) rest st'
  end.

Definition bulkCreateProductivityData (data : list InsertProductivityData.t) (st : t)
  : list ProductivityData.t * t :=
  bulkFrom [] data st.

(** The operations that change the store without being a write of a
    contractor record ([createContractor], [updateContractor] and
    [bulkCreateContractors] are such writes). *)
Inductive Op : Type :=
  | ArchiveContractor (id : Z)
  | DeleteContractor (id : Z)
  | CreateProductivityData (data : InsertProductivityData.t)
  | UpdateProductivityData (contractorId : Z) (month : string)
                           (data : ProductivityPatch.t)
  | BulkCreateProductivityData (data : list InsertProductivityData.t)
  | DeleteProductivityByMonth (month : string).

Definition step (st : t) (op : Op) : t :=
  match op with
  | ArchiveContractor id => snd (archiveContractor id st)
  | DeleteContractor id => snd (deleteContractor id st)
  | CreateProductivityData data => snd (createProductivityData data st)
  | UpdateProductivityData contractorId month data =>
      snd (updateProductivityData contractorId month data st)
  | BulkCreateProductivityData data => snd (bulkCreateProductivityData data st)
  | DeleteProductivityByMonth month => snd (deleteProductivityByMonth month st)
  end.

Definition run (ops : list Op) (st : t) : t := fold_left step ops st.
End Clock.

(** The constructor: the two maps filled from the two initial arrays,
    which are literals of the source and arguments here. *)
Definition initializeData (initialContractors : list Contractor.t)
           (initialProductivityData : list ProductivityData.t) : t :=
  mk (fold_left (fun m contractor =>
                   JsMap.set Z.eqb (Contractor.id contractor) contractor m)
                initialContractors (JsMap.empty Z Contractor.t))
     (fold_left (fun m data =>
                   JsMap.set String.eqb
                     (dataKey (ProductivityData.contractorId data)
                              (ProductivityData.month data))
                     data m)
                initialProductivityData (JsMap.empty string ProductivityData.t))
     (List.length initialProductivityData)
     (List.length initialProductivityData).

(** ** Writes of contractor records *)

Definition createContractor (contractor : InsertContractor.t) (st : t)
  : Contractor.t * t :=
  let newContractor :=
    Contractor.mk
      (InsertContractor.id contractor)
      (InsertContractor.name contractor)
      (Js.orString (InsertContractor.personalEmail contractor) EmptyString)
      (Js.orString (InsertContractor.workEmail contractor) EmptyString)
      (Js.orString (InsertContractor.workLocation contractor) EmptyString)
      (Js.orString (InsertContractor.position contractor) EmptyString)
      (Js.orString (InsertContractor.startDate contractor) EmptyString)
      (Js.orString (InsertContractor.separationDate contractor) EmptyString)
      (Js.orString (InsertContractor.birthday contractor) EmptyString)
      (InsertContractor.status contractor)
      (Js.orString (InsertContractor.contractorType contractor) "Full Time") in
  (newContractor,
   mk (JsMap.set Z.eqb (InsertContractor.id contractor) newContractor (contractors st))
      (productivityData st) (dates st) (uuids st)).

Definition updateContractor (id : Z) (contractor : ContractorPatch.t) (st : t)
  : option Contractor.t * t :=
  match JsMap.get Z.eqb id (contractors st) with
  | None => (None, st)
  | Some existing =>
      let updated := ContractorPatch.apply contractor existing in
      (Some updated,
       mk (JsMap.set Z.eqb id updated (contractors st))
          (productivityData st) (dates st) (uuids st))
  end.

Fixpoint bulkContractorsFrom (results : list Contractor.t)
         (data : list InsertContractor.t) (st : t) : list Contractor.t * t :=
  match data with
  | [] => (results, st)
  | item :: rest =>
      let (result, st') := createContractor item st in
      bulkContractorsFrom (results ++ [result]) rest st'
  end.

Definition bulkCreateContractors (data : list InsertContractor.t) (st : t)
  : list Contractor.t * t :=
  bulkContractorsFrom [] data st.

Definition getContractorsWithData (st : t) : list ContractorWithData.t :=
  List.map (fun contractor =>
              ContractorWithData.mk contractor
                (getProductivityData (Contractor.id contractor) st))
           (getAllContractors st).

End MemStorage.

(* ================================================================== *)
(** * [server/database-storage.ts]: the relational store *)
(* ================================================================== *)

(** The two tables are lists of rows.  The schema declares [contractors.id]
    a primary key and [(contractor_id, month)] unique on
    [productivity_data]; the statements below are read with the meaning
    PostgreSQL gives them on tables that satisfy these constraints. *)
Module DatabaseStorage.

Record t : Type := mk {
  contractors : list Contractor.t;
  productivityData : list ProductivityData.t;
  dates : nat;   (* evaluations of [NOW()] so far *)
  uuids : nat    (* evaluations of [gen_random_uuid()] so far *)
}.

(** The order of PostgreSQL on [real]: the numbers in their order, and
    [NaN] equal to itself and above everything else. *)
Definition pgCompare (a b : Js.number) : comparison :=
  match a, b with
  | Js.NaN, Js.NaN => Eq
  | Js.NaN, _ => Gt
  | _, Js.NaN => Lt
  | Js.Infinity s, Js.Infinity t =>
      if s then (if t then Eq else Lt) else (if t then Gt else Eq)
  | Js.Infinity s, Js.Num _ => if s then Lt else Gt
  | Js.Num _, Js.Infinity t => if t then Gt else Lt
  | Js.Num x, Js.Num y => (x ?= y)%Q
  end.

Definition pgGt (a b : Js.number) : bool :=
  match pgCompare a b with Gt => true | _ => false end.
Definition pgLt (a b : Js.number) : bool :=
  match pgCompare a b with Lt => true | _ => false end.

(** [select().from(contractors).where(eq(contractors.id, id))], first row. *)
Definition getContractor (id : Z) (db : t) : option Contractor.t :=
  List.find (fun c => Z.eqb (Contractor.id c) id) (contractors db).

Definition getAllContractors (db : t) : list Contractor.t := contractors db.

(** [update(contractors).set({status: 'archived'}).where(eq(contractors.id, id))];
    the answer is [rowCount > 0]. *)
Definition archiveContractor (id : Z) (db : t) : bool * t :=
  let rowCount :=
    List.length (filter (fun c => Z.eqb (Contractor.id c) id) (contractors db)) in
  (negb (Nat.leb rowCount 0),
   mk (List.map (fun c => if Z.eqb (Contractor.id c) id
                          then Contractor.withStatus archived c else c)
                (contractors db))
      (productivityData db) (dates db) (uuids db)).

Definition deleteContractor (id : Z) (db : t) : bool * t :=
  archiveContractor id db.

Definition getProductivityData (contractorId : Z) (db : t)
  : list ProductivityData.t :=
  filter (fun data => Z.eqb (ProductivityData.contractorId data) contractorId)
         (productivityData db).

Definition getAllProductivityData (db : t) : list ProductivityData.t :=
  productivityData db.

Definition getProductivityDataByMonth (month : string) (db : t)
  : list ProductivityData.t :=
  filter (fun data => String.eqb (ProductivityData.month data) month)
         (productivityData db).

Definition deleteProductivityByMonth (month : string) (db : t) : bool * t :=
  let rowCount :=
    List.length (filter (fun data => String.eqb (ProductivityData.month data) month)
                        (productivityData db)) in
  (negb (Nat.leb rowCount 0),
   mk (contractors db)
      (filter (fun data => negb (String.eqb (ProductivityData.month data) month))
              (productivityData db))
      (dates db) (uuids db)).

(** [productivityData INNER JOIN contractors ON contractors.id =
    productivityData.contractorId]. *)
Definition innerJoin (ps : list ProductivityData.t) (cs : list Contractor.t)
  : list (ProductivityData.t * Contractor.t) :=
  flat_map
    (fun p => List.map (fun c => (p, c))
                (filter (fun c => Z.eqb (Contractor.id c) (ProductivityData.contractorId p)) cs))
    ps.

Definition hoursOf (row : ProductivityData.t * Contractor.t) : Js.number :=
  ProductivityData.productiveHours (fst row).
Definition productivityOf (row : ProductivityData.t * Contractor.t) : Js.number :=
  ProductivityData.productivity (fst row).

(** [ORDER BY productive_hours DESC, productivity DESC]: [a] is strictly
    before [b]. *)
Definition hoursDescThenProductivityDesc (a b : ProductivityData.t * Contractor.t)
  : bool :=
  match pgCompare (hoursOf a) (hoursOf b) with
  | Gt => true
  | Eq => pgGt (productivityOf a) (productivityOf b)
  | Lt => false
  end.

(** [ORDER BY productive_hours ASC, productivity DESC]. *)
Definition hoursAscThenProductivityDesc (a b : ProductivityData.t * Contractor.t)
  : bool :=
  match pgCompare (hoursOf a) (hoursOf b) with
  | Lt => true
  | Eq => pgGt (productivityOf a) (productivityOf b)
  | Gt => false
  end.

(** The row handed to the final [map], with its index. *)
Definition ranked (row : ProductivityData.t * Contractor.t) (index : nat)
  : MonthlyRanking.t :=
  MonthlyRanking.mk (ProductivityData.contractorId (fst row))
                    (Contractor.name (snd row))
                    (ProductivityData.productiveHours (fst row))
                    (index + 1)
                    (ProductivityData.month (fst row)).

Definition monthRows (month : string) (db : t)
  : list (ProductivityData.t * Contractor.t) :=
  filter (fun row => String.eqb (ProductivityData.month (fst row)) month)
         (innerJoin (productivityData db) (contractors db)).

(** Rows that tie on both sort keys come in an order SQL leaves open;
    the model keeps them in table order. *)
Definition getMonthlyRankings (month : string) (db : t) : list MonthlyRanking.t :=
  JsArray.mapi ranked
    (JsArray.sortBy hoursDescThenProductivityDesc (monthRows month db)).

Definition getTopPerformers (month : string) (limit : nat) (db : t)
  : list MonthlyRanking.t :=
  JsArray.sliceTo limit (getMonthlyRankings month db).

(** The [WHERE] clause of [getUnderPerformers] after the month test. *)
Definition underThreshold (row : ProductivityData.t * Contractor.t) : bool :=
  pgGt (hoursOf row) (Js.ofZ 0)
  && ((String.eqb (Contractor.contractorType (snd row)) "Full Time"
       && pgLt (hoursOf row) (Js.ofZ 100))
      || (String.eqb (Contractor.contractorType (snd row)) "Part Time"
          && pgLt (hoursOf row) (Js.ofZ 50))).

Definition getUnderPerformers (month : string) (threshold : Js.number) (db : t)
  : list MonthlyRanking.t :=
  JsArray.mapi ranked
    (JsArray.sortBy hoursAscThenProductivityDesc
       (filter underThreshold (monthRows month db))).

(** No two elements of a list are equal under [eqb]. *)
Fixpoint unique (A : Type) (eqb : A -> A -> bool) (l : list A) : bool :=
  match l with
  | [] => true
  | x :: r => negb (existsb (eqb x) r) && unique eqb r
  end.

(** Two rows of one contractor and month. *)
Definition pairEqb (a b : ProductivityData.t) : bool :=
  Z.eqb (ProductivityData.contractorId a) (ProductivityData.contractorId b)
  && String.eqb (ProductivityData.month a) (ProductivityData.month b).

(** Two rows of one id. *)
Definition idEqb (a b : ProductivityData.t) : bool :=
  String.eqb (ProductivityData.id a) (ProductivityData.id b).

Section Clock.
(** The number a [real] column gives back for a number that is written to
    it, or [None] for a number that the column refuses because it is
    beyond its range: the three measures are [real] columns, which hold
    single precision.  A statement that writes a number the column refuses
    fails, and the call throws. *)
Variable real : Js.number -> option Js.number.
Variable now : nat -> Date.
Variable randomUUID : nat -> string.

(** The values of an item as the columns give them back, if the columns
    take the three measures. *)
Definition stored (item : InsertProductivityData.t)
  : option InsertProductivityData.t :=
  match real (InsertProductivityData.productiveHours item),
        real (InsertProductivityData.totalHours item),
        real (InsertProductivityData.productivity item) with
  | Some productiveHours, Some totalHours, Some productivity =>
      Some (InsertProductivityData.mk
              (InsertProductivityData.contractorId item)
              (InsertProductivityData.month item)
              productiveHours totalHours productivity)
  | _, _, _ => None
  end.

(** The fields of a patch as the columns give them back, if the columns
    take the measures that the patch sets. *)
Definition storedPatch (data : ProductivityPatch.t) : option ProductivityPatch.t :=
  let column (field : option Js.number) : option (option Js.number) :=
    match field with
    | Some value => option_map Some (real value)
    | None => Some None
    end in
  match column (ProductivityPatch.productiveHours data),
        column (ProductivityPatch.totalHours data),
        column (ProductivityPatch.productivity data) with
  | Some productiveHours, Some totalHours, Some productivity =>
      Some (ProductivityPatch.mk
              (ProductivityPatch.id data)
              (ProductivityPatch.contractorId data)
              (ProductivityPatch.month data)
              productiveHours totalHours productivity
              (ProductivityPatch.createdAt data))
  | _, _, _ => None
  end.

Definition samePair (item : InsertProductivityData.t) (r : ProductivityData.t) : bool :=
  Z.eqb (ProductivityData.contractorId r) (InsertProductivityData.contractorId item)
  && String.eqb (ProductivityData.month r) (InsertProductivityData.month item).

(** [insert(productivityData).values(data).returning()]: a row is added
    with the defaults of [id] and [createdAt]; the statement is refused,
    and the call throws, [None], when a column refuses a measure and when
    the table holds a row of the contractor and month. *)
Definition createProductivityData (data : InsertProductivityData.t) (db : t)
  : option (ProductivityData.t * t) :=
  match stored data with
  | None => None
  | Some values =>
      match List.find (samePair data) (productivityData db) with
      | Some _ => None
      | None =>
          let newData :=
            ProductivityData.fresh (randomUUID (uuids db)) values (now (dates db)) in
          Some (newData,
                mk (contractors db) (productivityData db ++ [newData])
                   (S (dates db)) (S (uuids db)))
      end
  end.

(** [update(productivityData).set(data).where(and(eq(contractorId),
    eq(month))).returning()], first row: the rows of the contractor and
    month take the fields of the patch.  The call throws, [None], when
    the patch sets nothing, which the query builder refuses, when a
    column refuses a measure of the patch, and when the statement would
    leave two rows with one id or with one contractor and month. *)
Definition updateProductivityData (contractorId : Z) (month : string)
           (data : ProductivityPatch.t) (db : t)
  : option (option ProductivityData.t * t) :=
  if ProductivityPatch.isEmpty data then None
  else
    match storedPatch data with
    | None => None
    | Some values =>
        let matches (r : ProductivityData.t) :=
          Z.eqb (ProductivityData.contractorId r) contractorId
          && String.eqb (ProductivityData.month r) month in
        let updated (r : ProductivityData.t) := ProductivityPatch.apply values r in
        let rows :=
          List.map (fun r => if matches r then updated r else r)
                   (productivityData db) in
        if unique idEqb rows && unique pairEqb rows
        then Some (option_map updated (List.find matches (productivityData db)),
                   mk (contractors db) rows (dates db) (uuids db))
        else None
    end.

(** [insert(productivityData).values(item).onConflictDoUpdate({target:
    [contractorId, month], set: {...}}).returning()]: the row in conflict
    is updated where it stands, otherwise a row is added with the
    defaults of [id] and [createdAt].  The statement is refused, and the
    call throws, [None], when a column refuses a measure. *)
Definition upsert (item : InsertProductivityData.t) (db : t)
  : option (ProductivityData.t * t) :=
  match stored item with
  | None => None
  | Some values =>
      match List.find (samePair item) (productivityData db) with
      | Some existing =>
          let updated :=
            ProductivityData.refreshed values (now (dates db)) existing in
          Some (updated,
                mk (contractors db)
                   (List.map (fun r => if samePair item r
                                       then ProductivityData.refreshed
                                              values (now (dates db)) r
                                       else r)
                             (productivityData db))
                   (S (dates db)) (uuids db))
      | None =>
          let inserted :=
            ProductivityData.fresh (randomUUID (uuids db)) values (now (dates db)) in
          Some (inserted,
                mk (contractors db) (productivityData db ++ [inserted])
                   (S (dates db)) (S (uuids db)))
      end
  end.

(** The loop of [bulkCreateProductivityData]: one statement for each item,
    each on its own.  When a statement is refused the call throws, [None],
    and the rows that the statements before it wrote stay written. *)
Fixpoint bulkFrom (results : list ProductivityData.t)
         (data : list InsertProductivityData.t) (db : t)
  : option (list ProductivityData.t) * t :=
  match data with
  | [] => (Some results, db)
  | item :: rest =>
      match upsert item db with
      | Some (result, db') => bulkFrom (results ++ [result]) rest db'
      | None => (None, db)
      end
  end.

Definition bulkCreateProductivityData (data : list InsertProductivityData.t) (db : t)
  : option (list ProductivityData.t) * t :=
  match data with
  | [] => (Some [], db)
  | _ => bulkFrom [] data db
  end.

(** The calls that change the tables without being a write of a
    contractor row; a statement that is refused leaves the tables as they
    were. *)
Inductive Op : Type :=
  | ArchiveContractor (id : Z)
  | DeleteContractor (id : Z)
  | CreateProductivityData (data : InsertProductivityData.t)
  | UpdateProductivityData (contractorId : Z) (month : string)
                           (data : ProductivityPatch.t)
  | BulkCreateProductivityData (data : list InsertProductivityData.t)
  | DeleteProductivityByMonth (month : string).

Definition step (db : t) (op : Op) : t :=
  match op with
  | ArchiveContractor id => snd (archiveContractor id db)
  | DeleteContractor id => snd (deleteContractor id db)
  | CreateProductivityData data =>
      match createProductivityData data db with
      | Some (_, db') => db'
      | None => db
      end
  | UpdateProductivityData contractorId month data =>
      match updateProductivityData contractorId month data db with
      | Some (_, db') => db'
      | None => db
      end
  | BulkCreateProductivityData data => snd (bulkCreateProductivityData data db)
  | DeleteProductivityByMonth month => snd (deleteProductivityByMonth month db)
  end.

Definition run (ops : list Op) (db : t) : t := fold_left step ops db.
End Clock.

(** ** Writes of contractor rows *)

(** [COALESCE(MAX(id), 0)]. *)
Definition maxId (db : t) : Z :=
  match List.map Contractor.id (contractors db) with
  | [] => 0%Z
  | i :: r => fold_left Z.max r i
  end.

(** The row an [INSERT] stores for the values it is given: a column that
    is left out takes its default. *)
Definition inserted (c : InsertContractor.t) : Contractor.t :=
  let orDefault (v : option string) (d : string) :=
    match v with Some s => s | None => d end in
  Contractor.mk
    (InsertContractor.id c)
    (InsertContractor.name c)
    (orDefault (InsertContractor.personalEmail c) EmptyString)
    (orDefault (InsertContractor.workEmail c) EmptyString)
    (orDefault (InsertContractor.workLocation c) EmptyString)
    (orDefault (InsertContractor.position c) EmptyString)
    (orDefault (InsertContractor.startDate c) EmptyString)
    (orDefault (InsertContractor.separationDate c) EmptyString)
    (orDefault (InsertContractor.birthday c) EmptyString)
    (InsertContractor.status c)
    (orDefault (InsertContractor.contractorType c) "Full Time").

(** No two equal ids in a list. *)
Fixpoint distinct (ids : list Z) : bool :=
  match ids with
  | [] => true
  | i :: r => negb (existsb (Z.eqb i) r) && distinct r
  end.

(** [insert(contractors).values(rows).returning()]: one statement, which
    fails as a whole, [None], when it would leave two rows with one id. *)
Definition insertContractors (rows : list Contractor.t) (db : t)
  : option (list Contractor.t * t) :=
  if distinct (List.map Contractor.id (contractors db ++ rows))
  then Some (rows, mk (contractors db ++ rows) (productivityData db)
                      (dates db) (uuids db))
  else None.

(** The greatest value of an [integer] column. *)
Definition maxInteger : Z := 2147483647.

(** [createContractor]: an id of 0 asks for the next id.  The id is
    computed as a number, and the column is a 32-bit integer: when the
    next id is beyond [maxInteger] the insert is refused and the call
    throws, [None].  An id that the caller gives has passed the insert
    schema, which keeps it within the range of the column. *)
Definition createContractor (contractor : InsertContractor.t) (db : t)
  : option (Contractor.t * t) :=
  if Z.eqb (InsertContractor.id contractor) 0
  then
    let nextId := (maxId db + 1)%Z in
    let contractorToInsert := InsertContractor.withId nextId contractor in
    if Z.ltb maxInteger nextId then None
    else match insertContractors [inserted contractorToInsert] db with
         | Some (newContractor :: _, db') => Some (newContractor, db')
         | _ => None
         end
  else
    match insertContractors [inserted contractor] db with
    | Some (newContractor :: _, db') => Some (newContractor, db')
    | _ => None
    end.

Definition bulkCreateContractors (data : list InsertContractor.t) (db : t)
  : option (list Contractor.t * t) :=
  match data with
  | [] => Some ([], db)
  | _ => insertContractors (List.map inserted data) db
  end.

Definition getContractorsWithData (db : t) : list ContractorWithData.t :=
  let contractorsList := getAllContractors db in
  let allData := getAllProductivityData db in
  List.map (fun contractor =>
              ContractorWithData.mk contractor
                (filter (fun data => Z.eqb (ProductivityData.contractorId data)
                                           (Contractor.id contractor))
                        allData))
           contractorsList.

(** [getTopPerformers] with any number for [limit]. *)
Definition getTopPerformersUpTo (month : string) (limit : Js.number) (db : t)
  : list MonthlyRanking.t :=
  JsArray.sliceEnd limit (getMonthlyRankings month db).

End DatabaseStorage.

(** ** The [real] columns of PostgreSQL *)

(** What a [real] column of PostgreSQL 12 or later gives back for a number
    that was written to it.  The column keeps the nearest single-precision
    number, and the server prints it with the fewest digits that read back
    as that same single-precision number, the nearest such decimal when
    there are two.  A number beyond the range of single precision, or one
    other than zero that rounds to zero, is refused by the server, and the
    statement fails; [NaN] and the infinities are kept. *)
Module Pg.
Definition prec : Z := 24.
Definition emax : Z := 128.

(** The single-precision number nearest to a rational, a tie going to
    the even one. *)
Definition toSingle (q : Q) : SpecFloat.spec_float :=
  let round (negative : bool) (n : positive) :=
    let '(m, e, l) :=
      SpecFloat.SFdiv_core_binary prec emax (Zpos n) 0 (Zpos (Qden q)) 0 in
    SpecFloat.binary_round_aux prec emax negative m e l in
  match Qnum q with
  | Z0 => SpecFloat.S754_zero false
  | Zpos n => round false n
  | Zneg n => round true n
  end.

Definition sameSingle (a b : SpecFloat.spec_float) : bool :=
  match a, b with
  | SpecFloat.S754_zero s, SpecFloat.S754_zero t => Bool.eqb s t
  | SpecFloat.S754_infinity s, SpecFloat.S754_infinity t => Bool.eqb s t
  | SpecFloat.S754_nan, SpecFloat.S754_nan => true
  | SpecFloat.S754_finite s m e, SpecFloat.S754_finite t n f =>
      Bool.eqb s t && Pos.eqb m n && Z.eqb e f
  | _, _ => false
  end.

(** The decimal exponent of a positive single-precision number: the
    greatest [E] with [10 ^ E <= a]. *)
Definition decimalExponent (a : Q) : Z :=
  match List.find (fun E => Qle_bool (Qpower 10 E) a)
                  (List.map (fun i => (38 - Z.of_nat i)%Z) (seq 0 84)) with
  | Some E => E
  | None => (-45)%Z
  end.

(** The decimal of [n] significant digits that reads back as [f], if
    there is one: the decimal below [v] or the one above it, and the
    nearer when both do. *)
Definition candidate (n : nat) (f : SpecFloat.spec_float) (v : Q) : option Q :=
  let u := Qpower 10 (decimalExponent v - Z.of_nat n + 1) in
  let lo := (inject_Z (Qfloor (v / u)) * u)%Q in
  let hi := (lo + u)%Q in
  match sameSingle (toSingle lo) f, sameSingle (toSingle hi) f with
  | true, true => Some (if Qle_bool (v - lo) (hi - v) then lo else hi)
  | true, false => Some lo
  | false, true => Some hi
  | false, false => None
  end.

(** The shortest decimal that reads back as [f], tried with [n] digits
    and more; nine digits always do. *)
Fixpoint shortestFrom (fuel n : nat) (f : SpecFloat.spec_float) (v : Q) : Q :=
  match fuel with
  | O => v
  | S fuel' =>
      match candidate n f v with
      | Some d => d
      | None => shortestFrom fuel' (S n) f v
      end
  end.

Definition real (a : Js.number) : option Js.number :=
  match a with
  | Js.Num q =>
      match toSingle q with
      | SpecFloat.S754_finite negative m e =>
          let v := (inject_Z (Zpos m) * Qpower 2 e)%Q in
          Some (Js.Num (Js.signed negative
                          (Qred (shortestFrom 9 1 (SpecFloat.S754_finite false m e) v))))
      | SpecFloat.S754_zero _ => if Js.isZero q then Some (Js.Num 0) else None
      | SpecFloat.S754_infinity _ => None
      | SpecFloat.S754_nan => None
      end
  | _ => Some a
  end.
End Pg.

(* ================================================================== *)
(** * [server/routes.ts]: the upload handlers *)
(* ================================================================== *)

Module Routes.

(** The byte order mark, as the three bytes UTF-8 gives it. *)
Definition BOM : string :=
  String "239"%char (String "187"%char (String "191"%char EmptyString)).

(** Every U+FEFF removed. *)
Fixpoint removeBOM (s : string) : string :=
  match s with
  | String "239" (String "187" (String "191" r)) => removeBOM r
  | String c r => String c (removeBOM r)
  | EmptyString => EmptyString
  end.

(** The loop of [parseCSVLine]: [current] is the field being read,
    [inQuotes] the quote state, [result] the fields read so far. *)
Fixpoint parseCSVFrom (line current : string) (inQuotes : bool)
         (result : list string) : list string :=
  match line with
  | EmptyString => result ++ [Js.trim current]
  | String char rest =>
      if Ascii.eqb char Js.quote
      then match rest with
           | String next rest' =>
               if inQuotes && Ascii.eqb next Js.quote
               then parseCSVFrom rest' (current ++ String Js.quote EmptyString)%string inQuotes result
               else parseCSVFrom rest current (negb inQuotes) result
           | EmptyString => parseCSVFrom rest current (negb inQuotes) result
           end
      else if Ascii.eqb char "," && negb inQuotes
      then parseCSVFrom rest EmptyString inQuotes (result ++ [Js.trim current])
      else parseCSVFrom rest (current ++ String char EmptyString)%string inQuotes result
  end.

Definition parseCSVLine (line : string) : list string :=
  parseCSVFrom line EmptyString false [].

(** [h.trim().toLowerCase().replace(/\s+/g, ' ')]. *)
Definition normalizeHeader (h : string) : string :=
  Js.collapseWhiteSpace (Js.toLowerCase (Js.trim h)).

(** The loop of [headersMatch], which runs over [expected]; the lengths
    are equal when it is entered. *)
Fixpoint headersMatchFrom (received expected : list string) : bool :=
  match expected with
  | [] => true
  | e :: expected' =>
      match received with
      | r :: received' =>
          if String.eqb (normalizeHeader r) (normalizeHeader e)
          then headersMatchFrom received' expected'
          else false
      | [] => false
      end
  end.

Definition headersMatch (received expected : list string) : bool :=
  if negb (Nat.eqb (List.length received) (List.length expected)) then false
  else headersMatchFrom received expected.

Definition productivityHeaders : list string :=
  ["Emp No."; "Name"; "Month"; "Productive Hours"; "Hours"; "Productivity"].

Definition rosterHeaders : list string :=
  ["Name"; "ID"; "Personal Email"; "Work Email"; "Work Location"; "Position";
   "Start Date"; "Separation Date"; "Birthday"].

(** [csvContent.split('\n').filter(line => line.trim())]. *)
Definition nonBlankLines (csvContent : string) : list string :=
  filter (fun line => Js.nonEmpty (Js.trim line)) (Js.split "010" csvContent).

(** [h.trim()], then every double quote and every U+FEFF removed. *)
Definition cleanHeader (h : string) : string :=
  removeBOM (Js.replaceAll Js.quote EmptyString (Js.trim h)).

(** ** Field conversions of the productivity upload *)

(** [/^\d{2}-\w{3}$/]. *)
Definition matchesDayMonth (month : string) : bool :=
  match month with
  | String a (String b (String "-" (String c (String d (String e EmptyString))))) =>
      Js.isDigit a && Js.isDigit b && Js.isWord c && Js.isWord d && Js.isWord e
  | _ => false
  end.

(** A piece read by destructuring a split, in a template literal. *)
Definition piece (k : nat) (parts : list string) : string :=
  nth k parts "undefined".

(** The month rewrite: ["25-Aug"] becomes ["Aug-25"]. *)
Definition fixMonth (month : string) : string :=
  if matchesDayMonth month
  then let parts := Js.split "-" month in
       piece 1 parts ++ "-" ++ piece 0 parts
  else month.

(** The productive hours of a row, from the time format or as a decimal. *)
Definition productiveHoursOf (productiveHoursStr : string) : Js.number :=
  if Js.nonEmpty productiveHoursStr && Js.nonEmpty (Js.trim productiveHoursStr)
     && Js.includes ":" productiveHoursStr
  then
    let parts := List.map Js.parseInt (Js.split ":" productiveHoursStr) in
    let h := Js.toNumber (nth_error parts 0) in
    let m := Js.toNumber (nth_error parts 1) in
    let s := Js.toNumber (nth_error parts 2) in
    Js.add (Js.add h (Js.div m (Js.ofZ 60))) (Js.div s (Js.ofZ 3600))
  else if Js.nonEmpty productiveHoursStr
          && negb (String.eqb (Js.trim productiveHoursStr) EmptyString)
  then Js.orElse (Js.parseFloat productiveHoursStr) (Js.ofZ 0)
  else Js.ofZ 0.

(** The productivity of a row: a value in (0, 1] is a fraction. *)
Definition productivityOf (column : string) : Js.number :=
  let productivityStr := Js.trim (Js.replaceFirst "%" EmptyString column) in
  if Js.nonEmpty productivityStr
  then let productivityValue := Js.parseFloat productivityStr in
       if Js.gt productivityValue (Js.ofZ 0) && Js.le productivityValue (Js.ofZ 1)
       then Js.mul productivityValue (Js.ofZ 100)
       else productivityValue
  else Js.ofZ 0.

(** ** The productivity upload *)

(** The object [dataToInsert] before the schema has seen it. *)
Record DataToInsert : Type := mkData {
  contractorId : Js.number;
  month : string;
  productiveHours : Js.number;
  totalHours : Js.number;
  productivity : Js.number
}.

(** The answer of [storage.getContractor]: a contractor, [undefined], or
    an exception with its message. *)
Inductive Lookup : Type :=
  | Found (contractor : Contractor.t)
  | Missing
  | Thrown (message : string).

Inductive Response (D : Type) : Type :=
  | BadRequest (message : string)
  | BadHeaders (message : string) (expected received : list string)
  | NoValidData (message : string) (errors : list string)
  | Processed (message : string) (processed : nat)
              (errors : option (list string)) (data : list D).
Arguments BadRequest {D} message.
Arguments BadHeaders {D} message expected received.
Arguments NoValidData {D} message errors.
Arguments Processed {D} message processed errors data.

Section Upload.
(** The store behind [storage], with the two operations the handler
    calls, and the pieces of the runtime the handler relies on. *)
Variable Store : Type.
Variable Stored : Type.
Variable getContractor : Js.number -> Store -> Lookup.
Variable bulkCreateProductivityData : list DataToInsert -> Store -> list Stored * Store.
(** [insertProductivityDataSchema.parse]: the message of the error it
    throws, if it throws. *)
Variable schemaError : DataToInsert -> option string.
(** A number in a template literal. *)
Variable numberToString : Js.number -> string.

Definition rowLabel (i : nat) : string := "Row " ++ Js.natToString (i + 2) ++ ": ".

(** The body of the loop over the data rows: the row to insert, or the
    error pushed for row [i]. *)
Definition parseRow (st : Store) (i : nat) (line : string) : string + DataToInsert :=
  let columns := parseCSVLine line in
  if Nat.ltb (List.length columns) 6
  then inl (rowLabel i ++ "Insufficient columns (expected 6, got "
                       ++ Js.natToString (List.length columns) ++ ")")%string
  else
    let empNo := Js.parseInt (nth 0 columns EmptyString) in
    let name := nth 1 columns EmptyString in
    let month := fixMonth (nth 2 columns EmptyString) in
    let hours := Js.orElse (Js.parseFloat (nth 4 columns EmptyString)) (Js.ofZ 0) in
    let productiveHours := productiveHoursOf (nth 3 columns EmptyString) in
    let productivity := productivityOf (nth 5 columns EmptyString) in
    match getContractor empNo st with
    | Thrown message => inl (rowLabel i ++ message)%string
    | Missing =>
        inl (rowLabel i ++ "Contractor " ++ numberToString empNo
                        ++ " (" ++ name ++ ") not found in roster")%string
    | Found _ =>
        let dataToInsert := mkData empNo month productiveHours hours productivity in
        match schemaError dataToInsert with
        | Some message => inl (rowLabel i ++ message)%string
        | None => inr dataToInsert
        end
    end.

(** The loop, from row [i] on, with the two arrays it fills. *)
Fixpoint parseRowsFrom (st : Store) (i : nat) (dataRows : list string)
         (productivityData : list DataToInsert) (errors : list string)
  : list DataToInsert * list string :=
  match dataRows with
  | [] => (productivityData, errors)
  | line :: rest =>
      match parseRow st i line with
      | inl error => parseRowsFrom st (S i) rest productivityData (errors ++ [error])
      | inr data => parseRowsFrom st (S i) rest (productivityData ++ [data]) errors
      end
  end.

Definition parseRows (st : Store) (dataRows : list string)
  : list DataToInsert * list string :=
  parseRowsFrom st 0 dataRows [] [].

(** [errors.length > 0 ? errors.slice(0, 10) : undefined]. *)
Definition cappedErrors (errors : list string) : option (list string) :=
  match errors with
  | [] => None
  | _ => Some (JsArray.sliceTo 10 errors)
  end.

(** [POST /api/upload-csv], from the uploaded file on. *)
Definition uploadCsv (file : option string) (st : Store) : Response Stored * Store :=
  match file with
  | None => (BadRequest "No file uploaded", st)
  | Some csvContent =>
      let lines := nonBlankLines csvContent in
      if Nat.ltb (List.length lines) 2
      then (BadRequest "CSV file must contain headers and at least one data row", st)
      else
        let headerLine := nth 0 lines EmptyString in
        let headers := List.map cleanHeader (parseCSVLine headerLine) in
        if negb (headersMatch headers productivityHeaders)
        then
          if headersMatch headers rosterHeaders
          then (BadHeaders
                  "This appears to be a contractor roster file. Please switch to 'Contractor Roster' upload type."
                  productivityHeaders headers, st)
          else (BadHeaders
                  "CSV headers don't match expected format for productivity data"
                  productivityHeaders headers, st)
        else
          let dataRows := tl lines in
          let (productivityData, errors) := parseRows st dataRows in
          if negb (Nat.eqb (List.length errors) 0)
             && Nat.eqb (List.length productivityData) 0
          then (NoValidData "No valid data to process" (JsArray.sliceTo 10 errors), st)
          else
            let (insertedData, st') := bulkCreateProductivityData productivityData st in
            (Processed
               ("Successfully processed " ++ Js.natToString (List.length insertedData)
                                           ++ " records")%string
               (List.length insertedData) (cappedErrors errors) insertedData,
             st')
  end.
End Upload.

(** ** The roster upload, up to the decision on its header *)

(** [expectedHeaders.every((header, index) => headers[index] === header)]. *)
Fixpoint everyHeaderEqualFrom (index : nat) (expected headers : list string) : bool :=
  match expected with
  | [] => true
  | header :: rest =>
      match nth_error headers index with
      | Some h => String.eqb h header && everyHeaderEqualFrom (S index) rest headers
      | None => false
      end
  end.

Inductive RosterHeaderOutcome : Type :=
  | RosterBadRequest (message : string)
  | RosterBadHeaders (message : string) (expected received : list string)
  | RosterHeadersAccepted (dataRows : list string).

(** [POST /api/upload-contractor-roster] down to the point where the rows
    are read. *)
Definition uploadContractorRosterHeader (file : option string) : RosterHeaderOutcome :=
  match file with
  | None => RosterBadRequest "No file uploaded"
  | Some csvContent =>
      let lines := nonBlankLines csvContent in
      if Nat.ltb (List.length lines) 2
      then RosterBadRequest "CSV file must contain headers and at least one data row"
      else
        let headers := List.map cleanHeader (Js.split "," (nth 0 lines EmptyString)) in
        let headersMatch := everyHeaderEqualFrom 0 rosterHeaders headers in
        if negb headersMatch
        then RosterBadHeaders "CSV headers don't match expected format"
                              rosterHeaders headers
        else RosterHeadersAccepted (tl lines)
  end.

(** ** The roster upload: the rows *)

(** The columns of a roster row: the pieces between the commas, each
    trimmed and with its double quotes removed. *)
Definition rosterColumns (line : string) : list string :=
  List.map (fun col => Js.replaceAll Js.quote EmptyString (Js.trim col))
           (Js.split "," line).

(** The object [contractorToInsert] before the schema has seen it; its
    status is always ['active']. *)
Record ContractorToInsert : Type := mkContractor {
  rosterId : Js.number;
  rosterName : string;
  rosterPersonalEmail : string;
  rosterWorkEmail : string;
  rosterWorkLocation : string;
  rosterPosition : string;
  rosterStartDate : string;
  rosterSeparationDate : string;
  rosterBirthday : string
}.

(** A column with the empty string for a falsy value. *)
Definition orEmpty (value : string) : string :=
  if Js.nonEmpty value then value else EmptyString.

Inductive RosterResponse (D : Type) : Type :=
  | RosterRefused (message : string)
  | RosterHeadersRefused (message : string) (expected received : list string)
  | RosterNoValidData (message : string) (errors : list string)
  | RosterProcessed (message : string) (processed : nat)
                    (errors : option (list string)) (data : list D)
  | RosterFailed (message : string).
Arguments RosterRefused {D} message.
Arguments RosterHeadersRefused {D} message expected received.
Arguments RosterNoValidData {D} message errors.
Arguments RosterProcessed {D} message processed errors data.
Arguments RosterFailed {D} message.

Section RosterUpload.
(** The store behind [storage] with the operation the handler calls, which
    answers [None] when it throws, and [insertContractorSchema.parse] with
    the message of the error it throws, if it throws. *)
Variable Store : Type.
Variable Stored : Type.
Variable bulkCreateContractors :
  list ContractorToInsert -> Store -> option (list Stored * Store).
Variable schemaError : ContractorToInsert -> option string.

(** The body of the loop over the data rows: the contractor to insert, or
    the error pushed for row [i]. *)
Definition parseRosterRow (i : nat) (line : string) : string + ContractorToInsert :=
  let columns := rosterColumns line in
  if Nat.ltb (List.length columns) 9
  then inl ("Row " ++ Js.natToString (i + 2)
              ++ ": Insufficient columns (expected 9, got "
              ++ Js.natToString (List.length columns) ++ ")")%string
  else
    let name := nth 0 columns EmptyString in
    let idStr := nth 1 columns EmptyString in
    let id := Js.parseInt idStr in
    if Js.isNaN id
    then inl ("Row " ++ Js.natToString (i + 2) ++ ": Invalid ID '" ++ idStr
                ++ "' - must be a number")%string
    else
      let contractorToInsert :=
        mkContractor id (orEmpty name)
                     (orEmpty (nth 2 columns EmptyString))
                     (orEmpty (nth 3 columns EmptyString))
                     (orEmpty (nth 4 columns EmptyString))
                     (orEmpty (nth 5 columns EmptyString))
                     (orEmpty (nth 6 columns EmptyString))
                     (orEmpty (nth 7 columns EmptyString))
                     (orEmpty (nth 8 columns EmptyString)) in
      match schemaError contractorToInsert with
      | Some message => inl ("Row " ++ Js.natToString (i + 2) ++ ": " ++ message)%string
      | None => inr contractorToInsert
      end.

Fixpoint parseRosterRowsFrom (i : nat) (dataRows : list string)
         (contractorData : list ContractorToInsert) (errors : list string)
  : list ContractorToInsert * list string :=
  match dataRows with
  | [] => (contractorData, errors)
  | line :: rest =>
      match parseRosterRow i line with
      | inl error => parseRosterRowsFrom (S i) rest contractorData (errors ++ [error])
      | inr data => parseRosterRowsFrom (S i) rest (contractorData ++ [data]) errors
      end
  end.

(** [POST /api/upload-contractor-roster], from the uploaded file on. *)
Definition uploadContractorRoster (file : option string) (st : Store)
  : RosterResponse Stored * Store :=
  match uploadContractorRosterHeader file with
  | RosterBadRequest message => (RosterRefused message, st)
  | RosterBadHeaders message expected received =>
      (RosterHeadersRefused message expected received, st)
  | RosterHeadersAccepted dataRows =>
      let (contractorData, errors) := parseRosterRowsFrom 0 dataRows [] [] in
      if negb (Nat.eqb (List.length errors) 0)
         && Nat.eqb (List.length contractorData) 0
      then (RosterNoValidData "No valid contractor data to process"
                              (JsArray.sliceTo 10 errors), st)
      else
        match bulkCreateContractors contractorData st with
        | None => (RosterFailed "Failed to process contractor roster CSV file", st)
        | Some (insertedContractors, st') =>
            (RosterProcessed
               ("Successfully processed "
                  ++ Js.natToString (List.length insertedContractors)
                  ++ " contractors")%string
               (List.length insertedContractors)
               (match errors with
                | [] => None
                | _ => Some (JsArray.sliceTo 10 errors)
                end)
               insertedContractors,
             st')
        end
  end.
End RosterUpload.

(** ** The limiter of login attempts *)

Record Attempts : Type := mkAttempts {
  count : Z;
  resetTime : Z
}.

Definition MAX_LOGIN_ATTEMPTS : Z := 5.
Definition RATE_LIMIT_WINDOW : Z := 15 * 60 * 1000.

(** [checkRateLimit(ip)] at the time [now] that [Date.now()] reads. *)
Definition checkRateLimit (now : Z) (ip : string)
           (loginAttempts : JsMap.t string Attempts)
  : bool * JsMap.t string Attempts :=
  match JsMap.get String.eqb ip loginAttempts with
  | None =>
      (true, JsMap.set String.eqb ip (mkAttempts 1 (now + RATE_LIMIT_WINDOW))
                       loginAttempts)
  | Some attempts =>
      if (now >? resetTime attempts)%Z
      then (true, JsMap.set String.eqb ip (mkAttempts 1 (now + RATE_LIMIT_WINDOW))
                            loginAttempts)
      else if (count attempts >=? MAX_LOGIN_ATTEMPTS)%Z
      then (false, loginAttempts)
      else (true, JsMap.set String.eqb ip
                            (mkAttempts (count attempts + 1) (resetTime attempts))
                            loginAttempts)
  end.

Definition resetRateLimit (ip : string) (loginAttempts : JsMap.t string Attempts)
  : JsMap.t string Attempts :=
  JsMap.delete String.eqb ip loginAttempts.

(** What the login handler keeps: the attempts of all clients and the
    flag of the session of this client. *)
Record Auth : Type := mkAuth {
  loginAttempts : JsMap.t string Attempts;
  isAdmin : bool
}.

Inductive LoginResponse : Type :=
  | TooManyAttempts (message : string)
  | LoginSuccessful (message : string)
  | InvalidPassword (message : string)
  | LoginFailed (message : string).

Section Login.
(** [passwordManager.verifyPassword]; [None] when it throws. *)
Variable verifyPassword : string -> option bool.

(** [POST /api/auth/login]. *)
Definition login (now : Z) (clientIp password : string) (auth : Auth)
  : LoginResponse * Auth :=
  let (allowed, attempts) := checkRateLimit now clientIp (loginAttempts auth) in
  if negb allowed
  then (TooManyAttempts "Too many login attempts. Please try again in 15 minutes.",
        mkAuth attempts (isAdmin auth))
  else
    match verifyPassword password with
    | Some true =>
        (LoginSuccessful "Login successful",
         mkAuth (resetRateLimit clientIp attempts) true)
    | Some false =>
        (InvalidPassword "Invalid password", mkAuth attempts (isAdmin auth))
    | None => (LoginFailed "Login failed", mkAuth attempts (isAdmin auth))
    end.
End Login.

(** ** Routes that read and delete productivity data *)

(** The answer of a route behind [requireAdmin]. *)
Inductive Guarded (R : Type) : Type :=
  | AdminRequired (message : string)
  | Served (response : R).
Arguments AdminRequired {R} message.
Arguments Served {R} response.

(** [requireAdmin] in front of a handler that works on a store. *)
Definition requireAdmin (Store R : Type) (sessionIsAdmin : bool)
           (handler : Store -> R * Store) (st : Store) : Guarded R * Store :=
  if negb sessionIsAdmin
  then (AdminRequired "Admin access required", st)
  else let (response, st') := handler st in (Served response, st').

(** [/^[A-Za-z]{3}-\d{2}$/], the month parameter of the deletion. *)
Definition isMonthParameter (month : string) : bool :=
  match month with
  | String a (String b (String c (String "-" (String d (String e EmptyString))))) =>
      Js.isLetter a && Js.isLetter b && Js.isLetter c && Js.isDigit d && Js.isDigit e
  | _ => false
  end.

Inductive DeleteResponse : Type :=
  | InvalidMonth (message : string)
  | ForbiddenOrigin (message : string)
  | Deleted (message : string)
  | NothingToDelete (message : string)
  | DeleteFailed (message : string).

Section DeleteProductivity.
Variable Store : Type.
Variable deleteProductivityByMonth : string -> Store -> bool * Store.
(** [new URL(origin).host]; [None] when the constructor throws. *)
Variable hostOfUrl : string -> option string.

(** [DELETE /api/productivity/:month] behind [requireAdmin]; [origin]
    and [host] are the two headers of the request. *)
Definition deleteProductivity (month : string) (origin host : option string)
           (st : Store) : DeleteResponse * Store :=
  if negb (isMonthParameter month)
  then (InvalidMonth "Invalid month format. Expected format: 'MMM-YY' (e.g., 'Aug-25')",
        st)
  else
    let proceed :=
      let (success, st') := deleteProductivityByMonth month st in
      if success
      then (Deleted ("Successfully deleted all productivity data for " ++ month)%string,
            st')
      else (NothingToDelete ("No productivity data found for " ++ month)%string, st') in
    match origin with
    | Some o =>
        if Js.nonEmpty o
        then match hostOfUrl o with
             | None => (DeleteFailed "Failed to delete productivity data", st)
             | Some originHost =>
                 match host with
                 | Some h =>
                     if String.eqb originHost h then proceed
                     else (ForbiddenOrigin "Forbidden: Invalid origin", st)
                 | None => (ForbiddenOrigin "Forbidden: Invalid origin", st)
                 end
             end
        else proceed
    | None => proceed
    end.
End DeleteProductivity.

(** [parseInt(req.query.limit) || 3] of [GET /api/top-performers/:month];
    a query without [limit] gives [undefined], which [parseInt] reads as
    the text [undefined]. *)
Definition topPerformersLimit (limit : option string) : Js.number :=
  Js.orElse (Js.parseInt (match limit with Some l => l | None => "undefined" end))
            (Js.ofZ 3).

(** ** The dashboard summary *)

(** The three thresholds of a contractor type: high, medium, low. *)
Definition getThresholds (contractorType : string)
  : Js.number * Js.number * Js.number :=
  if String.eqb contractorType "Part Time"
  then (Js.Num 86.7, Js.ofZ 50, Js.ofZ 0)
  else (Js.Num 173.3, Js.ofZ 100, Js.ofZ 0).

Definition medium (thresholds : Js.number * Js.number * Js.number) : Js.number :=
  snd (fst thresholds).

Definition currentMonth : string := "Aug-25".

(** [contractor.productivityData.find(data => data.month === currentMonth)]. *)
Definition monthProductivity (c : ContractorWithData.t) : option ProductivityData.t :=
  JsArray.find (fun data => String.eqb (ProductivityData.month data) currentMonth)
               (ContractorWithData.productivityData c).

Definition isActive (c : Contractor.t) : bool :=
  match Contractor.status c with active => true | archived => false end.

(** The callback of the [map] that finds the under-performers: an entry
    without rank, or [null]. *)
Definition underPerformerOf (c : ContractorWithData.t) : option MonthlyRanking.t :=
  match monthProductivity c with
  | None => None
  | Some data =>
      if Js.le (ProductivityData.productiveHours data) (Js.ofZ 0) then None
      else
        let thresholds :=
          getThresholds (Contractor.contractorType (ContractorWithData.contractor c)) in
        let isUnderperforming :=
          Js.lt (ProductivityData.productiveHours data) (medium thresholds) in
        if isUnderperforming
        then Some (MonthlyRanking.mk
                     (Contractor.id (ContractorWithData.contractor c))
                     (Contractor.name (ContractorWithData.contractor c))
                     (ProductivityData.productiveHours data) 0 currentMonth)
        else None
  end.

Definition withDashboardRank (performer : MonthlyRanking.t) (index : nat)
  : MonthlyRanking.t :=
  MonthlyRanking.mk (MonthlyRanking.contractorId performer)
                    (MonthlyRanking.name performer)
                    (MonthlyRanking.hours performer) (index + 1)
                    (MonthlyRanking.month performer).

Definition hasProductivity (c : ContractorWithData.t) : bool :=
  match monthProductivity c with
  | Some data => Js.gt (ProductivityData.productiveHours data) (Js.ofZ 0)
  | None => false
  end.

Definition isAboveThreshold (c : ContractorWithData.t) : bool :=
  match monthProductivity c with
  | None => false
  | Some data =>
      Js.ge (ProductivityData.productiveHours data)
            (medium (getThresholds
                       (Contractor.contractorType (ContractorWithData.contractor c))))
  end.

Record Summary : Type := mkSummary {
  totalContractors : nat;
  summaryTotalHours : Js.number;
  averageHours : Js.number;
  aboveThresholdPercentage : Js.number;
  topPerformers : list MonthlyRanking.t;
  underPerformers : list MonthlyRanking.t;
  summaryMonth : string
}.

(** [Math.round(x * 100) / 100]. *)
Definition roundToCents (x : Js.number) : Js.number :=
  Js.div (Js.round (Js.mul x (Js.ofZ 100))) (Js.ofZ 100).

(** The body of [GET /api/dashboard/summary], from the four answers of
    the store. *)
Definition dashboardSummary (contractors : list Contractor.t)
           (monthData : list ProductivityData.t)
           (topPerformers : list MonthlyRanking.t)
           (contractorsWithData : list ContractorWithData.t) : Summary :=
  let activeContractorsWithData :=
    filter (fun c => isActive (ContractorWithData.contractor c)) contractorsWithData in
  let underPerformers :=
    JsArray.mapi withDashboardRank
      (JsArray.sort
         (fun a b => Js.sub (MonthlyRanking.hours a) (MonthlyRanking.hours b))
         (JsArray.nonNull (List.map underPerformerOf activeContractorsWithData))) in
  let totalHours :=
    fold_left (fun sum data => Js.add sum (ProductivityData.productiveHours data))
              monthData (Js.ofZ 0) in
  let avgHours :=
    if Nat.ltb 0 (List.length monthData)
    then Js.div totalHours (Js.ofNat (List.length monthData))
    else Js.ofZ 0 in
  let contractorsWithProductivity := filter hasProductivity activeContractorsWithData in
  let aboveThreshold :=
    List.length (filter isAboveThreshold contractorsWithProductivity) in
  let thresholdPercentage :=
    if Nat.ltb 0 (List.length contractorsWithProductivity)
    then Js.mul (Js.div (Js.ofNat aboveThreshold)
                        (Js.ofNat (List.length contractorsWithProductivity)))
                (Js.ofZ 100)
    else Js.ofZ 0 in
  mkSummary (List.length (filter isActive contractors))
            (roundToCents totalHours)
            (roundToCents avgHours)
            (Js.round thresholdPercentage)
            topPerformers
            underPerformers
            currentMonth.

End Routes.

(* ================================================================== *)
(** * The client CSV parser: [CSVParser] *)
(* ================================================================== *)

Module CSVParser.

Definition validMonths : list string :=
  ["Jan"; "Feb"; "Mar"; "Apr"; "May"; "Jun";
   "Jul"; "Aug"; "Sep"; "Oct"; "Nov"; "Dec"].

(** [validMonths.includes(monthAbbr)]. *)
Definition isValidMonth (monthAbbr : string) : bool :=
  existsb (String.eqb monthAbbr) validMonths.

(** The five rules of [validateEmployeeData]. *)
Inductive Rule : Type :=
  | EmployeeNumberRange
  | MonthAbbreviation
  | ProductivityRange
  | HoursNegative
  | ProductiveExceedsTotal.

Definition rules : list Rule :=
  [EmployeeNumberRange; MonthAbbreviation; ProductivityRange; HoursNegative;
   ProductiveExceedsTotal].

(** [/^[A-Za-z]{3}-\d{2}$/]. *)
Definition isValidMonthFormat (month : string) : bool :=
  match month with
  | String a (String b (String c (String "-" (String d (String e EmptyString))))) =>
      Js.isLetter a && Js.isLetter b && Js.isLetter c && Js.isDigit d && Js.isDigit e
  | _ => false
  end.

Section Arithmetic.
(** The numbers of the rows and the operations on them. *)
Context {N : Type} {arithmetic : Number.Arithmetic N}.

Record CSVRow : Type := mkRow {
  empNo : N;
  name : string;
  month : string;
  productiveHours : string;
  hours : N;
  productivity : N
}.

Definition parseProductiveHours (productiveHoursStr : string) : N :=
  let decimal :=
    let parsed := Number.parseFloat productiveHoursStr in
    if Number.isNaN parsed then Number.ofZ 0 else parsed in
  if Js.includes ":" productiveHoursStr
  then
    let parts := Js.split ":" productiveHoursStr in
    if Nat.leb 2 (List.length parts)
    then
      let hours :=
        Number.orElse (Number.parseInt (nth 0 parts EmptyString)) (Number.ofZ 0) in
      let minutes :=
        Number.orElse (Number.parseInt (nth 1 parts EmptyString)) (Number.ofZ 0) in
      let seconds :=
        if Nat.ltb 2 (List.length parts)
        then Number.orElse (Number.parseInt (nth 2 parts EmptyString)) (Number.ofZ 0)
        else Number.ofZ 0 in
      Number.add (Number.add hours (Number.div minutes (Number.ofZ 60)))
                 (Number.div seconds (Number.ofZ 3600))
    else decimal
  else decimal.

(** [row.month.split('-')[0]]. *)
Definition monthAbbrOf (row : CSVRow) : string :=
  nth 0 (Js.split "-" (month row)) EmptyString.

(** The condition of the [if] of each rule. *)
Definition offends (rule : Rule) (row : CSVRow) : bool :=
  match rule with
  | EmployeeNumberRange =>
      Number.lt (empNo row) (Number.ofZ 1) || Number.gt (empNo row) (Number.ofZ 999)
  | MonthAbbreviation => negb (isValidMonth (monthAbbrOf row))
  | ProductivityRange =>
      Number.lt (productivity row) (Number.ofZ 0)
      || Number.gt (productivity row) (Number.ofZ 100)
  | HoursNegative => Number.lt (hours row) (Number.ofZ 0)
  | ProductiveExceedsTotal =>
      Number.gt (parseProductiveHours (productiveHours row)) (hours row)
  end.

Section Messages.
(** [n.toFixed(2)] and a number in a template literal. *)
Variable toFixed2 : N -> string.
Variable numberToString : N -> string.

(** The message pushed by each rule, for the row numbered [rowNum]. *)
Definition message (rule : Rule) (rowNum : nat) (row : CSVRow) : string :=
  ("Row " ++ Js.natToString rowNum ++ ": " ++
   match rule with
   | EmployeeNumberRange => "Employee number should be between 1 and 999"
   | MonthAbbreviation =>
       "Invalid month abbreviation " ++ String Js.quote (monthAbbrOf row)
       ++ String Js.quote
            ". Use standard 3-letter abbreviations (Jan, Feb, etc.)"
   | ProductivityRange => "Productivity should be between 0 and 100"
   | HoursNegative => "Hours cannot be negative"
   | ProductiveExceedsTotal =>
       "Productive hours (" ++ toFixed2 (parseProductiveHours (productiveHours row))
       ++ ") cannot exceed total hours (" ++ numberToString (hours row) ++ ")"
   end)%string.

(** One [if] of the body: it pushes its message or nothing. *)
Definition check (rule : Rule) (rowNum : nat) (row : CSVRow) (errors : list string)
  : list string :=
  if offends rule row then errors ++ [message rule rowNum row] else errors.

(** The callback of [data.forEach]: the five checks in their order. *)
Definition validateRow (row : CSVRow) (index : nat) (errors : list string)
  : list string :=
  let rowNum := index + 2 in
  let errors := check EmployeeNumberRange rowNum row errors in
  let errors := check MonthAbbreviation rowNum row errors in
  let errors := check ProductivityRange rowNum row errors in
  let errors := check HoursNegative rowNum row errors in
  check ProductiveExceedsTotal rowNum row errors.

Fixpoint validateFrom (index : nat) (data : list CSVRow) (errors : list string)
  : list string :=
  match data with
  | [] => errors
  | row :: rest => validateFrom (S index) rest (validateRow row index errors)
  end.

Definition validateEmployeeData (data : list CSVRow) : list string :=
  validateFrom 0 data [].
End Messages.

(** ** [parseCSV] *)

(** [parseNumber]: the number, or [null] when it is [NaN]; the message it
    is given is not used. *)
Definition parseNumber (value errorMessage : string) : option N :=
  let parsed := Number.parseFloat value in
  if Number.isNaN parsed then None else Some parsed.

(** What the body of the loop does with row [i]: it pushes an error, it
    pushes a row, or it goes on without either. *)
Inductive RowOutcome : Type :=
  | RowError (message : string)
  | RowData (row : CSVRow)
  | RowSkipped.

Definition parseLine (i : nat) (line : string) : RowOutcome :=
  let columns :=
    List.map (fun col => Js.replaceAll Js.quote EmptyString (Js.trim col))
             (Js.split "," line) in
  let label := ("Row " ++ Js.natToString (i + 2))%string in
  if Nat.ltb (List.length columns) 6
  then RowError (label ++ ": Insufficient columns (expected 6, got "
                   ++ Js.natToString (List.length columns) ++ ")")%string
  else
    let empNo := parseNumber (nth 0 columns EmptyString)
                             (label ++ ": Invalid employee number")%string in
    let name := nth 1 columns EmptyString in
    let month := nth 2 columns EmptyString in
    let productiveHours := nth 3 columns EmptyString in
    let hours := parseNumber (nth 4 columns EmptyString)
                             (label ++ ": Invalid hours value")%string in
    let productivity := parseNumber (nth 5 columns EmptyString)
                                    (label ++ ": Invalid productivity value")%string in
    match empNo, hours, productivity with
    | Some empNo, Some hours, Some productivity =>
        if negb (Js.nonEmpty name) || negb (Js.nonEmpty month)
        then RowError (label ++ ": Name and month are required")%string
        else if negb (isValidMonthFormat month)
        then RowError (label ++ ": Invalid month format. Expected format: Mon-YY (e.g., Aug-25)")%string
        else RowData (mkRow empNo name month productiveHours hours productivity)
    | _, _, _ => RowSkipped
    end.

Record ParsedCSVData : Type := mkParsed {
  data : list CSVRow;
  errors : list string
}.

Fixpoint parseLinesFrom (i : nat) (dataRows : list string)
         (data : list CSVRow) (errors : list string) : ParsedCSVData :=
  match dataRows with
  | [] => mkParsed data errors
  | line :: rest =>
      match parseLine i line with
      | RowError message => parseLinesFrom (S i) rest data (errors ++ [message])
      | RowData row => parseLinesFrom (S i) rest (data ++ [row]) errors
      | RowSkipped => parseLinesFrom (S i) rest data errors
      end
  end.

Definition parseCSV (csvContent : string) : ParsedCSVData :=
  let lines := Routes.nonBlankLines csvContent in
  if Nat.ltb (List.length lines) 2
  then mkParsed [] ["CSV file must contain headers and at least one data row"]
  else parseLinesFrom 0 (tl lines) [] [].

(** A row of [convertToInsertData]. *)
Record InsertRow : Type := mkInsert {
  employeeId : N;
  insertMonth : string;
  insertProductiveHours : N;
  insertTotalHours : N;
  insertProductivity : N
}.

Definition convertToInsertData (csvRows : list CSVRow) : list InsertRow :=
  List.map (fun row =>
              mkInsert (empNo row) (month row)
                       (parseProductiveHours (productiveHours row))
                       (hours row) (productivity row))
           csvRows.
End Arithmetic.

Arguments CSVRow N : clear implicits.
Arguments RowOutcome N : clear implicits.
Arguments ParsedCSVData N : clear implicits.
Arguments InsertRow N : clear implicits.

End CSVParser.

(* ================================================================== *)
(** * CSV export: [server/csv-utils.ts] and the client [csv-utils] *)
(* ================================================================== *)

Module CsvUtils.

(** A cell: [string | number | null | undefined]. *)
Inductive Value : Type :=
  | Str (s : string)
  | Number (n : Js.number)
  | Null
  | Undefined.

(** [/^[=+\-@\t]/.test(s)]. *)
Definition startsDangerous (s : string) : bool :=
  match s with
  | String c _ =>
      Ascii.eqb c "=" || Ascii.eqb c "+" || Ascii.eqb c "-" || Ascii.eqb c "@"
      || Ascii.eqb c "009"
  | EmptyString => false
  end.

Definition needsQuoting (s : string) : bool :=
  Js.includes "," s || Js.includes Js.quote s || Js.includes "010" s
  || Js.includes "013" s.

(** The two steps that follow [String(value)]. *)
Definition escapeString (s : string) : string :=
  let stringValue :=
    if startsDangerous (Js.trim s) then String "'" s else s in
  if needsQuoting stringValue
  then (String Js.quote
          (Js.replaceAll Js.quote (String Js.quote (String Js.quote EmptyString))
                         stringValue)
        ++ String Js.quote EmptyString)%string
  else stringValue.

Section Rendering.
(** [String(n)] for a number. *)
Variable numberToString : Js.number -> string.

(** [escapeCsvField] of the server. *)
Definition escapeCsvField (value : Value) : string :=
  match value with
  | Null | Undefined => EmptyString
  | Str s => escapeString s
  | Number n => escapeString (numberToString n)
  end.

(** The byte order mark, as the three bytes UTF-8 gives it. *)
Definition BOM : string := Routes.BOM.

Definition generateCsv (data : list (list Value)) : string :=
  let csvContent :=
    Js.join (String "010" EmptyString)
            (List.map (fun row => Js.join "," (List.map escapeCsvField row)) data) in
  (BOM ++ csvContent)%string.

(** [escapeCsvValue] of the client: the same two steps. *)
Definition escapeCsvValue (value : Value) : string :=
  match value with
  | Null | Undefined => EmptyString
  | Str s => escapeString s
  | Number n => escapeString (numberToString n)
  end.

Definition createCsvContent (headers : list string) (rows : list (list Value))
  : string :=
  let utf8Bom := BOM in
  let csvHeaders := Js.join "," (List.map (fun h => escapeCsvValue (Str h)) headers) in
  let csvRows := List.map (fun row => Js.join "," (List.map escapeCsvValue row)) rows in
  (utf8Bom ++ Js.join (String "010" EmptyString) (csvHeaders :: csvRows))%string.
End Rendering.

End CsvUtils.


(* ================================================================== *)
(** * [server/routes.ts]: the export routes *)
(* ================================================================== *)

Module Exports.
Section Rendering.
(** [String(n)], [n.toFixed(1)] and [n.toFixed(2)] for a number. *)
Variable numberToString : Js.number -> string.
Variable toFixed1 : Js.number -> string.
Variable toFixed2 : Js.number -> string.

Definition header (names : list string) : list CsvUtils.Value :=
  List.map CsvUtils.Str names.

Definition statusText (s : Status) : string :=
  match s with active => "active" | archived => "archived" end.

Definition contractorsHeaders : list string :=
  ["ID"; "Name"; "Work Location"; "Position"; "Start Date"; "Status"].

(** [GET /api/export/contractors], from the contractors of the store. *)
Definition exportContractors (contractors : list Contractor.t) : string :=
  let rows :=
    List.map (fun contractor =>
                [CsvUtils.Number (Js.ofZ (Contractor.id contractor));
                 CsvUtils.Str (Contractor.name contractor);
                 CsvUtils.Str (Contractor.workLocation contractor);
                 CsvUtils.Str (Contractor.position contractor);
                 CsvUtils.Str (Contractor.startDate contractor);
                 CsvUtils.Str (statusText (Contractor.status contractor))])
             contractors in
  CsvUtils.generateCsv numberToString (header contractorsHeaders :: rows).

Definition productivityHeaders : list string :=
  ["Contractor ID"; "Name"; "Month"; "Productive Hours"; "Total Hours";
   "Productivity %"].

(** [GET /api/export/productivity/:month], from the records of the month
    and the contractors of the store. *)
Definition exportProductivity (data : list ProductivityData.t)
           (contractors : list Contractor.t) : string :=
  let contractorsMap :=
    fold_left (fun m c => JsMap.set Z.eqb (Contractor.id c) (Contractor.name c) m)
              contractors (JsMap.empty Z string) in
  let rows :=
    List.map (fun item =>
                [CsvUtils.Number (Js.ofZ (ProductivityData.contractorId item));
                 CsvUtils.Str
                   (Js.orString
                      (JsMap.get Z.eqb (ProductivityData.contractorId item) contractorsMap)
                      "Unknown");
                 CsvUtils.Str (ProductivityData.month item);
                 CsvUtils.Str (toFixed2 (ProductivityData.productiveHours item));
                 CsvUtils.Str (toFixed2 (ProductivityData.totalHours item));
                 CsvUtils.Str (toFixed1 (ProductivityData.productivity item))])
             data in
  CsvUtils.generateCsv numberToString (header productivityHeaders :: rows).

Definition rankingsHeaders : list string :=
  ["Rank"; "Contractor ID"; "Name"; "Month"; "Productive Hours"].

(** [GET /api/export/rankings/:month], from the ranking of the month. *)
Definition exportRankings (rankings : list MonthlyRanking.t) : string :=
  let rows :=
    List.map (fun ranking =>
                [CsvUtils.Number (Js.ofNat (MonthlyRanking.rank ranking));
                 CsvUtils.Number (Js.ofZ (MonthlyRanking.contractorId ranking));
                 CsvUtils.Str (MonthlyRanking.name ranking);
                 CsvUtils.Str (MonthlyRanking.month ranking);
                 CsvUtils.Str (toFixed2 (MonthlyRanking.hours ranking))])
             rankings in
  CsvUtils.generateCsv numberToString (header rankingsHeaders :: rows).

Definition underPerformersHeaders : list string :=
  ["Contractor ID"; "Name"; "Month"; "Productive Hours"; "Productivity %";
   "Threshold Type"].

(** [GET /api/export/under-performers/:month], from the under-performers
    of the month and the contractors of the store. *)
Definition exportUnderPerformers (underPerformers : list MonthlyRanking.t)
           (contractors : list Contractor.t) : string :=
  let rows :=
    List.map (fun performer =>
                let contractor :=
                  JsArray.find (fun c => Z.eqb (Contractor.id c)
                                               (MonthlyRanking.contractorId performer))
                               contractors in
                let contractorType :=
                  Js.orString (option_map Contractor.contractorType contractor)
                              "Full Time" in
                let threshold :=
                  if String.eqb contractorType "Part Time" then "< 50h" else "< 100h" in
                [CsvUtils.Number (Js.ofZ (MonthlyRanking.contractorId performer));
                 CsvUtils.Str (MonthlyRanking.name performer);
                 CsvUtils.Str (MonthlyRanking.month performer);
                 CsvUtils.Str (toFixed2 (MonthlyRanking.hours performer));
                 CsvUtils.Str
                   (toFixed1 (Js.mul (Js.div (MonthlyRanking.hours performer)
                                             (Js.ofZ 160))
                                     (Js.ofZ 100)));
                 CsvUtils.Str (contractorType ++ " " ++ threshold)%string])
             underPerformers in
  CsvUtils.generateCsv numberToString (header underPerformersHeaders :: rows).
End Rendering.
End Exports.

(* ================================================================== *)
(** * The two stores behind the upload handler *)
(* ================================================================== *)

(** The handler calls [storage.getContractor(empNo)] with the number
    [parseInt] returned and hands the rows it built to
    [storage.bulkCreateProductivityData].  The stores keep contractor ids
    as integers; a row reaches the store only after a contractor was found
    under its id. *)
Module Backend.

Definition toInsert (row : Routes.DataToInsert) : InsertProductivityData.t :=
  InsertProductivityData.mk
    (match Js.toInteger (Routes.contractorId row) with Some z => z | None => 0%Z end)
    (Routes.month row) (Routes.productiveHours row) (Routes.totalHours row)
    (Routes.productivity row).

(** [Map.get] finds nothing under a number that is no key. *)
Definition memGetContractor (empNo : Js.number) (st : MemStorage.t) : Routes.Lookup :=
  match Js.toInteger empNo with
  | Some id =>
      match MemStorage.getContractor id st with
      | Some c => Routes.Found c
      | None => Routes.Missing
      end
  | None => Routes.Missing
  end.

(** The database driver refuses a parameter that is no integer, with a
    message of its own, [driverMessage]. *)
Definition dbGetContractor (driverMessage : string) (empNo : Js.number)
           (db : DatabaseStorage.t) : Routes.Lookup :=
  match Js.toInteger empNo with
  | Some id =>
      match DatabaseStorage.getContractor id db with
      | Some c => Routes.Found c
      | None => Routes.Missing
      end
  | None => Routes.Thrown driverMessage
  end.

Section Clock.
Variable real : Js.number -> option Js.number.
Variable now : nat -> Date.
Variable randomUUID : nat -> string.

Definition memBulkCreate (rows : list Routes.DataToInsert) (st : MemStorage.t)
  : list ProductivityData.t * MemStorage.t :=
  MemStorage.bulkCreateProductivityData now randomUUID (List.map toInsert rows) st.

Definition dbBulkCreate (rows : list Routes.DataToInsert) (db : DatabaseStorage.t)
  : option (list ProductivityData.t) * DatabaseStorage.t :=
  DatabaseStorage.bulkCreateProductivityData real now randomUUID
                                             (List.map toInsert rows) db.
End Clock.

(** The roster handler hands the contractors it built to
    [storage.bulkCreateContractors]: an id that [parseInt] gave, eight
    strings and the status ['active']; the contractor type is left out.
    The ids have passed the insert schema. *)
Definition toInsertContractor (row : Routes.ContractorToInsert) : InsertContractor.t :=
  InsertContractor.mk
    (match Js.toInteger (Routes.rosterId row) with Some z => z | None => 0%Z end)
    (Routes.rosterName row)
    (Some (Routes.rosterPersonalEmail row))
    (Some (Routes.rosterWorkEmail row))
    (Some (Routes.rosterWorkLocation row))
    (Some (Routes.rosterPosition row))
    (Some (Routes.rosterStartDate row))
    (Some (Routes.rosterSeparationDate row))
    (Some (Routes.rosterBirthday row))
    None
    active.

(** The in-memory store never throws. *)
Definition memBulkCreateContractors (rows : list Routes.ContractorToInsert)
           (st : MemStorage.t) : option (list Contractor.t * MemStorage.t) :=
  Some (MemStorage.bulkCreateContractors (List.map toInsertContractor rows) st).

Definition dbBulkCreateContractors (rows : list Routes.ContractorToInsert)
           (db : DatabaseStorage.t) : option (list Contractor.t * DatabaseStorage.t) :=
  DatabaseStorage.bulkCreateContractors (List.map toInsertContractor rows) db.

End Backend.

(* ================================================================== *)
(** * Vocabulary of the properties *)
(* ================================================================== *)

Module Spec.

Section Orders.
Variable R : Type.

(** For a sort whose comparison is [before]: [a] may stand in front of
    [b], because [b] need not precede it. *)
Definition mayPrecede (before : R -> R -> bool) (a b : R) : Prop := before b a = false.

(** A three-way comparison that is a total preorder. *)
Record TotalPreorder (c : R -> R -> comparison) : Prop := {
  antisym : forall a b, c b a = CompOpp (c a b);
  le_trans : forall x y z, c x y <> Gt -> c y z <> Gt -> c x z <> Gt
}.

Variables c1 c2 : R -> R -> comparison.

(** [a] is strictly before [b]: on the first comparison, then on the
    second. *)
Definition lexBefore (a b : R) : bool :=
  match c1 a b with
  | Lt => true
  | Eq => match c2 a b with Lt => true | _ => false end
  | Gt => false
  end.

(** [a] is before [b] or ties with it. *)
Definition lexLe (a b : R) : Prop :=
  c1 a b = Lt \/ (c1 a b = Eq /\ c2 a b <> Gt).
End Orders.

(** A row of the join of the two tables. *)
Abbreviation Row := (ProductivityData.t * Contractor.t)%type.

(** More hours first. *)
Definition byHoursDesc (a b : Row) : comparison :=
  DatabaseStorage.pgCompare (DatabaseStorage.hoursOf b) (DatabaseStorage.hoursOf a).
(** Fewer hours first. *)
Definition byHoursAsc (a b : Row) : comparison :=
  DatabaseStorage.pgCompare (DatabaseStorage.hoursOf a) (DatabaseStorage.hoursOf b).
(** Higher productivity first. *)
Definition byProductivityDesc (a b : Row) : comparison :=
  DatabaseStorage.pgCompare (DatabaseStorage.productivityOf b)
                            (DatabaseStorage.productivityOf a).

(** The order of the full ranking: more hours first, and on equal hours
    the higher productivity first. *)
Definition rankedNoLater (a b : Row) : Prop :=
  DatabaseStorage.pgCompare (DatabaseStorage.hoursOf a) (DatabaseStorage.hoursOf b) = Gt
  \/ (DatabaseStorage.pgCompare (DatabaseStorage.hoursOf a) (DatabaseStorage.hoursOf b) = Eq
      /\ DatabaseStorage.pgCompare (DatabaseStorage.productivityOf a)
                                   (DatabaseStorage.productivityOf b) <> Lt).

(** The order of the under-performers: fewer hours first, and on equal
    hours the higher productivity first. *)
Definition worstNoLater (a b : Row) : Prop :=
  DatabaseStorage.pgCompare (DatabaseStorage.hoursOf a) (DatabaseStorage.hoursOf b) = Lt
  \/ (DatabaseStorage.pgCompare (DatabaseStorage.hoursOf a) (DatabaseStorage.hoursOf b) = Eq
      /\ DatabaseStorage.pgCompare (DatabaseStorage.productivityOf a)
                                   (DatabaseStorage.productivityOf b) <> Lt).

(** Who stands where in a ranking: contractor and rank. *)
Definition placing (r : MonthlyRanking.t) : Z * nat :=
  (MonthlyRanking.contractorId r, MonthlyRanking.rank r).

(** What a stored record says of a contractor: hours and productivity. *)
Definition figures (r : ProductivityData.t) : Z * Js.number * Js.number :=
  (ProductivityData.contractorId r, ProductivityData.productiveHours r,
   ProductivityData.productivity r).

(** The month shape of the specification: two digits, a dash, three
    letters. *)
Definition dayMonShape (month : string) : Prop :=
  exists d1 d2 c1 c2 c3,
    month = String d1 (String d2 (String "-" (String c1 (String c2 (String c3 EmptyString)))))
    /\ Js.isDigit d1 = true /\ Js.isDigit d2 = true
    /\ Js.isLetter c1 = true /\ Js.isLetter c2 = true /\ Js.isLetter c3 = true.

(** The month shape the handler rewrites: two digits, a dash, three word
    characters (letters, digits or underscore). *)
Definition dayWordShape (month : string) : Prop :=
  exists d1 d2 c1 c2 c3,
    month = String d1 (String d2 (String "-" (String c1 (String c2 (String c3 EmptyString)))))
    /\ Js.isDigit d1 = true /\ Js.isDigit d2 = true
    /\ Js.isWord c1 = true /\ Js.isWord c2 = true /\ Js.isWord c3 = true.

(** The errors and the rows among the outcomes of the data rows, in
    their order. *)
Definition errorsOf (D : Type) (outcomes : list (string + D)) : list string :=
  flat_map (fun o => match o with inl e => [e] | inr _ => [] end) outcomes.
Definition rowsOf (D : Type) (outcomes : list (string + D)) : list D :=
  flat_map (fun o => match o with inl _ => [] | inr d => [d] end) outcomes.

(** The messages of one row of the validator: one for each rule the row
    offends, in the order of the rules; [index] counts the rows from 0. *)
Definition messagesOf {N : Type} {arithmetic : Number.Arithmetic N}
           (toFixed2 numberToString : N -> string)
           (row : CSVParser.CSVRow N) (index : nat) : list string :=
  List.map (fun rule => CSVParser.message toFixed2 numberToString rule (index + 2) row)
           (filter (fun rule => CSVParser.offends rule row) CSVParser.rules).

(** The rule of the specification for a field of productive hours: a
    field with a colon is read as hours, minutes and seconds and stands
    for H + M/60 + S/3600, any other field is read as a decimal, and what
    does not read as a number stands for 0.  The parts are the pieces
    between the colons, of which the first three count; a part that is
    missing counts for 0 like one that is no number. *)
Definition hoursOfField {N : Type} {arithmetic : Number.Arithmetic N}
           (field : string) : N :=
  let part (text : option string) : N :=
    match text with
    | Some t => Number.orElse (Number.parseInt t) (Number.ofZ 0)
    | None => Number.ofZ 0
    end in
  match Js.split ":" field with
  | h :: m :: rest =>
      Number.add (Number.add (part (Some h))
                             (Number.div (part (Some m)) (Number.ofZ 60)))
                 (Number.div (part (List.hd_error rest)) (Number.ofZ 3600))
  | _ =>
      if Number.isNaN (Number.parseFloat field) then Number.ofZ 0
      else Number.parseFloat field
  end.

(** A field between double quotes with its double quotes doubled. *)
Definition quoted (s : string) : string :=
  (String Js.quote
     (Js.replaceAll Js.quote (String Js.quote (String Js.quote EmptyString)) s)
   ++ String Js.quote EmptyString)%string.

(** Reading doubled double quotes back: each pair gives one. *)
Fixpoint undouble (s : string) : string :=
  match s with
  | String a (String b r as rest) =>
      if Ascii.eqb a Js.quote && Ascii.eqb b Js.quote
      then String Js.quote (undouble r)
      else String a (undouble rest)
  | _ => s
  end.

(** A field as the export writes it before any quoting: with a single
    quote in front when its trimmed text starts like a formula. *)
Definition neutralized (s : string) : string :=
  if CsvUtils.startsDangerous (Js.trim s) then String "'" s else s.

(** The text of a cell: [String(value)], and nothing for [null] and
    [undefined]. *)
Definition textOf (numberToString : Js.number -> string) (value : CsvUtils.Value)
  : string :=
  match value with
  | CsvUtils.Str s => s
  | CsvUtils.Number n => numberToString n
  | CsvUtils.Null | CsvUtils.Undefined => EmptyString
  end.

(** A request passes the origin check of the deletion: it has no
    [Origin] header, or an empty one, or one whose host is the [Host]
    header. *)
Definition originAccepted (hostOfUrl : string -> option string)
           (origin host : option string) : Prop :=
  match origin with
  | Some o =>
      Js.nonEmpty o = true ->
      exists h, hostOfUrl o = Some h /\ host = Some h
  | None => True
  end.

(** How many entries a limit keeps of a ranking of [n] entries: the
    first [k] for a positive [k], and all but the last [-k] for a
    negative one. *)
Definition kept (k : Z) (n : nat) : nat :=
  if (0 <? k)%Z then Nat.min (Z.to_nat k) n else n - Z.to_nat (- k).

(** The table [contractors] under its primary key. *)
Definition primaryKey (db : DatabaseStorage.t) : Prop :=
  NoDup (List.map Contractor.id (DatabaseStorage.contractors db)).

(** The ids of the contractors of the relational store. *)
Definition idsOf (db : DatabaseStorage.t) : list Z :=
  List.map Contractor.id (DatabaseStorage.contractors db).

(** A patch that sets the status and nothing else. *)
Definition statusPatch (s : Status) : ContractorPatch.t :=
  ContractorPatch.mk None None None None None None None None None (Some s) None.

(** The last of the rows of an upload that carry the id. *)
Definition lastWith (id : Z) (data : list InsertContractor.t)
  : option InsertContractor.t :=
  List.find (fun c => Z.eqb (InsertContractor.id c) id) (rev data).

(** The answers of [checkRateLimit] to one client that tries at the
    given times, one after the other. *)
Fixpoint attemptsAt (ip : string) (times : list Z)
         (loginAttempts : JsMap.t string Routes.Attempts) : list bool :=
  match times with
  | [] => []
  | now :: rest =>
      let (allowed, loginAttempts') := Routes.checkRateLimit now ip loginAttempts in
      allowed :: attemptsAt ip rest loginAttempts'
  end.

(** At the time [now] the client has no window open: no attempt is on
    record for it, or the window of the record is over. *)
Definition noWindow (now : Z) (ip : string)
           (loginAttempts : JsMap.t string Routes.Attempts) : Prop :=
  match JsMap.get String.eqb ip loginAttempts with
  | None => True
  | Some attempts => (now > Routes.resetTime attempts)%Z
  end.

(** The contractor the relational store keeps for a row of the roster. *)
Definition rosterContractor (row : Routes.ContractorToInsert) : Contractor.t :=
  DatabaseStorage.inserted (Backend.toInsertContractor row).

(** The ids of the rows of a roster. *)
Definition rosterIds (rows : list Routes.ContractorToInsert) : list Z :=
  List.map (fun row => InsertContractor.id (Backend.toInsertContractor row)) rows.

(** The rows and the errors among the outcomes of the lines of the
    client parser, in their order. *)
Definition parsedRows (N : Type) (outcomes : list (CSVParser.RowOutcome N))
  : list (CSVParser.CSVRow N) :=
  flat_map (fun o => match o with CSVParser.RowData row => [row] | _ => [] end)
           outcomes.
Definition parsedErrors (N : Type) (outcomes : list (CSVParser.RowOutcome N))
  : list string :=
  flat_map (fun o => match o with CSVParser.RowError message => [message] | _ => [] end)
           outcomes.

(** The columns the client parser cuts a line into. *)
Definition clientColumns (line : string) : list string :=
  List.map (fun col => Js.replaceAll Js.quote EmptyString (Js.trim col))
           (Js.split "," line).

(** [a] has at most the hours of [b]. *)
Definition atMost (a b : MonthlyRanking.t) : Prop :=
  Js.le (MonthlyRanking.hours a) (MonthlyRanking.hours b) = true.

(** A row of the join of the tables of a store: a record of the month
    with the contractor it names. *)
Definition joined (month : string) (db : DatabaseStorage.t) (row : Row) : Prop :=
  In (fst row) (DatabaseStorage.productivityData db)
  /\ In (snd row) (DatabaseStorage.contractors db)
  /\ Contractor.id (snd row) = ProductivityData.contractorId (fst row)
  /\ ProductivityData.month (fst row) = month.

(** The last of the items of an upload that name the contractor and the
    month. *)
Definition names (contractorId : Z) (month : string)
           (item : InsertProductivityData.t) : bool :=
  Z.eqb (InsertProductivityData.contractorId item) contractorId
  && String.eqb (InsertProductivityData.month item) month.
Definition lastItemFor (contractorId : Z) (month : string)
           (data : list InsertProductivityData.t) : option InsertProductivityData.t :=
  List.find (names contractorId month) (rev data).

(** The items of an upload that the relational store writes: all of
    them, or those before the first of which a [real] column refuses a
    measure, where the loop of the store stops. *)
Fixpoint written (real : Js.number -> option Js.number)
         (data : list InsertProductivityData.t) : list InsertProductivityData.t :=
  match data with
  | [] => []
  | item :: rest =>
      match DatabaseStorage.stored real item with
      | Some _ => item :: written real rest
      | None => []
      end
  end.

(** The characters that start a formula in a spreadsheet. *)
Definition startsFormula (c : ascii) : bool :=
  Ascii.eqb c "=" || Ascii.eqb c "+" || Ascii.eqb c "-" || Ascii.eqb c "@".

(** A field in the time format: three parts between colons. *)
Definition timeOf (h m s : string) : string := (h ++ ":" ++ m ++ ":" ++ s)%string.

(** The records of a contractor in a month. *)
Definition hasPair (contractorId : Z) (month : string) (r : ProductivityData.t) : bool :=
  Z.eqb (ProductivityData.contractorId r) contractorId
  && String.eqb (ProductivityData.month r) month.
Definition recordsFor (contractorId : Z) (month : string)
           (records : list ProductivityData.t) : list ProductivityData.t :=
  filter (hasPair contractorId month) records.

(** At most one record for each contractor and month. *)
Definition atMostOnePerPair (records : list ProductivityData.t) : Prop :=
  forall contractorId month,
    (List.length (recordsFor contractorId month records) <= 1)%nat.

(** The record [r] holds the values written by [item] at time [stamp]. *)
Definition carries (item : InsertProductivityData.t) (stamp : Date)
           (r : ProductivityData.t) : Prop :=
  ProductivityData.contractorId r = InsertProductivityData.contractorId item
  /\ ProductivityData.month r = InsertProductivityData.month item
  /\ ProductivityData.productiveHours r = InsertProductivityData.productiveHours item
  /\ ProductivityData.totalHours r = InsertProductivityData.totalHours item
  /\ ProductivityData.productivity r = InsertProductivityData.productivity item
  /\ ProductivityData.createdAt r = stamp.

(** The in-memory store as its own operations leave it: one entry for
    each key, and each record under the key of its contractor and month. *)
Definition memConsistent (st : MemStorage.t) : Prop :=
  NoDup (JsMap.keys (MemStorage.productivityData st))
  /\ forall key r,
       In (key, r) (MemStorage.productivityData st) ->
       key = MemStorage.dataKey (ProductivityData.contractorId r)
                                (ProductivityData.month r).

Definition pairOf (r : ProductivityData.t) : Z * string :=
  (ProductivityData.contractorId r, ProductivityData.month r).

(** An operation of the in-memory store that leaves every record with
    its contractor and month: every operation but an update whose patch
    names another contractor or another month than those it is called
    with. *)
Definition keepsPair (op : MemStorage.Op) : Prop :=
  match op with
  | MemStorage.UpdateProductivityData contractorId month data =>
      (ProductivityPatch.contractorId data = None
       \/ ProductivityPatch.contractorId data = Some contractorId)
      /\ (ProductivityPatch.month data = None
          \/ ProductivityPatch.month data = Some month)
  | _ => True
  end.

(** The table [productivity_data] under its unique constraint. *)
Definition dbConsistent (db : DatabaseStorage.t) : Prop :=
  NoDup (List.map pairOf (DatabaseStorage.productivityData db)).

(** What the archiving [UPDATE] does to one row. *)
Definition archiveRow (id : Z) (c : Contractor.t) : Contractor.t :=
  if Z.eqb (Contractor.id c) id then Contractor.withStatus archived c else c.

(** The status a store shows for a contractor. *)
Definition statusOf (contractor : option Contractor.t) : option Status :=
  option_map Contractor.status contractor.

(** An entry of a ranking whose hours are a finite number. *)
Definition finiteHours (r : MonthlyRanking.t) : Prop :=
  exists q, MonthlyRanking.hours r = Js.Num q.

(** [a] has at least the hours of [b]. *)
Definition atLeast (a b : MonthlyRanking.t) : Prop :=
  Js.ge (MonthlyRanking.hours a) (MonthlyRanking.hours b) = true.

(** The two comparisons the in-memory store sorts with. *)
Definition hoursDescending (a b : MonthlyRanking.t) : bool :=
  Js.lt (Js.sub (MonthlyRanking.hours b) (MonthlyRanking.hours a)) (Js.ofZ 0).
Definition hoursAscending (a b : MonthlyRanking.t) : bool :=
  Js.lt (Js.sub (MonthlyRanking.hours a) (MonthlyRanking.hours b)) (Js.ofZ 0).

End Spec.

(* ================================================================== *)
(** * Concrete stores and files of the examples *)
(* ================================================================== *)

Module Scenario.

Definition clock (n : nat) : Date := (1756684800000 + Z.of_nat n)%Z.
Definition uuid (n : nat) : string := "uuid-" ++ Js.natToString n.

Definition contractor (id : Z) (name contractorType : string) : Contractor.t :=
  Contractor.mk id name EmptyString EmptyString EmptyString EmptyString
                EmptyString EmptyString EmptyString active contractorType.

Definition record (contractorId : Z) (month : string)
           (productiveHours totalHours productivity : Q) : InsertProductivityData.t :=
  InsertProductivityData.mk contractorId month (Js.Num productiveHours)
                            (Js.Num totalHours) (Js.Num productivity).

Definition roster : list Contractor.t :=
  [contractor 1 "Ann" "Full Time"; contractor 2 "Bob" "Full Time"].

(** Two contractors with the same hours in one month; the second has the
    higher productivity. *)
Definition tiedUpload : list InsertProductivityData.t :=
  [record 1 "Aug-25" 120 130 50; record 2 "Aug-25" 120 130 90].

(** The same with hours under the threshold. *)
Definition tiedLowUpload : list InsertProductivityData.t :=
  [record 1 "Aug-25" 40 130 50; record 2 "Aug-25" 40 130 90].

(** Two writes for contractor 1 in August. *)
Definition firstWrite : InsertProductivityData.t := record 1 "Aug-25" 100 120 80.
Definition secondWrite : InsertProductivityData.t :=
  record 1 "Aug-25" 114.65 120.17 95.2.

(** A write with more digits than single precision holds. *)
Definition preciseWrite : InsertProductivityData.t :=
  record 1 "Aug-25" 100.123456789 120.17 95.2.

(** A write for contractor 1 in September. *)
Definition septemberWrite : InsertProductivityData.t := record 1 "Sep-25" 90 120 75.

(** A patch that sets the month and nothing else. *)
Definition monthPatch (month : string) : ProductivityPatch.t :=
  ProductivityPatch.mk None None (Some month) None None None None.

Definition memRoster : MemStorage.t := MemStorage.initializeData roster [].
Definition dbRoster : DatabaseStorage.t := DatabaseStorage.mk roster [] 0 0.

Definition memAfter (upload : list InsertProductivityData.t) : MemStorage.t :=
  snd (MemStorage.bulkCreateProductivityData clock uuid upload
         (MemStorage.initializeData roster [])).

Definition dbAfter (upload : list InsertProductivityData.t) : DatabaseStorage.t :=
  snd (DatabaseStorage.bulkCreateProductivityData Pg.real clock uuid upload
         (DatabaseStorage.mk roster [] 0 0)).

(** A row of the client parser whose productive hours, 127:27:36, are its
    total hours, 127.46, up to the rounding of the sum. *)
Definition roundedRow {N : Type} {arithmetic : Number.Arithmetic N}
  : CSVParser.CSVRow N :=
  CSVParser.mkRow (Number.ofZ 1) "Ann" "Aug-25" "127:27:36"
                  (Number.parseFloat "127.46") (Number.ofZ 95).

(** [n] nines. *)
Fixpoint nines (n : nat) : string :=
  match n with
  | O => EmptyString
  | S k => String "9" (nines k)
  end.

(** Hours of 400 nines with minutes of minus 400 nines: both are beyond
    the doubles. *)
Definition beyondDoubles : string := (nines 400 ++ ":-" ++ nines 400)%string.

(** A file from its lines. *)
Definition file (lines : list string) : string :=
  Js.join (String "010" EmptyString) lines.

(** What zod answers on the row: a number must not be [NaN]. *)
Definition schemaError (row : Routes.DataToInsert) : option string :=
  if Js.isNaN (Routes.contractorId row) || Js.isNaN (Routes.productiveHours row)
     || Js.isNaN (Routes.totalHours row) || Js.isNaN (Routes.productivity row)
  then Some "Expected number, received nan" else None.

(** An integer or [NaN] in a template literal. *)
Definition numberToString (n : Js.number) : string :=
  match n with
  | Js.NaN => "NaN"
  | Js.Infinity negative => if negative then "-Infinity" else "Infinity"
  | Js.Num q => Js.intToString (Z.quot (Qnum q) (Z.pos (Qden q)))
  end.

(** The upload handler over the in-memory store holding the roster. *)
Definition uploadCsv (csvContent : string)
  : Routes.Response ProductivityData.t * MemStorage.t :=
  Routes.uploadCsv Backend.memGetContractor (Backend.memBulkCreate clock uuid)
                   schemaError numberToString (Some csvContent) memRoster.

Definition productivityHeaderLine : string :=
  "Emp No.,Name,Month,Productive Hours,Hours,Productivity".
Definition rosterHeaderLine : string :=
  "Name,ID,Personal Email,Work Email,Work Location,Position,Start Date,Separation Date,Birthday".

(** A roster file whose header is in lower case. *)
Definition lowerCaseRoster : string :=
  file ["name,id,personal email,work email,work location,position,start date,separation date,birthday";
        "Ann,1,,,,,,,"].

(** A roster file with a tenth column. *)
Definition widerRoster : string :=
  file [(rosterHeaderLine ++ ",Notes")%string; "Ann,1,,,,,,,,x"].

(** A productivity file whose header is in lower case with wide gaps. *)
Definition lowerCaseProductivity : string :=
  file ["emp  no.,name,month,productive   hours,hours,productivity";
        "1,Ann,Aug-25,114:39:00,120.17,95.20"].

(** A roster file sent to the productivity upload. *)
Definition rosterSentAsProductivity : string :=
  file [rosterHeaderLine; "Ann,1,,,,,,,"].

(** A productivity file with a blank line after the header and a short
    row on the third line of the file. *)
Definition blankLineThenShortRow : string :=
  file [productivityHeaderLine; EmptyString; "x"].

(** The file of the end-to-end scenario: contractor 1 and an unknown
    contractor 999. *)
Definition oneGoodOneUnknown : string :=
  file [productivityHeaderLine;
        "1,Ann,Aug-25,114:39:00,120.17,95.20";
        "999,Ghost,Aug-25,1:00:00,2,50"].

(** A contractor to create, with every column that may be left out left
    out. *)
Definition newcomer (id : Z) (name : string) : InsertContractor.t :=
  InsertContractor.mk id name None None None None None None None None active.

(** A schema that accepts every contractor of a roster. *)
Definition contractorSchemaError (row : Routes.ContractorToInsert) : option string :=
  None.

(** A roster file with a newcomer and a row whose id is no number. *)
Definition newcomers : string :=
  file [rosterHeaderLine; "Cyd,3,,,,,,,"; "Dee,x,,,,,,,"].

(** A roster file that names contractor 1 of the roster again. *)
Definition rosterAgain : string :=
  file [rosterHeaderLine; "Cyd,3,,,,,,,"; "Ann,1,,,,,,,"].

End Scenario.
(* ================================================================== *)
(** * Facts about arrays: sorting and numbering *)
(* ================================================================== *)

Module ArrayFacts.
Section Sorting.
Variable A : Type.
Variable before : A -> A -> bool.

Local Abbreviation mayPrecede := (Spec.mayPrecede before).

Lemma insert_perm (x : A) (l : list A) :
  Permutation (JsArray.insert before x l) (x :: l).
Proof.
  induction l as [|y r IH]; simpl.
  - apply Permutation_refl.
  - destruct (before y x).
    + apply Permutation_trans with (y :: x :: r).
      * now apply perm_skip.
      * apply perm_swap.
    + apply Permutation_refl.
Qed.

Lemma sortBy_perm (l : list A) : Permutation (JsArray.sortBy before l) l.
Proof.
  induction l as [|x r IH]; simpl.
  - constructor.
  - eapply Permutation_trans; [apply insert_perm|]. now apply perm_skip.
Qed.

Lemma sortBy_length (l : list A) : List.length (JsArray.sortBy before l) = List.length l.
Proof. apply Permutation_length, sortBy_perm. Qed.

Lemma sortBy_In (l : list A) (x : A) : In x (JsArray.sortBy before l) <-> In x l.
Proof.
  split; apply Permutation_in; [|apply Permutation_sym]; apply sortBy_perm.
Qed.

(** The sort is correct on the elements on which the comparison is an
    order: [P] selects them. *)
Variable P : A -> Prop.
Hypothesis before_asym :
  forall a b, P a -> P b -> before a b = true -> before b a = false.
Hypothesis mayPrecede_trans :
  forall a b c, P a -> P b -> P c ->
                mayPrecede a b -> mayPrecede b c -> mayPrecede a c.

Lemma insert_sorted (x : A) (l : list A) :
  P x -> Forall P l -> StronglySorted mayPrecede l ->
  StronglySorted mayPrecede (JsArray.insert before x l).
Proof.
  intros Px Pl Hs. induction Hs as [|y r Hr IH Hy]; simpl.
  - constructor; constructor.
  - inversion Pl as [|? ? Py Pr]; subst.
    destruct (before y x) eqn:E.
    + constructor; [now apply IH|].
      apply Forall_forall. intros z Hz.
      apply (Permutation_in _ (insert_perm x r)) in Hz.
      destruct Hz as [<-|Hz].
      * unfold Spec.mayPrecede. now apply before_asym.
      * rewrite Forall_forall in Hy. now apply Hy.
    + constructor; [now constructor|].
      constructor; [exact E|].
      rewrite Forall_forall in Hy, Pr. apply Forall_forall. intros z Hz.
      apply mayPrecede_trans with y;
        [exact Px | exact Py | now apply Pr | exact E | now apply Hy].
Qed.

Lemma sortBy_sorted (l : list A) :
  Forall P l -> StronglySorted mayPrecede (JsArray.sortBy before l).
Proof.
  induction l as [|x r IH]; simpl; intros Pl.
  - constructor.
  - inversion Pl as [|? ? Px Pr]; subst.
    apply insert_sorted; [exact Px | | apply IH; exact Pr].
    apply Forall_forall. intros z Hz.
    apply (proj1 (sortBy_In r z)) in Hz.
    rewrite Forall_forall in Pr. now apply Pr.
Qed.
End Sorting.

Section Numbering.
Variables A B : Type.
Variable f : A -> nat -> B.

Lemma mapFrom_length (start : nat) (l : list A) :
  List.length (JsArray.mapFrom f start l) = List.length l.
Proof. revert start. induction l; simpl; intros; [|rewrite IHl]; reflexivity. Qed.

Lemma mapFrom_nth_error (start : nat) (l : list A) (i : nat) :
  nth_error (JsArray.mapFrom f start l) i
  = option_map (fun x => f x (start + i)) (nth_error l i).
Proof.
  revert start i. induction l as [|x r IH]; intros start [|i]; simpl; try reflexivity.
  - now rewrite Nat.add_0_r.
  - rewrite IH. now rewrite Nat.add_succ_comm.
Qed.

(** When the numbered element carries its index plus one, the numbers
    are [start + 1], [start + 2], ... without gap. *)
Lemma mapFrom_ranks (rank : B -> nat) (start : nat) (l : list A) :
  (forall x i, rank (f x i) = i + 1) ->
  List.map rank (JsArray.mapFrom f start l) = seq (start + 1) (List.length l).
Proof.
  intros Hr. revert start. induction l as [|x r IH]; simpl; intros start.
  - reflexivity.
  - rewrite Hr, IH. reflexivity.
Qed.
End Numbering.
End ArrayFacts.

(* ================================================================== *)
(** * Facts about comparisons *)
(* ================================================================== *)

Module OrderFacts.

Import Spec.

Section Preorder.
Variable R : Type.
Variable c : R -> R -> comparison.
Hypothesis ord : TotalPreorder c.

Lemma le_ge_eq (a b : R) : c a b <> Gt -> c b a <> Gt -> c a b = Eq.
Proof.
  intros Hab Hba. rewrite (antisym ord a b) in Hba.
  destruct (c a b); simpl in *; congruence.
Qed.

Lemma lt_le_trans (x y z : R) : c x y = Lt -> c y z <> Gt -> c x z = Lt.
Proof.
  intros Hxy Hyz.
  assert (Hxz : c x z <> Gt) by (apply (le_trans ord) with y; congruence).
  destruct (c x z) eqn:E; try congruence. exfalso.
  assert (Hzx : c z x <> Gt) by (rewrite (antisym ord x z), E; simpl; congruence).
  assert (Hyx : c y x <> Gt) by (apply (le_trans ord) with z; assumption).
  rewrite (antisym ord x y), Hxy in Hyx. simpl in Hyx. congruence.
Qed.

Lemma le_lt_trans (x y z : R) : c x y <> Gt -> c y z = Lt -> c x z = Lt.
Proof.
  intros Hxy Hyz.
  assert (Hxz : c x z <> Gt) by (apply (le_trans ord) with y; congruence).
  destruct (c x z) eqn:E; try congruence. exfalso.
  assert (Hzx : c z x <> Gt) by (rewrite (antisym ord x z), E; simpl; congruence).
  assert (Hzy : c z y <> Gt) by (apply (le_trans ord) with x; assumption).
  rewrite (antisym ord y z), Hyz in Hzy. simpl in Hzy. congruence.
Qed.

Lemma eq_trans (x y z : R) : c x y = Eq -> c y z = Eq -> c x z = Eq.
Proof.
  intros Hxy Hyz. apply le_ge_eq.
  - apply (le_trans ord) with y; congruence.
  - apply (le_trans ord) with y; rewrite (antisym ord); [rewrite Hyz|rewrite Hxy];
      simpl; congruence.
Qed.

(** The comparison read through a key, and turned around. *)
Lemma on_key (S : Type) (key : S -> R) :
  TotalPreorder (fun a b => c (key a) (key b)).
Proof.
  split; intros.
  - apply (antisym ord).
  - now apply (le_trans ord) with (key y).
Qed.

Lemma flipped : TotalPreorder (fun a b => c b a).
Proof.
  split; intros.
  - apply (antisym ord).
  - now apply (le_trans ord) with y.
Qed.
End Preorder.

Section Lexicographic.
Variable R : Type.
Variables c1 c2 : R -> R -> comparison.
Hypothesis ord1 : TotalPreorder c1.
Hypothesis ord2 : TotalPreorder c2.

Local Abbreviation lexBefore := (Spec.lexBefore c1 c2).
Local Abbreviation lexLe := (Spec.lexLe c1 c2).

Lemma lexBefore_false (a b : R) : lexBefore b a = false <-> lexLe a b.
Proof.
  unfold Spec.lexBefore, Spec.lexLe.
  rewrite (antisym ord1 a b), (antisym ord2 a b).
  destruct (c1 a b), (c2 a b); simpl; intuition congruence.
Qed.

Lemma lexBefore_asym (a b : R) : lexBefore a b = true -> lexBefore b a = false.
Proof.
  unfold Spec.lexBefore. rewrite (antisym ord1 a b), (antisym ord2 a b).
  destruct (c1 a b), (c2 a b); simpl; congruence.
Qed.

Lemma lexLe_trans (x y z : R) : lexLe x y -> lexLe y z -> lexLe x z.
Proof.
  unfold Spec.lexLe. intros [H1|[H1 H2]] [H3|[H3 H4]].
  - left. apply (lt_le_trans ord1) with y; congruence.
  - left. apply (lt_le_trans ord1) with y; congruence.
  - left. apply (le_lt_trans ord1) with y; congruence.
  - right. split.
    + now apply (eq_trans ord1) with y.
    + now apply (le_trans ord2) with y.
Qed.

Lemma lexBefore_mayPrecede_trans (x y z : R) :
  Spec.mayPrecede lexBefore x y -> Spec.mayPrecede lexBefore y z ->
  Spec.mayPrecede lexBefore x z.
Proof.
  unfold Spec.mayPrecede. rewrite !lexBefore_false. apply lexLe_trans.
Qed.

(** Sorting with a lexicographic comparison sorts. *)
Lemma sortBy_lex_sorted (l : list R) :
  StronglySorted lexLe (JsArray.sortBy lexBefore l).
Proof.
  assert (H : StronglySorted (Spec.mayPrecede lexBefore)
                             (JsArray.sortBy lexBefore l)).
  { apply ArrayFacts.sortBy_sorted with (P := fun _ => True).
    - intros a b _ _. apply lexBefore_asym.
    - intros a b d _ _ _. apply lexBefore_mayPrecede_trans.
    - apply Forall_forall. intros; exact I. }
  induction H as [|a r Hr IH Ha]; constructor; [exact IH|].
  eapply Forall_impl; [|exact Ha].
  intros b Hb. now apply lexBefore_false.
Qed.
End Lexicographic.
End OrderFacts.

(* ================================================================== *)
(** * Rankings of the relational store *)
(* ================================================================== *)

Module DatabaseRankingFacts.
Import DatabaseStorage Spec.

Lemma pgCompare_preorder : Spec.TotalPreorder pgCompare.
Proof.
  split.
  - intros [x| |s] [y| |t]; simpl; try reflexivity.
    + symmetry. apply Qcompare_antisym.
    + now destruct t.
    + now destruct s.
    + now destruct s, t.
  - intros [x| |s] [y| |t] [z| |u]; simpl; try congruence;
      try (destruct s); try (destruct t); try (destruct u); try congruence.
    rewrite <- !Qle_alt. apply Qle_trans.
Qed.


Lemma byHoursDesc_preorder : Spec.TotalPreorder byHoursDesc.
Proof. exact (OrderFacts.flipped (OrderFacts.on_key pgCompare_preorder hoursOf)). Qed.

Lemma byHoursAsc_preorder : Spec.TotalPreorder byHoursAsc.
Proof. exact (OrderFacts.on_key pgCompare_preorder hoursOf). Qed.

Lemma byProductivityDesc_preorder : Spec.TotalPreorder byProductivityDesc.
Proof.
  exact (OrderFacts.flipped (OrderFacts.on_key pgCompare_preorder productivityOf)).
Qed.

Lemma desc_is_lex (a b : Row) :
  hoursDescThenProductivityDesc a b
  = Spec.lexBefore byHoursDesc byProductivityDesc a b.
Proof.
  unfold hoursDescThenProductivityDesc, Spec.lexBefore,
    byHoursDesc, byProductivityDesc, pgGt.
  rewrite (Spec.antisym pgCompare_preorder (hoursOf a) (hoursOf b)).
  rewrite (Spec.antisym pgCompare_preorder (productivityOf a) (productivityOf b)).
  destruct (pgCompare (hoursOf a) (hoursOf b)),
           (pgCompare (productivityOf a) (productivityOf b)); reflexivity.
Qed.

Lemma asc_is_lex (a b : Row) :
  hoursAscThenProductivityDesc a b
  = Spec.lexBefore byHoursAsc byProductivityDesc a b.
Proof.
  unfold hoursAscThenProductivityDesc, Spec.lexBefore,
    byHoursAsc, byProductivityDesc, pgGt.
  rewrite (Spec.antisym pgCompare_preorder (productivityOf a) (productivityOf b)).
  destruct (pgCompare (hoursOf a) (hoursOf b)),
           (pgCompare (productivityOf a) (productivityOf b)); reflexivity.
Qed.

Lemma sortBy_ext (A : Type) (f g : A -> A -> bool) (l : list A) :
  (forall a b, f a b = g a b) -> JsArray.sortBy f l = JsArray.sortBy g l.
Proof.
  intros E. induction l as [|x r IH]; simpl; [reflexivity|].
  rewrite IH. generalize (JsArray.sortBy g r). intros s.
  induction s as [|y s IHs]; simpl; [reflexivity|].
  now rewrite E, IHs.
Qed.

Lemma lexLe_rankedNoLater (a b : Row) :
  Spec.lexLe byHoursDesc byProductivityDesc a b <-> rankedNoLater a b.
Proof.
  unfold Spec.lexLe, rankedNoLater, byHoursDesc, byProductivityDesc.
  rewrite (Spec.antisym pgCompare_preorder (hoursOf a) (hoursOf b)).
  rewrite (Spec.antisym pgCompare_preorder (productivityOf a) (productivityOf b)).
  destruct (pgCompare (hoursOf a) (hoursOf b)),
           (pgCompare (productivityOf a) (productivityOf b));
    simpl; intuition congruence.
Qed.

Lemma lexLe_worstNoLater (a b : Row) :
  Spec.lexLe byHoursAsc byProductivityDesc a b <-> worstNoLater a b.
Proof.
  unfold Spec.lexLe, worstNoLater, byHoursAsc, byProductivityDesc.
  rewrite (Spec.antisym pgCompare_preorder (productivityOf a) (productivityOf b)).
  destruct (pgCompare (hoursOf a) (hoursOf b)),
           (pgCompare (productivityOf a) (productivityOf b));
    simpl; intuition congruence.
Qed.

Lemma sorted_desc (rows : list Row) :
  StronglySorted rankedNoLater (JsArray.sortBy hoursDescThenProductivityDesc rows).
Proof.
  rewrite (@sortBy_ext Row hoursDescThenProductivityDesc
             (Spec.lexBefore byHoursDesc byProductivityDesc) rows desc_is_lex).
  generalize (OrderFacts.sortBy_lex_sorted byHoursDesc_preorder
                byProductivityDesc_preorder rows).
  generalize (JsArray.sortBy (Spec.lexBefore byHoursDesc byProductivityDesc) rows).
  intros l H. induction H as [|a r Hr IH Ha]; constructor; [exact IH|].
  eapply Forall_impl; [|exact Ha]. intros b. apply lexLe_rankedNoLater.
Qed.

Lemma sorted_asc (rows : list Row) :
  StronglySorted worstNoLater (JsArray.sortBy hoursAscThenProductivityDesc rows).
Proof.
  rewrite (@sortBy_ext Row hoursAscThenProductivityDesc
             (Spec.lexBefore byHoursAsc byProductivityDesc) rows asc_is_lex).
  generalize (OrderFacts.sortBy_lex_sorted byHoursAsc_preorder
                byProductivityDesc_preorder rows).
  generalize (JsArray.sortBy (Spec.lexBefore byHoursAsc byProductivityDesc) rows).
  intros l H. induction H as [|a r Hr IH Ha]; constructor; [exact IH|].
  eapply Forall_impl; [|exact Ha]. intros b. apply lexLe_worstNoLater.
Qed.

Lemma ranked_rank (row : Row) (i : nat) : MonthlyRanking.rank (ranked row i) = i + 1.
Proof. reflexivity. Qed.

(** X22. The ranking read from the database: the joined rows of the
    month, in the order of the ranking, numbered 1, 2, ... *)
Theorem db_rankings_sorted_dense (month : string) (db : t) :
  exists sorted : list Row,
    Permutation sorted (monthRows month db)
    /\ StronglySorted rankedNoLater sorted
    /\ getMonthlyRankings month db = JsArray.mapi ranked sorted
    /\ List.map MonthlyRanking.rank (getMonthlyRankings month db)
       = seq 1 (List.length (monthRows month db)).
Proof.
  exists (JsArray.sortBy hoursDescThenProductivityDesc (monthRows month db)).
  split; [apply ArrayFacts.sortBy_perm|].
  split; [apply sorted_desc|].
  split; [reflexivity|].
  unfold getMonthlyRankings, JsArray.mapi.
  rewrite (ArrayFacts.mapFrom_ranks ranked MonthlyRanking.rank 0 _ ranked_rank).
  now rewrite ArrayFacts.sortBy_length.
Qed.

(** With [contractors.id] a key, the join keeps one row for each record
    whose contractor is on the roster and drops the other records. *)
Lemma innerJoin_records (ps : list ProductivityData.t) (cs : list Contractor.t) :
  NoDup (List.map Contractor.id cs) ->
  List.map fst (innerJoin ps cs)
  = filter (fun p => existsb (fun c => Z.eqb (Contractor.id c)
                                             (ProductivityData.contractorId p)) cs) ps.
Proof.
  intros Hkey. unfold innerJoin.
  induction ps as [|p ps IH]; simpl; [reflexivity|].
  rewrite List.map_app, IH, List.map_map. simpl.
  set (k := ProductivityData.contractorId p).
  assert (H : List.map (fun _ : Contractor.t => p)
                       (filter (fun c => Z.eqb (Contractor.id c) k) cs)
              = if existsb (fun c => Z.eqb (Contractor.id c) k) cs then [p] else []).
  { clear IH. induction cs as [|c cs IHc]; simpl; [reflexivity|].
    inversion Hkey as [|? ? Hnot Hrest]; subst.
    destruct (Z.eqb (Contractor.id c) k) eqn:E; simpl.
    - apply Z.eqb_eq in E.
      assert (Hnone : filter (fun c0 => Z.eqb (Contractor.id c0) k) cs = []).
      { clear IHc Hkey Hrest. induction cs as [|c' cs IHn]; simpl; [reflexivity|].
        destruct (Z.eqb (Contractor.id c') k) eqn:E'.
        - exfalso. apply Hnot. apply Z.eqb_eq in E'. left. congruence.
        - apply IHn. intros Hin. apply Hnot. now right. }
      now rewrite Hnone.
    - now apply IHc. }
  rewrite H. now destruct (existsb _ cs).
Qed.

(** X24. Every record of the month is ranked when its contractor
    exists. *)
Theorem db_rankings_cover_month (month : string) (db : t) :
  NoDup (List.map Contractor.id (contractors db)) ->
  (forall p, In p (productivityData db) ->
             exists c, In c (contractors db)
                       /\ Contractor.id c = ProductivityData.contractorId p) ->
  List.map fst (monthRows month db) = getProductivityDataByMonth month db.
Proof.
  intros Hkey Hfk. unfold monthRows, getProductivityDataByMonth.
  assert (Hall : List.map fst (innerJoin (productivityData db) (contractors db))
                 = productivityData db).
  { rewrite (innerJoin_records (productivityData db) (contractors db) Hkey).
    apply List.forallb_filter_id. apply List.forallb_forall. intros p Hp.
    apply List.existsb_exists. destruct (Hfk p Hp) as [c [Hc Hid]].
    exists c. split; [exact Hc|]. now apply Z.eqb_eq. }
  rewrite <- Hall at 2.
  generalize (innerJoin (productivityData db) (contractors db)). intros rows.
  induction rows as [|r rows IH]; simpl; [reflexivity|].
  destruct (String.eqb (ProductivityData.month (fst r)) month); simpl; now rewrite IH.
Qed.

(** The under-performers read from the database. *)
Theorem db_underPerformers_sorted_dense (month : string) (threshold : Js.number) (db : t) :
  exists sorted : list Row,
    Permutation sorted (filter underThreshold (monthRows month db))
    /\ StronglySorted worstNoLater sorted
    /\ getUnderPerformers month threshold db = JsArray.mapi ranked sorted
    /\ List.map MonthlyRanking.rank (getUnderPerformers month threshold db)
       = seq 1 (List.length (filter underThreshold (monthRows month db))).
Proof.
  exists (JsArray.sortBy hoursAscThenProductivityDesc
            (filter underThreshold (monthRows month db))).
  split; [apply ArrayFacts.sortBy_perm|].
  split; [apply sorted_asc|].
  split; [reflexivity|].
  unfold getUnderPerformers, JsArray.mapi.
  rewrite (ArrayFacts.mapFrom_ranks ranked MonthlyRanking.rank 0 _ ranked_rank).
  now rewrite ArrayFacts.sortBy_length.
Qed.

(** The filter of the under-performers, spelled out. *)
Lemma underThreshold_spec (row : Row) :
  underThreshold row = true <->
  pgCompare (hoursOf row) (Js.ofZ 0) = Gt
  /\ ((Contractor.contractorType (snd row) = "Full Time"
       /\ pgCompare (hoursOf row) (Js.ofZ 100) = Lt)
      \/ (Contractor.contractorType (snd row) = "Part Time"
          /\ pgCompare (hoursOf row) (Js.ofZ 50) = Lt)).
Proof.
  unfold underThreshold, pgGt, pgLt.
  rewrite Bool.andb_true_iff, Bool.orb_true_iff, !Bool.andb_true_iff, !String.eqb_eq.
  destruct (pgCompare (hoursOf row) (Js.ofZ 0)),
           (pgCompare (hoursOf row) (Js.ofZ 100)),
           (pgCompare (hoursOf row) (Js.ofZ 50)); intuition congruence.
Qed.

(** No record of zero hours is an under-performer of the database. *)
Theorem db_underPerformers_positive (month : string) (threshold : Js.number) (db : t) :
  Forall (fun r => pgCompare (MonthlyRanking.hours r) (Js.ofZ 0) = Gt)
         (getUnderPerformers month threshold db).
Proof.
  unfold getUnderPerformers, JsArray.mapi.
  assert (H : Forall (fun row => pgCompare (hoursOf row) (Js.ofZ 0) = Gt)
                (JsArray.sortBy hoursAscThenProductivityDesc
                   (filter underThreshold (monthRows month db)))).
  { apply Forall_forall. intros row Hrow.
    apply (proj1 (ArrayFacts.sortBy_In _ _ _)) in Hrow.
    apply List.filter_In in Hrow. destruct Hrow as [_ Hu].
    now apply underThreshold_spec in Hu. }
  revert H. generalize 0%nat.
  generalize (JsArray.sortBy hoursAscThenProductivityDesc
                (filter underThreshold (monthRows month db))).
  intros l. induction l as [|row l IH]; simpl; intros n H; constructor.
  - inversion H; subst. assumption.
  - apply IH. now inversion H.
Qed.
End DatabaseRankingFacts.

(* ================================================================== *)
(** * Rankings of the in-memory store *)
(* ================================================================== *)

Module MemRankingFacts.
Import MemStorage Spec.


Lemma lt_sub_zero (x y : Q) :
  Js.lt (Js.sub (Js.Num x) (Js.Num y)) (Js.ofZ 0) = Js.lt (Js.Num x) (Js.Num y).
Proof.
  change (match (x + - y ?= inject_Z 0)%Q with Lt => true | _ => false end
          = match (x ?= y)%Q with Lt => true | _ => false end).
  destruct (x ?= y)%Q eqn:E.
  - apply Qeq_alt in E.
    assert (H : (x + - y ?= inject_Z 0)%Q = Eq)
      by (apply (proj1 (Qeq_alt _ _)); rewrite E; unfold inject_Z; ring).
    now rewrite H.
  - apply Qlt_alt in E.
    assert (H : (x + - y ?= inject_Z 0)%Q = Lt)
      by (apply (proj1 (Qlt_alt _ _)); unfold inject_Z; lra).
    now rewrite H.
  - apply Qgt_alt in E.
    assert (H : (x + - y ?= inject_Z 0)%Q = Gt)
      by (apply (proj1 (Qgt_alt _ _)); unfold inject_Z; lra).
    now rewrite H.
Qed.

Lemma lt_false_ge (x y : Q) :
  Js.lt (Js.Num x) (Js.Num y) = false <-> Js.ge (Js.Num x) (Js.Num y) = true.
Proof.
  unfold Js.ge, Js.le. destruct (Js.lt (Js.Num x) (Js.Num y)); simpl; intuition congruence.
Qed.

Lemma lt_asym (x y : Q) :
  Js.lt (Js.Num x) (Js.Num y) = true -> Js.lt (Js.Num y) (Js.Num x) = false.
Proof.
  unfold Js.lt. destruct (x ?= y)%Q eqn:E; try discriminate. intros _.
  apply Qlt_alt in E. destruct (y ?= x)%Q eqn:F; try reflexivity.
  apply Qlt_alt in F. lra.
Qed.

Lemma ge_trans (x y z : Q) :
  Js.lt (Js.Num x) (Js.Num y) = false -> Js.lt (Js.Num y) (Js.Num z) = false ->
  Js.lt (Js.Num x) (Js.Num z) = false.
Proof.
  unfold Js.lt.
  destruct (x ?= y)%Q eqn:E; try discriminate;
    destruct (y ?= z)%Q eqn:F; try discriminate; intros _ _;
    destruct (x ?= z)%Q eqn:G; try reflexivity; exfalso;
    apply Qlt_alt in G;
    try apply Qeq_alt in E; try apply Qgt_alt in E;
    try apply Qeq_alt in F; try apply Qgt_alt in F; lra.
Qed.

(** On finite hours the comparison [(a, b) => b.hours - a.hours] sorts by
    descending hours. *)
Lemma sort_descending_sorted (l : list MonthlyRanking.t) :
  Forall finiteHours l ->
  StronglySorted atLeast
    (JsArray.sort (fun a b => Js.sub (MonthlyRanking.hours b) (MonthlyRanking.hours a)) l).
Proof.
  intros Hfin. unfold JsArray.sort.
  assert (H : StronglySorted (Spec.mayPrecede hoursDescending)
                (JsArray.sortBy hoursDescending l)).
  { apply ArrayFacts.sortBy_sorted with (P := finiteHours); [| |exact Hfin].
    - intros a b [x Ha] [y Hb]. unfold hoursDescending. rewrite Ha, Hb, !lt_sub_zero.
      apply lt_asym.
    - intros a b c [x Ha] [y Hb] [z Hc]. unfold Spec.mayPrecede, hoursDescending.
      rewrite Ha, Hb, Hc, !lt_sub_zero. apply ge_trans. }
  assert (Hf : Forall finiteHours (JsArray.sortBy hoursDescending l)).
  { apply Forall_forall. intros r Hr. apply (proj1 (ArrayFacts.sortBy_In _ _ _)) in Hr.
    rewrite Forall_forall in Hfin. now apply Hfin. }
  change (StronglySorted atLeast (JsArray.sortBy hoursDescending l)).
  induction H as [|a r Hr IH Ha]; constructor.
  - apply IH. now inversion Hf.
  - inversion Hf as [|? ? Fa Fr]; subst.
    rewrite Forall_forall in Ha, Fr. apply Forall_forall. intros b Hb.
    specialize (Ha b Hb). destruct Fa as [x Hx], (Fr b Hb) as [y Hy].
    unfold Spec.mayPrecede, hoursDescending in Ha. unfold atLeast.
    rewrite Hx, Hy in *. rewrite lt_sub_zero in Ha.
    now apply lt_false_ge.
Qed.

Lemma withRank_rank (item : MonthlyRanking.t) (i : nat) :
  MonthlyRanking.rank (withRank item i) = i + 1.
Proof. reflexivity. Qed.

(** X23. The ranking of the in-memory store: every record of the month,
    by descending hours, numbered 1, 2, ...  Productivity plays no part. *)
Theorem mem_rankings_sorted_dense (month : string) (st : t) :
  let entries := List.map (unranked (getAllContractors st) month)
                          (getProductivityDataByMonth month st) in
  Forall finiteHours entries ->
  exists sorted : list MonthlyRanking.t,
    Permutation sorted entries
    /\ StronglySorted atLeast sorted
    /\ getMonthlyRankings month st = JsArray.mapi withRank sorted
    /\ List.map MonthlyRanking.rank (getMonthlyRankings month st)
       = seq 1 (List.length (getProductivityDataByMonth month st)).
Proof.
  intros entries Hfin.
  exists (JsArray.sort
            (fun a b => Js.sub (MonthlyRanking.hours b) (MonthlyRanking.hours a)) entries).
  split; [apply ArrayFacts.sortBy_perm|].
  split; [now apply sort_descending_sorted|].
  split; [reflexivity|].
  unfold getMonthlyRankings, JsArray.mapi.
  rewrite (ArrayFacts.mapFrom_ranks withRank MonthlyRanking.rank 0 _ withRank_rank).
  unfold JsArray.sort. now rewrite ArrayFacts.sortBy_length, List.length_map.
Qed.

(** The under-performers of the in-memory store have positive hours under
    the threshold of their contractor. *)
Lemma isUnderPerformer_spec (cs : list Contractor.t) (data : ProductivityData.t) :
  isUnderPerformer cs data = true <->
  exists contractor,
    findContractor (ProductivityData.contractorId data) cs = Some contractor
    /\ Js.le (ProductivityData.productiveHours data) (Js.ofZ 0) = false
    /\ Js.lt (ProductivityData.productiveHours data)
             (if String.eqb (Contractor.contractorType contractor) "Part Time"
              then Js.ofZ 50 else Js.ofZ 100) = true.
Proof.
  unfold isUnderPerformer.
  destruct (findContractor (ProductivityData.contractorId data) cs) as [c|].
  - destruct (Js.le (ProductivityData.productiveHours data) (Js.ofZ 0)) eqn:E.
    + split; [discriminate|]. intros [c' [H [H0 _]]]. congruence.
    + split.
      * intros H. exists c. auto.
      * intros [c' [H [_ H1]]]. inversion H; subst. exact H1.
  - split; [discriminate|]. intros [c' [H _]]. discriminate.
Qed.

Theorem mem_underPerformers_dense (month : string) (threshold : Js.number) (st : t) :
  List.map MonthlyRanking.rank (getUnderPerformers month threshold st)
  = seq 1 (List.length (filter (isUnderPerformer (getAllContractors st))
                                (getProductivityDataByMonth month st))).
Proof.
  unfold getUnderPerformers, JsArray.mapi.
  rewrite (ArrayFacts.mapFrom_ranks withRank MonthlyRanking.rank 0 _ withRank_rank).
  unfold JsArray.sort. now rewrite ArrayFacts.sortBy_length, List.length_map.
Qed.

(** No record of zero hours, and none below, is an under-performer of the
    in-memory store. *)
Theorem mem_underPerformers_positive (month : string) (threshold : Js.number) (st : t) :
  Forall (fun r => Js.le (MonthlyRanking.hours r) (Js.ofZ 0) = false)
         (getUnderPerformers month threshold st).
Proof.
  unfold getUnderPerformers, JsArray.mapi, JsArray.sort.
  set (cs := getAllContractors st).
  set (entries := List.map (unranked cs month)
                    (filter (isUnderPerformer cs) (getProductivityDataByMonth month st))).
  assert (H : Forall (fun r => Js.le (MonthlyRanking.hours r) (Js.ofZ 0) = false)
                     (JsArray.sortBy hoursAscending entries)).
  { apply Forall_forall. intros r Hr.
    apply (proj1 (ArrayFacts.sortBy_In _ _ _)) in Hr.
    unfold entries in Hr. apply List.in_map_iff in Hr.
    destruct Hr as [data [<- Hd]]. apply List.filter_In in Hd.
    destruct Hd as [_ Hu]. apply isUnderPerformer_spec in Hu.
    destruct Hu as [c [_ [H0 _]]]. exact H0. }
  change (Forall (fun r => Js.le (MonthlyRanking.hours r) (Js.ofZ 0) = false)
            (JsArray.mapFrom withRank 0 (JsArray.sortBy hoursAscending entries))).
  revert H. generalize 0%nat. generalize (JsArray.sortBy hoursAscending entries).
  intros l. induction l as [|r l IH]; simpl; intros n H; constructor.
  - now inversion H.
  - apply IH. now inversion H.
Qed.
End MemRankingFacts.

(* ================================================================== *)
(** * The claims on rankings *)
(* ================================================================== *)

(** C1 (the code departs from the claim).  The claim: the monthly ranking
    is sorted by productive hours descending with ties broken by
    productivity descending.  After the upload of two records of one month
    with the same 120 hours, contractor 1 at 50 percent and contractor 2 at
    90 percent, the in-memory store ranks contractor 1 first and contractor
    2 second: its comparison reads the hours only and the tie keeps the
    order of insertion.  The relational store, on the same upload, ranks
    contractor 2 first, as the claim has it. *)
Theorem C1_mem_ranking_ignores_productivity_on_tie :
  List.map Spec.figures
           (MemStorage.getProductivityDataByMonth "Aug-25"
              (Scenario.memAfter Scenario.tiedUpload))
  = [(1%Z, Js.Num 120, Js.Num 50); (2%Z, Js.Num 120, Js.Num 90)]
  /\ List.map Spec.placing
              (MemStorage.getMonthlyRankings "Aug-25"
                 (Scenario.memAfter Scenario.tiedUpload))
     = [(1%Z, 1); (2%Z, 2)]
  /\ List.map Spec.placing
              (DatabaseStorage.getMonthlyRankings "Aug-25"
                 (Scenario.dbAfter Scenario.tiedUpload))
     = [(2%Z, 1); (1%Z, 2)].
Proof.
  split; [|split]; vm_compute; reflexivity.
Qed.

(** C2 (the code departs from the claim).  The claim: the under-performers
    are sorted by hours ascending with ties broken by productivity
    descending.  With two Full Time contractors at 40 hours, contractor 1
    at 50 percent and contractor 2 at 90 percent, the in-memory store lists
    contractor 1 first; the relational store lists contractor 2 first, as
    the claim has it. *)
Theorem C2_mem_underPerformers_ignore_productivity_on_tie :
  List.map Spec.figures
           (MemStorage.getProductivityDataByMonth "Aug-25"
              (Scenario.memAfter Scenario.tiedLowUpload))
  = [(1%Z, Js.Num 40, Js.Num 50); (2%Z, Js.Num 40, Js.Num 90)]
  /\ List.map Spec.placing
              (MemStorage.getUnderPerformers "Aug-25" (Js.ofZ 0)
                 (Scenario.memAfter Scenario.tiedLowUpload))
     = [(1%Z, 1); (2%Z, 2)]
  /\ List.map Spec.placing
              (DatabaseStorage.getUnderPerformers "Aug-25" (Js.ofZ 0)
                 (Scenario.dbAfter Scenario.tiedLowUpload))
     = [(2%Z, 1); (1%Z, 2)].
Proof.
  split; [|split]; vm_compute; reflexivity.
Qed.

(* ================================================================== *)
(** * Facts about maps *)
(* ================================================================== *)

Module JsMapFacts.
Section Map.
Variables K V : Type.
Variable eqb : K -> K -> bool.
Hypothesis eqb_eq : forall a b, eqb a b = true <-> a = b.

Lemma eqb_refl (k : K) : eqb k k = true.
Proof. now apply eqb_eq. Qed.

Lemma eqb_neq (a b : K) : a <> b -> eqb a b = false.
Proof.
  intros H. destruct (eqb a b) eqn:E; [|reflexivity].
  apply eqb_eq in E. contradiction.
Qed.

Lemma get_set_same (k : K) (v : V) (m : JsMap.t K V) :
  JsMap.get eqb k (JsMap.set eqb k v m) = Some v.
Proof.
  induction m as [|[k' v'] r IH]; simpl.
  - now rewrite eqb_refl.
  - destruct (eqb k' k) eqn:E; simpl; rewrite E; [reflexivity|exact IH].
Qed.

Lemma get_set_other (k k' : K) (v : V) (m : JsMap.t K V) :
  k <> k' -> JsMap.get eqb k' (JsMap.set eqb k v m) = JsMap.get eqb k' m.
Proof.
  intros Hne. induction m as [|[k0 v0] r IH]; simpl.
  - now rewrite (eqb_neq Hne).
  - destruct (eqb k0 k) eqn:E; simpl.
    + apply eqb_eq in E. subst k0. now rewrite (eqb_neq Hne).
    + now rewrite IH.
Qed.

Lemma get_In (k : K) (v : V) (m : JsMap.t K V) :
  JsMap.get eqb k m = Some v -> In (k, v) m.
Proof.
  induction m as [|[k' v'] r IH]; simpl; [discriminate|].
  destruct (eqb k' k) eqn:E.
  - intros H. inversion H; subst. apply eqb_eq in E. subst. now left.
  - intros H. right. now apply IH.
Qed.

Lemma set_In (k k' : K) (v v' : V) (m : JsMap.t K V) :
  In (k', v') (JsMap.set eqb k v m) -> (k' = k /\ v' = v) \/ In (k', v') m.
Proof.
  induction m as [|[k0 v0] r IH]; simpl.
  - intros [H|[]]. inversion H. now left.
  - destruct (eqb k0 k) eqn:E; simpl.
    + intros [H|H].
      * inversion H; subst. apply eqb_eq in E. now left.
      * right. now right.
    + intros [H|H].
      * right. now left.
      * destruct (IH H) as [H'|H']; [now left|right; now right].
Qed.

Lemma set_keys (k x : K) (v : V) (m : JsMap.t K V) :
  In x (JsMap.keys (JsMap.set eqb k v m)) -> x = k \/ In x (JsMap.keys m).
Proof.
  unfold JsMap.keys. induction m as [|[k0 v0] r IH]; simpl.
  - intros [H|[]]. now left.
  - destruct (eqb k0 k) eqn:E; simpl.
    + intros H. now right.
    + intros [H|H]; [right; now left|].
      destruct (IH H) as [H'|H']; [now left|right; now right].
Qed.

Lemma set_NoDup (k : K) (v : V) (m : JsMap.t K V) :
  NoDup (JsMap.keys m) -> NoDup (JsMap.keys (JsMap.set eqb k v m)).
Proof.
  unfold JsMap.keys. induction m as [|[k0 v0] r IH]; simpl; intros Hnd.
  - constructor; [intros []|constructor].
  - inversion Hnd as [|? ? Hnot Hr]; subst.
    destruct (eqb k0 k) eqn:E; simpl.
    + now constructor.
    + constructor; [|now apply IH].
      intros Hin. destruct (set_keys _ _ _ _ Hin) as [->|H]; [|contradiction].
      rewrite eqb_refl in E. discriminate.
Qed.

Lemma delete_In (k : K) (e : K * V) (m : JsMap.t K V) :
  In e (JsMap.delete eqb k m) -> In e m.
Proof.
  induction m as [|[k0 v0] r IH]; simpl; [tauto|].
  destruct (eqb k0 k); simpl; intuition.
Qed.

Lemma delete_NoDup (k : K) (m : JsMap.t K V) :
  NoDup (JsMap.keys m) -> NoDup (JsMap.keys (JsMap.delete eqb k m)).
Proof.
  unfold JsMap.keys. induction m as [|[k0 v0] r IH]; simpl; intros Hnd; [constructor|].
  inversion Hnd as [|? ? Hnot Hr]; subst.
  destruct (eqb k0 k); simpl; [assumption|].
  constructor; [|now apply IH].
  intros Hin. apply Hnot. apply List.in_map_iff in Hin.
  destruct Hin as [e [He Hin]]. apply List.in_map_iff. exists e.
  split; [exact He|]. now apply delete_In with k.
Qed.

Lemma filter_none (p : V -> bool) (m : JsMap.t K V) :
  (forall k' v', In (k', v') m -> p v' = false) ->
  filter p (List.map snd m) = [].
Proof.
  induction m as [|[k0 v0] r IH]; simpl; intros H; [reflexivity|].
  rewrite (H k0 v0) by now left.
  apply IH. intros k' v' Hin. apply (H k' v'). now right.
Qed.

(** In a map without repeated keys, a test that only the values under one
    key can pass selects the value under that key and nothing else. *)
Lemma filter_values_unique (p : V -> bool) (k : K) (v : V) (m : JsMap.t K V) :
  NoDup (JsMap.keys m) ->
  In (k, v) m ->
  (forall k' v', In (k', v') m -> p v' = true -> k' = k) ->
  p v = true ->
  filter p (JsMap.values m) = [v].
Proof.
  unfold JsMap.keys, JsMap.values.
  induction m as [|[k0 v0] r IH]; simpl; intros Hnd Hin Hkey Hp; [contradiction|].
  inversion Hnd as [|? ? Hnot Hr]; subst.
  assert (Hrest : forall v', In (k0, v') r -> False).
  { intros v' H. apply Hnot. apply List.in_map_iff. now exists (k0, v'). }
  destruct Hin as [Heq|Hin].
  - inversion Heq; subst. rewrite Hp. f_equal.
    apply filter_none. intros k' v' H.
    destruct (p v') eqn:E; [|reflexivity].
    exfalso. apply (Hrest v').
    assert (k' = k) by (apply (Hkey k' v'); [now right|exact E]).
    now subst k'.
  - destruct (p v0) eqn:E.
    + exfalso. assert (k0 = k) by (apply (Hkey k0 v0); [now left|exact E]).
      subst k0. now apply (Hrest v).
    + apply IH; auto. intros k' v' H. apply Hkey. now right.
Qed.

(** At most one value of a map without repeated keys passes a test that
    determines the key. *)
Lemma filter_values_at_most_one (p : V -> bool) (k : K) (m : JsMap.t K V) :
  NoDup (JsMap.keys m) ->
  (forall k' v', In (k', v') m -> p v' = true -> k' = k) ->
  (List.length (filter p (JsMap.values m)) <= 1)%nat.
Proof.
  intros Hnd Hkey.
  destruct (filter p (JsMap.values m)) as [|v l] eqn:E; [simpl; lia|].
  assert (Hv : In v (filter p (JsMap.values m))) by (rewrite E; now left).
  apply List.filter_In in Hv. destruct Hv as [Hv Hp].
  unfold JsMap.values in Hv. apply List.in_map_iff in Hv.
  destruct Hv as [[k' v'] [Heq Hin]]. simpl in Heq. subst v'.
  assert (k' = k) by (now apply (Hkey k' v)). subst k'.
  rewrite (@filter_values_unique p k v m Hnd Hin Hkey Hp) in E.
  inversion E. simpl. lia.
Qed.
End Map.
End JsMapFacts.

(* ================================================================== *)
(** * The key of a productivity record *)
(* ================================================================== *)

Module KeyFacts.

Lemma string_of_uint_no_dash (d : Decimal.uint) :
  Js.includes "-" (NilEmpty.string_of_uint d) = false.
Proof. induction d; simpl; auto. Qed.

Lemma append_dash_inj (s1 s2 m1 m2 : string) :
  Js.includes "-" s1 = false -> Js.includes "-" s2 = false ->
  (s1 ++ String "-" m1 = s2 ++ String "-" m2)%string ->
  s1 = s2 /\ m1 = m2.
Proof.
  revert s2. induction s1 as [|c1 s1 IH]; intros [|c2 s2]; simpl; intros H1 H2 E.
  - inversion E. auto.
  - inversion E; subst. rewrite Ascii.eqb_refl in H2. discriminate.
  - inversion E; subst. rewrite Ascii.eqb_refl in H1. discriminate.
  - inversion E; subst. apply Bool.orb_false_iff in H1, H2.
    destruct (IH s2 (proj2 H1) (proj2 H2) H3) as [-> ->]. auto.
Qed.

Lemma string_of_uint_inj (d1 d2 : Decimal.uint) :
  NilEmpty.string_of_uint d1 = NilEmpty.string_of_uint d2 -> d1 = d2.
Proof.
  intros E. assert (H : Some d1 = Some d2).
  { rewrite <- (NilEmpty.usu d1), <- (NilEmpty.usu d2). now rewrite E. }
  now inversion H.
Qed.

Lemma to_int_inj (a b : Z) : Z.to_int a = Z.to_int b -> a = b.
Proof.
  intros E. rewrite <- (DecimalZ.of_to a), <- (DecimalZ.of_to b). now rewrite E.
Qed.

Lemma to_int_pos_nonnil (z : Z) (d : Decimal.uint) :
  Z.to_int z = Decimal.Pos d -> d <> Decimal.Nil.
Proof.
  destruct z; simpl; intros E; inversion E; subst.
  - discriminate.
  - apply Unsigned.to_uint_nonnil.
Qed.

Lemma digits_start (d : Decimal.uint) (rest1 rest2 : string) :
  d <> Decimal.Nil ->
  (NilEmpty.string_of_uint d ++ rest1)%string <> String "-" rest2.
Proof.
  intros Hd E. destruct d; simpl in E; try discriminate. now apply Hd.
Qed.

(** The key [`${contractorId}-${month}`] determines the contractor and
    the month. *)
Lemma dataKey_inj (a b : Z) (m1 m2 : string) :
  MemStorage.dataKey a m1 = MemStorage.dataKey b m2 -> a = b /\ m1 = m2.
Proof.
  unfold MemStorage.dataKey, Js.intToString, NilEmpty.string_of_int.
  change ("-" ++ m1)%string with (String "-" m1).
  change ("-" ++ m2)%string with (String "-" m2).
  destruct (Z.to_int a) as [d1|d1] eqn:Ea, (Z.to_int b) as [d2|d2] eqn:Eb; intros E.
  - apply append_dash_inj in E; try apply string_of_uint_no_dash.
    destruct E as [E ->]. apply string_of_uint_inj in E. subst d2.
    split; [|reflexivity]. apply to_int_inj. congruence.
  - exfalso. simpl in E.
    apply (@digits_start d1 _ _ (@to_int_pos_nonnil a d1 Ea) E).
  - exfalso. simpl in E. symmetry in E.
    apply (@digits_start d2 _ _ (@to_int_pos_nonnil b d2 Eb) E).
  - simpl in E. inversion E as [E'].
    apply append_dash_inj in E'; try apply string_of_uint_no_dash.
    destruct E' as [E' ->]. apply string_of_uint_inj in E'. subst d2.
    split; [|reflexivity]. apply to_int_inj. congruence.
Qed.
End KeyFacts.

Unset Implicit Arguments.

(* ================================================================== *)
(** * Upserts of the in-memory store *)
(* ================================================================== *)

Module MemUpsertFacts.
Import MemStorage Spec.

Section Clock.
Variable now : nat -> Date.
Variable randomUUID : nat -> string.

Lemma mem_hasPair_true (c : Z) (m : string) (r : ProductivityData.t) :
  hasPair c m r = true <->
  ProductivityData.contractorId r = c /\ ProductivityData.month r = m.
Proof.
  unfold hasPair. now rewrite Bool.andb_true_iff, Z.eqb_eq, String.eqb_eq.
Qed.

Lemma mem_set_consistent (r : ProductivityData.t) (st : t) (d u : nat) :
  memConsistent st ->
  memConsistent
    (mk (contractors st)
        (JsMap.set String.eqb
           (dataKey (ProductivityData.contractorId r) (ProductivityData.month r))
           r (productivityData st))
        d u).
Proof.
  intros [Hnd Hkey]. split; simpl.
  - apply JsMapFacts.set_NoDup; [apply String.eqb_eq|exact Hnd].
  - intros key r' Hin.
    apply (JsMapFacts.set_In String.eqb String.eqb_eq) in Hin.
    destruct Hin as [[-> ->]|Hin]; [reflexivity|now apply Hkey].
Qed.

(** Under a consistent store, the record found under the key of an item
    is the record of the item's contractor and month. *)
Lemma mem_existing_pair (item : InsertProductivityData.t) (existing : ProductivityData.t) (st : t) :
  memConsistent st ->
  JsMap.get String.eqb
    (dataKey (InsertProductivityData.contractorId item)
             (InsertProductivityData.month item))
    (productivityData st) = Some existing ->
  ProductivityData.contractorId existing = InsertProductivityData.contractorId item
  /\ ProductivityData.month existing = InsertProductivityData.month item.
Proof.
  intros [_ Hkey] G.
  apply (JsMapFacts.get_In String.eqb String.eqb_eq) in G.
  apply Hkey in G. apply KeyFacts.dataKey_inj in G. destruct G; auto.
Qed.

Lemma mem_upsert_consistent (item : InsertProductivityData.t) (st : t) :
  memConsistent st -> memConsistent (snd (upsert now randomUUID item st)).
Proof.
  intros Hc. unfold upsert, createProductivityData.
  destruct (JsMap.get String.eqb _ (productivityData st)) as [existing|] eqn:G; simpl.
  - destruct (mem_existing_pair item existing st Hc G) as [Hid Hmonth].
    rewrite <- Hid, <- Hmonth.
    apply (mem_set_consistent
             (ProductivityData.refreshed item (now (dates st)) existing) st); exact Hc.
  - apply (mem_set_consistent
             (ProductivityData.fresh (randomUUID (uuids st)) item (now (dates st))) st);
      exact Hc.
Qed.

(** What one upsert leaves: one record for the item's contractor and
    month, the one it returns, holding the item's values and the reading
    of the clock taken by this write. *)
Lemma mem_upsert_result (item : InsertProductivityData.t) (st : t) :
  memConsistent st ->
  recordsFor (InsertProductivityData.contractorId item)
             (InsertProductivityData.month item)
             (getAllProductivityData (snd (upsert now randomUUID item st)))
  = [fst (upsert now randomUUID item st)]
  /\ carries item (now (dates st)) (fst (upsert now randomUUID item st))
  /\ dates (snd (upsert now randomUUID item st)) = S (dates st).
Proof.
  intros Hc.
  assert (Hc' := mem_upsert_consistent item st Hc).
  assert (Hcar : carries item (now (dates st)) (fst (upsert now randomUUID item st))
                 /\ dates (snd (upsert now randomUUID item st)) = S (dates st)
                 /\ In (dataKey (InsertProductivityData.contractorId item)
                                (InsertProductivityData.month item),
                        fst (upsert now randomUUID item st))
                       (productivityData (snd (upsert now randomUUID item st)))).
  { unfold upsert, createProductivityData.
    destruct (JsMap.get String.eqb _ (productivityData st)) as [existing|] eqn:G; simpl.
    - destruct (mem_existing_pair item existing st Hc G) as [Hid Hmonth].
      split; [unfold carries; simpl; auto 10|]. split; [reflexivity|].
      apply (JsMapFacts.get_In String.eqb String.eqb_eq).
      apply JsMapFacts.get_set_same, String.eqb_eq.
    - split; [unfold carries; simpl; auto 10|]. split; [reflexivity|].
      apply (JsMapFacts.get_In String.eqb String.eqb_eq).
      apply JsMapFacts.get_set_same, String.eqb_eq. }
  destruct Hcar as [Hcar [Hd Hin]]. split; [|split; assumption].
  destruct Hc' as [Hnd Hkey]. unfold recordsFor, getAllProductivityData.
  apply JsMapFacts.filter_values_unique
    with (k := dataKey (InsertProductivityData.contractorId item)
                       (InsertProductivityData.month item)).
  - exact Hnd.
  - exact Hin.
  - intros k' v' Hin' Hp. apply mem_hasPair_true in Hp. destruct Hp as [<- <-].
    now apply Hkey.
  - apply mem_hasPair_true. destruct Hcar as [H1 [H2 _]]. auto.
Qed.

Lemma mem_bulkFrom_consistent (data : list InsertProductivityData.t)
      (results : list ProductivityData.t) (st : t) :
  memConsistent st -> memConsistent (snd (bulkFrom now randomUUID results data st)).
Proof.
  revert results st. induction data as [|item rest IH]; intros results st Hc; simpl.
  - exact Hc.
  - destruct (upsert now randomUUID item st) as [r st'] eqn:E.
    apply IH. change st' with (snd (r, st')). rewrite <- E.
    now apply mem_upsert_consistent.
Qed.

Lemma mem_bulkFrom_length (data : list InsertProductivityData.t)
      (results : list ProductivityData.t) (st : t) :
  List.length (fst (bulkFrom now randomUUID results data st))
  = List.length results + List.length data.
Proof.
  revert results st. induction data as [|item rest IH]; intros results st; simpl.
  - lia.
  - destruct (upsert now randomUUID item st) as [r st'].
    rewrite IH, List.length_app. simpl. lia.
Qed.

Lemma mem_bulkCreate_consistent (data : list InsertProductivityData.t) (st : t) :
  memConsistent st ->
  memConsistent (snd (bulkCreateProductivityData now randomUUID data st)).
Proof. apply mem_bulkFrom_consistent. Qed.

Lemma mem_bulkCreate_single (item : InsertProductivityData.t) (st : t) :
  snd (bulkCreateProductivityData now randomUUID [item] st)
  = snd (upsert now randomUUID item st).
Proof.
  unfold bulkCreateProductivityData. simpl.
  now destruct (upsert now randomUUID item st).
Qed.

Lemma mem_createProductivityData_consistent (data : InsertProductivityData.t) (st : t) :
  memConsistent st -> memConsistent (snd (createProductivityData now randomUUID data st)).
Proof.
  intros Hc. unfold createProductivityData. simpl.
  apply (mem_set_consistent
           (ProductivityData.fresh (randomUUID (uuids st)) data (now (dates st))) st);
    exact Hc.
Qed.
End Clock.

(** An update that leaves the contractor and the month of the record
    alone keeps the store consistent. *)
Lemma mem_update_consistent (contractorId : Z) (month : string)
      (data : ProductivityPatch.t) (st : t) :
  keepsPair (UpdateProductivityData contractorId month data) ->
  memConsistent st ->
  memConsistent (snd (updateProductivityData contractorId month data st)).
Proof.
  intros [Hid Hmonth] Hc. unfold updateProductivityData.
  destruct (JsMap.get String.eqb (dataKey contractorId month) (productivityData st))
    as [existing|] eqn:G; [|exact Hc].
  assert (Hpair : ProductivityData.contractorId existing = contractorId
                  /\ ProductivityData.month existing = month).
  { destruct Hc as [_ Hkey].
    apply (JsMapFacts.get_In String.eqb String.eqb_eq) in G.
    apply Hkey in G. apply KeyFacts.dataKey_inj in G. destruct G; auto. }
  destruct Hpair as [Hc1 Hm1]. cbn [snd].
  assert (Hc2 : ProductivityData.contractorId (ProductivityPatch.apply data existing)
                = contractorId).
  { simpl. destruct Hid as [->| ->]; simpl; congruence. }
  assert (Hm2 : ProductivityData.month (ProductivityPatch.apply data existing) = month).
  { simpl. destruct Hmonth as [->| ->]; simpl; congruence. }
  rewrite <- Hc2 at 1. rewrite <- Hm2 at 1.
  apply (mem_set_consistent (ProductivityPatch.apply data existing) st); exact Hc.
Qed.

Lemma mem_archive_consistent (id : Z) (st : t) :
  memConsistent st -> memConsistent (snd (archiveContractor id st)).
Proof.
  unfold memConsistent, archiveContractor.
  now destruct (JsMap.get Z.eqb id (contractors st)).
Qed.

Lemma mem_deleteByMonth_consistent (month : string) (st : t) :
  memConsistent st -> memConsistent (snd (deleteProductivityByMonth month st)).
Proof.
  intros [Hnd Hkey]. unfold deleteProductivityByMonth, memConsistent. simpl.
  generalize (List.map fst
                (filter (fun e => String.eqb (ProductivityData.month (snd e)) month)
                        (JsMap.entries (productivityData st)))).
  intros ks. revert Hnd Hkey. generalize (productivityData st).
  induction ks as [|k ks IH]; intros m Hnd Hkey; simpl.
  - split; assumption.
  - apply IH.
    + now apply JsMapFacts.delete_NoDup.
    + intros key r Hin. apply Hkey. now apply JsMapFacts.delete_In with String.eqb k.
Qed.

Lemma mem_initializeData_consistent (cs : list Contractor.t) (ds : list ProductivityData.t) :
  memConsistent (initializeData cs ds).
Proof.
  unfold initializeData, memConsistent. simpl.
  assert (H : forall (m : JsMap.t string ProductivityData.t),
             NoDup (JsMap.keys m) ->
             (forall key r, In (key, r) m ->
                            key = dataKey (ProductivityData.contractorId r)
                                          (ProductivityData.month r)) ->
             let m' := fold_left
                         (fun m data =>
                            JsMap.set String.eqb
                              (dataKey (ProductivityData.contractorId data)
                                       (ProductivityData.month data)) data m) ds m in
             NoDup (JsMap.keys m')
             /\ (forall key r, In (key, r) m' ->
                               key = dataKey (ProductivityData.contractorId r)
                                             (ProductivityData.month r))).
  { induction ds as [|d ds IH]; intros m Hnd Hkey; simpl.
    - split; assumption.
    - apply IH.
      + apply JsMapFacts.set_NoDup; [apply String.eqb_eq|exact Hnd].
      + intros key r Hin.
        apply (JsMapFacts.set_In String.eqb String.eqb_eq) in Hin.
        destruct Hin as [[-> ->]|Hin]; [reflexivity|now apply Hkey]. }
  apply H.
  - constructor.
  - intros key r [].
Qed.

(** The operations of the store keep it consistent, as long as no update
    names another contractor or month. *)
Lemma mem_run_consistent (now : nat -> Date) (randomUUID : nat -> string)
      (ops : list Op) (st : t) :
  Forall keepsPair ops ->
  memConsistent st -> memConsistent (run now randomUUID ops st).
Proof.
  unfold run. intros Hops. revert st.
  induction Hops as [|op ops Hop _ IH]; intros st Hc; simpl.
  - exact Hc.
  - apply IH. destruct op as [id|id|data|contractorId month data|data|month]; simpl.
    + now apply mem_archive_consistent.
    + now apply mem_archive_consistent.
    + now apply mem_createProductivityData_consistent.
    + now apply mem_update_consistent.
    + now apply mem_bulkCreate_consistent.
    + now apply mem_deleteByMonth_consistent.
Qed.

(** A consistent store holds at most one record for each contractor and
    month. *)
Lemma mem_consistent_at_most_one (st : t) :
  memConsistent st -> atMostOnePerPair (getAllProductivityData st).
Proof.
  intros [Hnd Hkey] c m. unfold recordsFor, getAllProductivityData.
  apply JsMapFacts.filter_values_at_most_one with (k := dataKey c m).
  - exact Hnd.
  - intros k' v' Hin Hp. apply mem_hasPair_true in Hp. destruct Hp as [<- <-].
    now apply Hkey.
Qed.
End MemUpsertFacts.

(* ================================================================== *)
(** * Upserts of the relational store *)
(* ================================================================== *)

Module DatabaseUpsertFacts.
Import DatabaseStorage Spec.

Section Clock.
Variable real : Js.number -> option Js.number.
Variable now : nat -> Date.
Variable randomUUID : nat -> string.

Local Abbreviation upsert := (DatabaseStorage.upsert real now randomUUID).
Local Abbreviation bulkFrom := (DatabaseStorage.bulkFrom real now randomUUID).
Local Abbreviation bulkCreateProductivityData :=
  (DatabaseStorage.bulkCreateProductivityData real now randomUUID).

Lemma db_samePair_true (item : InsertProductivityData.t) (r : ProductivityData.t) :
  samePair item r = true <->
  pairOf r = (InsertProductivityData.contractorId item, InsertProductivityData.month item).
Proof.
  unfold samePair, pairOf. rewrite Bool.andb_true_iff, Z.eqb_eq, String.eqb_eq.
  split; [intros [-> ->]; reflexivity|intros H; inversion H; auto].
Qed.

Lemma db_hasPair_pairOf (c : Z) (m : string) (r : ProductivityData.t) :
  hasPair c m r = true <-> pairOf r = (c, m).
Proof.
  unfold hasPair, pairOf. rewrite Bool.andb_true_iff, Z.eqb_eq, String.eqb_eq.
  split; [intros [-> ->]; reflexivity|intros H; inversion H; auto].
Qed.

(** The rows of a table with a unique pair, seen as a map from the pair. *)
Lemma db_unique_row (rows : list ProductivityData.t) (r : ProductivityData.t) :
  NoDup (List.map pairOf rows) -> In r rows ->
  filter (hasPair (ProductivityData.contractorId r) (ProductivityData.month r)) rows = [r].
Proof.
  intros Hnd Hin.
  assert (Hv : rows = JsMap.values (List.map (fun x => (pairOf x, x)) rows)).
  { unfold JsMap.values. rewrite List.map_map. simpl. symmetry. apply List.map_id. }
  rewrite Hv at 1.
  apply JsMapFacts.filter_values_unique with (k := pairOf r).
  - unfold JsMap.keys. rewrite List.map_map. exact Hnd.
  - apply List.in_map_iff. now exists r.
  - intros k' v' H Hp. apply List.in_map_iff in H.
    destruct H as [x [Hx _]]. inversion Hx; subst.
    now apply db_hasPair_pairOf in Hp.
  - now apply db_hasPair_pairOf.
Qed.

Lemma db_unique_at_most_one (rows : list ProductivityData.t) :
  NoDup (List.map pairOf rows) -> atMostOnePerPair rows.
Proof.
  intros Hnd c m. unfold recordsFor.
  destruct (filter (hasPair c m) rows) as [|r l] eqn:E; [simpl; lia|].
  assert (Hr : In r (filter (hasPair c m) rows)) by (rewrite E; now left).
  apply List.filter_In in Hr. destruct Hr as [Hin Hp].
  apply db_hasPair_pairOf in Hp. inversion Hp; subst.
  rewrite (db_unique_row rows r Hnd Hin) in E. inversion E. simpl. lia.
Qed.

Lemma db_refreshed_pairs (item values : InsertProductivityData.t) (stamp : Date)
      (rows : list ProductivityData.t) :
  List.map pairOf
    (List.map (fun r => if samePair item r
                        then ProductivityData.refreshed values stamp r else r) rows)
  = List.map pairOf rows.
Proof.
  rewrite List.map_map. apply List.map_ext. intros r.
  now destruct (samePair item r).
Qed.

Lemma db_NoDup_snoc (A : Type) (x : A) (l : list A) :
  NoDup l -> ~ In x l -> NoDup (l ++ [x]).
Proof.
  intros Hnd Hx. apply Permutation_NoDup with (x :: l).
  - apply Permutation_cons_append.
  - now constructor.
Qed.

Lemma stored_pair (item values : InsertProductivityData.t) :
  stored real item = Some values ->
  InsertProductivityData.contractorId values = InsertProductivityData.contractorId item
  /\ InsertProductivityData.month values = InsertProductivityData.month item.
Proof.
  unfold stored.
  destruct (real (InsertProductivityData.productiveHours item)); [|discriminate].
  destruct (real (InsertProductivityData.totalHours item)); [|discriminate].
  destruct (real (InsertProductivityData.productivity item)); [|discriminate].
  intros H. inversion H. simpl. auto.
Qed.

(** The statement is refused exactly when a column refuses a measure. *)
Lemma db_upsert_refused (item : InsertProductivityData.t) (db : t) :
  upsert item db = None <-> stored real item = None.
Proof.
  unfold DatabaseStorage.upsert. destruct (stored real item) as [values|].
  - destruct (List.find (samePair item) (productivityData db));
      split; discriminate.
  - tauto.
Qed.

Lemma db_upsert_consistent (item : InsertProductivityData.t) (db : t)
      (result : ProductivityData.t) (db' : t) :
  dbConsistent db -> upsert item db = Some (result, db') -> dbConsistent db'.
Proof.
  unfold dbConsistent, DatabaseStorage.upsert. intros Hnd.
  destruct (stored real item) as [values|] eqn:St; [|discriminate].
  destruct (stored_pair item values St) as [S1 S2].
  destruct (List.find (samePair item) (productivityData db)) as [existing|] eqn:F;
    intros E; inversion E; subst; simpl.
  - now rewrite db_refreshed_pairs.
  - rewrite List.map_app. simpl. apply db_NoDup_snoc; [exact Hnd|].
    intros Hin. apply List.in_map_iff in Hin. destruct Hin as [r [Hp Hr]].
    assert (Hs : samePair item r = true).
    { apply db_samePair_true. rewrite Hp. unfold pairOf. simpl. now rewrite S1, S2. }
    rewrite (List.find_none _ _ F r Hr) in Hs. discriminate.
Qed.

(** What one upsert leaves in the table. *)
Lemma db_upsert_result (item : InsertProductivityData.t) (db : t)
      (result : ProductivityData.t) (db' : t) :
  dbConsistent db ->
  upsert item db = Some (result, db') ->
  exists values,
    stored real item = Some values
    /\ recordsFor (InsertProductivityData.contractorId item)
                  (InsertProductivityData.month item)
                  (getAllProductivityData db')
       = [result]
    /\ carries values (now (dates db)) result
    /\ dates db' = S (dates db).
Proof.
  intros Hc E. assert (Hc' := db_upsert_consistent item db result db' Hc E).
  revert E. unfold DatabaseStorage.upsert.
  destruct (stored real item) as [values|] eqn:St; [|discriminate].
  destruct (stored_pair item values St) as [S1 S2]. intros E.
  exists values. split; [reflexivity|].
  assert (H : carries values (now (dates db)) result
              /\ dates db' = S (dates db)
              /\ In result (productivityData db')).
  { destruct (List.find (samePair item) (productivityData db)) as [existing|] eqn:F;
      inversion E; subst; simpl.
    - destruct (List.find_some _ _ F) as [Hin Hs].
      assert (Hp := proj1 (db_samePair_true item existing) Hs). inversion Hp.
      split; [unfold carries; simpl; rewrite S1, S2; auto 10|]. split; [reflexivity|].
      apply List.in_map_iff. exists existing. rewrite Hs. auto.
    - split; [unfold carries; simpl; auto 10|]. split; [reflexivity|].
      apply List.in_or_app. right. now left. }
  destruct H as [Hcar [Hd Hin]]. split; [|split; assumption].
  unfold recordsFor, getAllProductivityData.
  destruct Hcar as [H1 [H2 _]]. rewrite <- S1, <- S2, <- H1, <- H2.
  now apply db_unique_row.
Qed.

Lemma db_bulkFrom_consistent (data : list InsertProductivityData.t)
      (results : list ProductivityData.t) (db : t) :
  dbConsistent db -> dbConsistent (snd (bulkFrom results data db)).
Proof.
  revert results db. induction data as [|item rest IH]; intros results db Hc; simpl.
  - exact Hc.
  - destruct (upsert item db) as [[r db']|] eqn:E; [|exact Hc].
    apply IH. now apply (db_upsert_consistent item db r db').
Qed.

(** The loop answers one record for each item, or it throws at an item of
    which a column refuses a measure. *)
Lemma db_bulkFrom_length (data : list InsertProductivityData.t)
      (results : list ProductivityData.t) (db : t) :
  match fst (bulkFrom results data db) with
  | Some records => List.length records = List.length results + List.length data
  | None => exists item, In item data /\ stored real item = None
  end.
Proof.
  revert results db. induction data as [|item rest IH]; intros results db; simpl.
  - lia.
  - destruct (upsert item db) as [[r db']|] eqn:E.
    + specialize (IH (results ++ [r]) db').
      destruct (fst (bulkFrom (results ++ [r]) rest db')) as [records|].
      * rewrite IH, List.length_app. simpl. lia.
      * destruct IH as [x [Hx Hr]]. exists x. auto.
    + simpl. exists item. split; [now left|]. now apply db_upsert_refused in E.
Qed.

(** The loop does not throw when the columns take every measure. *)
Lemma db_bulkFrom_returns (data : list InsertProductivityData.t)
      (results : list ProductivityData.t) (db : t) :
  (forall item, In item data -> stored real item <> None) ->
  fst (bulkFrom results data db) <> None.
Proof.
  intros H. pose proof (db_bulkFrom_length data results db) as L.
  destruct (fst (bulkFrom results data db)); [discriminate|].
  destruct L as [item [Hin Hr]]. now destruct (H item Hin).
Qed.

Lemma db_bulkCreate_consistent (data : list InsertProductivityData.t) (db : t) :
  dbConsistent db ->
  dbConsistent (snd (bulkCreateProductivityData data db)).
Proof.
  intros Hc. unfold DatabaseStorage.bulkCreateProductivityData.
  destruct data; [exact Hc|].
  now apply db_bulkFrom_consistent.
Qed.

Lemma db_bulkCreate_single (item : InsertProductivityData.t) (db : t) :
  snd (bulkCreateProductivityData [item] db)
  = match upsert item db with
    | Some (_, db') => db'
    | None => db
    end.
Proof.
  unfold DatabaseStorage.bulkCreateProductivityData. simpl.
  now destruct (upsert item db) as [[r db']|].
Qed.
End Clock.

Lemma db_deleteByMonth_consistent (month : string) (db : t) :
  dbConsistent db -> dbConsistent (snd (deleteProductivityByMonth month db)).
Proof.
  unfold dbConsistent, deleteProductivityByMonth. simpl.
  generalize (productivityData db). intros rows.
  induction rows as [|r rows IH]; simpl; intros Hnd; [constructor|].
  inversion Hnd as [|? ? Hnot Hr]; subst.
  destruct (negb (String.eqb (ProductivityData.month r) month)); simpl; [|now apply IH].
  constructor; [|now apply IH].
  intros Hin. apply Hnot. apply List.in_map_iff in Hin.
  destruct Hin as [x [Hx Hin]]. apply List.filter_In in Hin.
  apply List.in_map_iff. exists x. tauto.
Qed.
Lemma unique_pairs (rows : list ProductivityData.t) :
  unique pairEqb rows = true -> NoDup (List.map pairOf rows).
Proof.
  induction rows as [|r rows IH]; simpl; [constructor|].
  rewrite Bool.andb_true_iff, Bool.negb_true_iff. intros [Hr Hrows].
  constructor; [|now apply IH].
  intros Hin. apply List.in_map_iff in Hin. destruct Hin as [x [Hx Hin]].
  assert (E : existsb (pairEqb r) rows = true).
  { apply List.existsb_exists. exists x. split; [exact Hin|].
    unfold pairEqb. unfold pairOf in Hx. inversion Hx.
    now rewrite Z.eqb_refl, String.eqb_refl. }
  congruence.
Qed.

(** Every statement keeps the unique constraint. *)
Lemma db_run_consistent (real : Js.number -> option Js.number)
      (now : nat -> Date) (randomUUID : nat -> string)
      (ops : list Op) (db : t) :
  dbConsistent db -> dbConsistent (run real now randomUUID ops db).
Proof.
  unfold run. revert db. induction ops as [|op ops IH]; intros db Hc; simpl.
  - exact Hc.
  - apply IH. destruct op as [id|id|data|contractorId month data|data|month]; simpl.
    + exact Hc.
    + exact Hc.
    + unfold createProductivityData.
      destruct (stored real data) as [values|] eqn:St; [|exact Hc].
      destruct (stored_pair real data values St) as [S1 S2].
      destruct (List.find (samePair data) (productivityData db)) eqn:F; [exact Hc|].
      unfold dbConsistent. simpl. rewrite List.map_app. simpl.
      apply db_NoDup_snoc; [exact Hc|].
      intros Hin. apply List.in_map_iff in Hin. destruct Hin as [r [Hp Hr]].
      assert (Hs : samePair data r = true).
      { apply db_samePair_true. rewrite Hp. unfold pairOf. simpl. now rewrite S1, S2. }
      rewrite (List.find_none _ _ F r Hr) in Hs. discriminate.
    + unfold updateProductivityData.
      destruct (ProductivityPatch.isEmpty data); [exact Hc|].
      destruct (storedPatch real data) as [values|]; [|exact Hc].
      match goal with
      | |- context [unique idEqb ?rows && unique pairEqb ?rows] =>
          destruct (unique idEqb rows); [|exact Hc];
          destruct (unique pairEqb rows) eqn:U; [|exact Hc]
      end.
      simpl. now apply unique_pairs.
    + now apply db_bulkCreate_consistent.
    + now apply db_deleteByMonth_consistent.
Qed.
End DatabaseUpsertFacts.

(* ================================================================== *)
(** * The claim on upserts *)
(* ================================================================== *)

(** C3, the claim as stated.  In the in-memory store an update whose
    patch names another month leaves two records of one contractor and
    month: after the writes for contractor 1 in August and in September,
    the update of the September record with the month August.  And the
    relational store does not hold the values of the second write as they
    were written: of the productive hours 100.123456789 it gives back
    what single precision keeps, 100.12346. *)
Lemma C3_counterexample_update_and_single_precision :
  ~ Spec.atMostOnePerPair
      (MemStorage.getAllProductivityData
         (MemStorage.run Scenario.clock Scenario.uuid
            [MemStorage.UpdateProductivityData 1 "Sep-25" (Scenario.monthPatch "Aug-25")]
            (Scenario.memAfter [Scenario.firstWrite; Scenario.septemberWrite])))
  /\ ~ (exists r,
          Spec.recordsFor 1 "Aug-25"
            (DatabaseStorage.getAllProductivityData
               (Scenario.dbAfter [Scenario.firstWrite; Scenario.preciseWrite])) = [r]
          /\ Spec.carries Scenario.preciseWrite (Scenario.clock 1) r)
  /\ List.map ProductivityData.productiveHours
       (Spec.recordsFor 1 "Aug-25"
          (DatabaseStorage.getAllProductivityData
             (Scenario.dbAfter [Scenario.firstWrite; Scenario.preciseWrite])))
     = [Js.Num (5006173 # 50000)].
Proof.
  split; [|split].
  - intros H. specialize (H 1%Z "Aug-25"). vm_compute in H. lia.
  - intros [r [E [_ [_ [H _]]]]]. vm_compute in E. injection E as <-.
    vm_compute in H. discriminate H.
  - vm_compute. reflexivity.
Qed.

(** C3 (corrected).  Writing two records of the same contractor and month,
    one upload after the other, leaves exactly one stored record for that
    contractor and month, and its [createdAt] is the reading of the clock
    taken by the second write, which comes after the reading of the first.
    In the in-memory store the record holds the productive hours, total
    hours and productivity of the second write; in the relational store
    it holds them as the [real] columns give them back, and a second
    write with a measure that the columns refuse leaves the tables as
    they were.  The relational store never holds two records of one
    contractor and month, whatever calls follow one another (uploads,
    single writes, updates, deletions of a month, archivings): its unique
    constraint refuses the statement that would.  The in-memory store
    never does either, as long as no update names another contractor or
    another month than those of the record it updates.  This holds of
    each store taken in a consistent state, as its constructor or its
    unique constraint gives it. *)
Theorem C3_upsert_last_write_wins
        (real : Js.number -> option Js.number)
        (now : nat -> Date) (randomUUID : nat -> string)
        (first second : InsertProductivityData.t)
        (st : MemStorage.t) (db : DatabaseStorage.t)
        (Hmem : Spec.memConsistent st)
        (Hdb : Spec.dbConsistent db)
        (Hcontractor : InsertProductivityData.contractorId first
                       = InsertProductivityData.contractorId second)
        (Hmonth : InsertProductivityData.month first
                  = InsertProductivityData.month second) :
  let contractorId := InsertProductivityData.contractorId second in
  let month := InsertProductivityData.month second in
  (let st1 := snd (MemStorage.bulkCreateProductivityData now randomUUID [first] st) in
   let st2 := snd (MemStorage.bulkCreateProductivityData now randomUUID [second] st1) in
   (exists r,
       Spec.recordsFor contractorId month (MemStorage.getAllProductivityData st2) = [r]
       /\ Spec.carries second (now (MemStorage.dates st1)) r)
   /\ MemStorage.dates st1 = S (MemStorage.dates st)
   /\ forall ops,
        Forall Spec.keepsPair ops ->
        Spec.atMostOnePerPair
          (MemStorage.getAllProductivityData (MemStorage.run now randomUUID ops st)))
  /\
  (let db1 :=
     snd (DatabaseStorage.bulkCreateProductivityData real now randomUUID [first] db) in
   let db2 :=
     snd (DatabaseStorage.bulkCreateProductivityData real now randomUUID [second] db1) in
   (forall values,
       DatabaseStorage.stored real second = Some values ->
       exists r,
         Spec.recordsFor contractorId month
           (DatabaseStorage.getAllProductivityData db2) = [r]
         /\ Spec.carries values (now (DatabaseStorage.dates db1)) r)
   /\ (DatabaseStorage.stored real second = None -> db2 = db1)
   /\ (DatabaseStorage.stored real first <> None ->
       DatabaseStorage.dates db1 = S (DatabaseStorage.dates db))
   /\ forall ops,
        Spec.atMostOnePerPair
          (DatabaseStorage.getAllProductivityData
             (DatabaseStorage.run real now randomUUID ops db))).
Proof.
  intros contractorId month. split.
  - intros st1 st2. unfold st2, st1.
    rewrite !MemUpsertFacts.mem_bulkCreate_single.
    assert (H1 := MemUpsertFacts.mem_upsert_consistent now randomUUID first st Hmem).
    assert (H2 := MemUpsertFacts.mem_upsert_consistent now randomUUID second _ H1).
    destruct (MemUpsertFacts.mem_upsert_result now randomUUID first st Hmem) as [_ [_ Hd]].
    destruct (MemUpsertFacts.mem_upsert_result now randomUUID second _ H1) as [Hr [Hc _]].
    split; [eexists; split; [exact Hr|exact Hc]|].
    split; [exact Hd|].
    intros ops Hops. apply MemUpsertFacts.mem_consistent_at_most_one.
    now apply MemUpsertFacts.mem_run_consistent.
  - intros db1 db2. unfold db2, db1.
    rewrite !DatabaseUpsertFacts.db_bulkCreate_single.
    assert (H1 : Spec.dbConsistent
                   match DatabaseStorage.upsert real now randomUUID first db with
                   | Some (_, db') => db'
                   | None => db
                   end).
    { destruct (DatabaseStorage.upsert real now randomUUID first db)
        as [[r1 db']|] eqn:E1; [|exact Hdb].
      exact (DatabaseUpsertFacts.db_upsert_consistent real now randomUUID
               first db r1 db' Hdb E1). }
    split; [|split; [|split]].
    + intros values Hvalues.
      match goal with
      | |- context [DatabaseStorage.upsert real now randomUUID second ?d] =>
          destruct (DatabaseStorage.upsert real now randomUUID second d)
            as [[r db']|] eqn:E2;
          [destruct (DatabaseUpsertFacts.db_upsert_result real now randomUUID
                       second d r db' H1 E2) as [values' [Hv [Hr [Hc _]]]]
          |apply DatabaseUpsertFacts.db_upsert_refused in E2; congruence]
      end.
      exists r. split; [exact Hr|]. congruence.
    + intros Hnone.
      now rewrite (proj2 (DatabaseUpsertFacts.db_upsert_refused real now randomUUID
                            second _) Hnone).
    + intros Hfirst.
      destruct (DatabaseStorage.upsert real now randomUUID first db)
        as [[r1 db']|] eqn:E1.
      * now destruct (DatabaseUpsertFacts.db_upsert_result real now randomUUID
                        first db r1 db' Hdb E1) as [_ [_ [_ [_ Hd]]]].
      * now apply DatabaseUpsertFacts.db_upsert_refused in E1.
    + intros ops. apply DatabaseUpsertFacts.db_unique_at_most_one.
      now apply DatabaseUpsertFacts.db_run_consistent.
Qed.

(** C3 on the roster store: after the two writes for contractor 1 in
    August each store holds one record, with the values of the second
    write, which the relational store gives back as they were written
    since none has more than six digits, and the second reading of the
    clock. *)
Lemma C3_upsert_last_write_wins_witness :
  Spec.memConsistent Scenario.memRoster
  /\ Spec.dbConsistent Scenario.dbRoster
  /\ (exists r,
         Spec.recordsFor 1 "Aug-25"
           (MemStorage.getAllProductivityData
              (Scenario.memAfter [Scenario.firstWrite; Scenario.secondWrite])) = [r]
         /\ Spec.carries Scenario.secondWrite (Scenario.clock 1) r)
  /\ (exists values r,
         DatabaseStorage.stored Pg.real Scenario.secondWrite = Some values
         /\ Spec.recordsFor 1 "Aug-25"
              (DatabaseStorage.getAllProductivityData
                 (Scenario.dbAfter [Scenario.firstWrite; Scenario.secondWrite])) = [r]
         /\ Spec.carries values (Scenario.clock 1) r
         /\ Js.sameNumber (ProductivityData.productiveHours r) (Js.Num 114.65)).
Proof.
  assert (Hm : Spec.memConsistent Scenario.memRoster).
  { split; [constructor|intros key r []]. }
  assert (Hd : Spec.dbConsistent Scenario.dbRoster) by constructor.
  split; [exact Hm|]. split; [exact Hd|].
  destruct (C3_upsert_last_write_wins Pg.real Scenario.clock Scenario.uuid
              Scenario.firstWrite Scenario.secondWrite
              Scenario.memRoster Scenario.dbRoster Hm Hd eq_refl eq_refl)
    as [[H1 _] [H _]].
  split; [exact H1|].
  destruct (DatabaseStorage.stored Pg.real Scenario.secondWrite) as [values|] eqn:E;
    [|vm_compute in E; discriminate E].
  destruct (H values eq_refl) as [r [H2 H3]].
  exists values, r. split; [reflexivity|]. split; [exact H2|]. split; [exact H3|].
  destruct H3 as [_ [_ [H4 _]]]. rewrite H4.
  vm_compute in E. injection E as <-. vm_compute. reflexivity.
Defined.

(* ================================================================== *)
(** * Archiving a contractor *)
(* ================================================================== *)

Module MemArchiveFacts.
Import MemStorage Spec.

Lemma memArchive_archive_found (id : Z) (c : Contractor.t) (st : t) :
  getContractor id st = Some c ->
  archiveContractor id st
  = (true, mk (JsMap.set Z.eqb id (Contractor.withStatus archived c) (contractors st))
              (productivityData st) (dates st) (uuids st)).
Proof. unfold getContractor, archiveContractor. now intros ->. Qed.

Lemma memArchive_archive_missing (id : Z) (st : t) :
  getContractor id st = None -> archiveContractor id st = (false, st).
Proof. unfold getContractor, archiveContractor. now intros ->. Qed.

Lemma memArchive_archive_productivity (id : Z) (st : t) :
  productivityData (snd (archiveContractor id st)) = productivityData st.
Proof.
  unfold archiveContractor. now destruct (JsMap.get Z.eqb id (contractors st)).
Qed.

Lemma memArchive_archive_others (id other : Z) (st : t) :
  other <> id ->
  getContractor other (snd (archiveContractor id st)) = getContractor other st.
Proof.
  intros Hne. unfold archiveContractor, getContractor.
  destruct (JsMap.get Z.eqb id (contractors st)); simpl; [|reflexivity].
  apply JsMapFacts.get_set_other; [apply Z.eqb_eq|congruence].
Qed.

Lemma memArchive_archive_status (id : Z) (c : Contractor.t) (st : t) :
  getContractor id st = Some c ->
  getContractor id (snd (archiveContractor id st))
  = Some (Contractor.withStatus archived c).
Proof.
  intros H. rewrite (memArchive_archive_found id c st H). simpl.
  apply JsMapFacts.get_set_same, Z.eqb_eq.
Qed.

(** Archiving any contractor keeps an archived contractor archived. *)
Lemma memArchive_archive_keeps (id id' : Z) (st : t) :
  statusOf (getContractor id st) = Some archived ->
  statusOf (getContractor id (snd (archiveContractor id' st))) = Some archived.
Proof.
  intros H. destruct (Z.eq_dec id id') as [<-|Hne].
  - destruct (getContractor id st) as [c|] eqn:G; [|discriminate].
    now rewrite (memArchive_archive_status id c st G).
  - now rewrite memArchive_archive_others.
Qed.

Section Clock.
Variable now : nat -> Date.
Variable randomUUID : nat -> string.

Lemma memArchive_upsert_contractors (item : InsertProductivityData.t) (st : t) :
  contractors (snd (upsert now randomUUID item st)) = contractors st.
Proof.
  unfold upsert, createProductivityData.
  now destruct (JsMap.get String.eqb _ (productivityData st)).
Qed.

Lemma memArchive_bulkFrom_contractors (data : list InsertProductivityData.t)
      (results : list ProductivityData.t) (st : t) :
  contractors (snd (bulkFrom now randomUUID results data st)) = contractors st.
Proof.
  revert results st. induction data as [|item rest IH]; intros results st; simpl.
  - reflexivity.
  - destruct (upsert now randomUUID item st) as [r st'] eqn:E.
    rewrite IH. change st' with (snd (r, st')). rewrite <- E.
    apply memArchive_upsert_contractors.
Qed.

(** No operation other than a write of the contractor itself takes the
    archived status away. *)
Lemma memArchive_step_keeps (id : Z) (op : Op) (st : t) :
  statusOf (getContractor id st) = Some archived ->
  statusOf (getContractor id (step now randomUUID st op)) = Some archived.
Proof.
  intros H. destruct op as [id'|id'|data|contractorId month data|data|month]; simpl.
  - now apply memArchive_archive_keeps.
  - now apply memArchive_archive_keeps.
  - exact H.
  - unfold updateProductivityData.
    now destruct (JsMap.get String.eqb _ (productivityData st)).
  - unfold getContractor, bulkCreateProductivityData.
    now rewrite memArchive_bulkFrom_contractors.
  - exact H.
Qed.

Lemma memArchive_run_keeps (id : Z) (ops : list Op) (st : t) :
  statusOf (getContractor id st) = Some archived ->
  statusOf (getContractor id (run now randomUUID ops st)) = Some archived.
Proof.
  unfold run. revert st. induction ops as [|op ops IH]; intros st H; simpl.
  - exact H.
  - apply IH. now apply memArchive_step_keeps.
Qed.
End Clock.
End MemArchiveFacts.

Module DatabaseArchiveFacts.
Import DatabaseStorage Spec.

Lemma dbArchive_archiveRow_id (id : Z) (c : Contractor.t) :
  Contractor.id (archiveRow id c) = Contractor.id c.
Proof. unfold archiveRow. now destruct (Z.eqb (Contractor.id c) id). Qed.

Lemma dbArchive_find_archived (id k : Z) (rows : list Contractor.t) :
  List.find (fun c => Z.eqb (Contractor.id c) k) (List.map (archiveRow id) rows)
  = option_map (archiveRow id) (List.find (fun c => Z.eqb (Contractor.id c) k) rows).
Proof.
  induction rows as [|c rows IH]; simpl; [reflexivity|].
  rewrite dbArchive_archiveRow_id. now destruct (Z.eqb (Contractor.id c) k).
Qed.

Lemma dbArchive_archive_productivity (id : Z) (db : t) :
  productivityData (snd (archiveContractor id db)) = productivityData db.
Proof. reflexivity. Qed.

Lemma dbArchive_archive_others (id other : Z) (db : t) :
  other <> id ->
  getContractor other (snd (archiveContractor id db)) = getContractor other db.
Proof.
  intros Hne. unfold getContractor, archiveContractor. simpl.
  change (fun c => if Z.eqb (Contractor.id c) id
                   then Contractor.withStatus archived c else c) with (archiveRow id).
  rewrite dbArchive_find_archived.
  destruct (List.find (fun c => Z.eqb (Contractor.id c) other) (contractors db))
    as [c|] eqn:F; simpl; [|reflexivity].
  apply List.find_some in F. destruct F as [_ F]. apply Z.eqb_eq in F.
  unfold archiveRow. rewrite F.
  destruct (Z.eqb other id) eqn:E; [|reflexivity].
  apply Z.eqb_eq in E. contradiction.
Qed.

Lemma dbArchive_archive_status (id : Z) (c : Contractor.t) (db : t) :
  getContractor id db = Some c ->
  fst (archiveContractor id db) = true
  /\ getContractor id (snd (archiveContractor id db))
     = Some (Contractor.withStatus archived c).
Proof.
  unfold getContractor, archiveContractor. simpl. intros F. split.
  - destruct (List.find_some _ _ F) as [Hin Hid].
    destruct (filter (fun c0 => Z.eqb (Contractor.id c0) id) (contractors db)) eqn:E.
    + exfalso. assert (H : In c []) by (rewrite <- E; apply List.filter_In; auto).
      destruct H.
    + reflexivity.
  - change (fun c => if Z.eqb (Contractor.id c) id
                     then Contractor.withStatus archived c else c) with (archiveRow id).
    rewrite dbArchive_find_archived, F. simpl. unfold archiveRow.
    apply List.find_some in F. destruct F as [_ F]. now rewrite F.
Qed.

Lemma dbArchive_archive_missing (id : Z) (db : t) :
  getContractor id db = None -> archiveContractor id db = (false, db).
Proof.
  unfold getContractor, archiveContractor. intros F.
  assert (Hnone : forall c, In c (contractors db) -> Z.eqb (Contractor.id c) id = false)
    by (intros c Hc; apply (List.find_none _ _ F c Hc)).
  assert (Hf : filter (fun c => Z.eqb (Contractor.id c) id) (contractors db) = []).
  { revert Hnone. generalize (contractors db). intros rows.
    induction rows as [|c rows IH]; simpl; intros H; [reflexivity|].
    rewrite (H c) by now left. apply IH. intros c' Hc'. apply H. now right. }
  assert (Hm : List.map (fun c => if Z.eqb (Contractor.id c) id
                                  then Contractor.withStatus archived c else c)
                        (contractors db) = contractors db).
  { revert Hnone. generalize (contractors db). intros rows.
    induction rows as [|c rows IH]; simpl; intros H; [reflexivity|].
    rewrite (H c) by now left. f_equal. apply IH. intros c' Hc'. apply H. now right. }
  rewrite Hf, Hm. destruct db; reflexivity.
Qed.

Lemma dbArchive_archive_keeps (id id' : Z) (db : t) :
  statusOf (getContractor id db) = Some archived ->
  statusOf (getContractor id (snd (archiveContractor id' db))) = Some archived.
Proof.
  intros H. destruct (Z.eq_dec id id') as [<-|Hne].
  - destruct (getContractor id db) as [c|] eqn:G; [|discriminate].
    now rewrite (proj2 (dbArchive_archive_status id c db G)).
  - now rewrite dbArchive_archive_others.
Qed.

Section Clock.
Variable real : Js.number -> option Js.number.
Variable now : nat -> Date.
Variable randomUUID : nat -> string.

Lemma dbArchive_upsert_contractors (item : InsertProductivityData.t) (db : t)
      (result : ProductivityData.t) (db' : t) :
  upsert real now randomUUID item db = Some (result, db') ->
  contractors db' = contractors db.
Proof.
  unfold upsert. destruct (stored real item); [|discriminate].
  destruct (List.find (samePair item) (productivityData db));
    intros E; inversion E; reflexivity.
Qed.

Lemma dbArchive_bulkFrom_contractors (data : list InsertProductivityData.t)
      (results : list ProductivityData.t) (db : t) :
  contractors (snd (bulkFrom real now randomUUID results data db)) = contractors db.
Proof.
  revert results db. induction data as [|item rest IH]; intros results db; simpl.
  - reflexivity.
  - destruct (upsert real now randomUUID item db) as [[r db']|] eqn:E;
      [|reflexivity].
    rewrite IH. exact (dbArchive_upsert_contractors item db r db' E).
Qed.

Lemma dbArchive_step_keeps (id : Z) (op : Op) (db : t) :
  statusOf (getContractor id db) = Some archived ->
  statusOf (getContractor id (step real now randomUUID db op)) = Some archived.
Proof.
  intros H. destruct op as [id'|id'|data|contractorId month data|data|month]; simpl.
  - now apply dbArchive_archive_keeps.
  - now apply dbArchive_archive_keeps.
  - unfold createProductivityData. destruct (stored real data); [|exact H].
    now destruct (List.find (samePair data) (productivityData db)).
  - unfold updateProductivityData.
    destruct (ProductivityPatch.isEmpty data); [exact H|].
    destruct (storedPatch real data); [|exact H].
    match goal with
    | |- context [unique idEqb ?rows && unique pairEqb ?rows] =>
        destruct (unique idEqb rows && unique pairEqb rows); exact H
    end.
  - unfold getContractor, bulkCreateProductivityData.
    destruct data; [exact H|]. now rewrite dbArchive_bulkFrom_contractors.
  - exact H.
Qed.

Lemma dbArchive_run_keeps (id : Z) (ops : list Op) (db : t) :
  statusOf (getContractor id db) = Some archived ->
  statusOf (getContractor id (run real now randomUUID ops db)) = Some archived.
Proof.
  unfold run. revert db. induction ops as [|op ops IH]; intros db H; simpl.
  - exact H.
  - apply IH. now apply dbArchive_step_keeps.
Qed.
End Clock.
End DatabaseArchiveFacts.


(* ================================================================== *)
(** * Facts about strings *)
(* ================================================================== *)

Module JsFacts.

Lemma append_assoc (a b c : string) : ((a ++ b) ++ c = a ++ (b ++ c))%string.
Proof. induction a as [|x a IH]; simpl; [reflexivity|now rewrite IH]. Qed.

Lemma includes_app (c : ascii) (a b : string) :
  Js.includes c (a ++ b) = Js.includes c a || Js.includes c b.
Proof.
  induction a as [|d a IH]; simpl; [reflexivity|].
  now rewrite IH, Bool.orb_assoc.
Qed.

Lemma split_nonempty (sep : ascii) (s : string) : Js.split sep s <> [].
Proof.
  induction s as [|c s IH]; simpl; [discriminate|].
  destruct (Ascii.eqb c sep); [discriminate|].
  destruct (Js.split sep s); discriminate.
Qed.

Lemma split_one (sep : ascii) (a : string) :
  Js.includes sep a = false -> Js.split sep a = [a].
Proof.
  induction a as [|c a IH]; simpl; [reflexivity|].
  intros H. apply Bool.orb_false_iff in H. destruct H as [Hc Ha].
  now rewrite Hc, (IH Ha).
Qed.

Lemma split_app (sep : ascii) (a b : string) :
  Js.includes sep a = false ->
  Js.split sep (a ++ String sep b) = a :: Js.split sep b.
Proof.
  induction a as [|c a IH]; simpl.
  - now rewrite Ascii.eqb_refl.
  - intros H. apply Bool.orb_false_iff in H. destruct H as [Hc Ha].
    now rewrite Hc, (IH Ha).
Qed.

Lemma trimStart_includes (c : ascii) (s : string) :
  Js.isWhiteSpace c = false -> Js.includes c s = true ->
  Js.includes c (Js.trimStart s) = true.
Proof.
  intros Hc. induction s as [|d s IH]; simpl; [discriminate|].
  destruct (Js.isWhiteSpace d) eqn:Hd.
  - destruct (Ascii.eqb d c) eqn:E; simpl.
    + apply Ascii.eqb_eq in E. congruence.
    + exact IH.
  - now simpl.
Qed.

Lemma trimEnd_nonEmpty (c : ascii) (s : string) :
  Js.isWhiteSpace c = false -> Js.includes c s = true ->
  Js.nonEmpty (Js.trimEnd s) = true.
Proof.
  intros Hc. induction s as [|d s IH]; simpl; [discriminate|].
  destruct (Ascii.eqb d c) eqn:E; simpl.
  - apply Ascii.eqb_eq in E. subst d. intros _.
    destruct (Js.trimEnd s); [now rewrite Hc|reflexivity].
  - intros H. specialize (IH H). now destruct (Js.trimEnd s).
Qed.

(** A string that holds a character that is not white space does not trim
    to the empty string. *)
Lemma trim_nonEmpty (c : ascii) (s : string) :
  Js.isWhiteSpace c = false -> Js.includes c s = true ->
  Js.nonEmpty (Js.trim s) = true.
Proof.
  intros Hc H. unfold Js.trim.
  apply trimEnd_nonEmpty with c; [exact Hc|].
  now apply trimStart_includes.
Qed.

Lemma nonEmpty_includes (c : ascii) (s : string) :
  Js.includes c s = true -> Js.nonEmpty s = true.
Proof. destruct s; [discriminate|reflexivity]. Qed.

Lemma nonEmpty_false (s : string) : Js.nonEmpty s = false -> s = EmptyString.
Proof. destruct s; [reflexivity|discriminate]. Qed.

Lemma eqb_empty (s : string) : String.eqb s EmptyString = negb (Js.nonEmpty s).
Proof. now destruct s. Qed.
End JsFacts.

(* ================================================================== *)
(** * Productive hours *)
(* ================================================================== *)

Module HoursFacts.
Import Spec.

Lemma timeOf_split (h m s : string) :
  Js.includes ":" h = false -> Js.includes ":" m = false -> Js.includes ":" s = false ->
  Js.split ":" (timeOf h m s) = [h; m; s].
Proof.
  intros Hh Hm Hs. unfold timeOf.
  change (":" ++ m ++ ":" ++ s)%string with (String ":" (m ++ String ":" s)).
  rewrite (JsFacts.split_app ":" h _ Hh), (JsFacts.split_app ":" m _ Hm).
  now rewrite (JsFacts.split_one ":" s Hs).
Qed.

Lemma timeOf_includes (h m s : string) : Js.includes ":" (timeOf h m s) = true.
Proof.
  unfold timeOf. rewrite JsFacts.includes_app. simpl. apply Bool.orb_true_r.
Qed.

(** The upload handler on the time format: hours plus minutes over 60
    plus seconds over 3600, each part read by [parseInt]. *)
Theorem upload_time_format (h m s : string) :
  Js.includes ":" h = false -> Js.includes ":" m = false -> Js.includes ":" s = false ->
  Routes.productiveHoursOf (timeOf h m s)
  = Js.add (Js.add (Js.parseInt h) (Js.div (Js.parseInt m) (Js.ofZ 60)))
           (Js.div (Js.parseInt s) (Js.ofZ 3600)).
Proof.
  intros Hh Hm Hs. unfold Routes.productiveHoursOf.
  rewrite (JsFacts.nonEmpty_includes ":" _ (timeOf_includes h m s)).
  rewrite (JsFacts.trim_nonEmpty ":" _ eq_refl (timeOf_includes h m s)).
  rewrite timeOf_includes, (timeOf_split h m s Hh Hm Hs). reflexivity.
Qed.

Lemma div_by (x : Q) (k : Z) :
  (k <> 0)%Z -> Js.div (Js.Num x) (Js.ofZ k) = Js.Num (x / inject_Z k).
Proof.
  intros Hk. unfold Js.div, Js.ofZ, Js.isZero.
  destruct (Qeq_bool (inject_Z k) 0) eqn:E; [|reflexivity].
  apply Qeq_bool_iff in E. unfold Qeq, inject_Z in E. simpl in E. lia.
Qed.

(** With the three parts numbers, the value is H + M/60 + S/3600. *)
Theorem upload_time_value (h m s : string) (H M S : Q) :
  Js.includes ":" h = false -> Js.includes ":" m = false -> Js.includes ":" s = false ->
  Js.parseInt h = Js.Num H -> Js.parseInt m = Js.Num M -> Js.parseInt s = Js.Num S ->
  Routes.productiveHoursOf (timeOf h m s)
  = Js.Num (H + M / inject_Z 60 + S / inject_Z 3600).
Proof.
  intros Hh Hm Hs EH EM ES. rewrite (upload_time_format h m s Hh Hm Hs), EH, EM, ES.
  rewrite !div_by by lia. reflexivity.
Qed.

Lemma orElse_num (x : Q) : Js.sameNumber (Js.orElse (Js.Num x) (Js.ofZ 0)) (Js.Num x).
Proof.
  unfold Js.orElse, Js.truthy, Js.isZero, Js.ofZ.
  destruct (Qeq_bool x 0) eqn:E; simpl.
  - apply Qeq_bool_iff in E. now rewrite E.
  - reflexivity.
Qed.

(** The client parser on the time format. *)
Theorem parser_time_format (h m s : string) :
  Js.includes ":" h = false -> Js.includes ":" m = false -> Js.includes ":" s = false ->
  CSVParser.parseProductiveHours (timeOf h m s)
  = Js.add (Js.add (Js.orElse (Js.parseInt h) (Js.ofZ 0))
                   (Js.div (Js.orElse (Js.parseInt m) (Js.ofZ 0)) (Js.ofZ 60)))
           (Js.div (Js.orElse (Js.parseInt s) (Js.ofZ 0)) (Js.ofZ 3600)).
Proof.
  intros Hh Hm Hs. unfold CSVParser.parseProductiveHours.
  rewrite timeOf_includes, (timeOf_split h m s Hh Hm Hs). reflexivity.
Qed.

Lemma orElse_cases (n : Js.number) :
  (exists x, n = Js.Num x /\ Js.orElse n (Js.ofZ 0) = Js.Num x)
  \/ Js.orElse n (Js.ofZ 0) = Js.ofZ 0
  \/ (exists b, n = Js.Infinity b).
Proof.
  destruct n as [x| |b]; unfold Js.orElse; simpl.
  - destruct (Js.isZero x); simpl; [right; left; reflexivity|left; exists x; auto].
  - right. left. reflexivity.
  - right. right. now exists b.
Qed.

Theorem parser_time_value (h m s : string) (H M S : Q) :
  Js.includes ":" h = false -> Js.includes ":" m = false -> Js.includes ":" s = false ->
  Js.parseInt h = Js.Num H -> Js.parseInt m = Js.Num M -> Js.parseInt s = Js.Num S ->
  Js.sameNumber (CSVParser.parseProductiveHours (timeOf h m s))
                (Js.Num (H + M / inject_Z 60 + S / inject_Z 3600)).
Proof.
  intros Hh Hm Hs EH EM ES. rewrite (parser_time_format h m s Hh Hm Hs), EH, EM, ES.
  assert (F : forall x, exists y, Js.orElse (Js.Num x) (Js.ofZ 0) = Js.Num y /\ (y == x)%Q).
  { intros x. generalize (orElse_num x).
    destruct (Js.orElse (Js.Num x) (Js.ofZ 0)) as [y| |b]; simpl; try tauto.
    intros E. now exists y. }
  destruct (F H) as [H' [-> EH']], (F M) as [M' [-> EM']], (F S) as [S' [-> ES']].
  rewrite !div_by by lia. simpl. now rewrite EH', EM', ES'.
Qed.

(** Without a colon the upload handler reads a decimal, and what does not
    read as one, or reads as zero, is 0. *)
Theorem upload_decimal (str : string) :
  Js.includes ":" str = false ->
  Routes.productiveHoursOf str
  = if Js.nonEmpty (Js.trim str)
    then Js.orElse (Js.parseFloat str) (Js.ofZ 0) else Js.ofZ 0.
Proof.
  intros Hc. unfold Routes.productiveHoursOf. rewrite Hc, Bool.andb_false_r.
  rewrite JsFacts.eqb_empty, Bool.negb_involutive.
  destruct str as [|c r]; [reflexivity|]. simpl Js.nonEmpty at 1. reflexivity.
Qed.

(** Without a colon the client parser reads a decimal, and what does not
    read as one is 0. *)
Theorem parser_decimal (str : string) :
  Js.includes ":" str = false ->
  CSVParser.parseProductiveHours str
  = if Js.isNaN (Js.parseFloat str) then Js.ofZ 0 else Js.parseFloat str.
Proof.
  intros Hc. unfold CSVParser.parseProductiveHours. now rewrite Hc.
Qed.

End HoursFacts.

(** C4 (the code departs from the claim).  The claim: a field in the time
    format decodes to H + M/60 + S/3600, so that 114:39:00 decodes to
    114.65, and an empty or unparseable field decodes to 0.  The upload
    handler and the client parser both decode 114:39:00 to 114.65, but on
    a field with a colon whose parts are not numbers, and on a field with
    hours and minutes only, the upload handler answers [NaN]: it adds the
    results of [parseInt] as they come.  The client parser puts 0 for each
    part that does not parse and answers 0 and 1.5. *)
Theorem C4_upload_time_with_unparseable_part_is_NaN :
  Js.sameNumber (Routes.productiveHoursOf "114:39:00") (Js.Num 114.65)
  /\ Js.sameNumber (CSVParser.parseProductiveHours "114:39:00") (Js.Num 114.65)
  /\ Routes.productiveHoursOf "abc:de:fg" = Js.NaN
  /\ Js.sameNumber (CSVParser.parseProductiveHours "abc:de:fg") (Js.ofZ 0)
  /\ Routes.productiveHoursOf "1:30" = Js.NaN
  /\ Js.sameNumber (CSVParser.parseProductiveHours "1:30") (Js.Num 1.5).
Proof.
  repeat split; vm_compute; reflexivity.
Qed.

(* ================================================================== *)
(** * The month rewrite *)
(* ================================================================== *)

Module MonthFacts.
Import Spec.

Lemma digit_not_dash (c : ascii) : Js.isDigit c = true -> Ascii.eqb c "-" = false.
Proof.
  destruct c as [[] [] [] [] [] [] [] []]; try reflexivity; vm_compute; discriminate.
Qed.

Lemma word_not_dash (c : ascii) : Js.isWord c = true -> Ascii.eqb c "-" = false.
Proof.
  destruct c as [[] [] [] [] [] [] [] []]; try reflexivity; vm_compute; discriminate.
Qed.

Lemma letter_is_word (c : ascii) : Js.isLetter c = true -> Js.isWord c = true.
Proof. unfold Js.isWord. now intros ->. Qed.

Lemma matches_shape (month : string) :
  Routes.matchesDayMonth month = true <-> dayWordShape month.
Proof.
  split.
  - destruct month as [|a [|b [|x [|c [|d [|e [|f r]]]]]]]; try discriminate;
      try (destruct x as [[] [] [] [] [] [] [] []]; discriminate).
    destruct x as [[] [] [] [] [] [] [] []]; try discriminate.
    simpl. rewrite !Bool.andb_true_iff. intros [[[[Ha Hb] Hc] Hd] He].
    exists a, b, c, d, e. auto 10.
  - intros [d1 [d2 [c1 [c2 [c3 [-> [H1 [H2 [H3 [H4 H5]]]]]]]]]].
    simpl. now rewrite H1, H2, H3, H4, H5.
Qed.

Lemma fixMonth_swaps (d1 d2 c1 c2 c3 : ascii) :
  Js.isDigit d1 = true -> Js.isDigit d2 = true ->
  Js.isWord c1 = true -> Js.isWord c2 = true -> Js.isWord c3 = true ->
  Routes.fixMonth
    (String d1 (String d2 (String "-" (String c1 (String c2 (String c3 EmptyString))))))
  = String c1 (String c2 (String c3 (String "-" (String d1 (String d2 EmptyString))))).
Proof.
  intros H1 H2 H3 H4 H5. unfold Routes.fixMonth.
  rewrite (proj2 (matches_shape _)) by (exists d1, d2, c1, c2, c3; auto 10).
  simpl.
  rewrite (digit_not_dash d1 H1), (digit_not_dash d2 H2).
  rewrite (word_not_dash c1 H3), (word_not_dash c2 H4), (word_not_dash c3 H5).
  reflexivity.
Qed.
End MonthFacts.

(** C5, as the claim states it, fails: ["25-123"] is not two digits, a
    dash and three letters, and the handler still rewrites it. *)
Lemma C5_counterexample_digits_are_rewritten :
  ~ Spec.dayMonShape "25-123"
  /\ Routes.fixMonth "25-123" = "123-25"
  /\ Routes.fixMonth "25-123" <> "25-123".
Proof.
  split; [|split].
  - intros [d1 [d2 [c1 [c2 [c3 [E [_ [_ [H _]]]]]]]]].
    inversion E; subst. vm_compute in H. discriminate.
  - reflexivity.
  - vm_compute. discriminate.
Qed.

(** C5, amended.  A Month field made of exactly two digits, a dash and
    three word characters (letters, digits or underscore) is rewritten to
    the three characters, a dash and the two digits; in particular every
    field of two digits, a dash and three letters is, and ["25-Aug"]
    becomes ["Aug-25"].  Every other Month field is passed through
    unchanged. *)
Theorem C5_month_rewrite (month : string) :
  (forall d1 d2 c1 c2 c3,
      month = String d1 (String d2 (String "-"
                (String c1 (String c2 (String c3 EmptyString))))) ->
      Js.isDigit d1 = true -> Js.isDigit d2 = true ->
      Js.isWord c1 = true -> Js.isWord c2 = true -> Js.isWord c3 = true ->
      Routes.fixMonth month
      = String c1 (String c2 (String c3 (String "-" (String d1 (String d2 EmptyString))))))
  /\ (Spec.dayMonShape month -> Spec.dayWordShape month)
  /\ (~ Spec.dayWordShape month -> Routes.fixMonth month = month)
  /\ Routes.fixMonth "25-Aug" = "Aug-25".
Proof.
  split; [|split; [|split]].
  - intros d1 d2 c1 c2 c3 -> H1 H2 H3 H4 H5. now apply MonthFacts.fixMonth_swaps.
  - intros [d1 [d2 [c1 [c2 [c3 [E [H1 [H2 [H3 [H4 H5]]]]]]]]]].
    exists d1, d2, c1, c2, c3. repeat split; auto using MonthFacts.letter_is_word.
  - intros Hn. unfold Routes.fixMonth.
    destruct (Routes.matchesDayMonth month) eqn:E; [|reflexivity].
    exfalso. apply Hn. now apply MonthFacts.matches_shape.
  - reflexivity.
Qed.

(* ================================================================== *)
(** * Header matching *)
(* ================================================================== *)

Module HeaderFacts.

(** X25. [headersMatch]: as many headers as expected, and each equal to
    the expected one once both are trimmed, lower-cased and their runs of
    white space collapsed. *)
Theorem headersMatch_spec (received expected : list string) :
  Routes.headersMatch received expected = true <->
  Forall2 (fun r e => Routes.normalizeHeader r = Routes.normalizeHeader e)
          received expected.
Proof.
  unfold Routes.headersMatch. split.
  - destruct (Nat.eqb (List.length received) (List.length expected)) eqn:L;
      simpl; [|discriminate].
    apply Nat.eqb_eq in L. revert received L.
    induction expected as [|e expected IH]; intros [|r received] L; simpl in *;
      try discriminate.
    + constructor.
    + destruct (String.eqb (Routes.normalizeHeader r) (Routes.normalizeHeader e)) eqn:E;
        [|discriminate].
      intros H. constructor; [now apply String.eqb_eq|].
      apply IH; [congruence|exact H].
  - intros H. assert (L : List.length received = List.length expected).
    { induction H; simpl; congruence. }
    rewrite L, Nat.eqb_refl. simpl.
    induction H as [|r e received expected Hre _ IH]; simpl; [reflexivity|].
    apply String.eqb_eq in Hre. rewrite Hre. apply IH.
    now inversion L.
Qed.
Lemma everyHeaderEqualFrom_spec (expected headers : list string) (index : nat) :
  Routes.everyHeaderEqualFrom index expected headers = true <->
  firstn (List.length expected) (skipn index headers) = expected.
Proof.
  revert index. induction expected as [|e expected IH]; intros index; simpl.
  - tauto.
  - destruct (nth_error headers index) as [h|] eqn:E.
    + rewrite Bool.andb_true_iff, String.eqb_eq, IH.
      assert (Hs : skipn index headers = h :: skipn (S index) headers).
      { clear IH. revert index E. induction headers as [|x headers IHh];
          intros [|index] E; simpl in *; try discriminate.
        - now inversion E.
        - now apply IHh. }
      rewrite Hs. simpl. split.
      * intros [-> ->]. reflexivity.
      * intros H. injection H as Hh Ht. now rewrite Hh, Ht.
    + split; [discriminate|].
      assert (Hs : skipn index headers = []).
      { apply List.skipn_all2. now apply List.nth_error_None. }
      rewrite Hs. discriminate.
Qed.

(** X26. The roster upload accepts a header exactly when its first nine
    columns are the expected ones, character for character; what follows
    them is not looked at. *)
Theorem roster_headers_are_compared_exactly (headers : list string) :
  Routes.everyHeaderEqualFrom 0 Routes.rosterHeaders headers = true <->
  firstn 9 headers = Routes.rosterHeaders.
Proof. apply (everyHeaderEqualFrom_spec Routes.rosterHeaders headers 0). Qed.
End HeaderFacts.

(* ================================================================== *)
(** * The productivity upload *)
(* ================================================================== *)

Module UploadFacts.
Import Spec.

Section Upload.
Variable Store : Type.
Variable Stored : Type.
Variable getContractor : Js.number -> Store -> Routes.Lookup.
Variable bulkCreateProductivityData :
  list Routes.DataToInsert -> Store -> list Stored * Store.
Variable schemaError : Routes.DataToInsert -> option string.
Variable numberToString : Js.number -> string.

Local Abbreviation parseRow :=
  (Routes.parseRow getContractor schemaError numberToString).
Local Abbreviation parseRowsFrom :=
  (Routes.parseRowsFrom getContractor schemaError numberToString).

(** Every error carries the label of its row. *)
Lemma parseRow_label (st : Store) (i : nat) (line error : string) :
  parseRow st i line = inl error ->
  exists detail, error = (Routes.rowLabel i ++ detail)%string.
Proof.
  unfold Routes.parseRow.
  destruct (Nat.ltb (List.length (Routes.parseCSVLine line)) 6).
  - intros H. inversion H. eexists. reflexivity.
  - destruct (getContractor _ st) as [c| |message].
    + destruct (schemaError _) as [message|]; intros H; inversion H.
      eexists. reflexivity.
    + intros H. inversion H. eexists. reflexivity.
    + intros H. inversion H. eexists. reflexivity.
Qed.

(** The loop pushes, for each row in turn, its error or its data, and
    goes on to the next row. *)
Lemma parseRowsFrom_outcomes (st : Store) (dataRows : list string) (i : nat)
      (productivityData : list Routes.DataToInsert) (errors : list string) :
  parseRowsFrom st i dataRows productivityData errors
  = (productivityData
       ++ rowsOf (JsArray.mapFrom (fun line k => parseRow st k line) i dataRows),
     errors
       ++ errorsOf (JsArray.mapFrom (fun line k => parseRow st k line) i dataRows)).
Proof.
  revert i productivityData errors.
  induction dataRows as [|line rest IH]; intros i productivityData errors; simpl.
  - now rewrite !List.app_nil_r.
  - destruct (Routes.parseRow getContractor schemaError numberToString st i line)
      as [error|data]; rewrite IH; simpl; now rewrite <- !List.app_assoc.
Qed.

Lemma outcomes_count (D : Type) (outcomes : list (string + D)) :
  List.length (rowsOf outcomes) + List.length (errorsOf outcomes)
  = List.length outcomes.
Proof.
  induction outcomes as [|[e|d] r IH]; simpl; lia.
Qed.
End Upload.
End UploadFacts.

(** The decision of the productivity upload on a header that does not
    match: the whole file is refused with the expected and the received
    headers, and the message names the roster upload when the headers are
    those of a roster. *)
Theorem upload_header_mismatch
        (Store Stored : Type)
        (getContractor : Js.number -> Store -> Routes.Lookup)
        (bulkCreateProductivityData :
           list Routes.DataToInsert -> Store -> list Stored * Store)
        (schemaError : Routes.DataToInsert -> option string)
        (numberToString : Js.number -> string)
        (csvContent : string) (st : Store) :
  let lines := Routes.nonBlankLines csvContent in
  let headers :=
    List.map Routes.cleanHeader (Routes.parseCSVLine (nth 0 lines EmptyString)) in
  (2 <= List.length lines)%nat ->
  Routes.headersMatch headers Routes.productivityHeaders = false ->
  Routes.uploadCsv getContractor bulkCreateProductivityData schemaError
                   numberToString (Some csvContent) st
  = (Routes.BadHeaders
       (if Routes.headersMatch headers Routes.rosterHeaders
        then "This appears to be a contractor roster file. Please switch to 'Contractor Roster' upload type."
        else "CSV headers don't match expected format for productivity data")
       Routes.productivityHeaders headers,
     st).
Proof.
  intros lines headers Hlines Hmis. unfold Routes.uploadCsv.
  fold lines. fold headers.
  destruct (Nat.ltb (List.length lines) 2) eqn:L.
  - apply Nat.ltb_lt in L. lia.
  - rewrite Hmis. simpl. now destruct (Routes.headersMatch headers Routes.rosterHeaders).
Qed.

(** C6 (the code departs from the claim).  The claim: both upload modes
    compare headers without regard to case, with runs of white space
    collapsed, and require as many headers as expected.  The productivity
    upload does: it takes a header in lower case with wide gaps, and
    answers a roster header with the guidance to use the roster upload.
    The roster upload does not call [headersMatch]: it refuses a roster
    header in lower case, which [headersMatch] accepts, and it takes a
    header with a tenth column, which [headersMatch] refuses. *)
Theorem C6_roster_upload_compares_headers_exactly :
  (let received :=
     ["name"; "id"; "personal email"; "work email"; "work location";
      "position"; "start date"; "separation date"; "birthday"] in
   Routes.uploadContractorRosterHeader (Some Scenario.lowerCaseRoster)
   = Routes.RosterBadHeaders "CSV headers don't match expected format"
                             Routes.rosterHeaders received
   /\ Routes.headersMatch received Routes.rosterHeaders = true)
  /\ (Routes.uploadContractorRosterHeader (Some Scenario.widerRoster)
      = Routes.RosterHeadersAccepted ["Ann,1,,,,,,,,x"]
      /\ Routes.headersMatch (Routes.rosterHeaders ++ ["Notes"]) Routes.rosterHeaders
         = false)
  /\ (exists data st,
         Scenario.uploadCsv Scenario.lowerCaseProductivity
         = (Routes.Processed "Successfully processed 1 records" 1 None data, st))
  /\ fst (Scenario.uploadCsv Scenario.rosterSentAsProductivity)
     = Routes.BadHeaders
         "This appears to be a contractor roster file. Please switch to 'Contractor Roster' upload type."
         Routes.productivityHeaders Routes.rosterHeaders.
Proof.
  split; [|split; [|split]].
  - split; vm_compute; reflexivity.
  - split; vm_compute; reflexivity.
  - eexists. eexists. vm_compute. reflexivity.
  - vm_compute. reflexivity.
Qed.




(** X29. Both stores return one record for each row they are given, so
    the number of records processed is the number of rows read.  The
    in-memory store always returns.  The relational store returns whenever
    its [real] columns take the measures of every row; it throws only when
    a column refuses a measure of one of the rows. *)
Lemma backends_return_one_record_per_row
      (real : Js.number -> option Js.number)
      (now : nat -> Date) (randomUUID : nat -> string)
      (rows : list Routes.DataToInsert) (st : MemStorage.t) (db : DatabaseStorage.t) :
  List.length (fst (Backend.memBulkCreate now randomUUID rows st)) = List.length rows
  /\ match fst (Backend.dbBulkCreate real now randomUUID rows db) with
     | Some records => List.length records = List.length rows
     | None =>
         exists row,
           In row rows /\ DatabaseStorage.stored real (Backend.toInsert row) = None
     end
  /\ ((forall row, In row rows ->
         DatabaseStorage.stored real (Backend.toInsert row) <> None) ->
      fst (Backend.dbBulkCreate real now randomUUID rows db) <> None).
Proof.
  assert (H : match fst (Backend.dbBulkCreate real now randomUUID rows db) with
              | Some records => List.length records = List.length rows
              | None =>
                  exists row,
                    In row rows
                    /\ DatabaseStorage.stored real (Backend.toInsert row) = None
              end).
  { unfold Backend.dbBulkCreate, DatabaseStorage.bulkCreateProductivityData.
    destruct rows as [|row rows]; [reflexivity|].
    change (List.map Backend.toInsert (row :: rows))
      with (Backend.toInsert row :: List.map Backend.toInsert rows).
    cbv iota.
    pose proof (DatabaseUpsertFacts.db_bulkFrom_length real now randomUUID
                  (Backend.toInsert row :: List.map Backend.toInsert rows) [] db) as L.
    destruct (fst (DatabaseStorage.bulkFrom real now randomUUID []
                     (Backend.toInsert row :: List.map Backend.toInsert rows) db))
      as [records|].
    - rewrite L. simpl. now rewrite List.length_map.
    - destruct L as [item [Hin Hnone]].
      change (Backend.toInsert row :: List.map Backend.toInsert rows)
        with (List.map Backend.toInsert (row :: rows)) in Hin.
      apply List.in_map_iff in Hin. destruct Hin as [x [<- Hx]]. now exists x. }
  split; [|split; [exact H|]].
  - unfold Backend.memBulkCreate, MemStorage.bulkCreateProductivityData.
    now rewrite MemUpsertFacts.mem_bulkFrom_length, List.length_map.
  - intros Hall.
    destruct (fst (Backend.dbBulkCreate real now randomUUID rows db));
      [discriminate|].
    destruct H as [row [Hin Hnone]]. now destruct (Hall row Hin).
Qed.

(* ================================================================== *)
(** * The record validator *)
(* ================================================================== *)

Module ValidatorFacts.
Import CSVParser.

(** A field with a colon splits into two pieces or more. *)
Lemma split_colon (sep : ascii) (field : string) :
  Js.includes sep field = true ->
  exists a b rest, Js.split sep field = a :: b :: rest.
Proof.
  induction field as [|c field IH]; [discriminate|]. simpl.
  destruct (Ascii.eqb c sep) eqn:E.
  - intros _. destruct (Js.split sep field) as [|b rest] eqn:S;
      [now apply JsFacts.split_nonempty in S|].
    now exists EmptyString, b, rest.
  - simpl. intros H. destruct (IH H) as [a [b [rest ->]]].
    now exists (String c a), b, rest.
Qed.

Section Arithmetic.
Context {N : Type} {arithmetic : Number.Arithmetic N}.

(** [parseProductiveHours] computes the rule of the specification. *)
Lemma parseProductiveHours_rule (field : string) :
  parseProductiveHours field = Spec.hoursOfField field.
Proof.
  unfold parseProductiveHours, Spec.hoursOfField.
  destruct (Js.includes ":" field) eqn:C.
  - destruct (split_colon ":" field C) as [h [m [rest ->]]].
    cbn [List.length Nat.leb nth]. destruct rest as [|s rest]; reflexivity.
  - now rewrite (JsFacts.split_one ":" field C).
Qed.

Section Messages.
Variable toFixed2 : N -> string.
Variable numberToString : N -> string.

Local Abbreviation message := (CSVParser.message toFixed2 numberToString).

Local Abbreviation messagesOf := (Spec.messagesOf toFixed2 numberToString).

Lemma validateRow_messages (row : CSVRow N) (index : nat) (errors : list string) :
  validateRow toFixed2 numberToString row index errors
  = errors ++ messagesOf row index.
Proof.
  unfold validateRow, check, Spec.messagesOf, rules. cbn [filter].
  destruct (offends EmployeeNumberRange row), (offends MonthAbbreviation row),
    (offends ProductivityRange row), (offends HoursNegative row),
    (offends ProductiveExceedsTotal row);
    cbn [List.map]; rewrite <- ?List.app_assoc; cbn [app];
    rewrite ?List.app_nil_r; reflexivity.
Qed.

Lemma validateFrom_messages (data : list (CSVRow N)) (index : nat)
      (errors : list string) :
  validateFrom toFixed2 numberToString index data errors
  = errors ++ List.concat (JsArray.mapFrom messagesOf index data).
Proof.
  revert index errors. induction data as [|row rest IH]; intros index errors; simpl.
  - now rewrite List.app_nil_r.
  - now rewrite IH, validateRow_messages, <- List.app_assoc.
Qed.

Lemma messages_count_from (data : list (CSVRow N)) (index : nat) :
  List.length (List.concat (JsArray.mapFrom messagesOf index data))
  = list_sum
      (List.map (fun row => List.length (filter (fun rule => offends rule row) rules))
                data).
Proof.
  revert index. induction data as [|row rest IH]; intros index; simpl; [reflexivity|].
  rewrite List.length_app, IH. unfold Spec.messagesOf at 1.
  now rewrite List.length_map.
Qed.

Lemma messages_count (data : list (CSVRow N)) :
  List.length (List.concat (JsArray.mapi messagesOf data))
  = list_sum
      (List.map (fun row => List.length (filter (fun rule => offends rule row) rules))
                data).
Proof. apply messages_count_from. Qed.
End Messages.
End Arithmetic.

(** The comparison is that of the doubles.  The hours 127:27:36 are
    127.46 as rationals, and the sum of the three doubles is the double
    after 127.46: the validator of JavaScript reports the row, and a
    validator that computed with rationals would not. *)
Lemma validator_compares_doubles :
  Number.parseFloat "127.46" = SpecFloat.S754_finite false 8969200132885053 (-46)
  /\ CSVParser.parseProductiveHours (N := Double.t) "127:27:36"
     = SpecFloat.S754_finite false 8969200132885054 (-46)
  /\ CSVParser.offends (N := Double.t) ProductiveExceedsTotal Scenario.roundedRow = true
  /\ CSVParser.offends (N := Js.number) ProductiveExceedsTotal Scenario.roundedRow
     = false.
Proof. repeat split; vm_compute; reflexivity. Qed.
End ValidatorFacts.



(* ================================================================== *)
(** * Numbers beyond the doubles *)
(* ================================================================== *)

Module OverflowFacts.

(** ** Lengths *)

Lemma trimStart_length (s : string) :
  (String.length (Js.trimStart s) <= String.length s)%nat.
Proof.
  induction s as [|c r IH]; simpl; [lia|].
  destruct (Js.isWhiteSpace c); simpl; lia.
Qed.

Lemma readSign_length (s : string) :
  (String.length (snd (Js.readSign s)) <= String.length s)%nat.
Proof.
  destruct s as [|c r]; simpl; [lia|].
  destruct c as [[] [] [] [] [] [] [] []]; simpl; lia.
Qed.

Lemma piece_length (sep : ascii) (s piece : string) :
  In piece (Js.split sep s) -> (String.length piece <= String.length s)%nat.
Proof.
  revert piece. induction s as [|c r IH]; intros piece; simpl.
  - intros [<-|[]]. simpl. lia.
  - destruct (Ascii.eqb c sep).
    + intros [<-|H]; [simpl; lia|]. specialize (IH piece H). lia.
    + destruct (Js.split sep r) as [|p ps] eqn:S.
      * intros [<-|[]]. simpl. lia.
      * intros [<-|H]; simpl.
        -- specialize (IH p (or_introl eq_refl)). lia.
        -- specialize (IH piece (or_intror H)). lia.
Qed.

(** ** The magnitude of the digits *)

Lemma spanDigits_bound (radix : Z) (s : string) :
  (0 < radix)%Z ->
  (List.length (fst (Js.spanDigits radix s)) <= String.length s)%nat
  /\ Forall (fun d => 0 <= d < radix)%Z (fst (Js.spanDigits radix s)).
Proof.
  intros R. induction s as [|c r [IH1 IH2]]; simpl; [split; [lia|constructor]|].
  destruct (Js.digitValue c) as [d|] eqn:D; [|split; [simpl; lia|constructor]].
  destruct (Z.ltb_spec d radix) as [L|L]; [|split; [simpl; lia|constructor]].
  destruct (Js.spanDigits radix r) as [ds rest]. simpl in *.
  split; [lia|]. constructor; [|exact IH2]. split; [|exact L].
  unfold Js.digitValue in D.
  destruct (Js.isDigit c) eqn:E1.
  - inversion D; subst. unfold Js.isDigit in E1.
    apply Bool.andb_true_iff in E1 as [E1 _]. apply Nat.leb_le in E1. lia.
  - destruct (Js.isLower c) eqn:E2.
    + inversion D; subst. unfold Js.isLower in E2.
      apply Bool.andb_true_iff in E2 as [E2 _]. apply Nat.leb_le in E2. lia.
    + destruct (Js.isUpper c) eqn:E3; [|discriminate].
      inversion D; subst. unfold Js.isUpper in E3.
      apply Bool.andb_true_iff in E3 as [E3 _]. apply Nat.leb_le in E3. lia.
Qed.

Lemma fold_digits_bound (radix : Z) (ds : list Z) (acc : Z) (n : nat) :
  (0 < radix)%Z ->
  Forall (fun d => 0 <= d < radix)%Z ds ->
  (0 <= acc < radix ^ Z.of_nat n)%Z ->
  (0 <= fold_left (fun acc d => acc * radix + d) ds acc
   < radix ^ Z.of_nat (n + List.length ds))%Z.
Proof.
  intros R H. revert acc n. induction H as [|d ds Hd _ IH]; intros acc n A; simpl.
  - now rewrite Nat.add_0_r.
  - replace (n + S (List.length ds))%nat with (S n + List.length ds)%nat by lia.
    apply IH. rewrite Nat2Z.inj_succ, Z.pow_succ_r by lia. nia.
Qed.

Lemma digitsToZ_bound (radix : Z) (ds : list Z) :
  (0 < radix)%Z ->
  Forall (fun d => 0 <= d < radix)%Z ds ->
  (0 <= Js.digitsToZ radix ds < radix ^ Z.of_nat (List.length ds))%Z.
Proof.
  intros R H. apply (fold_digits_bound radix ds 0 0 R H). simpl. lia.
Qed.

Lemma radix_choice (s1 : string) :
  let choice :=
    match s1 with
    | String "0" (String "x" r) => (16%Z, r)
    | String "0" (String "X" r) => (16%Z, r)
    | _ => (10%Z, s1)
    end in
  (fst choice = 10 \/ fst choice = 16)%Z
  /\ (String.length (snd choice) <= String.length s1)%nat.
Proof.
  destruct s1 as [|a [|b r]];
    [simpl; lia
    |destruct a as [[] [] [] [] [] [] [] []]; simpl; lia
    |destruct a as [[] [] [] [] [] [] [] []]; try (simpl; lia);
     destruct b as [[] [] [] [] [] [] [] []]; simpl; lia].
Qed.

(** The magnitude [parseInt] reads is below 16 to the length of the
    string. *)
Lemma readInt_bound (str : string) (negative : bool) (magnitude : Z) :
  Js.readInt str = Some (negative, magnitude) ->
  (0 <= magnitude < 16 ^ Z.of_nat (String.length str))%Z.
Proof.
  unfold Js.readInt.
  pose proof (trimStart_length str) as L1.
  pose proof (readSign_length (Js.trimStart str)) as L2.
  destruct (Js.readSign (Js.trimStart str)) as [sign s1]. simpl in L2.
  assert (H : forall radix s2,
             (radix = 10 \/ radix = 16)%Z ->
             (String.length s2 <= String.length s1)%nat ->
             match Js.spanDigits radix s2 with
             | ([], _) => None
             | (ds, _) => Some (sign, Js.digitsToZ radix ds)
             end = Some (negative, magnitude) ->
             (0 <= magnitude < 16 ^ Z.of_nat (String.length str))%Z).
  { intros radix s2 R L3.
    assert (R0 : (0 < radix)%Z) by lia.
    destruct (spanDigits_bound radix s2 R0) as [B1 B2].
    destruct (Js.spanDigits radix s2) as [ds rest]. simpl in B1, B2.
    pose proof (digitsToZ_bound radix ds R0 B2) as B.
    destruct ds as [|d ds]; [discriminate|]. intros E. inversion E; subst.
    split; [lia|]. eapply Z.lt_le_trans; [apply B|].
    transitivity (16 ^ Z.of_nat (List.length (d :: ds)))%Z.
    - apply Z.pow_le_mono_l. lia.
    - apply Z.pow_le_mono_r; lia. }
  destruct (match s1 with
            | String "0" (String "x" r) => (16%Z, r)
            | String "0" (String "X" r) => (16%Z, r)
            | _ => (10%Z, s1)
            end) as [radix s2] eqn:C.
  destruct (radix_choice s1) as [C1 C2]. rewrite C in C1, C2.
  now apply H.
Qed.

Lemma firstn_member (A : Type) (n : nat) (l : list A) (x : A) :
  In x (firstn n l) -> In x l.
Proof.
  revert l. induction n as [|n IH]; intros [|y l]; simpl; try tauto.
  intros [->|H]; [now left|right; now apply IH].
Qed.

(** Within 255 characters [parseInt] reads no infinity. *)
Lemma parseInt_finite (str : string) :
  (String.length str <= 255)%nat ->
  forall negative, Js.parseInt str <> Js.Infinity negative.
Proof.
  intros L negative. unfold Js.parseInt.
  destruct (Js.readInt str) as [[sign magnitude]|] eqn:R; [|discriminate].
  apply readInt_bound in R. unfold Js.ofLiteral.
  destruct (Qle_bool (inject_Z Js.overflowBound) (inject_Z magnitude)) eqn:Q;
    [|discriminate].
  exfalso. apply Qle_bool_iff in Q. rewrite <- Zle_Qle in Q.
  assert (B : (16 ^ Z.of_nat (String.length str) <= 16 ^ 255)%Z)
    by (apply Z.pow_le_mono_r; lia).
  assert (E : (16 ^ 255 < Js.overflowBound)%Z) by (vm_compute; reflexivity).
  lia.
Qed.

(** A part of the hours is a rational, unless [parseInt] reads an
    infinity. *)
Lemma part_cases (text : string) :
  (exists x, Js.orElse (Js.parseInt text) (Js.ofZ 0) = Js.Num x)
  \/ exists negative, Js.parseInt text = Js.Infinity negative.
Proof.
  unfold Js.orElse. destruct (Js.parseInt text) as [x| |negative]; simpl.
  - left. destruct (negb (Js.isZero x)); eexists; reflexivity.
  - left. eexists; reflexivity.
  - right. now exists negative.
Qed.

Lemma div_num (x : Q) (z : Z) :
  z <> 0%Z -> Js.div (Js.Num x) (Js.ofZ z) = Js.Num (x / inject_Z z).
Proof.
  intros Hz. unfold Js.div, Js.ofZ, Js.isZero.
  destruct (Qeq_bool (inject_Z z) 0) eqn:E; [|reflexivity].
  apply Qeq_bool_iff in E. unfold Qeq in E. simpl in E. lia.
Qed.

(** The hours are [NaN] only if one of the three parts reads as an
    infinity. *)
Lemma hours_NaN (str : string) :
  Js.isNaN (CSVParser.parseProductiveHours str) = true ->
  exists part negative,
    In part (firstn 3 (Js.split ":" str))
    /\ Js.parseInt part = Js.Infinity negative.
Proof.
  rewrite ValidatorFacts.parseProductiveHours_rule. unfold Spec.hoursOfField.
  assert (D : Js.isNaN (if Number.isNaN (Number.parseFloat str)
                        then Number.ofZ 0 else Number.parseFloat str) = false).
  { simpl. destruct (Js.parseFloat str); reflexivity. }
  destruct (Js.split ":" str) as [|h [|m rest]];
    [now rewrite D|now rewrite D|].
  change (@Number.orElse Js.number Number.exact) with Js.orElse.
  change (@Number.parseInt Js.number Number.exact) with Js.parseInt.
  change (@Number.ofZ Js.number Number.exact) with Js.ofZ.
  change (@Number.add Js.number Number.exact) with Js.add.
  change (@Number.div Js.number Number.exact) with Js.div.
  destruct (part_cases h) as [[x ->]|[negative I]];
    [|intros _; exists h, negative; simpl; tauto].
  destruct (part_cases m) as [[y ->]|[negative I]];
    [|intros _; exists m, negative; simpl; tauto].
  destruct rest as [|s rest]; cbn [List.hd_error].
  - rewrite !div_num by lia. discriminate.
  - destruct (part_cases s) as [[z ->]|[negative I]];
      [|intros _; exists s, negative; simpl; tauto].
    rewrite !div_num by lia. discriminate.
Qed.
End OverflowFacts.

(** X27.  The hours the client parser computes from a field are [NaN]
    only when one of the first three parts between the colons reads, by
    [parseInt], as an infinity, that is when its digits go beyond the
    doubles: a part that is no number counts for 0, and a field without a
    colon that is no number gives 0.  A field of 255 characters or fewer
    never gives [NaN].  A field whose hours and minutes are infinities of
    opposite signs does give [NaN], with the rationals as with the
    doubles. *)
Theorem parser_NaN_only_beyond_doubles (str : string) :
  (Js.isNaN (CSVParser.parseProductiveHours str) = true ->
   exists part negative,
     In part (firstn 3 (Js.split ":" str))
     /\ Js.parseInt part = Js.Infinity negative)
  /\ ((String.length str <= 255)%nat ->
      Js.isNaN (CSVParser.parseProductiveHours str) = false)
  /\ Js.isNaN (CSVParser.parseProductiveHours Scenario.beyondDoubles) = true
  /\ Double.isNaN (CSVParser.parseProductiveHours Scenario.beyondDoubles) = true.
Proof.
  split; [apply OverflowFacts.hours_NaN|].
  split; [|split; vm_compute; reflexivity].
  intros L. destruct (Js.isNaN (CSVParser.parseProductiveHours str)) eqn:E;
    [|reflexivity].
  apply OverflowFacts.hours_NaN in E as [part [negative [Hin Hinf]]].
  exfalso. apply (OverflowFacts.parseInt_finite part) with negative; [|exact Hinf].
  apply OverflowFacts.firstn_member in Hin.
  apply OverflowFacts.piece_length in Hin. lia.
Qed.

(* ================================================================== *)
(** * CSV export *)
(* ================================================================== *)

Module CsvFacts.
Import CsvUtils Spec.

Lemma startsWith_app (p s : string) : Js.startsWith p (p ++ s) = true.
Proof.
  induction p as [|c p IH]; simpl; [reflexivity|].
  now rewrite Ascii.eqb_refl, IH.
Qed.

(** Every exported file begins with the byte order mark. *)
Theorem exports_begin_with_BOM
        (numberToString : Js.number -> string)
        (data : list (list Value)) (headers : list string) :
  Js.startsWith BOM (generateCsv numberToString data) = true
  /\ Js.startsWith BOM (createCsvContent numberToString headers data) = true.
Proof. split; apply startsWith_app. Qed.

Lemma trimStart_first (s : string) (c : ascii) (r : string) :
  Js.trimStart s = String c r -> Js.isWhiteSpace c = false.
Proof.
  induction s as [|d s IH]; simpl; [discriminate|].
  destruct (Js.isWhiteSpace d) eqn:E; [exact IH|].
  intros H. inversion H; subst. exact E.
Qed.

Lemma trimEnd_first (c : ascii) (r : string) :
  Js.trimEnd (String c r) = EmptyString
  \/ exists r', Js.trimEnd (String c r) = String c r'.
Proof.
  simpl. destruct (Js.trimEnd r).
  - destruct (Js.isWhiteSpace c); [now left|right; now eexists].
  - right. now eexists.
Qed.

(** A trimmed string does not begin with white space: the tab in the
    test of the first character can never be met. *)
Lemma trim_first (s : string) (c : ascii) (r : string) :
  Js.trim s = String c r -> Js.isWhiteSpace c = false.
Proof.
  unfold Js.trim. destruct (Js.trimStart s) as [|d t] eqn:E; [discriminate|].
  destruct (trimEnd_first d t) as [H|[r' H]]; rewrite H; [discriminate|].
  intros H'. inversion H'; subst. exact (trimStart_first s _ _ E).
Qed.

Lemma startsDangerous_trim (s : string) :
  startsDangerous (Js.trim s)
  = match Js.trim s with String c _ => startsFormula c | EmptyString => false end.
Proof.
  destruct (Js.trim s) as [|c r] eqn:E; [reflexivity|].
  apply trim_first in E. unfold startsDangerous, startsFormula.
  destruct (Ascii.eqb c "009") eqn:T; [|now rewrite Bool.orb_false_r].
  apply Ascii.eqb_eq in T. subst c. discriminate.
Qed.

Lemma trim_keeps_first (c : ascii) (r : string) :
  Js.isWhiteSpace c = false -> exists r', Js.trim (String c r) = String c r'.
Proof.
  intros Hc. unfold Js.trim. simpl Js.trimStart. rewrite Hc.
  destruct (trimEnd_first c r) as [H|H]; [|exact H].
  simpl in H. destruct (Js.trimEnd r); [now rewrite Hc in H|discriminate].
Qed.

Lemma formula_not_white (c : ascii) : startsFormula c = true -> Js.isWhiteSpace c = false.
Proof.
  unfold startsFormula. rewrite !Bool.orb_true_iff, !Ascii.eqb_eq.
  intros [[[->| ->]| ->]| ->]; reflexivity.
Qed.

Lemma needsQuoting_apostrophe (s : string) :
  needsQuoting (String "'" s) = needsQuoting s.
Proof. reflexivity. Qed.

(** X28. A field that begins with [=], [+], [-] or [@] gets a leading
    single quote, inside the double quotes when it needs them. *)
Theorem formula_fields_are_prefixed (c : ascii) (r : string) :
  startsFormula c = true ->
  escapeString (String c r)
  = if needsQuoting (String c r)
    then quoted (String "'" (String c r))
    else String "'" (String c r).
Proof.
  intros Hc. unfold escapeString.
  destruct (trim_keeps_first c r (formula_not_white c Hc)) as [r' E].
  rewrite startsDangerous_trim, E, Hc, needsQuoting_apostrophe. reflexivity.
Qed.

(** A field that holds a comma, a double quote or a line break comes out
    between double quotes, its double quotes doubled. *)
Theorem special_fields_are_quoted (s : string) :
  Js.includes "," s = true \/ Js.includes Js.quote s = true
  \/ Js.includes "010" s = true \/ Js.includes "013" s = true ->
  escapeString s
  = quoted (if startsDangerous (Js.trim s) then String "'" s else s).
Proof.
  intros H. unfold escapeString.
  assert (Hq : needsQuoting s = true).
  { unfold needsQuoting. rewrite !Bool.orb_true_iff. tauto. }
  destruct (startsDangerous (Js.trim s)).
  - now rewrite needsQuoting_apostrophe, Hq.
  - now rewrite Hq.
Qed.

(** A leading tab is invisible to the test: the field is tested on what
    follows the tab, and when that is harmless the field comes out as it
    came in. *)
Theorem leading_tab_is_invisible (r : string) :
  startsDangerous (Js.trim (String "009" r)) = startsDangerous (Js.trim r)
  /\ (startsDangerous (Js.trim r) = false -> needsQuoting r = false ->
      escapeString (String "009" r) = String "009" r).
Proof.
  assert (E : Js.trim (String "009" r) = Js.trim r) by reflexivity.
  split; [now rewrite E|].
  intros Hd Hq. unfold escapeString. rewrite E, Hd.
  assert (Hq' : needsQuoting (String "009" r) = needsQuoting r) by reflexivity.
  now rewrite Hq', Hq.
Qed.

Lemma replaceAll_empty (s : string) :
  Js.replaceAll Js.quote (String Js.quote (String Js.quote EmptyString)) s = EmptyString ->
  s = EmptyString.
Proof.
  destruct s as [|c s]; [reflexivity|]. simpl.
  destruct (Ascii.eqb c Js.quote); discriminate.
Qed.

(** Doubling the double quotes loses nothing: reading each pair as one
    gives the field back. *)
Theorem doubled_quotes_read_back (s : string) :
  undouble (Js.replaceAll Js.quote (String Js.quote (String Js.quote EmptyString)) s) = s.
Proof.
  induction s as [|c s IH]; [reflexivity|].
  simpl Js.replaceAll. destruct (Ascii.eqb c Js.quote) eqn:E.
  - apply Ascii.eqb_eq in E. subst c.
    change (undouble (String Js.quote (String Js.quote
              (Js.replaceAll Js.quote (String Js.quote (String Js.quote EmptyString)) s)))
            = String Js.quote s).
    simpl. now rewrite IH.
  - destruct (Js.replaceAll Js.quote (String Js.quote (String Js.quote EmptyString)) s)
      as [|b t] eqn:R.
    + apply replaceAll_empty in R. now subst s.
    + simpl. rewrite E. simpl. simpl in IH. now rewrite IH.
Qed.
End CsvFacts.

(** C10 (the code departs from the claim).  The claim: a field that
    starts with a tab gets a leading single quote, like one that starts
    with [=], [+], [-] or [@].  The test is made on the trimmed value, and
    trimming removes a leading tab, so a field that starts with a tab is
    tested on what follows the tab: [<tab>1+1] leaves both escaping
    functions as it came, without the single quote, while [=1+1] gets it.
    The byte order mark and the double quotes are as the claim has
    them. *)
Theorem C10_leading_tab_is_not_neutralized :
  CsvUtils.escapeCsvField Scenario.numberToString (CsvUtils.Str (String "009" "1+1"))
  = String "009" "1+1"
  /\ CsvUtils.escapeCsvValue Scenario.numberToString (CsvUtils.Str (String "009" "1+1"))
     = String "009" "1+1"
  /\ CsvUtils.escapeCsvField Scenario.numberToString (CsvUtils.Str "=1+1") = "'=1+1"
  /\ CsvUtils.generateCsv Scenario.numberToString
       [[CsvUtils.Str "Name"; CsvUtils.Str "Note"];
        [CsvUtils.Str "Doe, John"; CsvUtils.Str (String "009" "1+1")]]
     = (CsvUtils.BOM ++ "Name,Note" ++ String "010" (Spec.quoted "Doe, John")
          ++ "," ++ String "009" "1+1")%string.
Proof.
  repeat split; vm_compute; reflexivity.
Qed.

(* ================================================================== *)
(** * The general facts on concrete inputs *)
(* ================================================================== *)

(** [114:39:00] in the upload handler. *)
Lemma upload_time_value_witness :
  Js.includes ":" "114" = false /\ Js.includes ":" "39" = false
  /\ Js.includes ":" "00" = false
  /\ Routes.productiveHoursOf "114:39:00"
     = Js.Num (inject_Z 114 + inject_Z 39 / inject_Z 60 + inject_Z 0 / inject_Z 3600).
Proof.
  split; [reflexivity|]. split; [reflexivity|]. split; [reflexivity|].
  apply (HoursFacts.upload_time_value "114" "39" "00"
           (inject_Z 114) (inject_Z 39) (inject_Z 0)); reflexivity.
Defined.

(** [114:39:00] in the client parser. *)
Lemma parser_time_value_witness :
  Js.sameNumber (CSVParser.parseProductiveHours "114:39:00")
                (Js.Num (inject_Z 114 + inject_Z 39 / inject_Z 60
                         + inject_Z 0 / inject_Z 3600)).
Proof.
  apply (HoursFacts.parser_time_value "114" "39" "00"
           (inject_Z 114) (inject_Z 39) (inject_Z 0)); reflexivity.
Defined.

(** A formula with a comma: prefixed, then quoted. *)
Lemma formula_fields_are_prefixed_witness :
  Spec.startsFormula "=" = true
  /\ CsvUtils.escapeString "=SUM(A1,A2)" = Spec.quoted "'=SUM(A1,A2)".
Proof.
  split; [reflexivity|].
  apply (CsvFacts.formula_fields_are_prefixed "=" "SUM(A1,A2)"). reflexivity.
Defined.

(** A name with a comma. *)
Lemma special_fields_are_quoted_witness :
  Js.includes "," "Doe, John" = true
  /\ CsvUtils.escapeString "Doe, John" = Spec.quoted "Doe, John".
Proof.
  split; [reflexivity|].
  apply (CsvFacts.special_fields_are_quoted "Doe, John"). left. reflexivity.
Defined.

(** A roster file sent to the productivity upload. *)
Lemma upload_header_mismatch_witness :
  fst (Scenario.uploadCsv Scenario.rosterSentAsProductivity)
  = Routes.BadHeaders
      "This appears to be a contractor roster file. Please switch to 'Contractor Roster' upload type."
      Routes.productivityHeaders Routes.rosterHeaders.
Proof.
  unfold Scenario.uploadCsv.
  rewrite (upload_header_mismatch
             MemStorage.t ProductivityData.t Backend.memGetContractor
             (Backend.memBulkCreate Scenario.clock Scenario.uuid)
             Scenario.schemaError Scenario.numberToString
             Scenario.rosterSentAsProductivity Scenario.memRoster).
  - reflexivity.
  - vm_compute. lia.
  - reflexivity.
Defined.

(** The ranks of the in-memory store on the tied upload. *)
Lemma mem_rankings_sorted_dense_witness :
  List.map MonthlyRanking.rank
           (MemStorage.getMonthlyRankings "Aug-25" (Scenario.memAfter Scenario.tiedUpload))
  = [1; 2].
Proof.
  destruct (MemRankingFacts.mem_rankings_sorted_dense
              "Aug-25" (Scenario.memAfter Scenario.tiedUpload))
    as [sorted [_ [_ [_ H]]]].
  - repeat constructor; eexists; reflexivity.
  - exact H.
Defined.

(** The join keeps both records of the tied upload. *)
Lemma db_rankings_cover_month_witness :
  List.map fst (DatabaseStorage.monthRows "Aug-25" (Scenario.dbAfter Scenario.tiedUpload))
  = DatabaseStorage.getProductivityDataByMonth "Aug-25"
      (Scenario.dbAfter Scenario.tiedUpload).
Proof.
  apply (DatabaseRankingFacts.db_rankings_cover_month
           "Aug-25" (Scenario.dbAfter Scenario.tiedUpload)).
  - repeat constructor; simpl; intuition discriminate.
  - intros p [<-|[<-|[]]].
    + exists (Scenario.contractor 1 "Ann" "Full Time").
      split; [left; reflexivity|reflexivity].
    + exists (Scenario.contractor 2 "Bob" "Full Time").
      split; [right; left; reflexivity|reflexivity].
Defined.

(* ================================================================== *)
(** * The line parser of the upload *)
(* ================================================================== *)

Module LineFacts.
Import Spec.

Lemma append_nil_r (s : string) : (s ++ EmptyString)%string = s.
Proof. induction s as [|c s IH]; simpl; [reflexivity|now rewrite IH]. Qed.

Lemma append_char (cur : string) (c : ascii) (u : string) :
  ((cur ++ String c EmptyString) ++ u)%string = (cur ++ String c u)%string.
Proof. now rewrite JsFacts.append_assoc. Qed.

(** A double quote met outside quotes opens a quoted stretch, whatever
    follows it. *)
Lemma parse_open_quote (str cur : string) (res : list string) :
  Routes.parseCSVFrom (String Js.quote str) cur false res
  = Routes.parseCSVFrom str cur true res.
Proof. destruct str; reflexivity. Qed.

(** Outside quotes, text without comma and double quote is taken as it
    stands. *)
Lemma parse_plain (u rest cur : string) (res : list string) :
  Js.includes Js.quote u = false -> Js.includes "," u = false ->
  Routes.parseCSVFrom (u ++ rest) cur false res
  = Routes.parseCSVFrom rest (cur ++ u) false res.
Proof.
  revert cur. induction u as [|c u IH]; intros cur Hq Hc.
  - now rewrite append_nil_r.
  - simpl in Hq, Hc. apply Bool.orb_false_iff in Hq as [Hq1 Hq2].
    apply Bool.orb_false_iff in Hc as [Hc1 Hc2].
    simpl. rewrite Hq1, Hc1. simpl. rewrite IH by assumption.
    now rewrite append_char.
Qed.

Abbreviation doubled :=
  (Js.replaceAll Js.quote (String Js.quote (String Js.quote EmptyString))).

(** Inside quotes, a field with its double quotes doubled is read back
    up to the closing double quote, when a comma or the end of the line
    follows it. *)
Lemma parse_quoted (s rest cur : string) (res : list string) :
  rest = EmptyString \/ (exists r, rest = String "," r) ->
  Routes.parseCSVFrom (doubled s ++ String Js.quote rest) cur true res
  = Routes.parseCSVFrom rest (cur ++ s) false res.
Proof.
  intros Hrest. revert cur. induction s as [|c s IH]; intros cur.
  - rewrite append_nil_r. destruct Hrest as [->|[r ->]]; reflexivity.
  - simpl Js.replaceAll. destruct (Ascii.eqb c Js.quote) eqn:E.
    + apply Ascii.eqb_eq in E. subst c.
      change (Routes.parseCSVFrom
                (String Js.quote (String Js.quote (doubled s ++ String Js.quote rest)))
                cur true res
              = Routes.parseCSVFrom rest (cur ++ String Js.quote s) false res).
      simpl. rewrite IH. now rewrite append_char.
    + change (Routes.parseCSVFrom (String c (doubled s ++ String Js.quote rest))
                                  cur true res
              = Routes.parseCSVFrom rest (cur ++ String c s) false res).
      simpl. rewrite E. rewrite Bool.andb_false_r. rewrite IH.
      now rewrite append_char.
Qed.

Lemma needsQuoting_false (s : string) :
  CsvUtils.needsQuoting s = false ->
  Js.includes Js.quote s = false /\ Js.includes "," s = false.
Proof.
  unfold CsvUtils.needsQuoting. rewrite !Bool.orb_false_iff. tauto.
Qed.

(** One exported field in front of a comma or of the end of the line. *)
Lemma parse_field (s rest : string) (res : list string) :
  rest = EmptyString \/ (exists r, rest = String "," r) ->
  Routes.parseCSVFrom (CsvUtils.escapeString s ++ rest) EmptyString false res
  = Routes.parseCSVFrom rest (neutralized s) false res.
Proof.
  intros Hrest. unfold CsvUtils.escapeString. fold (neutralized s).
  destruct (CsvUtils.needsQuoting (neutralized s)) eqn:Q.
  - change ((String Js.quote (doubled (neutralized s)) ++ String Js.quote EmptyString)
              ++ rest)%string
      with (String Js.quote ((doubled (neutralized s) ++ String Js.quote EmptyString)
                               ++ rest))%string.
    rewrite JsFacts.append_assoc. simpl (String Js.quote EmptyString ++ rest)%string.
    rewrite parse_open_quote. now rewrite parse_quoted.
  - apply needsQuoting_false in Q as [Hq Hc]. now rewrite parse_plain.
Qed.

Lemma parse_row (fields : list string) (res : list string) :
  fields <> [] ->
  Routes.parseCSVFrom (Js.join "," (List.map CsvUtils.escapeString fields))
                      EmptyString false res
  = res ++ List.map (fun s => Js.trim (neutralized s)) fields.
Proof.
  revert res. induction fields as [|s fields IH]; intros res Hne; [congruence|].
  destruct fields as [|s2 fields].
  - simpl. rewrite <- (append_nil_r (CsvUtils.escapeString s)).
    rewrite parse_field by now left. reflexivity.
  - change (Js.join "," (List.map CsvUtils.escapeString (s :: s2 :: fields)))
      with (CsvUtils.escapeString s
              ++ String "," (Js.join "," (List.map CsvUtils.escapeString (s2 :: fields))))%string.
    rewrite parse_field by (right; now eexists).
    change (Routes.parseCSVFrom
              (String "," (Js.join "," (List.map CsvUtils.escapeString (s2 :: fields))))
              (neutralized s) false res)
      with (Routes.parseCSVFrom
              (Js.join "," (List.map CsvUtils.escapeString (s2 :: fields)))
              EmptyString false (res ++ [Js.trim (neutralized s)])).
    rewrite IH by discriminate. now rewrite <- app_assoc.
Qed.

Lemma escapeCsvField_text (numberToString : Js.number -> string)
      (value : CsvUtils.Value) :
  CsvUtils.escapeCsvField numberToString value
  = CsvUtils.escapeString (textOf numberToString value).
Proof. destruct value; reflexivity. Qed.

(** Outside quotes and without any double quote ahead, the parser cuts
    at the commas. *)
Lemma parse_no_quote (line cur : string) (res : list string) :
  Js.includes Js.quote line = false ->
  Routes.parseCSVFrom line cur false res
  = res ++ List.map Js.trim
             (match Js.split "," line with
              | p :: ps => (cur ++ p)%string :: ps
              | [] => [cur]
              end).
Proof.
  revert cur res. induction line as [|c line IH]; intros cur res Hq.
  - simpl. now rewrite append_nil_r.
  - simpl in Hq. apply Bool.orb_false_iff in Hq as [Hq1 Hq2].
    simpl Routes.parseCSVFrom. rewrite Hq1. simpl Js.split.
    destruct (Ascii.eqb c ",") eqn:E.
    + simpl. rewrite IH by assumption. rewrite append_nil_r.
      destruct (Js.split "," line) as [|p ps] eqn:S;
        [now apply JsFacts.split_nonempty in S|].
      simpl. now rewrite <- app_assoc.
    + simpl. rewrite IH by assumption.
      destruct (Js.split "," line) as [|p ps] eqn:S;
        [now apply JsFacts.split_nonempty in S|].
      now rewrite append_char.
Qed.

Lemma trimEnd_app_ws (t : string) (c : ascii) :
  Js.isWhiteSpace c = true ->
  Js.trimEnd (t ++ String c EmptyString) = Js.trimEnd t.
Proof.
  intros Hc. induction t as [|d t IH]; simpl.
  - now rewrite Hc.
  - now rewrite IH.
Qed.

Lemma trimStart_app_ws (s : string) (c : ascii) :
  Js.isWhiteSpace c = true ->
  Js.trimStart (s ++ String c EmptyString) = EmptyString /\ Js.trimStart s = EmptyString
  \/ Js.trimStart (s ++ String c EmptyString)
     = (Js.trimStart s ++ String c EmptyString)%string.
Proof.
  intros Hc. induction s as [|d s IH]; simpl.
  - left. now rewrite Hc.
  - destruct (Js.isWhiteSpace d); [exact IH|now right].
Qed.

Lemma trim_app_ws (s : string) (c : ascii) :
  Js.isWhiteSpace c = true -> Js.trim (s ++ String c EmptyString) = Js.trim s.
Proof.
  intros Hc. unfold Js.trim.
  destruct (trimStart_app_ws s c Hc) as [[E1 E2]|E].
  - now rewrite E1, E2.
  - rewrite E. now apply trimEnd_app_ws.
Qed.

Lemma white_not_quote (c : ascii) :
  Js.isWhiteSpace c = true -> Ascii.eqb c Js.quote = false /\ Ascii.eqb c "," = false.
Proof.
  intros Hc. split.
  - destruct (Ascii.eqb c Js.quote) eqn:E; [|reflexivity].
    apply Ascii.eqb_eq in E. subst c. discriminate.
  - destruct (Ascii.eqb c ",") eqn:E; [|reflexivity].
    apply Ascii.eqb_eq in E. subst c. discriminate.
Qed.

Lemma parse_trailing_ws (c : ascii) (n : nat) :
  Js.isWhiteSpace c = true ->
  forall (line cur : string) (inQuotes : bool) (res : list string),
    (String.length line <= n)%nat ->
    Routes.parseCSVFrom (line ++ String c EmptyString) cur inQuotes res
    = Routes.parseCSVFrom line cur inQuotes res.
Proof.
  intros Hc. destruct (white_not_quote c Hc) as [Hq Hk].
  induction n as [|n IH]; intros line cur inQuotes res Hlen.
  - destruct line; [|simpl in Hlen; lia].
    simpl. rewrite Hq, Hk. simpl. now rewrite trim_app_ws.
  - destruct line as [|d line].
    + simpl. rewrite Hq, Hk. simpl. now rewrite trim_app_ws.
    + simpl in Hlen. simpl Routes.parseCSVFrom.
      destruct (Ascii.eqb d Js.quote).
      * destruct line as [|next line].
        -- simpl. rewrite Hq, Hk. rewrite Bool.andb_false_r. simpl.
           now rewrite trim_app_ws.
        -- simpl in Hlen.
           change ((String next line ++ String c EmptyString)%string)
             with (String next (line ++ String c EmptyString)).
           cbv iota beta.
           destruct inQuotes; destruct (Ascii.eqb next Js.quote); cbn [andb negb];
             first [ apply IH; lia
                   | change (String next (line ++ String c EmptyString))
                       with ((String next line ++ String c EmptyString)%string);
                     apply IH; simpl; lia ].
      * destruct (Ascii.eqb d "," && negb inQuotes); apply IH; lia.
Qed.

End LineFacts.

(** X1.  The line parser of the upload reads back what the export writes:
    a row of cells written by [escapeCsvField] and joined with commas is
    parsed into as many fields as there were cells, each the text of its
    cell, with the single quote the export put in front of a formula, and
    trimmed.  Commas, double quotes and line breaks inside a cell come
    back as they were. *)
Theorem X1_exported_row_reads_back
        (numberToString : Js.number -> string) (row : list CsvUtils.Value) :
  row <> [] ->
  Routes.parseCSVLine
    (Js.join "," (List.map (CsvUtils.escapeCsvField numberToString) row))
  = List.map (fun value => Js.trim (Spec.neutralized (Spec.textOf numberToString value)))
             row.
Proof.
  intros Hne. unfold Routes.parseCSVLine.
  rewrite (map_ext _ _ (LineFacts.escapeCsvField_text numberToString)).
  rewrite <- (map_map (Spec.textOf numberToString) CsvUtils.escapeString).
  rewrite LineFacts.parse_row.
  - now rewrite map_map.
  - destruct row; [congruence|discriminate].
Qed.

Lemma X1_exported_row_reads_back_witness :
  [CsvUtils.Str "Doe, John"; CsvUtils.Null; CsvUtils.Str "=1+1"] <> []
  /\ Routes.parseCSVLine
       (Js.join "," (List.map (CsvUtils.escapeCsvField Scenario.numberToString)
                              [CsvUtils.Str "Doe, John"; CsvUtils.Null;
                               CsvUtils.Str "=1+1"]))
     = ["Doe, John"; EmptyString; "'=1+1"].
Proof.
  split; [discriminate|].
  exact (X1_exported_row_reads_back Scenario.numberToString
           [CsvUtils.Str "Doe, John"; CsvUtils.Null; CsvUtils.Str "=1+1"]
           ltac:(discriminate)).
Defined.

(** X2.  On a line without any double quote the parser gives the pieces
    between the commas, each trimmed: as many fields as commas plus one,
    and an empty line gives one empty field. *)
Theorem X2_quote_free_line_is_cut_at_commas (line : string) :
  Js.includes Js.quote line = false ->
  Routes.parseCSVLine line = List.map Js.trim (Js.split "," line).
Proof.
  intros Hq. unfold Routes.parseCSVLine. rewrite LineFacts.parse_no_quote by assumption.
  destruct (Js.split "," line) as [|p ps] eqn:S;
    [now apply JsFacts.split_nonempty in S|reflexivity].
Qed.

Lemma X2_quote_free_line_is_cut_at_commas_witness :
  Js.includes Js.quote "1, Ann ,Aug-25,,x" = false
  /\ Routes.parseCSVLine "1, Ann ,Aug-25,,x" = ["1"; "Ann"; "Aug-25"; EmptyString; "x"].
Proof.
  split; [reflexivity|].
  exact (X2_quote_free_line_is_cut_at_commas "1, Ann ,Aug-25,,x" eq_refl).
Defined.

(** X3.  White space at the end of a line does not change its fields: a
    file with Windows line ends, whose lines keep their carriage return
    when the file is cut at the line feeds, is parsed like the same file
    with Unix line ends. *)
Theorem X3_trailing_white_space_is_ignored (line : string) (c : ascii) :
  Js.isWhiteSpace c = true ->
  Routes.parseCSVLine (line ++ String c EmptyString) = Routes.parseCSVLine line.
Proof.
  intros Hc. unfold Routes.parseCSVLine.
  now apply (LineFacts.parse_trailing_ws c (String.length line) Hc).
Qed.

Lemma X3_trailing_white_space_is_ignored_witness :
  Js.isWhiteSpace "013" = true
  /\ Routes.parseCSVLine ("1,Ann,Aug-25" ++ String "013" EmptyString)
     = Routes.parseCSVLine "1,Ann,Aug-25".
Proof.
  split; [reflexivity|].
  exact (X3_trailing_white_space_is_ignored "1,Ann,Aug-25" "013" eq_refl).
Defined.

(* ================================================================== *)
(** * Deleting the records of a month *)
(* ================================================================== *)

Module DeletionFacts.

Section Filters.
Variable A : Type.
Variables p q : A -> bool.

Lemma filter_twice (l : list A) :
  filter p (filter q l) = filter (fun x => p x && q x) l.
Proof.
  induction l as [|x l IH]; simpl; [reflexivity|].
  destruct (q x); simpl; destruct (p x); simpl; now rewrite IH.
Qed.

Lemma filter_false (l : list A) : (forall x, p x = false) -> filter p l = [].
Proof.
  intros H. induction l as [|x l IH]; simpl; [reflexivity|]. now rewrite H.
Qed.

Lemma filter_same (l : list A) : (forall x, p x = q x) -> filter p l = filter q l.
Proof. intros H. apply filter_ext. exact H. Qed.

Lemma length_positive (l : list A) : negb (Nat.leb (List.length l) 0) = true <-> l <> [].
Proof. destruct l; simpl; split; intros; congruence. Qed.

Lemma length_nonzero (l : list A) : negb (Nat.eqb (List.length l) 0) = true <-> l <> [].
Proof. destruct l; simpl; split; intros; congruence. Qed.
End Filters.

Definition inMonth (month : string) (r : ProductivityData.t) : bool :=
  String.eqb (ProductivityData.month r) month.

Lemma month_and_not (month : string) (r : ProductivityData.t) :
  inMonth month r && negb (inMonth month r) = false.
Proof. now destruct (inMonth month r). Qed.

Lemma other_and_not (month other : string) (r : ProductivityData.t) :
  other <> month ->
  inMonth other r && negb (inMonth month r) = inMonth other r.
Proof.
  intros Hne. unfold inMonth.
  destruct (String.eqb_spec (ProductivityData.month r) other) as [->|]; [|reflexivity].
  destruct (String.eqb_spec other month); [contradiction|reflexivity].
Qed.

(** The table after the deletion, read by month. *)
Lemma kept_rows (month : string) (rows : list ProductivityData.t) :
  filter (inMonth month) (filter (fun r => negb (inMonth month r)) rows) = []
  /\ forall other, other <> month ->
       filter (inMonth other) (filter (fun r => negb (inMonth month r)) rows)
       = filter (inMonth other) rows.
Proof.
  split.
  - rewrite filter_twice. apply filter_false. intros r. apply month_and_not.
  - intros other Hne. rewrite filter_twice. apply filter_ext.
    intros r. now apply other_and_not.
Qed.

Section Map.
Variable V : Type.
Variable p : string * V -> bool.

Local Abbreviation deleteAll :=
  (fold_left (fun (m : JsMap.t string V) key => JsMap.delete String.eqb key m)).

Lemma delete_absent (k : string) (m : JsMap.t string V) :
  ~ In k (JsMap.keys m) -> JsMap.delete String.eqb k m = m.
Proof.
  induction m as [|[k' v] m IH]; simpl; intros Hk; [reflexivity|].
  destruct (String.eqb_spec k' k) as [->|Hne]; [tauto|].
  f_equal. apply IH. tauto.
Qed.

Lemma deleteAll_head (ks : list string) (k : string) (v : V) (m : JsMap.t string V) :
  ~ In k ks -> deleteAll ks ((k, v) :: m) = (k, v) :: deleteAll ks m.
Proof.
  revert m. induction ks as [|x ks IH]; intros m Hk; simpl; [reflexivity|].
  destruct (String.eqb_spec k x) as [->|Hne]; [simpl in Hk; tauto|].
  apply IH. simpl in Hk. tauto.
Qed.

Lemma filter_keys (m : JsMap.t string V) (k : string) :
  In k (List.map fst (filter p m)) -> In k (JsMap.keys m).
Proof.
  unfold JsMap.keys. rewrite !in_map_iff. intros [e [He Hin]].
  apply filter_In in Hin as [Hin _]. now exists e.
Qed.

(** Deleting, key after key, the entries that satisfy [p] leaves the
    entries that do not, in their order. *)
Lemma deleteAll_filter (m : JsMap.t string V) :
  NoDup (JsMap.keys m) ->
  deleteAll (List.map fst (filter p m)) m = filter (fun e => negb (p e)) m.
Proof.
  induction m as [|[k v] m IH]; intros Hnd; [reflexivity|].
  unfold JsMap.keys in Hnd. simpl in Hnd. inversion Hnd as [|? ? Hk Hnd']; subst.
  simpl filter. destruct (p (k, v)) eqn:E; simpl.
  - rewrite String.eqb_refl. now apply IH.
  - rewrite deleteAll_head.
    + f_equal. now apply IH.
    + intros Hin. apply filter_keys in Hin. contradiction.
Qed.
End Map.

Lemma values_filter (month : string) (m : JsMap.t string ProductivityData.t) :
  JsMap.values (filter (fun e => negb (inMonth month (snd e))) m)
  = filter (fun r => negb (inMonth month r)) (JsMap.values m).
Proof.
  unfold JsMap.values. induction m as [|[k v] m IH]; simpl; [reflexivity|].
  destruct (inMonth month v); simpl; now rewrite IH.
Qed.

(** The in-memory store after the deletion holds the records of the other
    months. *)
Lemma mem_deleted (month : string) (st : MemStorage.t) :
  NoDup (JsMap.keys (MemStorage.productivityData st)) ->
  JsMap.values (MemStorage.productivityData
                  (snd (MemStorage.deleteProductivityByMonth month st)))
  = filter (fun r => negb (inMonth month r))
           (JsMap.values (MemStorage.productivityData st)).
Proof.
  intros Hnd. unfold MemStorage.deleteProductivityByMonth, JsMap.entries.
  cbn [snd MemStorage.productivityData].
  pose proof (deleteAll_filter _ (fun e => inMonth month (snd e)) _ Hnd) as E.
  unfold inMonth in E |- *. rewrite E.
  apply (values_filter month).
Qed.

Lemma mem_answer (month : string) (st : MemStorage.t) :
  fst (MemStorage.deleteProductivityByMonth month st)
  = negb (Nat.eqb (List.length (MemStorage.getProductivityDataByMonth month st)) 0).
Proof.
  unfold MemStorage.deleteProductivityByMonth, MemStorage.getProductivityDataByMonth,
    JsMap.entries, JsMap.values. simpl. f_equal. f_equal.
  rewrite length_map.
  induction (MemStorage.productivityData st) as [|[k v] m IH]; simpl; [reflexivity|].
  destruct (String.eqb (ProductivityData.month v) month); simpl; now rewrite IH.
Qed.

End DeletionFacts.

(** X4.  Deleting the productivity data of a month removes the records of
    that month and no other: afterwards the month reads back empty, every
    other month reads back as before, and the contractors are untouched.
    The answer tells whether the month held any record, so that a second
    deletion of the same month answers false.  This holds of the
    relational store, and of the in-memory store whose map has one entry
    for each key. *)
Theorem X4_delete_month_removes_exactly_the_month
        (month : string) (st : MemStorage.t) (db : DatabaseStorage.t)
        (Hkeys : NoDup (JsMap.keys (MemStorage.productivityData st))) :
  (let answer := fst (MemStorage.deleteProductivityByMonth month st) in
   let st' := snd (MemStorage.deleteProductivityByMonth month st) in
   MemStorage.getProductivityDataByMonth month st' = []
   /\ (forall other, other <> month ->
          MemStorage.getProductivityDataByMonth other st'
          = MemStorage.getProductivityDataByMonth other st)
   /\ (answer = true <-> MemStorage.getProductivityDataByMonth month st <> [])
   /\ MemStorage.contractors st' = MemStorage.contractors st
   /\ fst (MemStorage.deleteProductivityByMonth month st') = false)
  /\
  (let answer := fst (DatabaseStorage.deleteProductivityByMonth month db) in
   let db' := snd (DatabaseStorage.deleteProductivityByMonth month db) in
   DatabaseStorage.getProductivityDataByMonth month db' = []
   /\ (forall other, other <> month ->
          DatabaseStorage.getProductivityDataByMonth other db'
          = DatabaseStorage.getProductivityDataByMonth other db)
   /\ (answer = true <-> DatabaseStorage.getProductivityDataByMonth month db <> [])
   /\ DatabaseStorage.contractors db' = DatabaseStorage.contractors db
   /\ fst (DatabaseStorage.deleteProductivityByMonth month db') = false).
Proof.
  destruct (DeletionFacts.kept_rows month
              (JsMap.values (MemStorage.productivityData st))) as [M1 M2].
  destruct (DeletionFacts.kept_rows month (DatabaseStorage.productivityData db))
    as [D1 D2].
  split; cbv zeta.
  - assert (E : MemStorage.getProductivityDataByMonth month
                  (snd (MemStorage.deleteProductivityByMonth month st)) = []).
    { unfold MemStorage.getProductivityDataByMonth.
      rewrite DeletionFacts.mem_deleted by assumption. exact M1. }
    split; [exact E|]. split; [|split; [|split]].
    + intros other Hne. unfold MemStorage.getProductivityDataByMonth.
      rewrite DeletionFacts.mem_deleted by assumption. now apply M2.
    + rewrite DeletionFacts.mem_answer. apply DeletionFacts.length_nonzero.
    + reflexivity.
    + rewrite DeletionFacts.mem_answer, E. reflexivity.
  - assert (E : DatabaseStorage.getProductivityDataByMonth month
                  (snd (DatabaseStorage.deleteProductivityByMonth month db)) = []).
    { exact D1. }
    split; [exact E|]. split; [|split; [|split]].
    + intros other Hne. now apply D2.
    + apply DeletionFacts.length_positive.
    + reflexivity.
    + change (negb (Nat.leb
                      (List.length
                         (DatabaseStorage.getProductivityDataByMonth month
                            (snd (DatabaseStorage.deleteProductivityByMonth month db))))
                      0) = false).
      now rewrite E.
Qed.

Lemma X4_delete_month_removes_exactly_the_month_witness :
  NoDup (JsMap.keys (MemStorage.productivityData (Scenario.memAfter Scenario.tiedUpload)))
  /\ MemStorage.getProductivityDataByMonth "Aug-25"
       (snd (MemStorage.deleteProductivityByMonth "Aug-25"
               (Scenario.memAfter Scenario.tiedUpload))) = []
  /\ DatabaseStorage.getProductivityDataByMonth "Aug-25"
       (snd (DatabaseStorage.deleteProductivityByMonth "Aug-25"
               (Scenario.dbAfter Scenario.tiedUpload))) = [].
Proof.
  assert (H : NoDup (JsMap.keys (MemStorage.productivityData
                                   (Scenario.memAfter Scenario.tiedUpload)))).
  { vm_compute. repeat constructor; simpl; intuition discriminate. }
  split; [exact H|].
  pose proof (X4_delete_month_removes_exactly_the_month "Aug-25"
                (Scenario.memAfter Scenario.tiedUpload)
                (Scenario.dbAfter Scenario.tiedUpload) H) as [[M _] [D _]].
  split; [exact M|exact D].
Defined.

(* ================================================================== *)
(** * The routes that delete and rank *)
(* ================================================================== *)

Module RouteFacts.

Lemma filter_all (A : Type) (p : A -> bool) (l : list A) :
  filter (fun x => negb (p x)) l = l <-> filter p l = [].
Proof.
  induction l as [|x l IH]; simpl; [tauto|].
  destruct (p x) eqn:E; simpl.
  - split; [|discriminate]. intros H.
    assert (L : (List.length (filter (fun x => negb (p x)) l) <= List.length l)%nat)
      by apply filter_length_le.
    rewrite H in L. simpl in L. lia.
  - split.
    + intros H. injection H as H. now apply IH.
    + intros H. f_equal. now apply IH.
Qed.

(** A deletion that finds nothing leaves the relational store as it
    was. *)
Lemma db_delete_nothing (month : string) (db : DatabaseStorage.t) :
  DatabaseStorage.getProductivityDataByMonth month db = [] ->
  DatabaseStorage.deleteProductivityByMonth month db = (false, db).
Proof.
  unfold DatabaseStorage.getProductivityDataByMonth,
    DatabaseStorage.deleteProductivityByMonth.
  intros E. rewrite E. simpl. f_equal. destruct db as [cs ps d u]. simpl in *.
  f_equal. now apply filter_all.
Qed.

Lemma db_delete_answer (month : string) (db : DatabaseStorage.t) :
  fst (DatabaseStorage.deleteProductivityByMonth month db) = true
  <-> DatabaseStorage.getProductivityDataByMonth month db <> [].
Proof. apply DeletionFacts.length_positive. Qed.

Lemma firstn_seq (n start len : nat) :
  firstn n (seq start len) = seq start (Nat.min n len).
Proof.
  revert start len. induction n as [|n IH]; intros start len; [reflexivity|].
  destruct len as [|len]; [reflexivity|]. simpl. now rewrite IH.
Qed.

(** [parseInt] gives an integer, an infinity or [NaN]. *)
Lemma parseInt_integer (str : string) :
  Js.parseInt str = Js.NaN
  \/ (exists z, Js.parseInt str = Js.ofZ z)
  \/ exists negative, Js.parseInt str = Js.Infinity negative.
Proof.
  unfold Js.parseInt.
  destruct (Js.readInt str) as [[negative magnitude]|]; [|now left].
  right. unfold Js.ofLiteral.
  destruct (Qle_bool (inject_Z Js.overflowBound) (inject_Z magnitude)).
  - right. now exists negative.
  - left. destruct negative; eexists; reflexivity.
Qed.

Lemma truthy_ofZ (z : Z) : Js.truthy (Js.ofZ z) = negb (Z.eqb z 0).
Proof.
  unfold Js.truthy, Js.ofZ, Js.isZero, Qeq_bool, inject_Z. simpl.
  now rewrite Z.mul_1_r.
Qed.

(** The limit of the route is an integer other than 0 or an infinity. *)
Lemma limit_cases (limit : option string) :
  ((exists k, Routes.topPerformersLimit limit = Js.ofZ k /\ k <> 0%Z)
   \/ exists negative, Routes.topPerformersLimit limit = Js.Infinity negative)
  /\ (Js.truthy (Js.parseInt (match limit with
                              | Some l => l
                              | None => "undefined"
                              end)) = false ->
      Routes.topPerformersLimit limit = Js.ofZ 3).
Proof.
  unfold Routes.topPerformersLimit, Js.orElse.
  destruct (parseInt_integer (match limit with Some l => l | None => "undefined" end))
    as [E|[[z E]|[negative E]]]; rewrite E.
  - split; [left; exists 3%Z; split; [reflexivity|discriminate]|reflexivity].
  - rewrite truthy_ofZ. destruct (Z.eqb_spec z 0) as [->|Hz]; simpl.
    + split; [left; exists 3%Z; split; [reflexivity|discriminate]|reflexivity].
    + split; [left; exists z; split; [reflexivity|assumption]|discriminate].
  - simpl. split; [right; now exists negative|discriminate].
Qed.

(** [arr.slice(0, k)] for an integer [k]. *)
Lemma sliceEnd_integer (A : Type) (k : Z) (arr : list A) :
  JsArray.sliceEnd (Js.ofZ k) arr = firstn (Spec.kept k (List.length arr)) arr
  \/ (k = 0%Z /\ JsArray.sliceEnd (Js.ofZ k) arr = []).
Proof.
  unfold JsArray.sliceEnd, Js.ofZ, inject_Z, Spec.kept. simpl.
  rewrite Z.quot_1_r.
  destruct (Z.ltb_spec k 0) as [Hneg|Hpos].
  - left. destruct (Z.ltb_spec 0 k); [lia|]. f_equal. lia.
  - destruct (Z.ltb_spec 0 k) as [Hk|Hk].
    + left. f_equal. lia.
    + right. assert (k = 0%Z) by lia. subst k. split; [reflexivity|].
      now replace (Z.min 0 (Z.of_nat (List.length arr))) with 0%Z by lia.
Qed.

Lemma db_ranks (month : string) (db : DatabaseStorage.t) :
  List.map MonthlyRanking.rank (DatabaseStorage.getMonthlyRankings month db)
  = seq 1 (List.length (DatabaseStorage.monthRows month db)).
Proof.
  unfold DatabaseStorage.getMonthlyRankings, JsArray.mapi.
  rewrite (ArrayFacts.mapFrom_ranks DatabaseStorage.ranked MonthlyRanking.rank)
    by (intros; reflexivity).
  now rewrite ArrayFacts.sortBy_length.
Qed.

Lemma db_rankings_length (month : string) (db : DatabaseStorage.t) :
  List.length (DatabaseStorage.getMonthlyRankings month db)
  = List.length (DatabaseStorage.monthRows month db).
Proof.
  rewrite <- (length_map MonthlyRanking.rank), db_ranks. apply length_seq.
Qed.

Lemma firstn_min (A : Type) (n : nat) (l : list A) :
  firstn (Nat.min n (List.length l)) l = firstn n l.
Proof.
  destruct (Nat.le_ge_cases n (List.length l)) as [L|L].
  - now rewrite Nat.min_l.
  - rewrite Nat.min_r by assumption. now rewrite firstn_all, firstn_all2.
Qed.

(** [arr.slice(0, n)] for a natural number [n]. *)
Lemma sliceEnd_nat (A : Type) (n : nat) (arr : list A) :
  JsArray.sliceEnd (Js.ofNat n) arr = firstn n arr.
Proof.
  unfold JsArray.sliceEnd, Js.ofNat, Js.ofZ, inject_Z. simpl.
  rewrite Z.quot_1_r.
  destruct (Z.ltb_spec (Z.of_nat n) 0) as [H|H]; [lia|].
  rewrite <- (firstn_min A n arr). f_equal. lia.
Qed.

(** The three ways the handler of the deletion ends over the relational
    store: it refuses and leaves the store, it finds nothing and leaves
    the store, or it deletes. *)
Lemma deleteProductivity_cases
      (hostOfUrl : string -> option string) (month : string)
      (origin host : option string) (db : DatabaseStorage.t) :
  let answer :=
    Routes.deleteProductivity DatabaseStorage.deleteProductivityByMonth
                              hostOfUrl month origin host db in
  (Routes.isMonthParameter month = true
   /\ Spec.originAccepted hostOfUrl origin host
   /\ DatabaseStorage.getProductivityDataByMonth month db <> []
   /\ answer
      = (Routes.Deleted ("Successfully deleted all productivity data for " ++ month)%string,
         snd (DatabaseStorage.deleteProductivityByMonth month db)))
  \/ (~ (Routes.isMonthParameter month = true
         /\ Spec.originAccepted hostOfUrl origin host
         /\ DatabaseStorage.getProductivityDataByMonth month db <> [])
      /\ snd answer = db
      /\ forall message, fst answer <> Routes.Deleted message).
Proof.
  cbv zeta. unfold Routes.deleteProductivity.
  destruct (Routes.isMonthParameter month) eqn:Hm; simpl;
    [|right; repeat split; [intros [? _]|intros ?]; discriminate].
  assert (Hproceed :
    (Spec.originAccepted hostOfUrl origin host ->
     (DatabaseStorage.getProductivityDataByMonth month db <> []
      /\ (let (success, st') := DatabaseStorage.deleteProductivityByMonth month db in
          if success
          then (Routes.Deleted
                  ("Successfully deleted all productivity data for " ++ month)%string, st')
          else (Routes.NothingToDelete
                  ("No productivity data found for " ++ month)%string, st'))
         = (Routes.Deleted
              ("Successfully deleted all productivity data for " ++ month)%string,
            snd (DatabaseStorage.deleteProductivityByMonth month db)))
     \/ (DatabaseStorage.getProductivityDataByMonth month db = []
         /\ (let (success, st') := DatabaseStorage.deleteProductivityByMonth month db in
             if success
             then (Routes.Deleted
                     ("Successfully deleted all productivity data for " ++ month)%string, st')
             else (Routes.NothingToDelete
                     ("No productivity data found for " ++ month)%string, st'))
            = (Routes.NothingToDelete
                 ("No productivity data found for " ++ month)%string, db)))).
  { intros _.
    destruct (DatabaseStorage.getProductivityDataByMonth month db) as [|r rs] eqn:G.
    - right. split; [reflexivity|]. now rewrite (db_delete_nothing month db G).
    - left. split; [discriminate|].
      assert (T : fst (DatabaseStorage.deleteProductivityByMonth month db) = true).
      { apply db_delete_answer. rewrite G. discriminate. }
      destruct (DatabaseStorage.deleteProductivityByMonth month db) as [success st'].
      simpl in T. subst success. reflexivity. }
  assert (Hdone :
    Spec.originAccepted hostOfUrl origin host ->
    forall answer,
      answer
      = (let (success, st') := DatabaseStorage.deleteProductivityByMonth month db in
         if success
         then (Routes.Deleted
                 ("Successfully deleted all productivity data for " ++ month)%string, st')
         else (Routes.NothingToDelete
                 ("No productivity data found for " ++ month)%string, st')) ->
      (True /\ Spec.originAccepted hostOfUrl origin host
       /\ DatabaseStorage.getProductivityDataByMonth month db <> []
       /\ answer
          = (Routes.Deleted
               ("Successfully deleted all productivity data for " ++ month)%string,
             snd (DatabaseStorage.deleteProductivityByMonth month db)))
      \/ (~ (True /\ Spec.originAccepted hostOfUrl origin host
             /\ DatabaseStorage.getProductivityDataByMonth month db <> [])
          /\ snd answer = db
          /\ forall message, fst answer <> Routes.Deleted message)).
  { intros Hacc answer ->. destruct (Hproceed Hacc) as [[G E]|[G E]]; rewrite E.
    - left. tauto.
    - right. repeat split; [intros (_ & _ & N); now apply N|discriminate]. }
  assert (Hrefused :
    ~ Spec.originAccepted hostOfUrl origin host ->
    forall answer : Routes.DeleteResponse * DatabaseStorage.t,
      snd answer = db -> (forall message, fst answer <> Routes.Deleted message) ->
      (True /\ Spec.originAccepted hostOfUrl origin host
       /\ DatabaseStorage.getProductivityDataByMonth month db <> []
       /\ answer
          = (Routes.Deleted
               ("Successfully deleted all productivity data for " ++ month)%string,
             snd (DatabaseStorage.deleteProductivityByMonth month db)))
      \/ (~ (True /\ Spec.originAccepted hostOfUrl origin host
             /\ DatabaseStorage.getProductivityDataByMonth month db <> [])
          /\ snd answer = db
          /\ forall message, fst answer <> Routes.Deleted message)).
  { intros Hrej answer Hs Hf. right. repeat split; [tauto|assumption|assumption]. }
  assert (Hgoal :
    forall answer,
      (True /\ Spec.originAccepted hostOfUrl origin host
       /\ DatabaseStorage.getProductivityDataByMonth month db <> []
       /\ answer
          = (Routes.Deleted
               ("Successfully deleted all productivity data for " ++ month)%string,
             snd (DatabaseStorage.deleteProductivityByMonth month db)))
      \/ (~ (True /\ Spec.originAccepted hostOfUrl origin host
             /\ DatabaseStorage.getProductivityDataByMonth month db <> [])
          /\ snd answer = db
          /\ forall message, fst answer <> Routes.Deleted message) ->
      (true = true /\ Spec.originAccepted hostOfUrl origin host
       /\ DatabaseStorage.getProductivityDataByMonth month db <> []
       /\ answer
          = (Routes.Deleted
               ("Successfully deleted all productivity data for " ++ month)%string,
             snd (DatabaseStorage.deleteProductivityByMonth month db)))
      \/ (~ (true = true /\ Spec.originAccepted hostOfUrl origin host
             /\ DatabaseStorage.getProductivityDataByMonth month db <> [])
          /\ snd answer = db
          /\ forall message, fst answer <> Routes.Deleted message)).
  { intros answer [H|H]; [left|right]; tauto. }
  apply Hgoal.
  destruct origin as [o|]; [|apply Hdone; [exact I|reflexivity]].
  destruct (Js.nonEmpty o) eqn:Ho;
    [|apply Hdone; [simpl; rewrite Ho; discriminate|reflexivity]].
  destruct (hostOfUrl o) as [originHost|] eqn:Hh.
  - destruct host as [h|].
    + destruct (String.eqb_spec originHost h) as [->|Hne].
      * apply Hdone; [|reflexivity]. simpl. intros _. now exists h.
      * apply Hrefused; [|reflexivity|discriminate].
        simpl. intros Hacc. destruct (Hacc Ho) as [h' [E1 E2]]. congruence.
    + apply Hrefused; [|reflexivity|discriminate].
      simpl. intros Hacc. destruct (Hacc Ho) as [h' [E1 E2]]. congruence.
  - apply Hrefused; [|reflexivity|discriminate].
    simpl. intros Hacc. destruct (Hacc Ho) as [h' [E1 E2]]. congruence.
Qed.

End RouteFacts.

(** X5.  The route that deletes the productivity data of a month, behind
    the admin check and over the relational store.  It answers that the
    data was deleted exactly when the session is an admin session, the
    month has the shape of three letters, a dash and two digits, the
    request passes the origin check and the month holds a record; then
    the month reads back empty and every other month as before.  In every
    other case the store is left as it was. *)
Theorem X5_delete_route_changes_the_store_only_on_success
        (hostOfUrl : string -> option string) (sessionIsAdmin : bool)
        (month : string) (origin host : option string) (db : DatabaseStorage.t) :
  let result :=
    Routes.requireAdmin sessionIsAdmin
      (Routes.deleteProductivity DatabaseStorage.deleteProductivityByMonth
                                 hostOfUrl month origin host)
      db in
  let deleted := exists message, fst result = Routes.Served (Routes.Deleted message) in
  (deleted <->
   sessionIsAdmin = true
   /\ Routes.isMonthParameter month = true
   /\ Spec.originAccepted hostOfUrl origin host
   /\ DatabaseStorage.getProductivityDataByMonth month db <> [])
  /\ (deleted ->
      snd result = snd (DatabaseStorage.deleteProductivityByMonth month db)
      /\ DatabaseStorage.getProductivityDataByMonth month (snd result) = []
      /\ forall other, other <> month ->
           DatabaseStorage.getProductivityDataByMonth other (snd result)
           = DatabaseStorage.getProductivityDataByMonth other db)
  /\ (~ deleted -> snd result = db).
Proof.
  cbv zeta. unfold Routes.requireAdmin.
  destruct sessionIsAdmin; simpl.
  - destruct (RouteFacts.deleteProductivity_cases hostOfUrl month origin host db)
      as [(Hm & Ho & Hd & E)|(Hn & Hs & Hf)].
    + rewrite E. simpl.
      destruct (DeletionFacts.kept_rows month (DatabaseStorage.productivityData db))
        as [D1 D2].
      split; [split; [tauto|intros _; now eexists]|].
      split; [intros _; split; [reflexivity|split; [exact D1|exact D2]]|].
      intros N. exfalso. apply N. now eexists.
    + destruct (Routes.deleteProductivity DatabaseStorage.deleteProductivityByMonth
                  hostOfUrl month origin host db) as [response db'] eqn:E.
      simpl in *.
      assert (N : ~ exists message, Routes.Served response
                                    = Routes.Served (Routes.Deleted message)).
      { intros [message H]. inversion H. now apply (Hf message). }
      split; [split; [intros H; now apply N in H|tauto]|].
      split; [intros H; now apply N in H|tauto].
  - split; [split; [intros [? H]; discriminate|intros [H _]; discriminate]|].
    split; [intros [? H]; discriminate|reflexivity].
Qed.

(** X6.  The route of the top performers over the relational store.  The
    limit it reads from the query is an integer other than 0, or an
    infinity when the query holds digits beyond the doubles, and it is 3
    when the query has no limit, one that is no number, or 0.  A positive
    limit keeps the entries ranked 1 to that limit, or all of them when
    there are fewer; a negative limit does not limit: it keeps all entries
    but the last ones, as many as the limit counts.  An infinite limit
    keeps every entry and a negative infinite one keeps none.  The entries
    kept are always the first of the monthly ranking, with the ranks 1, 2,
    3 and so on. *)
Theorem X6_top_performers_limit
        (month : string) (limit : option string) (db : DatabaseStorage.t) :
  let rankings := DatabaseStorage.getMonthlyRankings month db in
  let top :=
    DatabaseStorage.getTopPerformersUpTo month (Routes.topPerformersLimit limit) db in
  match Routes.topPerformersLimit limit with
  | Js.Num _ =>
      exists k : Z,
        Routes.topPerformersLimit limit = Js.ofZ k
        /\ k <> 0%Z
        /\ top = firstn (Spec.kept k (List.length rankings)) rankings
  | Js.Infinity negative => top = if negative then [] else rankings
  | Js.NaN => False
  end
  /\ (Js.truthy (Js.parseInt (match limit with
                              | Some l => l
                              | None => "undefined"
                              end)) = false ->
      Routes.topPerformersLimit limit = Js.ofZ 3)
  /\ (exists n : nat,
        top = firstn n rankings
        /\ List.map MonthlyRanking.rank top
           = seq 1 (Nat.min n (List.length (DatabaseStorage.monthRows month db))))
  /\ forall n : nat,
       DatabaseStorage.getTopPerformers month n db
       = DatabaseStorage.getTopPerformersUpTo month (Js.ofNat n) db.
Proof.
  cbv zeta. destruct (RouteFacts.limit_cases limit) as [Hcases H3].
  assert (S : forall k,
             k <> 0%Z ->
             JsArray.sliceEnd (Js.ofZ k) (DatabaseStorage.getMonthlyRankings month db)
             = firstn (Spec.kept k (List.length
                                      (DatabaseStorage.getMonthlyRankings month db)))
                      (DatabaseStorage.getMonthlyRankings month db)).
  { intros k Hk.
    destruct (RouteFacts.sliceEnd_integer _ k
                (DatabaseStorage.getMonthlyRankings month db)) as [S|[Z0 _]];
      [exact S|contradiction]. }
  assert (R : forall n,
             List.map MonthlyRanking.rank
                      (firstn n (DatabaseStorage.getMonthlyRankings month db))
             = seq 1 (Nat.min n (List.length (DatabaseStorage.monthRows month db)))).
  { intros n. now rewrite <- firstn_map, RouteFacts.db_ranks, RouteFacts.firstn_seq. }
  unfold DatabaseStorage.getTopPerformersUpTo.
  split; [|split; [exact H3|split]].
  - destruct Hcases as [[k [E Hk]]|[negative E]]; rewrite E.
    + exists k. split; [reflexivity|]. split; [exact Hk|]. now apply S.
    + reflexivity.
  - destruct Hcases as [[k [E Hk]]|[negative E]]; rewrite E.
    + exists (Spec.kept k (List.length (DatabaseStorage.getMonthlyRankings month db))).
      rewrite (S k Hk). split; [reflexivity|apply R].
    + destruct negative.
      * exists 0%nat. split; [reflexivity|apply (R 0%nat)].
      * exists (List.length (DatabaseStorage.getMonthlyRankings month db)).
        simpl JsArray.sliceEnd. rewrite <- (R _). now rewrite firstn_all.
  - intros n. unfold DatabaseStorage.getTopPerformers, JsArray.sliceTo.
    now rewrite RouteFacts.sliceEnd_nat.
Qed.

(* ================================================================== *)
(** * Writes of contractor records *)
(* ================================================================== *)

Module ContractorFacts.
Import Spec.

Lemma existsb_In (i : Z) (l : list Z) : existsb (Z.eqb i) l = true <-> In i l.
Proof.
  rewrite existsb_exists. split.
  - intros [x [Hin E]]. apply Z.eqb_eq in E. now subst.
  - intros Hin. exists i. split; [assumption|apply Z.eqb_refl].
Qed.

Lemma distinct_NoDup (l : list Z) : DatabaseStorage.distinct l = true <-> NoDup l.
Proof.
  induction l as [|i l IH]; simpl.
  - split; [constructor|reflexivity].
  - rewrite Bool.andb_true_iff, Bool.negb_true_iff, IH. split.
    + intros [Hi Hl]. constructor; [|assumption].
      intros Hin. apply existsb_In in Hin. congruence.
    + intros H. inversion H as [|? ? Hi Hl]; subst. split; [|assumption].
      destruct (existsb (Z.eqb i) l) eqn:E; [|reflexivity].
      apply existsb_In in E. contradiction.
Qed.

Lemma fold_max_acc (l : list Z) (i : Z) : (i <= fold_left Z.max l i)%Z.
Proof.
  revert i. induction l as [|y l IH]; intros i; simpl; [lia|].
  specialize (IH (Z.max i y)). lia.
Qed.

Lemma fold_max_ge (l : list Z) (i x : Z) :
  x = i \/ In x l -> (x <= fold_left Z.max l i)%Z.
Proof.
  intros [->|Hin]; [apply fold_max_acc|].
  revert i. induction l as [|y l IH]; intros i; simpl; [contradiction|].
  destruct Hin as [->|Hin].
  - pose proof (fold_max_acc l (Z.max i x)). lia.
  - now apply IH.
Qed.

(** No id of the table is above [maxId]. *)
Lemma maxId_ge (db : DatabaseStorage.t) (i : Z) :
  In i (idsOf db) -> (i <= DatabaseStorage.maxId db)%Z.
Proof.
  unfold idsOf, DatabaseStorage.maxId.
  destruct (List.map Contractor.id (DatabaseStorage.contractors db)) as [|j l];
    [contradiction|].
  intros [->|Hin]; apply fold_max_ge; [now left|now right].
Qed.

Lemma find_absent (cs : list Contractor.t) (i : Z) :
  ~ In i (List.map Contractor.id cs) ->
  List.find (fun c => Z.eqb (Contractor.id c) i) cs = None.
Proof.
  induction cs as [|c cs IH]; simpl; [reflexivity|].
  intros H. destruct (Z.eqb_spec (Contractor.id c) i) as [E|E]; [tauto|].
  apply IH. tauto.
Qed.

Lemma find_app (A : Type) (p : A -> bool) (l1 l2 : list A) :
  List.find p (l1 ++ l2)
  = match List.find p l1 with Some x => Some x | None => List.find p l2 end.
Proof.
  induction l1 as [|x l1 IH]; simpl; [reflexivity|]. now destruct (p x).
Qed.

Lemma find_present (cs : list Contractor.t) (c : Contractor.t) :
  NoDup (List.map Contractor.id cs) -> In c cs ->
  List.find (fun x => Z.eqb (Contractor.id x) (Contractor.id c)) cs = Some c.
Proof.
  induction cs as [|x cs IH]; simpl; [contradiction|].
  intros Hnd [->|Hin].
  - now rewrite Z.eqb_refl.
  - inversion Hnd as [|? ? Hx Hnd']; subst.
    destruct (Z.eqb_spec (Contractor.id x) (Contractor.id c)) as [E|E].
    + exfalso. apply Hx. rewrite E. now apply in_map.
    + now apply IH.
Qed.

(** What a successful [INSERT] leaves. *)
Lemma insert_some (rows : list Contractor.t) (db db' : DatabaseStorage.t)
      (result : list Contractor.t) :
  DatabaseStorage.insertContractors rows db = Some (result, db') ->
  result = rows
  /\ DatabaseStorage.contractors db' = DatabaseStorage.contractors db ++ rows
  /\ DatabaseStorage.productivityData db' = DatabaseStorage.productivityData db
  /\ primaryKey db'.
Proof.
  unfold DatabaseStorage.insertContractors.
  destruct (DatabaseStorage.distinct _) eqn:D; [|discriminate].
  intros H. inversion H; subst. unfold primaryKey. simpl.
  repeat split. now apply distinct_NoDup.
Qed.

Lemma insert_none (rows : list Contractor.t) (db : DatabaseStorage.t) :
  DatabaseStorage.insertContractors rows db = None <->
  ~ NoDup (idsOf db ++ List.map Contractor.id rows).
Proof.
  unfold DatabaseStorage.insertContractors, idsOf. rewrite map_app.
  destruct (DatabaseStorage.distinct _) eqn:D.
  - apply distinct_NoDup in D. split; [discriminate|contradiction].
  - split; [|reflexivity]. intros _ H. apply distinct_NoDup in H. congruence.
Qed.

Lemma inserted_id (c : InsertContractor.t) :
  Contractor.id (DatabaseStorage.inserted c) = InsertContractor.id c.
Proof. reflexivity. Qed.

(** The bulk insert of contractors succeeds with all its rows or fails
    with none. *)
Lemma bulk_cases
        (data : list InsertContractor.t) (db : DatabaseStorage.t)
        (Hkey : primaryKey db) :
  let fresh :=
    NoDup (List.map InsertContractor.id data)
    /\ forall c, In c data -> ~ In (InsertContractor.id c) (idsOf db) in
  match DatabaseStorage.bulkCreateContractors data db with
  | Some (rows, db') =>
      fresh
      /\ rows = List.map DatabaseStorage.inserted data
      /\ DatabaseStorage.contractors db' = DatabaseStorage.contractors db ++ rows
      /\ (forall c, In c data ->
            DatabaseStorage.getContractor (InsertContractor.id c) db'
            = Some (DatabaseStorage.inserted c))
      /\ (forall other, ~ In other (List.map InsertContractor.id data) ->
            DatabaseStorage.getContractor other db'
            = DatabaseStorage.getContractor other db)
      /\ DatabaseStorage.productivityData db' = DatabaseStorage.productivityData db
      /\ primaryKey db'
  | None => data <> [] /\ ~ fresh
  end.
Proof.
  cbv zeta.
  assert (Hids : List.map Contractor.id (List.map DatabaseStorage.inserted data)
                 = List.map InsertContractor.id data).
  { rewrite map_map. apply map_ext. intros c. reflexivity. }
  destruct data as [|item rest].
  - simpl. repeat split; try constructor; try contradiction.
    + now rewrite app_nil_r.
    + exact Hkey.
  - unfold DatabaseStorage.bulkCreateContractors.
    set (data := item :: rest) in *.
    destruct (DatabaseStorage.insertContractors
                (List.map DatabaseStorage.inserted data) db)
      as [[rows db']|] eqn:E.
    + apply insert_some in E as (-> & Hcs & Hps & Hkey').
      assert (Hnd : NoDup (Spec.idsOf db ++ List.map InsertContractor.id data)).
      { unfold Spec.primaryKey in Hkey'. rewrite Hcs, map_app, Hids in Hkey'.
        exact Hkey'. }
      assert (Hdata : NoDup (List.map InsertContractor.id data))
        by exact (NoDup_app_remove_l _ _ Hnd).
      assert (Hfresh : forall i, In i (List.map InsertContractor.id data) ->
                                 ~ In i (Spec.idsOf db)).
      { intros i Hi Hin. apply in_split in Hi as [l1 [l2 Hi]].
        rewrite Hi in Hnd. rewrite app_assoc in Hnd.
        apply NoDup_remove_2 in Hnd. apply Hnd.
        rewrite <- app_assoc. apply in_or_app. now left. }
      split; [split; [exact Hdata|]|].
      { intros c Hc. apply Hfresh. now apply in_map. }
      split; [reflexivity|]. split; [exact Hcs|].
      split; [|split; [|split; [exact Hps|exact Hkey']]].
      * intros c Hc. unfold DatabaseStorage.getContractor.
        rewrite Hcs, find_app.
        rewrite (find_absent (DatabaseStorage.contractors db)
                   (InsertContractor.id c)).
        -- apply (find_present
                    (List.map DatabaseStorage.inserted data)
                    (DatabaseStorage.inserted c)).
           ++ now rewrite Hids.
           ++ now apply in_map.
        -- apply Hfresh. now apply in_map.
      * intros other Hother. unfold DatabaseStorage.getContractor.
        rewrite Hcs, find_app.
        destruct (List.find _ (DatabaseStorage.contractors db)); [reflexivity|].
        apply find_absent. now rewrite Hids.
    + apply insert_none in E. rewrite Hids in E.
      split; [discriminate|]. intros [Hdata Hfresh]. apply E.
      apply NoDup_app; [exact Hkey|exact Hdata|].
      intros a Ha Hin. apply in_map_iff in Hin as [c [<- Hc]].
      now apply (Hfresh c Hc).
Qed.

End ContractorFacts.

(** X7.  Creating a contractor in the relational store, on a table that
    satisfies its primary key.  With the id 0 the contractor gets the id
    that follows the greatest id of the table, 1 on an empty table; the
    creation then succeeds unless that id is beyond 2147483647, the
    greatest integer of the column, and it fails in that case.  With any
    other id it succeeds exactly when no contractor has that id, and fails
    otherwise.  On success the new row stands after the rows that were
    there, it reads back under its id, every other contractor reads back
    as before, the productivity data is untouched, and the table still
    satisfies its primary key. *)
Theorem X7_db_createContractor_keeps_ids_unique
        (contractor : InsertContractor.t) (db : DatabaseStorage.t)
        (Hkey : Spec.primaryKey db) :
  match DatabaseStorage.createContractor contractor db with
  | Some (row, db') =>
      Contractor.id row
      = (if Z.eqb (InsertContractor.id contractor) 0
         then (DatabaseStorage.maxId db + 1)%Z
         else InsertContractor.id contractor)
      /\ (InsertContractor.id contractor = 0%Z ->
          (Contractor.id row <= DatabaseStorage.maxInteger)%Z)
      /\ row = DatabaseStorage.inserted
                 (InsertContractor.withId (Contractor.id row) contractor)
      /\ ~ In (Contractor.id row) (Spec.idsOf db)
      /\ DatabaseStorage.contractors db' = DatabaseStorage.contractors db ++ [row]
      /\ DatabaseStorage.getContractor (Contractor.id row) db' = Some row
      /\ (forall other, other <> Contractor.id row ->
            DatabaseStorage.getContractor other db'
            = DatabaseStorage.getContractor other db)
      /\ DatabaseStorage.productivityData db' = DatabaseStorage.productivityData db
      /\ Spec.primaryKey db'
  | None =>
      if Z.eqb (InsertContractor.id contractor) 0
      then (DatabaseStorage.maxInteger <= DatabaseStorage.maxId db)%Z
      else In (InsertContractor.id contractor) (Spec.idsOf db)
  end.
Proof.
  set (c := if Z.eqb (InsertContractor.id contractor) 0
            then InsertContractor.withId (DatabaseStorage.maxId db + 1) contractor
            else contractor).
  assert (Hid : InsertContractor.id c
                = if Z.eqb (InsertContractor.id contractor) 0
                  then (DatabaseStorage.maxId db + 1)%Z
                  else InsertContractor.id contractor).
  { unfold c. now destruct (Z.eqb (InsertContractor.id contractor) 0). }
  assert (Hc : DatabaseStorage.inserted c
               = DatabaseStorage.inserted
                   (InsertContractor.withId (InsertContractor.id c) contractor)).
  { unfold c. destruct (Z.eqb (InsertContractor.id contractor) 0); [reflexivity|].
    now destruct contractor. }
  assert (Hrange : InsertContractor.id contractor = 0%Z ->
                   Z.ltb DatabaseStorage.maxInteger (DatabaseStorage.maxId db + 1) = false ->
                   (InsertContractor.id c <= DatabaseStorage.maxInteger)%Z).
  { intros Z0 L. rewrite Hid, Z0. simpl. now apply Z.ltb_ge in L. }
  assert (Hcreate :
    DatabaseStorage.createContractor contractor db
    = if Z.eqb (InsertContractor.id contractor) 0
         && Z.ltb DatabaseStorage.maxInteger (DatabaseStorage.maxId db + 1)
      then None
      else match DatabaseStorage.insertContractors [DatabaseStorage.inserted c] db with
           | Some (newContractor :: _, db') => Some (newContractor, db')
           | _ => None
           end).
  { unfold DatabaseStorage.createContractor, c.
    destruct (Z.eqb (InsertContractor.id contractor) 0); [|reflexivity].
    now destruct (Z.ltb DatabaseStorage.maxInteger (DatabaseStorage.maxId db + 1)). }
  rewrite Hcreate. clear Hcreate.
  destruct (Z.eqb (InsertContractor.id contractor) 0
            && Z.ltb DatabaseStorage.maxInteger (DatabaseStorage.maxId db + 1)) eqn:Hout.
  { apply Bool.andb_true_iff in Hout as [Z0 L]. rewrite Z0.
    apply Z.ltb_lt in L. lia. }
  destruct (DatabaseStorage.insertContractors [DatabaseStorage.inserted c] db)
    as [[result db']|] eqn:E.
  - apply ContractorFacts.insert_some in E as (-> & Hcs & Hps & Hkey').
    assert (Hfresh : ~ In (InsertContractor.id c) (Spec.idsOf db)).
    { unfold Spec.primaryKey in Hkey'. rewrite Hcs, map_app in Hkey'.
      intros Hin. apply NoDup_remove_2 in Hkey'. apply Hkey'.
      rewrite app_nil_r. exact Hin. }
    rewrite ContractorFacts.inserted_id.
    split; [exact Hid|]. split.
    { intros Z0. apply Hrange; [exact Z0|].
      apply Z.eqb_eq in Z0. rewrite Z0 in Hout. exact Hout. }
    split; [exact Hc|]. split; [exact Hfresh|].
    split; [exact Hcs|]. split; [|split; [|split; [exact Hps|exact Hkey']]].
    + unfold DatabaseStorage.getContractor. rewrite Hcs, ContractorFacts.find_app.
      rewrite (ContractorFacts.find_absent _ _ Hfresh). simpl.
      now rewrite Z.eqb_refl.
    + intros other Hne. unfold DatabaseStorage.getContractor.
      rewrite Hcs, ContractorFacts.find_app.
      destruct (List.find _ (DatabaseStorage.contractors db)); [reflexivity|].
      simpl. destruct (Z.eqb_spec (InsertContractor.id c) other); [congruence|].
      reflexivity.
  - apply ContractorFacts.insert_none in E.
    assert (Hin : In (InsertContractor.id c) (Spec.idsOf db)).
    { destruct (in_dec Z.eq_dec (InsertContractor.id c) (Spec.idsOf db)) as [H|H];
        [exact H|].
      exfalso. apply E. simpl. apply NoDup_app.
      - exact Hkey.
      - repeat constructor. intros [].
      - intros a Ha [<-|[]]. contradiction. }
    rewrite Hid in Hin.
    destruct (Z.eqb_spec (InsertContractor.id contractor) 0) as [Z0|Z0].
    + apply ContractorFacts.maxId_ge in Hin. lia.
    + exact Hin.
Qed.

Lemma X7_db_createContractor_keeps_ids_unique_witness :
  Spec.primaryKey Scenario.dbRoster
  /\ option_map (fun created => Contractor.id (fst created))
       (DatabaseStorage.createContractor
          (Scenario.newcomer 0 "Cyd") Scenario.dbRoster)
     = Some 3%Z.
Proof.
  assert (H : Spec.primaryKey Scenario.dbRoster).
  { unfold Spec.primaryKey. simpl. repeat constructor; simpl; intuition discriminate. }
  split; [exact H|].
  pose proof (X7_db_createContractor_keeps_ids_unique
                (Scenario.newcomer 0 "Cyd") Scenario.dbRoster H) as P.
  destruct (DatabaseStorage.createContractor _ Scenario.dbRoster) as [[row db']|].
  - destruct P as [P _]. simpl. now rewrite P.
  - vm_compute in P. now contradiction P.
Defined.

(** X8.  Creating contractors in bulk in the relational store, on a table
    that satisfies its primary key, is all or nothing.  It succeeds
    exactly when the ids of the upload differ from one another and from
    every id of the table; then every row of the upload is stored after
    the rows that were there and reads back under its id, with the
    defaults of the columns it left out, and the contractors that were
    there read back as before.  When one id of the upload is taken, or
    comes twice in the upload, the statement fails and stores none of the
    rows. *)
Theorem X8_db_bulkCreateContractors_is_all_or_nothing
        (data : list InsertContractor.t) (db : DatabaseStorage.t)
        (Hkey : Spec.primaryKey db) :
  let fresh :=
    NoDup (List.map InsertContractor.id data)
    /\ forall c, In c data -> ~ In (InsertContractor.id c) (Spec.idsOf db) in
  match DatabaseStorage.bulkCreateContractors data db with
  | Some (rows, db') =>
      fresh
      /\ rows = List.map DatabaseStorage.inserted data
      /\ DatabaseStorage.contractors db' = DatabaseStorage.contractors db ++ rows
      /\ (forall c, In c data ->
            DatabaseStorage.getContractor (InsertContractor.id c) db'
            = Some (DatabaseStorage.inserted c))
      /\ (forall other, ~ In other (List.map InsertContractor.id data) ->
            DatabaseStorage.getContractor other db'
            = DatabaseStorage.getContractor other db)
      /\ DatabaseStorage.productivityData db' = DatabaseStorage.productivityData db
      /\ Spec.primaryKey db'
  | None => data <> [] /\ ~ fresh
  end.
Proof. exact (ContractorFacts.bulk_cases data db Hkey). Qed.

Lemma X8_db_bulkCreateContractors_is_all_or_nothing_witness :
  Spec.primaryKey Scenario.dbRoster
  /\ DatabaseStorage.bulkCreateContractors
       [Scenario.newcomer 3 "Cyd"; Scenario.newcomer 1 "Ann"] Scenario.dbRoster
     = None.
Proof.
  assert (H : Spec.primaryKey Scenario.dbRoster).
  { unfold Spec.primaryKey. simpl. repeat constructor; simpl; intuition discriminate. }
  split; [exact H|].
  pose proof (X8_db_bulkCreateContractors_is_all_or_nothing
                [Scenario.newcomer 3 "Cyd"; Scenario.newcomer 1 "Ann"]
                Scenario.dbRoster H) as P.
  destruct (DatabaseStorage.bulkCreateContractors _ Scenario.dbRoster) as [[rows db']|].
  - destruct P as [[_ P] _]. exfalso.
    apply (P (Scenario.newcomer 1 "Ann")); simpl; tauto.
  - reflexivity.
Defined.

Module MemContractorFacts.
Import Spec.

(** The record [createContractor] builds does not depend on the store. *)
Lemma created_anywhere (c : InsertContractor.t) (st1 st2 : MemStorage.t) :
  fst (MemStorage.createContractor c st1) = fst (MemStorage.createContractor c st2).
Proof. reflexivity. Qed.

Lemma create_get (c : InsertContractor.t) (st : MemStorage.t) (id : Z) :
  MemStorage.getContractor id (snd (MemStorage.createContractor c st))
  = if Z.eqb (InsertContractor.id c) id
    then Some (fst (MemStorage.createContractor c st))
    else MemStorage.getContractor id st.
Proof.
  unfold MemStorage.getContractor, MemStorage.createContractor. simpl.
  destruct (Z.eqb_spec (InsertContractor.id c) id) as [<-|Hne].
  - apply JsMapFacts.get_set_same, Z.eqb_eq.
  - apply JsMapFacts.get_set_other; [apply Z.eqb_eq|assumption].
Qed.

Lemma bulk_from (data : list InsertContractor.t) (results : list Contractor.t)
      (st : MemStorage.t) :
  List.length (fst (MemStorage.bulkContractorsFrom results data st))
  = List.length results + List.length data
  /\ MemStorage.productivityData (snd (MemStorage.bulkContractorsFrom results data st))
     = MemStorage.productivityData st
  /\ forall id,
       MemStorage.getContractor id
         (snd (MemStorage.bulkContractorsFrom results data st))
       = match lastWith id data with
         | Some c => Some (fst (MemStorage.createContractor c st))
         | None => MemStorage.getContractor id st
         end.
Proof.
  revert results st. induction data as [|item rest IH]; intros results st.
  - simpl. split; [lia|]. split; reflexivity.
  - change (MemStorage.bulkContractorsFrom results (item :: rest) st)
      with (MemStorage.bulkContractorsFrom
              (results ++ [fst (MemStorage.createContractor item st)]) rest
              (snd (MemStorage.createContractor item st))).
    destruct (IH (results ++ [fst (MemStorage.createContractor item st)])
                 (snd (MemStorage.createContractor item st))) as (L & P & G).
    split; [rewrite L, length_app; simpl; lia|].
    split; [rewrite P; reflexivity|].
    intros id. rewrite G. unfold lastWith. simpl rev.
    rewrite ContractorFacts.find_app.
    destruct (List.find _ (rev rest)) as [c|]; [reflexivity|].
    simpl List.find. rewrite create_get.
    destruct (Z.eqb (InsertContractor.id item) id); reflexivity.
Qed.

End MemContractorFacts.

(** X9.  Creating contractors in bulk in the in-memory store never fails
    and answers one record for each row.  Afterwards an id that the upload
    names reads back as the record made from the last row that names it,
    whatever was stored under it before, and an id that the upload does
    not name reads back as before; the productivity data is untouched. *)
Theorem X9_mem_bulkCreateContractors_last_row_wins
        (data : list InsertContractor.t) (st : MemStorage.t) :
  let answer := fst (MemStorage.bulkCreateContractors data st) in
  let st' := snd (MemStorage.bulkCreateContractors data st) in
  List.length answer = List.length data
  /\ (forall id,
         MemStorage.getContractor id st'
         = match Spec.lastWith id data with
           | Some c => Some (fst (MemStorage.createContractor c st))
           | None => MemStorage.getContractor id st
           end)
  /\ (forall c id, Spec.lastWith id data = Some c ->
         Contractor.id (fst (MemStorage.createContractor c st)) = id
         /\ Contractor.status (fst (MemStorage.createContractor c st))
            = InsertContractor.status c)
  /\ MemStorage.productivityData st' = MemStorage.productivityData st.
Proof.
  cbv zeta. unfold MemStorage.bulkCreateContractors.
  destruct (MemContractorFacts.bulk_from data [] st) as (L & P & G).
  split; [exact L|]. split; [exact G|]. split; [|exact P].
  intros c id H. unfold Spec.lastWith in H. apply find_some in H as [_ H].
  apply Z.eqb_eq in H. split; [exact H|reflexivity].
Qed.

(** X10.  Updating a contractor in the in-memory store.  Under an id that
    holds no contractor the answer is undefined and the store is left as
    it was.  Otherwise the contractor reads back with the fields of the
    patch in place of its own and its other fields as they were, every
    other contractor reads back as before and the productivity data is
    untouched.  In particular a patch that sets the status to active
    undoes an archiving: an active contractor that is archived and then
    patched so reads back as it was at first. *)
Theorem X10_mem_updateContractor_merges_the_patch
        (id : Z) (patch : ContractorPatch.t) (st : MemStorage.t) :
  let answer := fst (MemStorage.updateContractor id patch st) in
  let st' := snd (MemStorage.updateContractor id patch st) in
  match MemStorage.getContractor id st with
  | None => answer = None /\ st' = st
  | Some existing =>
      answer = Some (ContractorPatch.apply patch existing)
      /\ MemStorage.getContractor id st' = Some (ContractorPatch.apply patch existing)
      /\ (forall other, other <> id ->
            MemStorage.getContractor other st' = MemStorage.getContractor other st)
      /\ MemStorage.productivityData st' = MemStorage.productivityData st
      /\ (Contractor.status existing = active ->
          MemStorage.getContractor id
            (snd (MemStorage.updateContractor id (Spec.statusPatch active)
                    (snd (MemStorage.archiveContractor id st))))
          = Some existing)
  end.
Proof.
  cbv zeta. unfold MemStorage.updateContractor.
  destruct (MemStorage.getContractor id st) as [existing|] eqn:G;
    unfold MemStorage.getContractor in G; rewrite G; simpl; [|now split].
  split; [reflexivity|]. split; [|split; [|split; [reflexivity|]]].
  - apply JsMapFacts.get_set_same, Z.eqb_eq.
  - intros other Hne. unfold MemStorage.getContractor. simpl.
    apply JsMapFacts.get_set_other; [apply Z.eqb_eq|congruence].
  - intros Hactive.
    rewrite (MemArchiveFacts.memArchive_archive_found id existing st G). simpl.
    rewrite JsMapFacts.get_set_same by apply Z.eqb_eq. simpl.
    unfold MemStorage.getContractor. simpl.
    rewrite JsMapFacts.get_set_same by apply Z.eqb_eq. f_equal.
    destruct existing. simpl in *. now subst.
Qed.

(* ================================================================== *)
(** * The limiter of login attempts *)
(* ================================================================== *)

Module LimiterFacts.
Import Spec.

Lemma attempts_get_set (ip : string) (a : Routes.Attempts) (m : JsMap.t string Routes.Attempts) :
  JsMap.get String.eqb ip (JsMap.set String.eqb ip a m) = Some a.
Proof. apply JsMapFacts.get_set_same, String.eqb_eq. Qed.

(** Inside a window whose record counts [c] attempts, the attempt number
    [i] from now passes when [c + i] is under the maximum. *)
Lemma inside_window (ip : string) (times : list Z) :
  forall (m : JsMap.t string Routes.Attempts) (c r : Z),
    JsMap.get String.eqb ip m = Some (Routes.mkAttempts c r) ->
    Forall (fun t => (t <= r)%Z) times ->
    attemptsAt ip times m
    = List.map (fun i => (c + Z.of_nat i <? Routes.MAX_LOGIN_ATTEMPTS)%Z)
               (seq 0 (List.length times)).
Proof.
  induction times as [|now times IH]; intros m c r G Hall; [reflexivity|].
  inversion Hall as [|? ? Hnow Hrest]; subst.
  simpl attemptsAt. unfold Routes.checkRateLimit. rewrite G. simpl Routes.resetTime.
  destruct (Z.gtb_spec now r) as [Hgt|_]; [lia|].
  simpl Routes.count. simpl List.length. simpl seq. simpl List.map.
  rewrite Z.add_0_r. rewrite <- seq_shift, map_map.
  destruct (Z.geb_spec c Routes.MAX_LOGIN_ATTEMPTS) as [Hc|Hc].
  - destruct (Z.ltb_spec c Routes.MAX_LOGIN_ATTEMPTS) as [Hlt|_]; [lia|].
    f_equal. rewrite (IH m c r G Hrest). apply map_ext_in. intros i _.
    destruct (Z.ltb_spec (c + Z.of_nat i) Routes.MAX_LOGIN_ATTEMPTS);
      destruct (Z.ltb_spec (c + Z.of_nat (S i)) Routes.MAX_LOGIN_ATTEMPTS);
      try reflexivity; lia.
  - destruct (Z.ltb_spec c Routes.MAX_LOGIN_ATTEMPTS) as [_|Hge]; [|lia].
    f_equal. rewrite (IH _ (c + 1)%Z r (attempts_get_set ip _ m) Hrest).
    apply map_ext. intros i. f_equal. lia.
Qed.

Lemma get_absent (ip : string) (m : JsMap.t string Routes.Attempts) :
  ~ In ip (JsMap.keys m) -> JsMap.get String.eqb ip m = None.
Proof.
  induction m as [|[k a] m IH]; simpl; intros H; [reflexivity|].
  destruct (String.eqb_spec k ip) as [->|Hne]; [tauto|]. apply IH. tauto.
Qed.

Lemma delete_get (ip : string) (m : JsMap.t string Routes.Attempts) :
  NoDup (JsMap.keys m) -> JsMap.get String.eqb ip (JsMap.delete String.eqb ip m) = None.
Proof.
  induction m as [|[k a] m IH]; intros Hnd; [reflexivity|].
  unfold JsMap.keys in Hnd. simpl in Hnd. inversion Hnd as [|? ? Hk Hnd']; subst.
  simpl. destruct (String.eqb_spec k ip) as [->|Hne].
  - now apply get_absent.
  - simpl. destruct (String.eqb_spec k ip); [contradiction|]. now apply IH.
Qed.

Lemma check_keys (now : Z) (ip : string) (m : JsMap.t string Routes.Attempts) :
  NoDup (JsMap.keys m) -> NoDup (JsMap.keys (snd (Routes.checkRateLimit now ip m))).
Proof.
  intros Hnd. unfold Routes.checkRateLimit.
  destruct (JsMap.get String.eqb ip m) as [a|].
  - destruct (now >? Routes.resetTime a)%Z; simpl;
      [apply JsMapFacts.set_NoDup; [apply String.eqb_eq|assumption]|].
    destruct (Routes.count a >=? Routes.MAX_LOGIN_ATTEMPTS)%Z; simpl; [assumption|].
    apply JsMapFacts.set_NoDup; [apply String.eqb_eq|assumption].
  - simpl. apply JsMapFacts.set_NoDup; [apply String.eqb_eq|assumption].
Qed.

End LimiterFacts.

(** X11.  The limiter lets five attempts through in one window, and no
    more.  When a client that has no window open tries at some time, and
    then again any number of times within fifteen minutes of that first
    attempt, the first five attempts pass and every later one is refused:
    the refused attempts neither pass nor move the end of the window. *)
Theorem X11_five_attempts_per_window
        (ip : string) (first : Z) (later : list Z)
        (loginAttempts : JsMap.t string Routes.Attempts)
        (Hclosed : Spec.noWindow first ip loginAttempts)
        (Hwithin : Forall (fun t => (t <= first + Routes.RATE_LIMIT_WINDOW)%Z) later) :
  Spec.attemptsAt ip (first :: later) loginAttempts
  = List.map (fun i => Nat.ltb i 5) (seq 0 (S (List.length later))).
Proof.
  assert (Hfirst :
    Routes.checkRateLimit first ip loginAttempts
    = (true, JsMap.set String.eqb ip
               (Routes.mkAttempts 1 (first + Routes.RATE_LIMIT_WINDOW)) loginAttempts)).
  { unfold Routes.checkRateLimit. unfold Spec.noWindow in Hclosed.
    destruct (JsMap.get String.eqb ip loginAttempts) as [a|]; [|reflexivity].
    destruct (Z.gtb_spec first (Routes.resetTime a)); [reflexivity|lia]. }
  simpl Spec.attemptsAt. rewrite Hfirst.
  rewrite (LimiterFacts.inside_window ip later _ 1 (first + Routes.RATE_LIMIT_WINDOW)
             (LimiterFacts.attempts_get_set ip _ _) Hwithin).
  cbn [seq List.map List.length]. f_equal. rewrite <- seq_shift, !map_map.
  apply map_ext. intros i. unfold Routes.MAX_LOGIN_ATTEMPTS.
  destruct (Z.ltb_spec (1 + Z.of_nat (S i)) 5); destruct (Nat.ltb_spec (S i) 5);
    try reflexivity; lia.
Qed.

Lemma X11_five_attempts_per_window_witness :
  Spec.noWindow 1000 "10.0.0.1" (JsMap.empty string Routes.Attempts)
  /\ Forall (fun t => (t <= 1000 + Routes.RATE_LIMIT_WINDOW)%Z)
            [2000; 3000; 4000; 5000; 6000; 7000]%Z
  /\ Spec.attemptsAt "10.0.0.1" [1000; 2000; 3000; 4000; 5000; 6000; 7000]%Z
                     (JsMap.empty string Routes.Attempts)
     = [true; true; true; true; true; false; false].
Proof.
  assert (H1 : Spec.noWindow 1000 "10.0.0.1" (JsMap.empty string Routes.Attempts))
    by exact I.
  assert (H2 : Forall (fun t => (t <= 1000 + Routes.RATE_LIMIT_WINDOW)%Z)
                      [2000; 3000; 4000; 5000; 6000; 7000]%Z).
  { repeat constructor; unfold Routes.RATE_LIMIT_WINDOW; lia. }
  split; [exact H1|]. split; [exact H2|].
  exact (X11_five_attempts_per_window "10.0.0.1" 1000
           [2000; 3000; 4000; 5000; 6000; 7000]%Z
           (JsMap.empty string Routes.Attempts) H1 H2).
Defined.

(** X12.  The login route.  A client that the limiter refuses is answered
    that it tried too often whatever password it sent, the right one
    included, and nothing changes.  The answer is a successful login
    exactly when the limiter lets the attempt through and the password is
    verified; then the session is an admin session and the record of the
    client is removed, so that its next attempt passes the limiter at any
    time.  A session never becomes an admin session in any other way. *)
Theorem X12_login_is_limited_and_resets_on_success
        (verifyPassword : string -> option bool)
        (now : Z) (clientIp password : string) (auth : Routes.Auth)
        (Hkeys : NoDup (JsMap.keys (Routes.loginAttempts auth))) :
  let allowed := fst (Routes.checkRateLimit now clientIp (Routes.loginAttempts auth)) in
  let response := fst (Routes.login verifyPassword now clientIp password auth) in
  let auth' := snd (Routes.login verifyPassword now clientIp password auth) in
  (allowed = false ->
   response = Routes.TooManyAttempts
                "Too many login attempts. Please try again in 15 minutes."
   /\ auth' = auth)
  /\ (response = Routes.LoginSuccessful "Login successful"
      <-> allowed = true /\ verifyPassword password = Some true)
  /\ (response = Routes.LoginSuccessful "Login successful" ->
      Routes.isAdmin auth' = true
      /\ forall later,
           fst (Routes.checkRateLimit later clientIp (Routes.loginAttempts auth'))
           = true)
  /\ (Routes.isAdmin auth' = true ->
      Routes.isAdmin auth = true
      \/ response = Routes.LoginSuccessful "Login successful")
  /\ NoDup (JsMap.keys (Routes.loginAttempts auth')).
Proof.
  cbv zeta. unfold Routes.login.
  pose proof (LimiterFacts.check_keys now clientIp _ Hkeys) as Hkeys'.
  destruct (Routes.checkRateLimit now clientIp (Routes.loginAttempts auth))
    as [allowed attempts] eqn:E.
  simpl in Hkeys'. simpl fst. destruct allowed; simpl.
  - split; [discriminate|].
    destruct (verifyPassword password) as [[|]|] eqn:V; simpl.
    + split; [tauto|]. split; [|split; [tauto|]].
      * intros _. split; [reflexivity|]. intros later.
        unfold Routes.checkRateLimit, Routes.resetRateLimit.
        now rewrite (LimiterFacts.delete_get clientIp attempts Hkeys').
      * apply JsMapFacts.delete_NoDup. exact Hkeys'.
    + split; [split; [discriminate|intros [_ H]; discriminate]|].
      split; [discriminate|]. split; [tauto|exact Hkeys'].
    + split; [split; [discriminate|intros [_ H]; discriminate]|].
      split; [discriminate|]. split; [tauto|exact Hkeys'].
  - split.
    + intros _. split; [reflexivity|].
      assert (attempts = Routes.loginAttempts auth).
      { unfold Routes.checkRateLimit in E.
        destruct (JsMap.get String.eqb clientIp (Routes.loginAttempts auth)) as [a|];
          [|discriminate].
        destruct (now >? Routes.resetTime a)%Z; [discriminate|].
        destruct (Routes.count a >=? Routes.MAX_LOGIN_ATTEMPTS)%Z; [|discriminate].
        now inversion E. }
      subst attempts. now destruct auth.
    + split; [split; [discriminate|intros [H _]; discriminate]|].
      split; [discriminate|]. split; [tauto|exact Hkeys'].
Qed.

Lemma X12_login_is_limited_and_resets_on_success_witness :
  NoDup (JsMap.keys (Routes.loginAttempts
                       (Routes.mkAuth (JsMap.empty string Routes.Attempts) false)))
  /\ fst (Routes.login (fun password => Some (String.eqb password "s3cret-pass"))
                       1000 "10.0.0.1" "s3cret-pass"
                       (Routes.mkAuth (JsMap.empty string Routes.Attempts) false))
     = Routes.LoginSuccessful "Login successful".
Proof.
  assert (H : NoDup (JsMap.keys (Routes.loginAttempts
                       (Routes.mkAuth (JsMap.empty string Routes.Attempts) false))))
    by constructor.
  split; [exact H|].
  apply (X12_login_is_limited_and_resets_on_success
           (fun password => Some (String.eqb password "s3cret-pass"))
           1000 "10.0.0.1" "s3cret-pass"
           (Routes.mkAuth (JsMap.empty string Routes.Attempts) false) H).
  split; reflexivity.
Defined.

(* ================================================================== *)
(** * The dashboard summary *)
(* ================================================================== *)

Module DashboardFacts.

Lemma nonNull_In (A : Type) (x : A) (l : list (option A)) :
  In x (JsArray.nonNull l) <-> In (Some x) l.
Proof.
  induction l as [|[y|] l IH]; simpl.
  - tauto.
  - rewrite IH. split; intros [H|H]; try (left; congruence); now right.
  - rewrite IH. split; [now right|]. intros [H|H]; [discriminate|assumption].
Qed.

Lemma nonNull_length (A B : Type) (f : A -> option B) (l : list A) :
  List.length (JsArray.nonNull (List.map f l))
  = List.length (filter (fun x => match f x with Some _ => true | None => false end) l).
Proof.
  induction l as [|x l IH]; simpl; [reflexivity|].
  destruct (f x); simpl; now rewrite IH.
Qed.

Lemma mapFrom_In (A B : Type) (f : A -> nat -> B) (start : nat) (l : list A) (y : B) :
  In y (JsArray.mapFrom f start l) -> exists x i, In x l /\ y = f x i.
Proof.
  revert start. induction l as [|x l IH]; intros start; simpl; [contradiction|].
  intros [<-|H].
  - exists x, start. split; [now left|reflexivity].
  - destruct (IH _ H) as [x' [i [Hin E]]]. exists x', i. split; [now right|exact E].
Qed.

(** Counting a list by a test that splits into two tests that exclude
    one another. *)
Lemma count_split (A : Type) (p q r : A -> bool) (l : list A) :
  (forall x, p x = (q x || (p x && r x))) -> (forall x, q x && r x = false) ->
  List.length (filter p l)
  = List.length (filter q l) + List.length (filter r (filter p l)).
Proof.
  intros Hp Hqr. induction l as [|x l IH]; simpl; [reflexivity|].
  specialize (Hp x). specialize (Hqr x).
  destruct (p x) eqn:P, (q x) eqn:Q, (r x) eqn:R; simpl in Hp, Hqr;
    try discriminate; simpl; rewrite ?R; simpl; lia.
Qed.

Lemma medium_number (contractorType : string) :
  exists q, Routes.medium (Routes.getThresholds contractorType) = Js.Num q.
Proof.
  unfold Routes.getThresholds, Routes.medium.
  destruct (String.eqb contractorType "Part Time"); simpl; eexists; reflexivity.
Qed.

Definition listed (c : ContractorWithData.t) : bool :=
  match Routes.underPerformerOf c with Some _ => true | None => false end.

(** A contractor with productivity in the month is listed as an
    under-performer or counted above the threshold, never both. *)
Lemma listed_or_above (c : ContractorWithData.t) :
  Routes.hasProductivity c
  = (listed c || (Routes.hasProductivity c && Routes.isAboveThreshold c))
  /\ listed c && Routes.isAboveThreshold c = false.
Proof.
  unfold listed, Routes.hasProductivity, Routes.isAboveThreshold,
    Routes.underPerformerOf.
  destruct (Routes.monthProductivity c) as [data|]; [|now split].
  destruct (medium_number (Contractor.contractorType (ContractorWithData.contractor c)))
    as [m ->].
  destruct (ProductivityData.productiveHours data) as [h| |[|]]; simpl;
    try (now split).
  unfold Js.gt, Js.ge, Js.le, Js.lt, Js.ofZ.
  destruct (inject_Z 0 ?= h)%Q; simpl; try (now split);
    destruct (h ?= m)%Q; simpl; now split.
Qed.

Lemma listed_hours (c : ContractorWithData.t) (r : MonthlyRanking.t) :
  Routes.underPerformerOf c = Some r ->
  exists data,
    Routes.monthProductivity c = Some data
    /\ r = MonthlyRanking.mk (Contractor.id (ContractorWithData.contractor c))
                             (Contractor.name (ContractorWithData.contractor c))
                             (ProductivityData.productiveHours data) 0
                             Routes.currentMonth
    /\ Js.le (ProductivityData.productiveHours data) (Js.ofZ 0) = false
    /\ Js.lt (ProductivityData.productiveHours data)
             (Routes.medium
                (Routes.getThresholds
                   (Contractor.contractorType (ContractorWithData.contractor c))))
       = true.
Proof.
  unfold Routes.underPerformerOf.
  destruct (Routes.monthProductivity c) as [data|]; [|discriminate].
  destruct (Js.le (ProductivityData.productiveHours data) (Js.ofZ 0)) eqn:L;
    [discriminate|].
  destruct (Js.lt (ProductivityData.productiveHours data) _) eqn:T; [|discriminate].
  intros H. inversion H; subst. exists data. repeat split; assumption.
Qed.

End DashboardFacts.

(** X13.  The dashboard summary.  Its under-performers carry the ranks 1,
    2, 3 and so on, and each of them is an active contractor whose first
    record of the current month has productive hours above 0 and under
    the medium threshold of its type, 50 for Part Time and 100 for every
    other type; an archived contractor is never listed.  Every active
    contractor with productive hours above 0 in the month is either
    listed as an under-performer or counted above the threshold, never
    both, so the percentage above the threshold is that of the
    contractors with hours who are not listed, and it is 0 when no
    contractor has hours. *)
Theorem X13_dashboard_under_performers_and_percentage_agree
        (contractors : list Contractor.t) (monthData : list ProductivityData.t)
        (top : list MonthlyRanking.t) (contractorsWithData : list ContractorWithData.t) :
  let summary := Routes.dashboardSummary contractors monthData top contractorsWithData in
  let under := Routes.underPerformers summary in
  let withHours :=
    filter Routes.hasProductivity
      (filter (fun c => Routes.isActive (ContractorWithData.contractor c))
              contractorsWithData) in
  List.map MonthlyRanking.rank under = seq 1 (List.length under)
  /\ (forall r, In r under ->
        exists c data,
          In c contractorsWithData
          /\ Contractor.status (ContractorWithData.contractor c) = active
          /\ Routes.monthProductivity c = Some data
          /\ MonthlyRanking.contractorId r = Contractor.id (ContractorWithData.contractor c)
          /\ MonthlyRanking.name r = Contractor.name (ContractorWithData.contractor c)
          /\ MonthlyRanking.hours r = ProductivityData.productiveHours data
          /\ MonthlyRanking.month r = "Aug-25"
          /\ Js.le (MonthlyRanking.hours r) (Js.ofZ 0) = false
          /\ Js.lt (MonthlyRanking.hours r)
                   (if String.eqb (Contractor.contractorType
                                     (ContractorWithData.contractor c)) "Part Time"
                    then Js.ofZ 50 else Js.ofZ 100) = true)
  /\ List.length withHours
     = List.length under + List.length (filter Routes.isAboveThreshold withHours)
  /\ Routes.aboveThresholdPercentage summary
     = (if Nat.ltb 0 (List.length withHours)
        then Js.round
               (Js.mul (Js.div (Js.ofNat (List.length withHours - List.length under))
                               (Js.ofNat (List.length withHours)))
                       (Js.ofZ 100))
        else Js.round (Js.ofZ 0)).
Proof.
  cbv zeta. unfold Routes.dashboardSummary. cbn [Routes.underPerformers
    Routes.aboveThresholdPercentage].
  set (act := filter (fun c => Routes.isActive (ContractorWithData.contractor c))
                     contractorsWithData).
  set (sorted := JsArray.sort
                   (fun a b => Js.sub (MonthlyRanking.hours a) (MonthlyRanking.hours b))
                   (JsArray.nonNull (List.map Routes.underPerformerOf act))).
  assert (Hlen : List.length (JsArray.mapi Routes.withDashboardRank sorted)
                 = List.length (filter DashboardFacts.listed act)).
  { unfold JsArray.mapi. rewrite ArrayFacts.mapFrom_length. unfold sorted, JsArray.sort.
    rewrite ArrayFacts.sortBy_length. apply DashboardFacts.nonNull_length. }
  assert (Hsplit : List.length (filter Routes.hasProductivity act)
                   = List.length (filter DashboardFacts.listed act)
                     + List.length (filter Routes.isAboveThreshold
                                           (filter Routes.hasProductivity act))).
  { apply DashboardFacts.count_split; intros c; apply DashboardFacts.listed_or_above. }
  split; [|split; [|split]].
  - unfold JsArray.mapi.
    rewrite (ArrayFacts.mapFrom_ranks Routes.withDashboardRank MonthlyRanking.rank)
      by (intros; reflexivity).
    now rewrite ArrayFacts.mapFrom_length.
  - intros r Hr. unfold JsArray.mapi in Hr.
    apply DashboardFacts.mapFrom_In in Hr as [item [i [Hitem ->]]].
    unfold sorted, JsArray.sort in Hitem. apply (proj1 (ArrayFacts.sortBy_In _ _ _)) in Hitem.
    apply DashboardFacts.nonNull_In in Hitem. apply in_map_iff in Hitem as [c [Hc Hin]].
    unfold act in Hin. apply filter_In in Hin as [Hin Hact].
    destruct (DashboardFacts.listed_hours c item Hc) as [data (Hm & -> & Hpos & Hlow)].
    exists c, data. simpl.
    repeat split; try assumption.
    + unfold Routes.isActive in Hact.
      now destruct (Contractor.status (ContractorWithData.contractor c)).
    + unfold Routes.getThresholds, Routes.medium in Hlow.
      now destruct (String.eqb _ "Part Time").
  - rewrite Hlen. exact Hsplit.
  - rewrite Hlen.
    destruct (Nat.ltb 0 (List.length (filter Routes.hasProductivity act)));
      [|reflexivity].
    replace (List.length (filter Routes.isAboveThreshold
                                 (filter Routes.hasProductivity act)))
      with (List.length (filter Routes.hasProductivity act)
            - List.length (filter DashboardFacts.listed act)) by lia.
    reflexivity.
Qed.

(* ================================================================== *)
(** * The roster upload *)
(* ================================================================== *)

Module RosterFacts.
Import Spec.

Section Rows.
Variable schemaError : Routes.ContractorToInsert -> option string.

(** Every error carries the number of its row, and every row that is
    kept has a number for its id. *)
Lemma parseRosterRow_cases (i : nat) (line : string) :
  match Routes.parseRosterRow schemaError i line with
  | inl error =>
      exists detail, error = ("Row " ++ Js.natToString (i + 2) ++ ": " ++ detail)%string
  | inr row =>
      Routes.rosterId row = Js.parseInt (nth 1 (Routes.rosterColumns line) EmptyString)
      /\ Js.isNaN (Routes.rosterId row) = false
      /\ (9 <= List.length (Routes.rosterColumns line))%nat
  end.
Proof.
  unfold Routes.parseRosterRow.
  destruct (Nat.ltb_spec (List.length (Routes.rosterColumns line)) 9) as [L|L].
  - exists ("Insufficient columns (expected 9, got "
              ++ Js.natToString (List.length (Routes.rosterColumns line)) ++ ")")%string.
    reflexivity.
  - destruct (Js.isNaN (Js.parseInt (nth 1 (Routes.rosterColumns line) EmptyString)))
      eqn:N.
    + exists ("Invalid ID '" ++ nth 1 (Routes.rosterColumns line) EmptyString
                ++ "' - must be a number")%string.
      reflexivity.
    + destruct (schemaError _) as [message|].
      * exists message. reflexivity.
      * simpl. repeat split; assumption.
Qed.

Lemma parseRosterRowsFrom_outcomes (dataRows : list string) (i : nat)
      (contractorData : list Routes.ContractorToInsert) (errors : list string) :
  Routes.parseRosterRowsFrom schemaError i dataRows contractorData errors
  = (contractorData
       ++ rowsOf (JsArray.mapFrom (fun line k => Routes.parseRosterRow schemaError k line)
                                  i dataRows),
     errors
       ++ errorsOf (JsArray.mapFrom (fun line k => Routes.parseRosterRow schemaError k line)
                                    i dataRows)).
Proof.
  revert i contractorData errors.
  induction dataRows as [|line rest IH]; intros i contractorData errors; simpl.
  - now rewrite !List.app_nil_r.
  - destruct (Routes.parseRosterRow schemaError i line) as [error|data];
      rewrite IH; simpl; now rewrite <- !List.app_assoc.
Qed.
End Rows.

(** A file whose header is accepted has at least one data row. *)
Lemma accepted_rows (file : option string) (dataRows : list string) :
  Routes.uploadContractorRosterHeader file = Routes.RosterHeadersAccepted dataRows ->
  (1 <= List.length dataRows)%nat.
Proof.
  unfold Routes.uploadContractorRosterHeader.
  destruct file as [csvContent|]; [|discriminate].
  destruct (Nat.ltb_spec (List.length (Routes.nonBlankLines csvContent)) 2) as [L|L];
    [discriminate|].
  destruct (negb _); [discriminate|].
  intros H. inversion H.
  destruct (Routes.nonBlankLines csvContent) as [|l0 [|l1 r]]; simpl in *; lia.
Qed.

(** What the handler answers once the header is accepted. *)
Lemma upload_after_header
      (Store Stored : Type)
      (bulkCreateContractors :
         list Routes.ContractorToInsert -> Store -> option (list Stored * Store))
      (schemaError : Routes.ContractorToInsert -> option string)
      (file : option string) (dataRows : list string) (st : Store) :
  Routes.uploadContractorRosterHeader file = Routes.RosterHeadersAccepted dataRows ->
  let outcomes :=
    JsArray.mapi (fun line i => Routes.parseRosterRow schemaError i line) dataRows in
  Routes.uploadContractorRoster bulkCreateContractors schemaError file st
  = match rowsOf outcomes with
    | [] => (Routes.RosterNoValidData "No valid contractor data to process"
                                      (firstn 10 (errorsOf outcomes)), st)
    | _ =>
        match bulkCreateContractors (rowsOf outcomes) st with
        | None =>
            (Routes.RosterFailed "Failed to process contractor roster CSV file", st)
        | Some (insertedContractors, st') =>
            (Routes.RosterProcessed
               ("Successfully processed "
                  ++ Js.natToString (List.length insertedContractors)
                  ++ " contractors")%string
               (List.length insertedContractors)
               (match errorsOf outcomes with
                | [] => None
                | _ => Some (firstn 10 (errorsOf outcomes))
                end)
               insertedContractors,
             st')
        end
    end.
Proof.
  intros Hheader outcomes. pose proof (accepted_rows file dataRows Hheader) as Hrows.
  unfold Routes.uploadContractorRoster. rewrite Hheader.
  rewrite parseRosterRowsFrom_outcomes. simpl app.
  change (JsArray.mapFrom (fun line k => Routes.parseRosterRow schemaError k line)
                          0 dataRows) with outcomes.
  assert (Hcount : List.length (rowsOf outcomes) + List.length (errorsOf outcomes)
                   = List.length dataRows).
  { rewrite UploadFacts.outcomes_count. unfold outcomes, JsArray.mapi.
    apply ArrayFacts.mapFrom_length. }
  destruct (rowsOf outcomes) as [|row rows'].
  - destruct (errorsOf outcomes) as [|e errors']; simpl in *; [lia|reflexivity].
  - simpl List.length at 2. rewrite Bool.andb_false_r.
    destruct (bulkCreateContractors (row :: rows') st) as [[inserted st']|];
      reflexivity.
Qed.

End RosterFacts.

(** X14.  The roster upload reads its rows one by one.  Once the header
    is accepted, each data row gives a contractor or one error that
    begins with the number of the row, counted from 2 among the lines that
    are not blank; a row with fewer than nine columns, or whose id is no
    number, is an error and the rows after it are read all the same.  When
    no row gives a contractor the upload is refused with the first ten
    errors and the store is left as it was; otherwise the contractors are
    handed to the store together, and the answer is the number the store
    returns with at most ten errors, or a failure without any change when
    the store throws. *)
Theorem X14_roster_rows_are_independent
        (Store Stored : Type)
        (bulkCreateContractors :
           list Routes.ContractorToInsert -> Store -> option (list Stored * Store))
        (schemaError : Routes.ContractorToInsert -> option string)
        (file : option string) (dataRows : list string) (st : Store)
        (Hheader : Routes.uploadContractorRosterHeader file
                   = Routes.RosterHeadersAccepted dataRows) :
  let outcomes :=
    JsArray.mapi (fun line i => Routes.parseRosterRow schemaError i line) dataRows in
  let errors := Spec.errorsOf outcomes in
  let rows := Spec.rowsOf outcomes in
  (forall i error,
      nth_error outcomes i = Some (inl error) ->
      exists detail,
        error = ("Row " ++ Js.natToString (i + 2) ++ ": " ++ detail)%string)
  /\ (forall i line,
        nth_error dataRows i = Some line ->
        (List.length (Routes.rosterColumns line) < 9)%nat
        \/ Js.parseInt (nth 1 (Routes.rosterColumns line) EmptyString) = Js.NaN ->
        exists error, nth_error outcomes i = Some (inl error))
  /\ List.length rows + List.length errors = List.length dataRows
  /\ Routes.uploadContractorRoster bulkCreateContractors schemaError file st
     = match rows with
       | [] => (Routes.RosterNoValidData "No valid contractor data to process"
                                         (firstn 10 errors), st)
       | _ =>
           match bulkCreateContractors rows st with
           | None =>
               (Routes.RosterFailed "Failed to process contractor roster CSV file", st)
           | Some (insertedContractors, st') =>
               (Routes.RosterProcessed
                  ("Successfully processed "
                     ++ Js.natToString (List.length insertedContractors)
                     ++ " contractors")%string
                  (List.length insertedContractors)
                  (match errors with [] => None | _ => Some (firstn 10 errors) end)
                  insertedContractors,
                st')
           end
       end.
Proof.
  intros outcomes errors rows.
  split; [|split; [|split]].
  - intros i error Hi. unfold outcomes, JsArray.mapi in Hi.
    rewrite ArrayFacts.mapFrom_nth_error in Hi.
    destruct (nth_error dataRows i) as [line|]; [|discriminate].
    simpl in Hi. inversion Hi as [Hrow].
    pose proof (RosterFacts.parseRosterRow_cases schemaError i line) as C.
    rewrite Hrow in C. exact C.
  - intros i line Hline Hbad. unfold outcomes, JsArray.mapi.
    rewrite ArrayFacts.mapFrom_nth_error, Hline. simpl.
    pose proof (RosterFacts.parseRosterRow_cases schemaError i line) as C.
    destruct (Routes.parseRosterRow schemaError i line) as [error|row];
      [now exists error|].
    destruct C as (Hid & Hnan & Hlen). exfalso.
    destruct Hbad as [Hbad|Hbad]; [lia|].
    rewrite Hid, Hbad in Hnan. discriminate.
  - unfold rows, errors. rewrite UploadFacts.outcomes_count.
    unfold outcomes, JsArray.mapi. apply ArrayFacts.mapFrom_length.
  - exact (RosterFacts.upload_after_header Store Stored bulkCreateContractors
             schemaError file dataRows st Hheader).
Qed.

Lemma X14_roster_rows_are_independent_witness :
  Routes.uploadContractorRosterHeader (Some Scenario.newcomers)
  = Routes.RosterHeadersAccepted ["Cyd,3,,,,,,,"; "Dee,x,,,,,,,"]
  /\ exists data st,
       Routes.uploadContractorRoster Backend.memBulkCreateContractors
         Scenario.contractorSchemaError (Some Scenario.newcomers) Scenario.memRoster
       = (Routes.RosterProcessed "Successfully processed 1 contractors" 1
            (Some ["Row 3: Invalid ID 'x' - must be a number"]) data, st).
Proof.
  assert (H : Routes.uploadContractorRosterHeader (Some Scenario.newcomers)
              = Routes.RosterHeadersAccepted ["Cyd,3,,,,,,,"; "Dee,x,,,,,,,"])
    by (vm_compute; reflexivity).
  split; [exact H|].
  destruct (X14_roster_rows_are_independent
              MemStorage.t Contractor.t Backend.memBulkCreateContractors
              Scenario.contractorSchemaError (Some Scenario.newcomers)
              ["Cyd,3,,,,,,,"; "Dee,x,,,,,,,"] Scenario.memRoster H)
    as (_ & _ & _ & E).
  rewrite E. eexists. eexists. vm_compute. reflexivity.
Defined.

(** X15.  The roster upload over the relational store, on a table that
    satisfies its primary key and for a file whose header is accepted and
    that gives at least one contractor.  When the ids of the file differ
    from one another and from every id of the table, all its contractors
    are stored after those that were there; each reads back under its id
    with the columns of its row, the status active and the type Full Time.
    When one id of the file is taken already, or comes twice in the file,
    the upload fails as a whole and the table is left as it was: a roster
    cannot be uploaded again over the contractors it created. *)
Theorem X15_roster_upload_inserts_all_or_nothing
        (schemaError : Routes.ContractorToInsert -> option string)
        (file : option string) (dataRows : list string) (db : DatabaseStorage.t)
        (Hkey : Spec.primaryKey db)
        (Hheader : Routes.uploadContractorRosterHeader file
                   = Routes.RosterHeadersAccepted dataRows) :
  let rows :=
    Spec.rowsOf (JsArray.mapi (fun line i => Routes.parseRosterRow schemaError i line)
                              dataRows) in
  let fresh :=
    NoDup (Spec.rosterIds rows)
    /\ forall id, In id (Spec.rosterIds rows) -> ~ In id (Spec.idsOf db) in
  let answer :=
    Routes.uploadContractorRoster Backend.dbBulkCreateContractors schemaError file db in
  rows <> [] ->
  (fresh ->
   (exists message errors,
       fst answer
       = Routes.RosterProcessed message (List.length rows) errors
                                (List.map Spec.rosterContractor rows))
   /\ DatabaseStorage.contractors (snd answer)
      = DatabaseStorage.contractors db ++ List.map Spec.rosterContractor rows
   /\ forall row, In row rows ->
        DatabaseStorage.getContractor (Contractor.id (Spec.rosterContractor row))
                                      (snd answer)
        = Some (Spec.rosterContractor row)
        /\ Contractor.status (Spec.rosterContractor row) = active
        /\ Contractor.contractorType (Spec.rosterContractor row) = "Full Time")
  /\ (~ fresh ->
      answer = (Routes.RosterFailed "Failed to process contractor roster CSV file", db)).
Proof.
  intros rows fresh answer Hrows.
  assert (Hids : List.map InsertContractor.id (List.map Backend.toInsertContractor rows)
                 = Spec.rosterIds rows).
  { unfold Spec.rosterIds. now rewrite map_map. }
  assert (Hfresh :
    (NoDup (List.map InsertContractor.id (List.map Backend.toInsertContractor rows))
     /\ forall c, In c (List.map Backend.toInsertContractor rows) ->
                  ~ In (InsertContractor.id c) (Spec.idsOf db))
    <-> fresh).
  { unfold fresh. rewrite Hids. split; intros [Hnd Hnew]; split; try assumption.
    - intros id Hid. unfold Spec.rosterIds in Hid.
      apply in_map_iff in Hid as [row [<- Hrow]].
      apply Hnew. now apply in_map.
    - intros c Hc. apply in_map_iff in Hc as [row [<- Hrow]].
      apply Hnew. unfold Spec.rosterIds.
      now apply (in_map (fun row => InsertContractor.id (Backend.toInsertContractor row))). }
  pose proof (RosterFacts.upload_after_header
                DatabaseStorage.t Contractor.t Backend.dbBulkCreateContractors
                schemaError file dataRows db Hheader) as E.
  cbv zeta in E. fold rows in E. fold answer in E.
  pose proof (ContractorFacts.bulk_cases (List.map Backend.toInsertContractor rows)
                db Hkey) as C.
  cbv zeta in C. unfold Backend.dbBulkCreateContractors in E.
  destruct rows as [|row rows'] eqn:R; [congruence|]. rewrite <- R in *.
  assert (E' : answer
               = match DatabaseStorage.bulkCreateContractors
                         (List.map Backend.toInsertContractor rows) db with
                 | Some (insertedContractors, st') =>
                     (Routes.RosterProcessed
                        ("Successfully processed "
                           ++ Js.natToString (List.length insertedContractors)
                           ++ " contractors")%string
                        (List.length insertedContractors)
                        match
                          Spec.errorsOf
                            (JsArray.mapi
                               (fun line i => Routes.parseRosterRow schemaError i line)
                               dataRows)
                        with
                        | [] => None
                        | _ :: _ =>
                            Some (firstn 10
                                    (Spec.errorsOf
                                       (JsArray.mapi
                                          (fun line i =>
                                             Routes.parseRosterRow schemaError i line)
                                          dataRows)))
                        end insertedContractors, st')
                 | None =>
                     (Routes.RosterFailed "Failed to process contractor roster CSV file",
                      db)
                 end).
  { rewrite E. rewrite R. rewrite <- R. reflexivity. }
  clear E.
  destruct (DatabaseStorage.bulkCreateContractors
              (List.map Backend.toInsertContractor rows) db)
    as [[inserted db']|].
  - destruct C as (Cfresh & -> & Hcs & Hget & _ & _ & _).
    rewrite E'. simpl fst. simpl snd.
    assert (Hmap : List.map DatabaseStorage.inserted
                            (List.map Backend.toInsertContractor rows)
                   = List.map Spec.rosterContractor rows)
      by now rewrite map_map.
    split.
    + intros _. rewrite Hmap in *. split; [|split; [exact Hcs|]].
      * eexists. eexists. rewrite length_map. reflexivity.
      * intros r Hr. split; [|split; reflexivity].
        apply (Hget (Backend.toInsertContractor r)). now apply in_map.
    + intros Hn. exfalso. apply Hn. now apply Hfresh.
  - destruct C as [_ Cn]. split.
    + intros Hf. exfalso. apply Cn. now apply Hfresh.
    + intros _. exact E'.
Qed.

Lemma X15_roster_upload_inserts_all_or_nothing_witness :
  Spec.primaryKey Scenario.dbRoster
  /\ Routes.uploadContractorRosterHeader (Some Scenario.rosterAgain)
     = Routes.RosterHeadersAccepted ["Cyd,3,,,,,,,"; "Ann,1,,,,,,,"]
  /\ Routes.uploadContractorRoster Backend.dbBulkCreateContractors
       Scenario.contractorSchemaError (Some Scenario.rosterAgain) Scenario.dbRoster
     = (Routes.RosterFailed "Failed to process contractor roster CSV file",
        Scenario.dbRoster).
Proof.
  assert (Hkey : Spec.primaryKey Scenario.dbRoster).
  { unfold Spec.primaryKey. simpl. repeat constructor; simpl; intuition discriminate. }
  assert (Hheader : Routes.uploadContractorRosterHeader (Some Scenario.rosterAgain)
                    = Routes.RosterHeadersAccepted ["Cyd,3,,,,,,,"; "Ann,1,,,,,,,"])
    by (vm_compute; reflexivity).
  split; [exact Hkey|]. split; [exact Hheader|].
  apply (X15_roster_upload_inserts_all_or_nothing
           Scenario.contractorSchemaError (Some Scenario.rosterAgain)
           ["Cyd,3,,,,,,,"; "Ann,1,,,,,,,"] Scenario.dbRoster Hkey Hheader).
  - vm_compute. discriminate.
  - intros [_ Hnew]. apply (Hnew 1%Z); vm_compute; tauto.
Defined.

(* ================================================================== *)
(** * The client parser *)
(* ================================================================== *)

Module ParserFacts.
Import Spec.

Section Arithmetic.
Context {N : Type} {arithmetic : Number.Arithmetic N}.

Lemma parseLinesFrom_outcomes (dataRows : list string) (i : nat)
      (data : list (CSVParser.CSVRow N)) (errors : list string) :
  CSVParser.parseLinesFrom i dataRows data errors
  = CSVParser.mkParsed
      (data ++ parsedRows (JsArray.mapFrom (fun line k => CSVParser.parseLine k line)
                                           i dataRows))
      (errors ++ parsedErrors (JsArray.mapFrom (fun line k => CSVParser.parseLine k line)
                                               i dataRows)).
Proof.
  revert i data errors.
  induction dataRows as [|line rest IH]; intros i data errors; simpl.
  - now rewrite !List.app_nil_r.
  - destruct (CSVParser.parseLine i line) as [message|row|];
      rewrite IH; simpl; now rewrite <- ?List.app_assoc.
Qed.

Lemma outcomes_bound (outcomes : list (CSVParser.RowOutcome N)) :
  (List.length (parsedRows outcomes) + List.length (parsedErrors outcomes)
   <= List.length outcomes)%nat.
Proof.
  induction outcomes as [|[message|row|] r IH]; simpl; lia.
Qed.

Lemma parsedRows_In (row : CSVParser.CSVRow N) (outcomes : list (CSVParser.RowOutcome N)) :
  In row (parsedRows outcomes) <-> In (CSVParser.RowData row) outcomes.
Proof.
  unfold parsedRows. rewrite in_flat_map. split.
  - intros [[message|row'|] [Hin H]]; simpl in H; try contradiction.
    destruct H as [->|[]]. exact Hin.
  - intros H. exists (CSVParser.RowData row). split; [exact H|now left].
Qed.

Lemma parseNumber_some (value message : string) (n : N) :
  CSVParser.parseNumber value message = Some n ->
  n = Number.parseFloat value /\ Number.isNaN n = false.
Proof.
  unfold CSVParser.parseNumber.
  destruct (Number.isNaN (Number.parseFloat value)) eqn:E; [discriminate|].
  intros H. inversion H; subst. now split.
Qed.

Lemma parseNumber_none (value message : string) :
  Number.isNaN (Number.parseFloat value) = true ->
  CSVParser.parseNumber (N := N) value message = None.
Proof. unfold CSVParser.parseNumber. now intros ->. Qed.

(** What a row that is kept holds. *)
Lemma parseLine_data (i : nat) (line : string) (row : CSVParser.CSVRow N) :
  CSVParser.parseLine i line = CSVParser.RowData row ->
  let columns := clientColumns line in
  (6 <= List.length columns)%nat
  /\ CSVParser.empNo row = Number.parseFloat (nth 0 columns EmptyString)
  /\ CSVParser.name row = nth 1 columns EmptyString
  /\ CSVParser.month row = nth 2 columns EmptyString
  /\ CSVParser.productiveHours row = nth 3 columns EmptyString
  /\ CSVParser.hours row = Number.parseFloat (nth 4 columns EmptyString)
  /\ CSVParser.productivity row = Number.parseFloat (nth 5 columns EmptyString)
  /\ Number.isNaN (CSVParser.empNo row) = false
  /\ Number.isNaN (CSVParser.hours row) = false
  /\ Number.isNaN (CSVParser.productivity row) = false
  /\ Js.nonEmpty (CSVParser.name row) = true
  /\ CSVParser.isValidMonthFormat (CSVParser.month row) = true.
Proof.
  unfold CSVParser.parseLine. fold (clientColumns line). cbv zeta.
  destruct (Nat.ltb_spec (List.length (clientColumns line)) 6) as [L|L];
    [discriminate|].
  destruct (CSVParser.parseNumber (nth 0 (clientColumns line) EmptyString) _)
    as [empNo|] eqn:E0; [|discriminate].
  destruct (CSVParser.parseNumber (nth 4 (clientColumns line) EmptyString) _)
    as [hours|] eqn:E4; [|discriminate].
  destruct (CSVParser.parseNumber (nth 5 (clientColumns line) EmptyString) _)
    as [productivity|] eqn:E5; [|discriminate].
  apply parseNumber_some in E0 as [-> N0].
  apply parseNumber_some in E4 as [-> N4].
  apply parseNumber_some in E5 as [-> N5].
  destruct (Js.nonEmpty (nth 1 (clientColumns line) EmptyString)) eqn:Hname;
    [|discriminate].
  destruct (Js.nonEmpty (nth 2 (clientColumns line) EmptyString)) eqn:Hmonth;
    [|discriminate].
  simpl.
  destruct (CSVParser.isValidMonthFormat (nth 2 (clientColumns line) EmptyString))
    eqn:Hvalid; [|discriminate].
  simpl. intros H. inversion H; subst. simpl. repeat split; assumption.
Qed.

(** A row with six columns one of whose three numbers does not parse is
    passed over. *)
Lemma parseLine_skipped (i : nat) (line : string) :
  (6 <= List.length (clientColumns line))%nat ->
  Number.isNaN (Number.parseFloat (N := N) (nth 0 (clientColumns line) EmptyString))
  = true
  \/ Number.isNaN (Number.parseFloat (N := N) (nth 4 (clientColumns line) EmptyString))
     = true
  \/ Number.isNaN (Number.parseFloat (N := N) (nth 5 (clientColumns line) EmptyString))
     = true ->
  CSVParser.parseLine (N := N) i line = CSVParser.RowSkipped.
Proof.
  intros L H. unfold CSVParser.parseLine. fold (clientColumns line). cbv zeta.
  destruct (Nat.ltb_spec (List.length (clientColumns line)) 6) as [L'|_]; [lia|].
  destruct H as [H|[H|H]]; rewrite (parseNumber_none _ _ H);
    repeat match goal with
           | |- context [match ?e with Some _ => _ | None => _ end] => destruct e
           end; reflexivity.
Qed.

End Arithmetic.

(** A month in the format of the test starts with a letter. *)
Lemma valid_month_shape (month : string) :
  CSVParser.isValidMonthFormat month = true ->
  exists a b c d e,
    month = String a (String b (String c (String "-" (String d (String e EmptyString)))))
    /\ Js.isLetter a = true /\ Js.isLetter b = true /\ Js.isLetter c = true
    /\ Js.isDigit d = true /\ Js.isDigit e = true.
Proof.
  destruct month as [|a [|b [|c [|x [|d [|e [|f r]]]]]]]; try discriminate;
    try (destruct x as [[] [] [] [] [] [] [] []]; discriminate).
  destruct x as [[] [] [] [] [] [] [] []]; try discriminate.
  simpl. rewrite !Bool.andb_true_iff. intros [[[[Ha Hb] Hc] Hd] He].
  exists a, b, c, d, e. auto 10.
Qed.

Lemma digit_not_letter (c : ascii) : Js.isDigit c = true -> Js.isLetter c = false.
Proof.
  unfold Js.isDigit, Js.isLetter, Js.isUpper, Js.isLower.
  rewrite Bool.andb_true_iff, !Nat.leb_le. intros [Ha Hb].
  apply Bool.orb_false_iff. split; apply Bool.andb_false_iff; left;
    apply Nat.leb_gt; lia.
Qed.

End ParserFacts.

(** X16.  The client parser [parseCSV].  A file with fewer than two lines
    that are not blank gives the one error that asks for headers and a
    data row.  Otherwise the header line is not looked at, and each later
    line gives a row, an error or nothing: the rows and the errors come
    out in the order of the lines, and together they are never more than
    the lines.  A row that is kept has an employee number, hours and a
    productivity that are numbers, a name that is not empty and a month
    of three letters, a dash and two digits.  A line with six columns
    whose employee number, hours or productivity is no number is passed
    over without any error.  This holds whatever the arithmetic of the
    numbers is, that of the doubles and that of the rationals included. *)
Theorem X16_client_parser_keeps_checked_rows_and_drops_silently
        (N : Type) (arithmetic : Number.Arithmetic N) (csvContent : string) :
  let parsed : CSVParser.ParsedCSVData N := CSVParser.parseCSV csvContent in
  let lines := Routes.nonBlankLines csvContent in
  let outcomes :=
    JsArray.mapi (fun line i => CSVParser.parseLine i line) (tl lines) in
  (if Nat.ltb (List.length lines) 2
   then parsed
        = CSVParser.mkParsed
            [] ["CSV file must contain headers and at least one data row"]
   else parsed = CSVParser.mkParsed (Spec.parsedRows outcomes) (Spec.parsedErrors outcomes)
        /\ (List.length (CSVParser.data parsed) + List.length (CSVParser.errors parsed)
            <= List.length (tl lines))%nat)
  /\ (forall row, In row (CSVParser.data parsed) ->
        Number.isNaN (CSVParser.empNo row) = false
        /\ Number.isNaN (CSVParser.hours row) = false
        /\ Number.isNaN (CSVParser.productivity row) = false
        /\ Js.nonEmpty (CSVParser.name row) = true
        /\ CSVParser.isValidMonthFormat (CSVParser.month row) = true)
  /\ (forall i line,
        nth_error (tl lines) i = Some line ->
        (6 <= List.length (Spec.clientColumns line))%nat ->
        Number.isNaN
          (Number.parseFloat (N := N) (nth 0 (Spec.clientColumns line) EmptyString))
        = true
        \/ Number.isNaN
             (Number.parseFloat (N := N) (nth 4 (Spec.clientColumns line) EmptyString))
           = true
        \/ Number.isNaN
             (Number.parseFloat (N := N) (nth 5 (Spec.clientColumns line) EmptyString))
           = true ->
        nth_error outcomes i = Some CSVParser.RowSkipped).
Proof.
  cbv zeta. unfold CSVParser.parseCSV.
  destruct (Nat.ltb (List.length (Routes.nonBlankLines csvContent)) 2) eqn:L.
  - split; [reflexivity|]. split; [intros row []|].
    intros i line Hline Hcols Hnan. unfold JsArray.mapi.
    rewrite ArrayFacts.mapFrom_nth_error, Hline. simpl.
    now rewrite (ParserFacts.parseLine_skipped _ line Hcols Hnan).
  - rewrite ParserFacts.parseLinesFrom_outcomes. simpl app.
    split; [split; [reflexivity|]|split].
    + simpl. etransitivity; [apply ParserFacts.outcomes_bound|].
      unfold JsArray.mapi. now rewrite ArrayFacts.mapFrom_length.
    + intros row Hrow. simpl in Hrow. apply ParserFacts.parsedRows_In in Hrow.
      apply DashboardFacts.mapFrom_In in Hrow as [line [i [_ Hrow]]].
      symmetry in Hrow. apply ParserFacts.parseLine_data in Hrow. cbv zeta in Hrow.
      tauto.
    + intros i line Hline Hcols Hnan. unfold JsArray.mapi.
      rewrite ArrayFacts.mapFrom_nth_error, Hline. simpl.
      now rewrite (ParserFacts.parseLine_skipped _ line Hcols Hnan).
Qed.

(** X17.  The month the productivity upload stores passes the month test
    of the client parser, which is also the test of the route that
    deletes a month, in two cases and no other: the month of the file has
    two digits, a dash and three letters, which the upload turns around,
    or it has three letters, a dash and two digits already.  So a month
    that the upload rewrote from digits and word characters that are not
    letters can be stored but cannot be deleted through the route. *)
Theorem X17_stored_month_is_valid_exactly_for_letters (month : string) :
  (CSVParser.isValidMonthFormat (Routes.fixMonth month) = true
   <-> Spec.dayMonShape month \/ CSVParser.isValidMonthFormat month = true)
  /\ Routes.isMonthParameter (Routes.fixMonth month)
     = CSVParser.isValidMonthFormat (Routes.fixMonth month).
Proof.
  split; [|reflexivity].
  destruct (Routes.matchesDayMonth month) eqn:M.
  - apply MonthFacts.matches_shape in M.
    destruct M as (d1 & d2 & c1 & c2 & c3 & -> & D1 & D2 & W1 & W2 & W3).
    rewrite (MonthFacts.fixMonth_swaps d1 d2 c1 c2 c3 D1 D2 W1 W2 W3).
    split.
    + intros H. apply ParserFacts.valid_month_shape in H
        as (a & b & c & d & e & E & La & Lb & Lc & _).
      inversion E; subst.
      left. exists d, e, a, b, c. repeat split; assumption.
    + intros [(e1 & e2 & f1 & f2 & f3 & E & _ & _ & L1 & L2 & L3)|H].
      * inversion E; subst. simpl. now rewrite L1, L2, L3, D1, D2.
      * exfalso. apply ParserFacts.valid_month_shape in H
          as (a & b & c & d & e & E & La & _).
        inversion E; subst. rewrite (ParserFacts.digit_not_letter a D1) in La.
        discriminate.
  - unfold Routes.fixMonth. rewrite M. split; [now right|].
    intros [H|H]; [|exact H].
    exfalso.
    assert (W : Spec.dayWordShape month).
    { destruct H as (d1 & d2 & c1 & c2 & c3 & E & D1 & D2 & L1 & L2 & L3).
      exists d1, d2, c1, c2, c3.
      repeat split; try assumption; now apply MonthFacts.letter_is_word. }
    apply MonthFacts.matches_shape in W. congruence.
Qed.

(* ================================================================== *)
(** * The under-performers of the two stores *)
(* ================================================================== *)

Module UnderPerformerFacts.
Import Spec.

Lemma innerJoin_In (ps : list ProductivityData.t) (cs : list Contractor.t) (row : Row) :
  In row (DatabaseStorage.innerJoin ps cs) <->
  In (fst row) ps /\ In (snd row) cs
  /\ Contractor.id (snd row) = ProductivityData.contractorId (fst row).
Proof.
  unfold DatabaseStorage.innerJoin. rewrite in_flat_map. split.
  - intros [p [Hp Hrow]]. apply in_map_iff in Hrow as [c [<- Hc]].
    apply filter_In in Hc as [Hc E]. apply Z.eqb_eq in E. simpl. auto.
  - intros (Hp & Hc & E). exists (fst row). split; [exact Hp|].
    apply in_map_iff. exists (snd row). split; [now destruct row|].
    apply filter_In. split; [exact Hc|]. now apply Z.eqb_eq.
Qed.

Lemma monthRows_In (month : string) (db : DatabaseStorage.t) (row : Row) :
  In row (DatabaseStorage.monthRows month db) <-> joined month db row.
Proof.
  unfold DatabaseStorage.monthRows, joined.
  rewrite filter_In, innerJoin_In, String.eqb_eq. tauto.
Qed.

(** Hours above 0 and under a threshold are a finite number. *)
Lemma between_finite (h t : Js.number) :
  Js.le h (Js.ofZ 0) = false -> Js.lt h t = true -> exists q, h = Js.Num q.
Proof.
  destruct h as [q| |[|]]; [now exists q| | |]; simpl; try discriminate.
  destruct t; discriminate.
Qed.

Lemma le_of_not_lt (x y : Q) :
  Js.lt (Js.Num y) (Js.Num x) = false <-> Js.le (Js.Num x) (Js.Num y) = true.
Proof.
  unfold Js.le. destruct (Js.lt (Js.Num y) (Js.Num x)); simpl; intuition congruence.
Qed.

(** On finite hours the comparison [(a, b) => a.hours - b.hours] sorts by
    ascending hours. *)
Lemma sort_ascending_sorted (l : list MonthlyRanking.t) :
  Forall finiteHours l ->
  StronglySorted atMost
    (JsArray.sort (fun a b => Js.sub (MonthlyRanking.hours a) (MonthlyRanking.hours b)) l).
Proof.
  intros Hfin. unfold JsArray.sort.
  assert (H : StronglySorted (Spec.mayPrecede hoursAscending)
                (JsArray.sortBy hoursAscending l)).
  { apply ArrayFacts.sortBy_sorted with (P := finiteHours); [| |exact Hfin].
    - intros a b [x Ha] [y Hb]. unfold hoursAscending.
      rewrite Ha, Hb, !MemRankingFacts.lt_sub_zero. apply MemRankingFacts.lt_asym.
    - intros a b c [x Ha] [y Hb] [z Hc]. unfold Spec.mayPrecede, hoursAscending.
      rewrite Ha, Hb, Hc, !MemRankingFacts.lt_sub_zero. intros H1 H2.
      exact (MemRankingFacts.ge_trans z y x H2 H1). }
  assert (Hf : Forall finiteHours (JsArray.sortBy hoursAscending l)).
  { apply Forall_forall. intros r Hr. apply (proj1 (ArrayFacts.sortBy_In _ _ _)) in Hr.
    rewrite Forall_forall in Hfin. now apply Hfin. }
  change (StronglySorted atMost (JsArray.sortBy hoursAscending l)).
  induction H as [|a r Hr IH Ha]; constructor.
  - apply IH. now inversion Hf.
  - inversion Hf as [|? ? Fa Fr]; subst.
    rewrite Forall_forall in Ha, Fr. apply Forall_forall. intros b Hb.
    specialize (Ha b Hb). destruct Fa as [x Hx], (Fr b Hb) as [y Hy].
    unfold Spec.mayPrecede, hoursAscending in Ha. unfold atMost.
    rewrite Hx, Hy in *. rewrite MemRankingFacts.lt_sub_zero in Ha.
    now apply le_of_not_lt.
Qed.

End UnderPerformerFacts.

(** X18.  The under-performers of the relational store for a month: the
    records of the month whose contractor exists and is of type Full Time
    with hours above 0 and under 100, or of type Part Time with hours
    above 0 and under 50, and no other; a contractor of any other type is
    never listed.  They come with the fewest hours first, the higher
    productivity first among equal hours, and carry the ranks 1, 2, 3 and
    so on.  The threshold the caller passes plays no part. *)
Theorem X18_db_under_performers_worst_first
        (month : string) (threshold : Js.number) (db : DatabaseStorage.t) :
  exists sorted : list Spec.Row,
    DatabaseStorage.getUnderPerformers month threshold db
    = JsArray.mapi DatabaseStorage.ranked sorted
    /\ StronglySorted Spec.worstNoLater sorted
    /\ (forall row,
          In row sorted <->
          Spec.joined month db row
          /\ DatabaseStorage.pgCompare (DatabaseStorage.hoursOf row) (Js.ofZ 0) = Gt
          /\ ((Contractor.contractorType (snd row) = "Full Time"
               /\ DatabaseStorage.pgCompare (DatabaseStorage.hoursOf row) (Js.ofZ 100)
                  = Lt)
              \/ (Contractor.contractorType (snd row) = "Part Time"
                  /\ DatabaseStorage.pgCompare (DatabaseStorage.hoursOf row) (Js.ofZ 50)
                     = Lt)))
    /\ Permutation sorted
         (filter DatabaseStorage.underThreshold (DatabaseStorage.monthRows month db))
    /\ List.map MonthlyRanking.rank (DatabaseStorage.getUnderPerformers month threshold db)
       = seq 1 (List.length sorted)
    /\ forall other,
         DatabaseStorage.getUnderPerformers month other db
         = DatabaseStorage.getUnderPerformers month threshold db.
Proof.
  exists (JsArray.sortBy DatabaseStorage.hoursAscThenProductivityDesc
            (filter DatabaseStorage.underThreshold
                    (DatabaseStorage.monthRows month db))).
  split; [reflexivity|]. split; [apply DatabaseRankingFacts.sorted_asc|].
  split; [|split; [apply ArrayFacts.sortBy_perm|split; [|reflexivity]]].
  - intros row. rewrite ArrayFacts.sortBy_In, filter_In.
    rewrite UnderPerformerFacts.monthRows_In, DatabaseRankingFacts.underThreshold_spec.
    tauto.
  - unfold DatabaseStorage.getUnderPerformers, JsArray.mapi.
    now rewrite (ArrayFacts.mapFrom_ranks DatabaseStorage.ranked MonthlyRanking.rank)
      by (intros; reflexivity).
Qed.

(** X19.  The under-performers of the in-memory store for a month: the
    records of the month whose contractor exists, with hours above 0 and
    under 50 for a Part Time contractor and under 100 for a contractor of
    any other type.  They come with the fewest hours first and carry the
    ranks 1, 2, 3 and so on; the threshold the caller passes plays no
    part. *)
Theorem X19_mem_under_performers_fewest_hours_first
        (month : string) (threshold : Js.number) (st : MemStorage.t) :
  let cs := MemStorage.getAllContractors st in
  let picked :=
    filter (MemStorage.isUnderPerformer cs)
           (MemStorage.getProductivityDataByMonth month st) in
  exists sorted : list MonthlyRanking.t,
    MemStorage.getUnderPerformers month threshold st
    = JsArray.mapi MemStorage.withRank sorted
    /\ StronglySorted Spec.atMost sorted
    /\ Permutation sorted (List.map (MemStorage.unranked cs month) picked)
    /\ (forall data,
          In data picked <->
          In data (MemStorage.getProductivityDataByMonth month st)
          /\ exists contractor,
               MemStorage.findContractor (ProductivityData.contractorId data) cs
               = Some contractor
               /\ Js.le (ProductivityData.productiveHours data) (Js.ofZ 0) = false
               /\ Js.lt (ProductivityData.productiveHours data)
                        (if String.eqb (Contractor.contractorType contractor)
                                       "Part Time"
                         then Js.ofZ 50 else Js.ofZ 100) = true)
    /\ List.map MonthlyRanking.rank (MemStorage.getUnderPerformers month threshold st)
       = seq 1 (List.length picked)
    /\ forall other,
         MemStorage.getUnderPerformers month other st
         = MemStorage.getUnderPerformers month threshold st.
Proof.
  intros cs picked.
  exists (JsArray.sort
            (fun a b => Js.sub (MonthlyRanking.hours a) (MonthlyRanking.hours b))
            (List.map (MemStorage.unranked cs month) picked)).
  split; [reflexivity|]. split; [|split; [apply ArrayFacts.sortBy_perm|split]].
  - apply UnderPerformerFacts.sort_ascending_sorted.
    apply Forall_forall. intros r Hr. apply in_map_iff in Hr as [data [<- Hd]].
    unfold picked in Hd. apply filter_In in Hd as [_ Hu].
    apply MemRankingFacts.isUnderPerformer_spec in Hu as [c [_ [H0 H1]]].
    unfold Spec.finiteHours. simpl.
    exact (UnderPerformerFacts.between_finite _ _ H0 H1).
  - intros data. unfold picked. rewrite filter_In.
    now rewrite MemRankingFacts.isUnderPerformer_spec.
  - split; [|reflexivity].
    unfold MemStorage.getUnderPerformers, JsArray.mapi.
    rewrite (ArrayFacts.mapFrom_ranks MemStorage.withRank MonthlyRanking.rank)
      by (intros; reflexivity).
    unfold JsArray.sort. now rewrite ArrayFacts.sortBy_length, List.length_map.
Qed.

(* ================================================================== *)
(** * Uploads of many records *)
(* ================================================================== *)

Module BulkFacts.
Import Spec.

Lemma names_true (contractorId : Z) (month : string) (item : InsertProductivityData.t) :
  names contractorId month item = true <->
  InsertProductivityData.contractorId item = contractorId
  /\ InsertProductivityData.month item = month.
Proof.
  unfold names. now rewrite Bool.andb_true_iff, Z.eqb_eq, String.eqb_eq.
Qed.

Lemma hasPair_true (contractorId : Z) (month : string) (r : ProductivityData.t) :
  hasPair contractorId month r = true <->
  ProductivityData.contractorId r = contractorId /\ ProductivityData.month r = month.
Proof.
  unfold hasPair. now rewrite Bool.andb_true_iff, Z.eqb_eq, String.eqb_eq.
Qed.

Lemma lastItemFor_cons (contractorId : Z) (month : string)
      (item : InsertProductivityData.t) (rest : list InsertProductivityData.t) :
  lastItemFor contractorId month (item :: rest)
  = match lastItemFor contractorId month rest with
    | Some x => Some x
    | None => if names contractorId month item then Some item else None
    end.
Proof.
  unfold lastItemFor. simpl rev. rewrite ContractorFacts.find_app. simpl.
  now destruct (names contractorId month item).
Qed.

Section Clock.
Variable real : Js.number -> option Js.number.
Variable now : nat -> Date.
Variable randomUUID : nat -> string.

(** An upsert leaves the records of every other contractor and month as
    they were: the relational store. *)
Lemma db_upsert_frame (item : InsertProductivityData.t) (db : DatabaseStorage.t)
      (result : ProductivityData.t) (db' : DatabaseStorage.t)
      (contractorId : Z) (month : string) :
  DatabaseStorage.upsert real now randomUUID item db = Some (result, db') ->
  names contractorId month item = false ->
  recordsFor contractorId month (DatabaseStorage.getAllProductivityData db')
  = recordsFor contractorId month (DatabaseStorage.getAllProductivityData db).
Proof.
  unfold DatabaseStorage.upsert, recordsFor, DatabaseStorage.getAllProductivityData.
  destruct (DatabaseStorage.stored real item) as [values|] eqn:St; [|discriminate].
  destruct (DatabaseUpsertFacts.stored_pair real item values St) as [S1 S2].
  intros E Hn.
  assert (Hother : forall r, DatabaseStorage.samePair item r = true ->
                             hasPair contractorId month r = false).
  { intros r Hs. destruct (hasPair contractorId month r) eqn:Hp; [|reflexivity].
    apply hasPair_true in Hp as [H1 H2].
    apply DatabaseUpsertFacts.db_samePair_true in Hs. inversion Hs as [[H3 H4]].
    assert (T : names contractorId month item = true)
      by (apply names_true; split; congruence).
    congruence. }
  destruct (List.find (DatabaseStorage.samePair item)
                      (DatabaseStorage.productivityData db)) as [existing|];
    inversion E; subst; simpl.
  - clear E. induction (DatabaseStorage.productivityData db) as [|r rows IH]; simpl;
      [reflexivity|].
    destruct (DatabaseStorage.samePair item r) eqn:Hs.
    + rewrite (Hother r Hs).
      assert (Hr : hasPair contractorId month
                     (ProductivityData.refreshed values
                                                 (now (DatabaseStorage.dates db)) r)
                   = false) by exact (Hother r Hs).
      now rewrite Hr.
    + destruct (hasPair contractorId month r); now rewrite IH.
  - rewrite filter_app. simpl.
    assert (Hi : hasPair contractorId month
                   (ProductivityData.fresh (randomUUID (DatabaseStorage.uuids db))
                                           values
                                           (now (DatabaseStorage.dates db)))
                 = names contractorId month item).
    { unfold hasPair, names. simpl. now rewrite S1, S2. }
    rewrite Hi, Hn. apply app_nil_r.
Qed.

Lemma set_filter (p : ProductivityData.t -> bool) (k : string) (v : ProductivityData.t)
      (m : JsMap.t string ProductivityData.t) :
  p v = false ->
  (forall v', In (k, v') m -> p v' = false) ->
  filter p (JsMap.values (JsMap.set String.eqb k v m)) = filter p (JsMap.values m).
Proof.
  intros Hv. unfold JsMap.values.
  induction m as [|[k' v'] m IH]; intros Hold; simpl.
  - now rewrite Hv.
  - destruct (String.eqb_spec k' k) as [->|Hne]; simpl.
    + rewrite Hv. now rewrite (Hold v' (or_introl eq_refl)).
    + rewrite IH; [reflexivity|]. intros v0 H0. apply Hold. now right.
Qed.

(** The same of the in-memory store. *)
Lemma mem_upsert_frame (item : InsertProductivityData.t) (st : MemStorage.t)
      (contractorId : Z) (month : string) :
  memConsistent st ->
  names contractorId month item = false ->
  recordsFor contractorId month
    (MemStorage.getAllProductivityData (snd (MemStorage.upsert now randomUUID item st)))
  = recordsFor contractorId month (MemStorage.getAllProductivityData st).
Proof.
  intros [Hnd Hkey] Hn.
  assert (Hold : forall v',
             In (MemStorage.dataKey (InsertProductivityData.contractorId item)
                                    (InsertProductivityData.month item), v')
                (MemStorage.productivityData st) ->
             hasPair contractorId month v' = false).
  { intros v' Hin. destruct (hasPair contractorId month v') eqn:Hp; [|reflexivity].
    apply hasPair_true in Hp as [H1 H2]. apply Hkey in Hin.
    apply KeyFacts.dataKey_inj in Hin as [H3 H4].
    assert (T : names contractorId month item = true)
      by (apply names_true; split; congruence).
    congruence. }
  unfold MemStorage.upsert, MemStorage.createProductivityData, recordsFor,
    MemStorage.getAllProductivityData.
  destruct (JsMap.get String.eqb _ (MemStorage.productivityData st)) as [existing|] eqn:G;
    simpl; apply set_filter; try exact Hold.
  - assert (E : In (MemStorage.dataKey (InsertProductivityData.contractorId item)
                                       (InsertProductivityData.month item), existing)
                   (MemStorage.productivityData st))
      by (apply (JsMapFacts.get_In String.eqb String.eqb_eq); exact G).
    exact (Hold existing E).
  - exact Hn.
Qed.

(** After the loop, a contractor and month that the items written name
    hold the record of the last of these items that names them, and the
    others hold what they held: the relational store. *)
Lemma db_bulkFrom_last (data : list InsertProductivityData.t) :
  forall (results : list ProductivityData.t) (db : DatabaseStorage.t),
    dbConsistent db ->
    forall contractorId month,
      match lastItemFor contractorId month (written real data) with
      | Some item =>
          exists r stamp values,
            DatabaseStorage.stored real item = Some values
            /\ recordsFor contractorId month
                 (DatabaseStorage.getAllProductivityData
                    (snd (DatabaseStorage.bulkFrom real now randomUUID results data db)))
               = [r]
            /\ carries values stamp r
      | None =>
          recordsFor contractorId month
            (DatabaseStorage.getAllProductivityData
               (snd (DatabaseStorage.bulkFrom real now randomUUID results data db)))
          = recordsFor contractorId month (DatabaseStorage.getAllProductivityData db)
      end.
Proof.
  induction data as [|item rest IH]; intros results db Hdb contractorId month.
  - reflexivity.
  - simpl DatabaseStorage.bulkFrom. simpl written.
    destruct (DatabaseStorage.upsert real now randomUUID item db)
      as [[result db1]|] eqn:E.
    + pose proof (DatabaseUpsertFacts.db_upsert_consistent real now randomUUID
                    item db result db1 Hdb E) as Hdb1.
      destruct (DatabaseUpsertFacts.db_upsert_result real now randomUUID
                  item db result db1 Hdb E) as (values & Hv & Hrec & Hcar & _).
      pose proof (db_upsert_frame item db result db1 contractorId month E) as Hframe.
      rewrite Hv, lastItemFor_cons.
      specialize (IH (results ++ [result]) db1 Hdb1 contractorId month).
      destruct (lastItemFor contractorId month (written real rest)) as [x|];
        [exact IH|].
      rewrite IH. destruct (names contractorId month item) eqn:Hn.
      * apply names_true in Hn as [<- <-].
        exists result, (now (DatabaseStorage.dates db)), values. auto.
      * now apply Hframe.
    + apply DatabaseUpsertFacts.db_upsert_refused in E. now rewrite E.
Qed.

(** The loop returns exactly when it has written every item. *)
Lemma db_bulkFrom_written (data : list InsertProductivityData.t) :
  forall (results : list ProductivityData.t) (db : DatabaseStorage.t),
    match fst (DatabaseStorage.bulkFrom real now randomUUID results data db) with
    | Some records =>
        written real data = data
        /\ List.length records = (List.length results + List.length data)%nat
    | None => written real data <> data
    end.
Proof.
  induction data as [|item rest IH]; intros results db; simpl.
  - split; [reflexivity|lia].
  - destruct (DatabaseStorage.upsert real now randomUUID item db)
      as [[result db1]|] eqn:E.
    + assert (Hs : DatabaseStorage.stored real item <> None).
      { intros Hnone.
        apply (DatabaseUpsertFacts.db_upsert_refused real now randomUUID item db)
          in Hnone. congruence. }
      destruct (DatabaseStorage.stored real item) as [values|]; [|contradiction].
      specialize (IH (results ++ [result]) db1).
      destruct (fst (DatabaseStorage.bulkFrom real now randomUUID
                       (results ++ [result]) rest db1)) as [records|].
      * destruct IH as [-> ->]. rewrite List.length_app. simpl. split; [reflexivity|lia].
      * intros H. inversion H. contradiction.
    + apply DatabaseUpsertFacts.db_upsert_refused in E. rewrite E. simpl. discriminate.
Qed.

Lemma written_all (data : list InsertProductivityData.t) :
  (forall item, In item data -> DatabaseStorage.stored real item <> None) ->
  written real data = data.
Proof.
  induction data as [|item rest IH]; intros H; simpl; [reflexivity|].
  destruct (DatabaseStorage.stored real item) eqn:E.
  - rewrite IH; [reflexivity|]. intros x Hx. apply H. now right.
  - now destruct (H item (or_introl eq_refl)).
Qed.

Lemma mem_bulkFrom_last (data : list InsertProductivityData.t) :
  forall (results : list ProductivityData.t) (st : MemStorage.t),
    memConsistent st ->
    forall contractorId month,
      match lastItemFor contractorId month data with
      | Some item =>
          exists r stamp,
            recordsFor contractorId month
              (MemStorage.getAllProductivityData
                 (snd (MemStorage.bulkFrom now randomUUID results data st))) = [r]
            /\ carries item stamp r
      | None =>
          recordsFor contractorId month
            (MemStorage.getAllProductivityData
               (snd (MemStorage.bulkFrom now randomUUID results data st)))
          = recordsFor contractorId month (MemStorage.getAllProductivityData st)
      end.
Proof.
  induction data as [|item rest IH]; intros results st Hst contractorId month.
  - reflexivity.
  - rewrite lastItemFor_cons. simpl MemStorage.bulkFrom.
    pose proof (MemUpsertFacts.mem_upsert_consistent now randomUUID item st Hst) as Hst1.
    pose proof (MemUpsertFacts.mem_upsert_result now randomUUID item st Hst)
      as (Hrec & Hcar & _).
    pose proof (mem_upsert_frame item st contractorId month Hst) as Hframe.
    destruct (MemStorage.upsert now randomUUID item st) as [result st1].
    simpl in Hst1, Hrec, Hcar, Hframe.
    specialize (IH (results ++ [result]) st1 Hst1 contractorId month).
    destruct (lastItemFor contractorId month rest) as [x|]; [exact IH|].
    rewrite IH. destruct (names contractorId month item) eqn:Hn.
    + apply names_true in Hn as [<- <-]. exists result, (now (MemStorage.dates st)).
      split; assumption.
    + now apply Hframe.
Qed.

Lemma db_bulk_is_loop (data : list InsertProductivityData.t) (db : DatabaseStorage.t) :
  DatabaseStorage.bulkCreateProductivityData real now randomUUID data db
  = DatabaseStorage.bulkFrom real now randomUUID [] data db.
Proof. now destruct data. Qed.

End Clock.
End BulkFacts.

(** X20.  Uploading many records at once, into the in-memory store or
    into the relational store taken in a consistent state.  The in-memory
    store answers one record for each item.  Afterwards a contractor and
    month that the upload names hold exactly one record, with the
    productive hours, total hours and productivity of the last item of
    the upload that names them; a contractor and month that the upload
    does not name hold the records they held before; the contractors are
    untouched.  The relational store does the same with the measures as
    its [real] columns give them back, as long as the columns take the
    measures of every item.  At the first item of which a column refuses a
    measure the call throws, and then the same holds of the items before
    that one, which stay written. *)
Theorem X20_bulk_upsert_last_item_wins
        (real : Js.number -> option Js.number)
        (now : nat -> Date) (randomUUID : nat -> string)
        (data : list InsertProductivityData.t)
        (st : MemStorage.t) (db : DatabaseStorage.t)
        (Hmem : Spec.memConsistent st) (Hdb : Spec.dbConsistent db) :
  (let result := MemStorage.bulkCreateProductivityData now randomUUID data st in
   List.length (fst result) = List.length data
   /\ (forall contractorId month,
          match Spec.lastItemFor contractorId month data with
          | Some item =>
              exists r stamp,
                Spec.recordsFor contractorId month
                  (MemStorage.getAllProductivityData (snd result)) = [r]
                /\ Spec.carries item stamp r
          | None =>
              Spec.recordsFor contractorId month
                (MemStorage.getAllProductivityData (snd result))
              = Spec.recordsFor contractorId month (MemStorage.getAllProductivityData st)
          end)
   /\ MemStorage.contractors (snd result) = MemStorage.contractors st)
  /\
  (let result := DatabaseStorage.bulkCreateProductivityData real now randomUUID data db in
   match fst result with
   | Some records =>
       Spec.written real data = data /\ List.length records = List.length data
   | None => Spec.written real data <> data
   end
   /\ ((forall item, In item data -> DatabaseStorage.stored real item <> None) ->
       Spec.written real data = data)
   /\ (forall contractorId month,
          match Spec.lastItemFor contractorId month (Spec.written real data) with
          | Some item =>
              exists r stamp values,
                DatabaseStorage.stored real item = Some values
                /\ Spec.recordsFor contractorId month
                     (DatabaseStorage.getAllProductivityData (snd result)) = [r]
                /\ Spec.carries values stamp r
          | None =>
              Spec.recordsFor contractorId month
                (DatabaseStorage.getAllProductivityData (snd result))
              = Spec.recordsFor contractorId month
                  (DatabaseStorage.getAllProductivityData db)
          end)
   /\ DatabaseStorage.contractors (snd result) = DatabaseStorage.contractors db).
Proof.
  split; cbv zeta.
  - unfold MemStorage.bulkCreateProductivityData.
    split; [now rewrite MemUpsertFacts.mem_bulkFrom_length|].
    split; [exact (BulkFacts.mem_bulkFrom_last now randomUUID data [] st Hmem)|].
    apply MemArchiveFacts.memArchive_bulkFrom_contractors.
  - rewrite BulkFacts.db_bulk_is_loop.
    split; [exact (BulkFacts.db_bulkFrom_written real now randomUUID data [] db)|].
    split; [apply BulkFacts.written_all|].
    split; [exact (BulkFacts.db_bulkFrom_last real now randomUUID data [] db Hdb)|].
    apply DatabaseArchiveFacts.dbArchive_bulkFrom_contractors.
Qed.

Lemma X20_bulk_upsert_last_item_wins_witness :
  Spec.memConsistent Scenario.memRoster
  /\ Spec.dbConsistent Scenario.dbRoster
  /\ (exists r stamp values,
        DatabaseStorage.stored Pg.real Scenario.secondWrite = Some values
        /\ Spec.recordsFor 1 "Aug-25"
             (DatabaseStorage.getAllProductivityData
                (Scenario.dbAfter [Scenario.firstWrite; Scenario.secondWrite])) = [r]
        /\ Spec.carries values stamp r).
Proof.
  assert (Hmem : Spec.memConsistent Scenario.memRoster)
    by apply MemUpsertFacts.mem_initializeData_consistent.
  assert (Hdb : Spec.dbConsistent Scenario.dbRoster) by constructor.
  split; [exact Hmem|]. split; [exact Hdb|].
  exact (proj1 (proj2 (proj2 (proj2 (X20_bulk_upsert_last_item_wins
                         Pg.real Scenario.clock Scenario.uuid
                         [Scenario.firstWrite; Scenario.secondWrite]
                         Scenario.memRoster Scenario.dbRoster Hmem Hdb)))) 1%Z "Aug-25").
Defined.

(* ================================================================== *)
(** * Exports sent back to the uploads *)
(* ================================================================== *)

Module ExportFacts.

Lemma includes_eq (c d : ascii) (s : string) :
  Js.includes c (String d s) = Ascii.eqb d c || Js.includes c s.
Proof. reflexivity. Qed.

(** A character other than the separator lies in one of the pieces. *)
Lemma split_some_piece (sep c : ascii) (s : string) :
  Ascii.eqb c sep = false -> Js.includes c s = true ->
  exists piece, In piece (Js.split sep s) /\ Js.includes c piece = true.
Proof.
  intros Hsep. induction s as [|d s IH]; [discriminate|].
  rewrite includes_eq. intros H. simpl Js.split.
  destruct (Ascii.eqb d sep) eqn:D.
  - apply Ascii.eqb_eq in D. subst d. rewrite Ascii.eqb_sym, Hsep in H.
    destruct (IH H) as [piece [Hin Hc]]. exists piece. split; [now right|exact Hc].
  - destruct (Js.split sep s) as [|p ps] eqn:S;
      [now apply JsFacts.split_nonempty in S|].
    destruct (Ascii.eqb d c) eqn:E.
    + exists (String d p). split; [now left|]. rewrite includes_eq, E. reflexivity.
    + destruct (IH H) as [piece [[Hp|Hin] Hc]].
      * subst piece. exists (String d p). split; [now left|].
        rewrite includes_eq, Hc. apply Bool.orb_true_r.
      * exists piece. split; [now right|exact Hc].
Qed.

(** A text with a comma has a line that is not blank. *)
Lemma comma_line (s : string) :
  Js.includes "," s = true -> Routes.nonBlankLines s <> [].
Proof.
  intros H. destruct (split_some_piece "010" "," s eq_refl H) as [piece [Hin Hc]].
  unfold Routes.nonBlankLines. intros E.
  assert (Hf : In piece (filter (fun line => Js.nonEmpty (Js.trim line))
                                (Js.split "010" s))).
  { apply filter_In. split; [exact Hin|].
    now apply JsFacts.trim_nonEmpty with ","%char. }
  rewrite E in Hf. exact Hf.
Qed.

Lemma join_lines (line : string) (lines : list string) :
  lines <> [] ->
  Js.join (String "010" EmptyString) (line :: lines)
  = (line ++ String "010" (Js.join (String "010" EmptyString) lines))%string.
Proof. destruct lines; [congruence|reflexivity]. Qed.

(** The lines of a generated file: the header line behind the byte order
    mark, then the lines of the rows. *)
Lemma generated_lines (head : string) (rows : list string) :
  Js.includes "010" (Routes.BOM ++ head) = false ->
  Js.nonEmpty (Js.trim (Routes.BOM ++ head)) = true ->
  Routes.nonBlankLines
    (Routes.BOM ++ Js.join (String "010" EmptyString) (head :: rows))
  = (Routes.BOM ++ head)%string
      :: match rows with
         | [] => []
         | _ => Routes.nonBlankLines (Js.join (String "010" EmptyString) rows)
         end.
Proof.
  intros Hnl Hne. unfold Routes.nonBlankLines. destruct rows as [|row rows].
  - change (Js.join (String "010" EmptyString) [head]) with head.
    rewrite JsFacts.split_one by exact Hnl. cbn [filter]. now rewrite Hne.
  - rewrite join_lines by discriminate. rewrite <- JsFacts.append_assoc.
    rewrite JsFacts.split_app by exact Hnl. cbn [filter]. now rewrite Hne.
Qed.

(** The lines of rows of two cells or more hold a comma, when there is a
    row. *)
Lemma rows_comma (cells : list (list string)) :
  cells <> [] ->
  (forall row, In row cells -> (2 <= List.length row)%nat) ->
  Js.includes "," (Js.join (String "010" EmptyString)
                           (List.map (Js.join ",") cells)) = true.
Proof.
  destruct cells as [|row cells]; [congruence|]. intros _ Hrow.
  assert (H : Js.includes "," (Js.join "," row) = true).
  { specialize (Hrow row (or_introl eq_refl)).
    destruct row as [|a [|b row]]; simpl in Hrow; try lia.
    change (Js.join "," (a :: b :: row))
      with (a ++ String "," (Js.join "," (b :: row)))%string.
    rewrite JsFacts.includes_app. simpl. apply Bool.orb_true_r. }
  destruct cells as [|row2 cells]; [exact H|].
  change (List.map (Js.join ",") (row :: row2 :: cells))
    with (Js.join "," row :: List.map (Js.join ",") (row2 :: cells)).
  rewrite join_lines by discriminate.
  rewrite JsFacts.includes_app, H. reflexivity.
Qed.

(** A generated file with a row has two lines or more that are not
    blank, the first of them the header line. *)
Lemma generated_file (numberToString : Js.number -> string)
      (headers : list string) (rows : list (list CsvUtils.Value)) :
  let head :=
    Js.join "," (List.map (CsvUtils.escapeCsvField numberToString)
                          (Exports.header headers)) in
  Js.includes "010" (Routes.BOM ++ head) = false ->
  Js.nonEmpty (Js.trim (Routes.BOM ++ head)) = true ->
  (forall row, In row rows -> (2 <= List.length row)%nat) ->
  let lines :=
    Routes.nonBlankLines
      (CsvUtils.generateCsv numberToString (Exports.header headers :: rows)) in
  nth 0 lines EmptyString = (Routes.BOM ++ head)%string
  /\ (rows = [] -> List.length lines = 1%nat)
  /\ (rows <> [] -> (2 <= List.length lines)%nat).
Proof.
  intros head Hnl Hne Hrows lines. unfold lines, CsvUtils.generateCsv, CsvUtils.BOM.
  change (List.map (fun row => Js.join "," (List.map (CsvUtils.escapeCsvField numberToString) row))
                   (Exports.header headers :: rows))
    with (head :: List.map (fun row => Js.join "," (List.map (CsvUtils.escapeCsvField numberToString) row))
                           rows).
  rewrite generated_lines by assumption.
  split; [reflexivity|]. split.
  - intros ->. reflexivity.
  - intros Hne'. destruct rows as [|row rows]; [congruence|].
    set (rest := List.map _ (row :: rows)).
    assert (Hc : Routes.nonBlankLines (Js.join (String "010" EmptyString) rest) <> []).
    { apply comma_line. unfold rest.
      rewrite <- (map_map (List.map (CsvUtils.escapeCsvField numberToString))
                          (Js.join ",")).
      apply rows_comma.
      - discriminate.
      - intros r Hr. apply in_map_iff in Hr as [r0 [<- Hr0]].
        rewrite length_map. now apply Hrows. }
    change (List.map (fun row0 => Js.join "," (List.map (CsvUtils.escapeCsvField numberToString) row0))
                     (row :: rows)) with rest.
    destruct rest as [|x rest'] eqn:R; [discriminate|].
    destruct (Routes.nonBlankLines (Js.join (String "010" EmptyString) (x :: rest')));
      [congruence|simpl; lia].
Qed.
End ExportFacts.

(** X21. A file written by an export is never taken by the upload of the
    same data, whatever the store holds: the productivity export of a
    month without records and the contractor export of an empty store
    are refused for having no data row, and any other is refused for its
    headers, which are those of the export and not those the upload
    expects.  The store is left as it was. *)
Theorem X21_exports_are_refused_by_the_uploads
        (numberToString toFixed1 toFixed2 : Js.number -> string)
        (Store Stored : Type)
        (getContractor : Js.number -> Store -> Routes.Lookup)
        (bulkCreateProductivityData :
           list Routes.DataToInsert -> Store -> list Stored * Store)
        (schemaError : Routes.DataToInsert -> option string)
        (bulkCreateContractors :
           list Routes.ContractorToInsert -> Store -> option (list Stored * Store))
        (rosterSchemaError : Routes.ContractorToInsert -> option string)
        (data : list ProductivityData.t) (contractors : list Contractor.t)
        (st : Store) :
  Routes.uploadCsv getContractor bulkCreateProductivityData schemaError numberToString
                   (Some (Exports.exportProductivity numberToString toFixed1 toFixed2
                                                     data contractors))
                   st
  = (match data with
     | [] => Routes.BadRequest "CSV file must contain headers and at least one data row"
     | _ => Routes.BadHeaders
              "CSV headers don't match expected format for productivity data"
              Routes.productivityHeaders Exports.productivityHeaders
     end, st)
  /\ Routes.uploadContractorRoster bulkCreateContractors rosterSchemaError
                                   (Some (Exports.exportContractors numberToString
                                                                    contractors))
                                   st
     = (match contractors with
        | [] => Routes.RosterRefused
                  "CSV file must contain headers and at least one data row"
        | _ => Routes.RosterHeadersRefused
                 "CSV headers don't match expected format"
                 Routes.rosterHeaders Exports.contractorsHeaders
        end, st).
Proof.
  split.
  - unfold Exports.exportProductivity.
    set (rows := List.map _ data).
    destruct (ExportFacts.generated_file numberToString Exports.productivityHeaders rows)
      as [Hhead [Hone Htwo]]; [reflexivity|reflexivity| |].
    { intros row Hrow. unfold rows in Hrow.
      apply in_map_iff in Hrow as [item [<- _]]. simpl. lia. }
    unfold Routes.uploadCsv.
    set (lines := Routes.nonBlankLines _) in *.
    destruct data as [|item data].
    + rewrite (Hone eq_refl). reflexivity.
    + assert (L : (2 <= List.length lines)%nat) by (apply Htwo; discriminate).
      destruct (Nat.ltb (List.length lines) 2) eqn:E;
        [apply Nat.ltb_lt in E; lia|].
      rewrite Hhead. reflexivity.
  - unfold Exports.exportContractors.
    set (rows := List.map _ contractors).
    destruct (ExportFacts.generated_file numberToString Exports.contractorsHeaders rows)
      as [Hhead [Hone Htwo]]; [reflexivity|reflexivity| |].
    { intros row Hrow. unfold rows in Hrow.
      apply in_map_iff in Hrow as [item [<- _]]. simpl. lia. }
    unfold Routes.uploadContractorRoster, Routes.uploadContractorRosterHeader.
    set (lines := Routes.nonBlankLines _) in *.
    destruct contractors as [|item contractors].
    + rewrite (Hone eq_refl). reflexivity.
    + assert (L : (2 <= List.length lines)%nat) by (apply Htwo; discriminate).
      destruct (Nat.ltb (List.length lines) 2) eqn:E;
        [apply Nat.ltb_lt in E; lia|].
      rewrite Hhead. reflexivity.
Qed.
